(** * belux-cdm coordinate tools: a shallow embedding and its properties

    The repository holds three command-line scripts:
    - [scripts/convert.py]: runway records, decimal degrees <-> hemisphere DMS;
    - [scripts/convert-coordinates.py]: generic records, decimal degrees -> DMS;
    - [scripts/geojson.py]: runway records -> GeoJSON features.

    Python values are modelled as follows.
    - [str] is [string]: the texts whose characters are code points below
      256.  On these texts the string methods and the readers of numbers
      are modelled as CPython has them.  Texts with other characters are
      outside the embedding: there Unicode knows further blanks, decimal
      digits and letters (U+017F, the long s, has the capital S).
    - [int] is [Z].
    - [float] is an IEEE-754 binary64 number: a finite value is the rational
      it denotes, and every arithmetic operation rounds the exact result to
      the nearest representable value, ties to even ([PyFloat.RN]).
    - A raised exception is the [Raise] branch of the result type [exc]. *)

From Stdlib Require Import ZArith QArith Qround Qabs Qpower Lia Lqa.
From Stdlib Require Import List String Ascii Bool.
Import ListNotations.

Open Scope Z_scope.

(** ** Exceptions *)

(** Python exception classes that the scripts can raise. *)
Inductive exn_class : Type := ValueError | OverflowError | ZeroDivisionError.

(** One constructor per raise site (the message text is not modelled). *)
Inductive error : Type :=
  (* builtins *)
| E_int_syntax            (* int(str): invalid literal *)
| E_float_syntax          (* float(str): could not convert string to float *)
| E_nan_to_int            (* int(nan), round(nan) *)
| E_inf_to_int            (* int(inf), round(inf) *)
| E_int_too_large         (* int too large to convert to float *)
| E_round_overflow        (* round(x, n): rounded value too large *)
| E_zero_division         (* float division by zero *)
| E_format_spec           (* bad precision in a format specifier *)
  (* dms_hem_to_decimal *)
| E_too_short
| E_lat_hemisphere
| E_lon_hemisphere
| E_dms_shape
| E_dms_non_numeric
| E_minutes_range
| E_seconds_range
| E_msec_range
  (* record parsers *)
| E_field_count (n : nat) (* convert.py: expected 11 or 12 fields *)
| E_too_few_fields        (* convert-coordinates.py: fewer than 5 fields *)
| E_odd_coord_count       (* convert-coordinates.py *)
| E_non_numeric_coord     (* convert-coordinates.py *)
| E_bad_coord_count       (* geojson.py *)
| E_hinted (inner : error) (hint : option bool)
                          (* convert.py main: re-raised with an optional hint;
                             [Some true] is the "try --reverse" hint *)
| E_line (lineno : nat) (inner : error).
                          (* geojson.py convert_file: "Error on line n" *)

Definition class_of (e : error) : exn_class :=
  match e with
  | E_inf_to_int | E_int_too_large | E_round_overflow => OverflowError
  | E_zero_division => ZeroDivisionError
  | _ => ValueError
  end.

Definition is_value_error (e : error) : bool :=
  match class_of e with ValueError => true | _ => false end.

(** The taxonomy of the specification. *)
Definition is_format_error (e : error) : bool :=
  match e with
  | E_too_short | E_lat_hemisphere | E_lon_hemisphere
  | E_dms_shape | E_dms_non_numeric => true
  | _ => false
  end.

Definition is_range_error (e : error) : bool :=
  match e with
  | E_minutes_range | E_seconds_range | E_msec_range => true
  | _ => false
  end.

Definition is_field_count_error (e : error) : bool :=
  match e with
  | E_field_count _ => true
  | _ => false
  end.

Inductive exc (A : Type) : Type :=
| Ok (a : A)
| Raise (e : error).
Arguments Ok {A} a.
Arguments Raise {A} e.

Definition bind {A B : Type} (m : exc A) (k : A -> exc B) : exc B :=
  match m with
  | Ok a => k a
  | Raise e => Raise e
  end.

Notation "x <- m ;; k" := (bind m (fun x => k))
  (at level 61, m at next level, right associativity).

Notation "' pat <- m ;; k" :=
  (bind m (fun x => match x with pat => k end))
  (at level 61, pat pattern, m at next level, right associativity).

(** [try: m  except ValueError: raise e'] *)
Definition except_value_error {A : Type} (m : exc A) (e' : error) : exc A :=
  match m with
  | Ok a => Ok a
  | Raise e => if is_value_error e then Raise e' else Raise e
  end.

Fixpoint mapM {A B : Type} (f : A -> exc B) (l : list A) : exc (list B) :=
  match l with
  | [] => Ok []
  | a :: l' => b <- f a ;; bs <- mapM f l' ;; Ok (b :: bs)
  end.

(** ** Python floats *)

Module PyFloat.

Open Scope Q_scope.

Inductive float : Type :=
| Fin (q : Q)          (* a finite value; [Fin 0] is +0.0 *)
| NegZero              (* -0.0 *)
| Inf (neg : bool)
| NaN.

Definition Qlt_bool (a b : Q) : bool := negb (Qle_bool b a).

(** Nearest integer, ties to even. *)
Definition Qround_half_even (q : Q) : Z :=
  let f := Qfloor q in
  match Qcompare (q - inject_Z f) (1 # 2) with
  | Lt => f
  | Gt => (f + 1)%Z
  | Eq => if Z.even f then f else (f + 1)%Z
  end.

(** Truncation towards zero. *)
Definition Qtrunc (q : Q) : Z :=
  if Qlt_bool q 0 then Qceiling q else Qfloor q.

(** [floor (log2 q)] for [0 < q]. *)
Definition Qlog2 (q : Q) : Z :=
  let l := (Z.log2 (Qnum q) - Z.log2 (Zpos (Qden q)))%Z in
  if Qle_bool (2 ^ l) q then l else (l - 1)%Z.

(** binary64: 53 bits of precision, least exponent -1074, overflow at 2^1024. *)
Definition cexp (q : Q) : Z := Z.max (Qlog2 (Qabs q) - 52) (-1074).

Definition round_mag (q : Q) : Q :=
  let e := cexp q in
  Qred (inject_Z (Qround_half_even (Qabs q / 2 ^ e)) * 2 ^ e).

(** Round to nearest, ties to even. *)
Definition RN (q : Q) : float :=
  let a := round_mag q in
  if Qle_bool (2 ^ 1024) a then Inf (Qlt_bool q 0)
  else if Qeq_bool a 0 then (if Qlt_bool q 0 then NegZero else Fin 0)
  else Fin (if Qlt_bool q 0 then - a else a).

Definition fval (x : float) : Q :=
  match x with
  | Fin q => q
  | _ => 0
  end.

Definition sign (x : float) : bool :=
  match x with
  | Fin q => Qlt_bool q 0
  | NegZero => true
  | Inf b => b
  | NaN => false
  end.

Definition is_zero (x : float) : bool :=
  match x with
  | Fin q => Qeq_bool q 0
  | NegZero => true
  | _ => false
  end.

Definition is_finite (x : float) : bool :=
  match x with
  | Fin _ | NegZero => true
  | _ => false
  end.

(** A well-formed double: a finite value is one that rounding leaves alone. *)
Definition is_double (x : float) : bool :=
  match x with
  | Fin q =>
      match RN q with
      | Fin r => Qeq_bool r q
      | _ => false
      end
  | _ => true
  end.

Definition signed_zero (neg : bool) : float := if neg then NegZero else Fin 0.

Definition opp (x : float) : float :=
  match x with
  | Fin q => if Qeq_bool q 0 then NegZero else Fin (- q)
  | NegZero => Fin 0
  | Inf b => Inf (negb b)
  | NaN => NaN
  end.

Definition abs (x : float) : float :=
  match x with
  | Fin q => Fin (Qabs q)
  | NegZero => Fin 0
  | Inf _ => Inf false
  | NaN => NaN
  end.

Definition add (x y : float) : float :=
  match x, y with
  | NaN, _ | _, NaN => NaN
  | Inf a, Inf b => if Bool.eqb a b then Inf a else NaN
  | Inf a, _ => Inf a
  | _, Inf b => Inf b
  | NegZero, NegZero => NegZero
  | NegZero, Fin q | Fin q, NegZero => RN q
  | Fin a, Fin b => RN (a + b)
  end.

Definition sub (x y : float) : float := add x (opp y).

Definition mul (x y : float) : float :=
  match x, y with
  | NaN, _ | _, NaN => NaN
  | Inf a, _ => if is_zero y then NaN else Inf (xorb a (sign y))
  | _, Inf b => if is_zero x then NaN else Inf (xorb (sign x) b)
  | _, _ =>
      if is_zero x || is_zero y then signed_zero (xorb (sign x) (sign y))
      else RN (fval x * fval y)
  end.

(** IEEE division; Python raises before dividing by zero, see [truediv]. *)
Definition div (x y : float) : float :=
  match x, y with
  | NaN, _ | _, NaN => NaN
  | Inf _, Inf _ => NaN
  | Inf a, _ => Inf (xorb a (sign y))
  | _, Inf b => signed_zero (xorb (sign x) b)
  | _, _ =>
      if is_zero y then (if is_zero x then NaN else Inf (xorb (sign x) (sign y)))
      else if is_zero x then signed_zero (xorb (sign x) (sign y))
      else RN (fval x / fval y)
  end.

(** [x <= y] *)
Definition leb (x y : float) : bool :=
  match x, y with
  | NaN, _ | _, NaN => false
  | Inf true, _ => true
  | _, Inf false => true
  | Inf false, _ => false
  | _, Inf true => false
  | _, _ => Qle_bool (fval x) (fval y)
  end.

(** [x >= y] *)
Definition geb (x y : float) : bool := leb y x.

(** [x / y] in Python *)
Definition truediv (x y : float) : exc float :=
  if is_zero y then Raise E_zero_division else Ok (div x y).

(** [int(x)] *)
Definition to_int (x : float) : exc Z :=
  match x with
  | Fin q => Ok (Qtrunc q)
  | NegZero => Ok 0%Z
  | Inf _ => Raise E_inf_to_int
  | NaN => Raise E_nan_to_int
  end.

(** [float(n)] for an [int], also the implicit conversion in [x - n]. *)
Definition of_int (n : Z) : exc float :=
  match RN (inject_Z n) with
  | Inf _ => Raise E_int_too_large
  | r => Ok r
  end.

(** [round(x)]: nearest integer, ties to even. *)
Definition round_int (x : float) : exc Z :=
  match x with
  | Fin q => Ok (Qround_half_even q)
  | NegZero => Ok 0%Z
  | Inf _ => Raise E_inf_to_int
  | NaN => Raise E_nan_to_int
  end.

(** [round(x, ndigits)]: the decimal with [ndigits] places nearest to the
    exact value of [x] (ties to even), converted back to a double. *)
Definition round_ndigits (x : float) (ndigits : Z) : exc float :=
  match x with
  | Fin q =>
      if (323 <? ndigits)%Z then Ok x
      else if (ndigits <? -308)%Z then Ok (signed_zero (sign x))
      else
        let n := Qround_half_even (Qabs q * 10 ^ ndigits) in
        match RN (inject_Z n / 10 ^ ndigits) with
        | Inf _ => Raise E_round_overflow
        | r => Ok (if sign x then opp r else r)
        end
  | _ => Ok x
  end.

End PyFloat.

(** ** Python strings and the builtins that read or write numbers *)

Module PyStr.

Open Scope string_scope.
Open Scope Z_scope.

Definition code (c : ascii) : Z := Z.of_N (N_of_ascii c).

(** [str.isspace] on code points below 256. *)
Definition is_space (c : ascii) : bool :=
  let n := code c in
  ((9 <=? n) && (n <=? 13)) || ((28 <=? n) && (n <=? 32))
  || (n =? 133) || (n =? 160).

Definition is_digit (c : ascii) : bool :=
  let n := code c in (48 <=? n) && (n <=? 57).

Definition digit_val (c : ascii) : Z := code c - 48.

Definition digit_char (d : Z) : ascii := ascii_of_N (Z.to_N (48 + d)).

(** [c.upper()] as far as a comparison with an ASCII capital can tell:
    [a-z] become [A-Z], and no other code point below 256 has a capital
    that is one ASCII letter (the capitals of U+00B5 and U+00FF lie beyond
    255, that of U+00DF is the two letters SS). *)
Definition upper (c : ascii) : ascii :=
  let n := code c in
  if (97 <=? n) && (n <=? 122) then ascii_of_N (Z.to_N (n - 32)) else c.

Definition lower (c : ascii) : ascii :=
  let n := code c in
  if (65 <=? n) && (n <=? 90) then ascii_of_N (Z.to_N (n + 32)) else c.

Fixpoint map_chars (f : ascii -> ascii) (s : string) : string :=
  match s with
  | EmptyString => EmptyString
  | String c r => String (f c) (map_chars f r)
  end.

Definition is_empty (s : string) : bool :=
  match s with
  | EmptyString => true
  | _ => false
  end.

(** [s.lstrip()] *)
Fixpoint lstrip (s : string) : string :=
  match s with
  | EmptyString => EmptyString
  | String c r => if is_space c then lstrip r else s
  end.

(** Remove the trailing characters that satisfy [p]. *)
Fixpoint rstrip_with (p : ascii -> bool) (s : string) : string :=
  match s with
  | EmptyString => EmptyString
  | String c r =>
      let r' := rstrip_with p r in
      if is_empty r' && p c then EmptyString else String c r'
  end.

(** [s.rstrip()] *)
Definition rstrip (s : string) : string := rstrip_with is_space s.

(** [s.strip()] *)
Definition strip (s : string) : string := rstrip (lstrip s).

(** The blanks that [int] and [float] skip around a numeral: the six of
    C's [isspace], and U+0085 and U+00A0, which both builtins turn into a
    blank before they read.  The separators U+001C..U+001F, which
    [str.strip] removes, are not among them. *)
Definition is_num_space (c : ascii) : bool :=
  let n := code c in
  ((9 <=? n) && (n <=? 13)) || (n =? 32) || (n =? 133) || (n =? 160).

(** Remove the leading characters that satisfy [p]. *)
Fixpoint lstrip_with (p : ascii -> bool) (s : string) : string :=
  match s with
  | EmptyString => EmptyString
  | String c r => if p c then lstrip_with p r else s
  end.

(** The numeral inside the blanks that [int] and [float] skip. *)
Definition num_strip (s : string) : string :=
  rstrip_with is_num_space (lstrip_with is_num_space s).

Definition newline : ascii := ascii_of_N 10.

(** [s.rstrip("\n")] *)
Definition rstrip_newlines (s : string) : string :=
  rstrip_with (Ascii.eqb newline) s.

(** [s.split(sep)] for a one-character separator. *)
Fixpoint split (sep : ascii) (s : string) : list string :=
  match s with
  | EmptyString => [EmptyString]
  | String c r =>
      if Ascii.eqb c sep then EmptyString :: split sep r
      else
        match split sep r with
        | h :: t => String c h :: t
        | [] => [String c EmptyString]
        end
  end.

(** [sep.join(l)] *)
Fixpoint join (sep : string) (l : list string) : string :=
  match l with
  | [] => EmptyString
  | [s] => s
  | s :: l' => s ++ sep ++ join sep l'
  end.

(** [s.startswith(c)] for a one-character prefix. *)
Definition starts_with (c : ascii) (s : string) : bool :=
  match s with
  | String c' _ => Ascii.eqb c' c
  | EmptyString => false
  end.

(** [c in s] *)
Fixpoint contains (c : ascii) (s : string) : bool :=
  match s with
  | EmptyString => false
  | String c' r => Ascii.eqb c' c || contains c r
  end.

Fixpoint all_chars (p : ascii -> bool) (s : string) : bool :=
  match s with
  | EmptyString => true
  | String c r => p c && all_chars p r
  end.

Fixpoint repeat_char (c : ascii) (n : nat) : string :=
  match n with
  | O => EmptyString
  | S n' => String c (repeat_char c n')
  end.

(** *** Integers to text *)

Fixpoint dec_digits (fuel : nat) (n : Z) (acc : string) : string :=
  match fuel with
  | O => acc
  | S f =>
      let acc' := String (digit_char (n mod 10)) acc in
      if n <? 10 then acc' else dec_digits f (n / 10) acc'
  end.

(** [str(n)] for [0 <= n]. *)
Definition Z_to_dec (n : Z) : string :=
  dec_digits (S (Z.to_nat (Z.log2 n))) n EmptyString.

Definition zfill (width : nat) (s : string) : string :=
  repeat_char "0" (width - String.length s) ++ s.

(** [f"{n:0{width}d}"] *)
Definition fmt_0d (width : nat) (n : Z) : string :=
  if n <? 0 then String "-" (zfill (width - 1) (Z_to_dec (- n)))
  else zfill width (Z_to_dec n).

(** *** Text to integers *)

(** Value of a run of decimal digits, most significant first. *)
Fixpoint digits_value (acc : Z) (s : string) : Z :=
  match s with
  | EmptyString => acc
  | String c r => digits_value (10 * acc + digit_val c) r
  end.

(** An underscore is allowed only between two digits. *)
Fixpoint underscores_ok (prev : option ascii) (s : string) : bool :=
  match s with
  | EmptyString =>
      match prev with
      | Some "_"%char => false
      | _ => true
      end
  | String c r =>
      (if Ascii.eqb c "_"
       then match prev with
            | Some p => is_digit p
            | None => false
            end
       else match prev with
            | Some "_"%char => is_digit c
            | _ => true
            end)
      && underscores_ok (Some c) r
  end.

Fixpoint remove_underscores (s : string) : string :=
  match s with
  | EmptyString => EmptyString
  | String c r =>
      if Ascii.eqb c "_" then remove_underscores r
      else String c (remove_underscores r)
  end.

(** Default of [sys.int_info.default_max_str_digits]. *)
Definition int_max_str_digits : nat := 4300.

Definition split_sign (s : string) : bool * string :=
  match s with
  | String "-" r => (true, r)
  | String "+" r => (false, r)
  | _ => (false, s)
  end.

(** [int(s)] *)
Definition int_of_string (s : string) : exc Z :=
  let (neg, body) := split_sign (num_strip s) in
  let ds := remove_underscores body in
  if underscores_ok None body && negb (is_empty ds) && all_chars is_digit ds
     && (String.length ds <=? int_max_str_digits)%nat
  then Ok (if neg then - digits_value 0 ds else digits_value 0 ds)
  else Raise E_int_syntax.

(** *** Text to floats *)

(** The longest prefix of digits, and what follows. *)
Fixpoint span_digits (s : string) : string * string :=
  match s with
  | String c r =>
      if is_digit c then let (d, rest) := span_digits r in (String c d, rest)
      else (EmptyString, s)
  | EmptyString => (EmptyString, EmptyString)
  end.

(** [e] or [E], an optional sign and at least one digit; anything else is
    left to the caller as unread text. *)
Definition parse_exponent (s : string) : Z * string :=
  match s with
  | String c r =>
      if Ascii.eqb (lower c) "e" then
        let (neg, r') := split_sign r in
        let (ds, rest) := span_digits r' in
        if is_empty ds then (0, s)
        else ((if neg then - digits_value 0 ds else digits_value 0 ds), rest)
      else (0, s)
  | EmptyString => (0, s)
  end.

(** A decimal literal without sign: mantissa digits and a power of ten. *)
Definition parse_decimal (s : string) : option (Z * Z) :=
  let (ip, r1) := span_digits s in
  let (fp, r2) :=
    match r1 with
    | String "." r => span_digits r
    | _ => (EmptyString, r1)
    end in
  if is_empty ip && is_empty fp then None
  else
    let (ex, r3) := parse_exponent r2 in
    if is_empty r3
    then Some (digits_value 0 (ip ++ fp), ex - Z.of_nat (String.length fp))
    else None.

(** [float(s)] *)
Definition float_of_string (s : string) : exc PyFloat.float :=
  if negb (underscores_ok None s) then Raise E_float_syntax
  else
    let (neg, body) := split_sign (num_strip (remove_underscores s)) in
    let word := map_chars lower body in
    if String.eqb word "inf" || String.eqb word "infinity"
    then Ok (PyFloat.Inf neg)
    else if String.eqb word "nan" then Ok PyFloat.NaN
    else
      match parse_decimal body with
      | None => Raise E_float_syntax
      | Some (m, e) =>
          let r := PyFloat.RN (inject_Z m * 10 ^ e)%Q in
          Ok (if neg then PyFloat.opp r else r)
      end.

(** *** Floats to text *)

(** [f"{x:.{places}f}"] *)
Definition format_fixed (x : PyFloat.float) (places : Z) : exc string :=
  if (places <? 0) || (2147483647 <? places) then Raise E_format_spec
  else
    match x with
    | PyFloat.NaN => Ok "nan"
    | PyFloat.Inf neg => Ok (if neg then "-inf" else "inf")
    | _ =>
        let n := PyFloat.Qround_half_even
                   (Qabs (PyFloat.fval x) * 10 ^ places)%Q in
        let p := 10 ^ places in
        let whole := Z_to_dec (n / p) in
        let frac :=
          if places =? 0 then EmptyString
          else String "." (zfill (Z.to_nat places) (Z_to_dec (n mod p))) in
        Ok ((if PyFloat.sign x then "-" else EmptyString) ++ whole ++ frac)
    end.

End PyStr.
Import PyFloat PyStr.
Open Scope string_scope.
Open Scope Z_scope.

Definition nl : string := String newline EmptyString.

(** [l[i] = v]; the scripts only assign inside the list. *)
Fixpoint list_set {A : Type} (i : nat) (v : A) (l : list A) : list A :=
  match l, i with
  | [], _ => []
  | _ :: t, O => v :: t
  | h :: t, S i' => h :: list_set i' v t
  end.

(** [l[a:b]] for [0 <= a <= b]. *)
Definition slice {A : Type} (a b : nat) (l : list A) : list A :=
  firstn (b - a) (skipn a l).

(** [sum(1 for s in l if p(s))] *)
Definition count (p : string -> bool) (l : list string) : nat :=
  List.length (filter p l).

(** Where the input lines come from ([iter_input_lines]): the positional
    argument, or the lines of the file or of standard input. *)
Inductive input : Type :=
| Direct (record : string)
| Lines (lines : list string).

Definition iter_input_lines (i : input) : list string :=
  match i with
  | Direct record => [record]
  | Lines lines => lines
  end.

(** ** scripts/convert.py *)

Module Convert.

Definition is_hem_letter (c : ascii) : bool :=
  let u := upper c in
  Ascii.eqb u "N" || Ascii.eqb u "S" || Ascii.eqb u "E" || Ascii.eqb u "W".

Definition is_dot (c : ascii) : bool := Ascii.eqb c ".".

(** Match a sequence of one-character classes at the start of [s]. *)
Fixpoint match_classes (pat : list (ascii -> bool)) (s : string)
  : option string :=
  match pat with
  | [] => Some s
  | p :: pat' =>
      match s with
      | String c r => if p c then match_classes pat' r else None
      | EmptyString => None
      end
  end.

(** [^[NSEW]\d{3}\.\d{2}\.\d{2}\.\d{3}$], ignoring case *)
Definition DMS_RE : list (ascii -> bool) :=
  [is_hem_letter; is_digit; is_digit; is_digit; is_dot;
   is_digit; is_digit; is_dot; is_digit; is_digit; is_dot;
   is_digit; is_digit; is_digit].

(** [DMS_RE.match(s)]: [$] also matches before a final newline. *)
Definition DMS_RE_match (s : string) : bool :=
  match match_classes DMS_RE s with
  | Some rest => is_empty rest || String.eqb rest nl
  | None => false
  end.

Definition looks_like_dms (s : string) : bool := DMS_RE_match (strip s).

Definition looks_like_decimal (s : string) : bool :=
  match float_of_string (strip s) with
  | Ok _ => true
  | Raise _ => false
  end.

Definition hemisphere (value : float) (is_lat : bool) : string :=
  if is_lat then (if geb value (Fin 0) then "N" else "S")
  else (if geb value (Fin 0) then "E" else "W").

(** Lines 55-59: degrees, minutes and the unrounded seconds of [abs(value)]. *)
Definition split_degrees (value : float) : exc (Z * Z * float) :=
  let v := abs value in
  deg <- to_int v ;;
  fdeg <- of_int deg ;;
  let minutes_full := mul (sub v fdeg) (Fin 60) in
  minute <- to_int minutes_full ;;
  fminute <- of_int minute ;;
  let seconds := mul (sub minutes_full fminute) (Fin 60) in
  Ok (deg, minute, seconds).

(** Lines 61-67: round the seconds and carry into minutes and degrees. *)
Definition carry_seconds (deg minute : Z) (seconds : float)
  : exc (Z * Z * float) :=
  seconds <- round_ndigits seconds 3 ;;
  let '(seconds, minute) :=
    if geb seconds (Fin 60) then (sub seconds (Fin 60), minute + 1)
    else (seconds, minute) in
  let '(minute, deg) :=
    if minute >=? 60 then (minute - 60, deg + 1) else (minute, deg) in
  Ok (deg, minute, seconds).

(** Lines 72-73: integer seconds and the millisecond part. *)
Definition split_seconds (seconds : float) : exc (Z * Z) :=
  sec_int <- to_int seconds ;;
  fsec <- of_int sec_int ;;
  sec_frac <- round_int (mul (sub seconds fsec) (Fin 1000)) ;;
  Ok (sec_int, sec_frac).

(** Lines 69-87: render, with the second cascade when the millisecond part
    is 1000. *)
Definition render_dms (hem : string) (deg minute : Z) (seconds : float)
  : exc string :=
  let deg_str := fmt_0d 3 deg in
  let min_str := fmt_0d 2 minute in
  '(sec_int, sec_frac) <- split_seconds seconds ;;
  let '(sec_frac, sec_int, deg_str, min_str) :=
    if sec_frac =? 1000 then
      let sec_frac := 0 in
      let sec_int := sec_int + 1 in
      if sec_int >=? 60 then
        let sec_int := 0 in
        let minute := minute + 1 in
        if minute >=? 60 then
          let minute := 0 in
          let deg := deg + 1 in
          (sec_frac, sec_int, fmt_0d 3 deg, fmt_0d 2 minute)
        else (sec_frac, sec_int, deg_str, min_str)
      else (sec_frac, sec_int, deg_str, min_str)
    else (sec_frac, sec_int, deg_str, min_str) in
  let sec_str := fmt_0d 2 sec_int ++ "." ++ fmt_0d 3 sec_frac in
  Ok (hem ++ deg_str ++ "." ++ min_str ++ "." ++ sec_str).

Definition decimal_to_dms_hem (value : float) (is_lat : bool) : exc string :=
  let hem := hemisphere value is_lat in
  '(deg, minute, seconds) <- split_degrees value ;;
  '(deg, minute, seconds) <- carry_seconds deg minute seconds ;;
  render_dms hem deg minute seconds.

(** Lines 121-125. *)
Definition dms_value (hem : ascii) (deg minute sec msec : Z) : exc float :=
  fmsec <- of_int msec ;;
  ms <- truediv fmsec (Fin 1000) ;;
  fsec <- of_int sec ;;
  let seconds := add fsec ms in
  fminute <- of_int minute ;;
  m <- truediv fminute (Fin 60) ;;
  fdeg <- of_int deg ;;
  let dm := add fdeg m in
  s <- truediv seconds (Fin 3600) ;;
  let dec := add dm s in
  Ok (if Ascii.eqb hem "S" || Ascii.eqb hem "W" then opp dec else dec).

Definition in_range (lo x hi : Z) : bool := (lo <=? x) && (x <? hi).

Definition dms_hem_to_decimal (text : string) (is_lat : bool) : exc float :=
  let s := strip text in
  if (String.length s <? 2)%nat then Raise E_too_short
  else
    match s with
    | EmptyString => Raise E_too_short
    | String c rest =>
        let hem := upper c in
        if is_lat && negb (Ascii.eqb hem "N" || Ascii.eqb hem "S")
        then Raise E_lat_hemisphere
        else if negb is_lat && negb (Ascii.eqb hem "E" || Ascii.eqb hem "W")
        then Raise E_lon_hemisphere
        else
          match split "." rest with
          | [p0; p1; p2; p3] =>
              '(deg, minute, sec, msec) <-
                except_value_error
                  (deg <- int_of_string p0 ;;
                   minute <- int_of_string p1 ;;
                   sec <- int_of_string p2 ;;
                   msec <- int_of_string p3 ;;
                   Ok (deg, minute, sec, msec))
                  E_dms_non_numeric ;;
              if negb (in_range 0 minute 60) then Raise E_minutes_range
              else if negb (in_range 0 sec 60) then Raise E_seconds_range
              else if negb (in_range 0 msec 1000) then Raise E_msec_range
              else dms_value hem deg minute sec msec
          | _ => Raise E_dms_shape
          end
    end.

Definition format_decimal (value : float) (places : Z) : exc string :=
  format_fixed value places.

(** [Some true] is reverse, [Some false] forward, [None] undecided. *)
Definition detect_mode (parts : list string) : option bool :=
  let coord_fields := slice 2 10 parts in
  let dms_hits := count looks_like_dms coord_fields in
  let dec_hits := count looks_like_decimal coord_fields in
  if ((dms_hits =? 8) && (dec_hits =? 0))%nat then Some true
  else if ((dec_hits =? 8) && (dms_hits =? 0))%nat then Some false
  else if ((dec_hits <? dms_hits) && (4 <=? dms_hits))%nat then Some true
  else if ((dms_hits <? dec_hits) && (4 <=? dec_hits))%nat then Some false
  else None.

Definition convert_field (reverse : bool) (decimal_places : Z)
    (is_lat : bool) (raw : string) : exc string :=
  if reverse then
    dec <- dms_hem_to_decimal raw is_lat ;;
    format_decimal dec decimal_places
  else
    dec <- float_of_string raw ;;
    decimal_to_dms_hem dec is_lat.

(** The loop of lines 169-177 over the remaining values [js] of [j]. *)
Fixpoint convert_fields (js : list nat) (reverse : bool) (decimal_places : Z)
    (parts out : list string) : exc (list string) :=
  match js with
  | [] => Ok out
  | j :: js' =>
      let idx := (2 + j)%nat in
      let is_lat := Nat.even j in
      let raw := strip (nth idx parts EmptyString) in
      v <- convert_field reverse decimal_places is_lat raw ;;
      convert_fields js' reverse decimal_places parts (list_set idx v out)
  end.

Definition convert_record_line (line : string) (reverse : bool)
    (decimal_places : Z) : exc string :=
  let stripped := strip line in
  if is_empty stripped then Ok (rstrip_newlines line)
  else
    let parts := split ":" stripped in
    let n := List.length parts in
    if negb ((n =? 11) || (n =? 12))%nat then Raise (E_field_count n)
    else
      out <- convert_fields (seq 0 8) reverse decimal_places parts parts ;;
      Ok (join ":" out).

Record args : Type := mkArgs {
  arg_reverse : bool;
  arg_force : bool;
  arg_decimal_places : Z
}.

(** What [warn] writes to the error stream. *)
Inductive warning : Type :=
| W_auto_reverse (stripped : string)
| W_auto_forward (stripped : string).

(** The hint of lines 251-257. *)
Definition force_hint (a : args) (parts : list string) : option bool :=
  if arg_force a then
    let coord_fields := slice 2 10 parts in
    if existsb looks_like_dms coord_fields && negb (arg_reverse a)
    then Some true
    else if existsb looks_like_decimal coord_fields && arg_reverse a
    then Some false
    else None
  else None.

(** One iteration of the loop of [main]: the line to append and the
    warnings written. *)
Definition main_line (a : args) (raw : string)
  : list warning * exc string :=
  if starts_with "#" (lstrip raw) || is_empty (strip raw)
  then ([], Ok (rstrip_newlines raw))
  else
    let stripped := strip raw in
    let parts := split ":" stripped in
    let n := List.length parts in
    if negb ((n =? 11) || (n =? 12))%nat then ([], Raise (E_field_count n))
    else
      let '(chosen_reverse, warnings) :=
        if arg_force a then (arg_reverse a, [])
        else
          match detect_mode parts with
          | Some detected =>
              if Bool.eqb detected (arg_reverse a) then (arg_reverse a, [])
              else (detected,
                    [if detected then W_auto_reverse stripped
                     else W_auto_forward stripped])
          | None => (arg_reverse a, [])
          end in
      (warnings,
       match convert_record_line raw chosen_reverse (arg_decimal_places a) with
       | Ok converted => Ok converted
       | Raise e =>
           if is_value_error e then Raise (E_hinted e (force_hint a parts))
           else Raise e
       end).

Fixpoint main_loop (a : args) (raws : list string) (out_lines : list string)
    (warnings : list warning) : list warning * exc (list string) :=
  match raws with
  | [] => (warnings, Ok out_lines)
  | raw :: raws' =>
      let (w, r) := main_line a raw in
      match r with
      | Ok l => main_loop a raws' (out_lines ++ [l])%list (warnings ++ w)%list
      | Raise e => ((warnings ++ w)%list, Raise e)
      end
  end.

(** Line 262. *)
Definition output_text (out_lines : list string) : string :=
  join nl out_lines ++ (match out_lines with [] => EmptyString | _ => nl end).

(** The text [main] writes to the output file or to standard output, and
    the warnings on the error stream. *)
Definition main (a : args) (i : input) : list warning * exc string :=
  let (w, r) := main_loop a (iter_input_lines i) [] [] in
  (w, out_lines <- r ;; Ok (output_text out_lines)).

End Convert.

(** ** scripts/convert-coordinates.py *)

Module ConvertCoordinates.

Definition hemisphere (value : float) (is_lat : bool) : string :=
  if is_lat then (if geb value (Fin 0) then "N" else "S")
  else (if geb value (Fin 0) then "E" else "W").

(** Lines 34-38. *)
Definition split_degrees (value : float) : exc (Z * Z * float) :=
  let v := abs value in
  deg <- to_int v ;;
  fdeg <- of_int deg ;;
  let minutes_full := mul (sub v fdeg) (Fin 60) in
  minute <- to_int minutes_full ;;
  fminute <- of_int minute ;;
  let seconds := mul (sub minutes_full fminute) (Fin 60) in
  Ok (deg, minute, seconds).

(** Lines 41-47. *)
Definition carry_seconds (deg minute : Z) (seconds : float)
  : exc (Z * Z * float) :=
  seconds <- round_ndigits seconds 3 ;;
  let '(seconds, minute) :=
    if geb seconds (Fin 60) then (sub seconds (Fin 60), minute + 1)
    else (seconds, minute) in
  let '(minute, deg) :=
    if minute >=? 60 then (minute - 60, deg + 1) else (minute, deg) in
  Ok (deg, minute, seconds).

(** Lines 53-54. *)
Definition split_seconds (seconds : float) : exc (Z * Z) :=
  sec_int <- to_int seconds ;;
  fsec <- of_int sec_int ;;
  sec_frac <- round_int (mul (sub seconds fsec) (Fin 1000)) ;;
  Ok (sec_int, sec_frac).

(** Lines 50-70. *)
Definition render_dms (hem : string) (deg minute : Z) (seconds : float)
  : exc string :=
  let deg_str := fmt_0d 3 deg in
  let min_str := fmt_0d 2 minute in
  '(sec_int, sec_frac) <- split_seconds seconds ;;
  let '(sec_frac, sec_int, deg_str, min_str) :=
    if sec_frac =? 1000 then
      let sec_frac := 0 in
      let sec_int := sec_int + 1 in
      if sec_int >=? 60 then
        let sec_int := 0 in
        let minute := minute + 1 in
        if minute >=? 60 then
          let minute := 0 in
          let deg := deg + 1 in
          (sec_frac, sec_int, fmt_0d 3 deg, fmt_0d 2 minute)
        else (sec_frac, sec_int, deg_str, min_str)
      else (sec_frac, sec_int, deg_str, min_str)
    else (sec_frac, sec_int, deg_str, min_str) in
  let sec_str := fmt_0d 2 sec_int ++ "." ++ fmt_0d 3 sec_frac in
  Ok (hem ++ deg_str ++ "." ++ min_str ++ "." ++ sec_str).

Definition decimal_to_dms_hem (value : float) (is_lat : bool) : exc string :=
  let hem := hemisphere value is_lat in
  '(deg, minute, seconds) <- split_degrees value ;;
  '(deg, minute, seconds) <- carry_seconds deg minute seconds ;;
  render_dms hem deg minute seconds.

(** The loop of lines 99-109 over the coordinate fields still to read. *)
Fixpoint convert_pairs (coord_fields : list string) : exc (list string) :=
  match coord_fields with
  | lat_f :: lon_f :: rest =>
      let lat_s := strip lat_f in
      let lon_s := strip lon_f in
      '(lat, lon) <-
        except_value_error
          (lat <- float_of_string lat_s ;;
           lon <- float_of_string lon_s ;;
           Ok (lat, lon))
          E_non_numeric_coord ;;
      a <- decimal_to_dms_hem lat true ;;
      b <- decimal_to_dms_hem lon false ;;
      out <- convert_pairs rest ;;
      Ok (a :: b :: out)
  | _ => Ok []
  end.

Definition convert_line (line : string) : exc string :=
  let stripped := strip line in
  if is_empty stripped then Ok EmptyString
  else if starts_with "#" stripped then Ok EmptyString
  else
    let parts := split ":" stripped in
    if (List.length parts <? 5)%nat then Raise E_too_few_fields
    else
      let head := firstn 2 parts in
      let tail := last parts EmptyString in
      let coord_fields := removelast (skipn 2 parts) in
      if negb (Nat.even (List.length coord_fields))
      then Raise E_odd_coord_count
      else
        out_coords <- convert_pairs coord_fields ;;
        Ok (join ":" (head ++ out_coords ++ [tail])%list).

Fixpoint main_loop (raws : list string) (out_lines : list string)
  : exc (list string) :=
  match raws with
  | [] => Ok out_lines
  | raw :: raws' =>
      converted <- convert_line raw ;;
      if is_empty converted then main_loop raws' out_lines
      else main_loop raws' (out_lines ++ [converted])%list
  end.

(** Line 160. *)
Definition output_text (out_lines : list string) : string :=
  join nl out_lines ++ (match out_lines with [] => EmptyString | _ => nl end).

Definition main (i : input) : exc string :=
  out_lines <- main_loop (iter_input_lines i) [] ;;
  Ok (output_text out_lines).

End ConvertCoordinates.

(** ** scripts/geojson.py *)

Module GeoJson.

Definition _to_float (s : string) : exc float := float_of_string (strip s).

Definition point : Type := (float * float)%type.

Inductive geometry : Type :=
| Polygon (rings : list (list point))
| LineString (coordinates : list point).

(** [taxitime] is an int when it parses as one, else a float, else text. *)
Inductive taxitime : Type :=
| TaxiInt (n : Z)
| TaxiFloat (x : float)
| TaxiStr (s : string).

(** The dict that [parse_line] returns. *)
Record feature : Type := mkFeature {
  f_geometry : geometry;
  f_airport : string;
  f_runway : string;
  f_taxitime : taxitime;
  f_remarks : option (list string);
  f_raw : string
}.

(** The loop of lines 59-62 over the tokens still to read. *)
Fixpoint read_coords (coord_tokens : list string) : exc (list point) :=
  match coord_tokens with
  | lat_s :: lon_s :: rest =>
      lat <- _to_float lat_s ;;
      lon <- _to_float lon_s ;;
      coords <- read_coords rest ;;
      Ok ((lon, lat) :: coords)
  | _ => Ok []
  end.

(** Lines 65-73. *)
Definition choose_geometry (coords : list point) : geometry :=
  if (List.length coords =? 4)%nat then
    let ring := (coords ++ [nth 0 coords (Fin 0, Fin 0)])%list in
    Polygon [ring]
  else if (List.length coords =? 2)%nat then LineString coords
  else LineString coords.

(** Lines 82-88. *)
Definition parse_taxitime (taxitime_str : string) : taxitime :=
  match int_of_string taxitime_str with
  | Ok n => TaxiInt n
  | Raise _ =>
      match float_of_string taxitime_str with
      | Ok x => TaxiFloat x
      | Raise _ => TaxiStr taxitime_str
      end
  end.

(** Lines 42-45: the remarks, and the fields that are left. *)
Definition split_remarks (rest : list string)
  : option (list string) * list string :=
  match rest with
  | [] => (None, rest)
  | _ =>
      if contains "," (last rest EmptyString) then
        (Some (filter (fun r => negb (is_empty r))
                 (map strip (split "," (last rest EmptyString)))),
         removelast rest)
      else (None, rest)
  end.

Definition parse_line (line0 : string) : exc (option feature) :=
  let line := strip line0 in
  if is_empty line || starts_with "#" line then Ok None
  else
    let parts := split ":" line in
    if (List.length parts <? 3)%nat then Ok None
    else
      let airport := strip (nth 0 parts EmptyString) in
      let runway := strip (nth 1 parts EmptyString) in
      let rest := skipn 2 parts in
      let (remarks, rest) := split_remarks rest in
      match rest with
      | [] => Ok None
      | _ =>
          let taxitime_str := strip (last rest EmptyString) in
          let coord_tokens := removelast rest in
          if (List.length coord_tokens <? 4)%nat
             || negb (Nat.even (List.length coord_tokens))
          then Raise E_bad_coord_count
          else
            coords <- read_coords coord_tokens ;;
            let geometry := choose_geometry coords in
            Ok (Some (mkFeature geometry airport runway
                        (parse_taxitime taxitime_str) remarks line))
      end.

(** The loop of [convert_file] over the lines from number [lineno] on. *)
Fixpoint convert_lines (lineno : nat) (lines : list string)
    (features : list feature) : exc (list feature) :=
  match lines with
  | [] => Ok features
  | line :: lines' =>
      match parse_line line with
      | Raise e => Raise (E_line lineno e)
      | Ok None => convert_lines (S lineno) lines' features
      | Ok (Some feat) =>
          convert_lines (S lineno) lines' (features ++ [feat])%list
      end
  end.

(** [convert_file] on the result of [read_text().splitlines()]. *)
Definition convert_file (lines : list string) : exc (list feature) :=
  convert_lines 1 lines [].

(** *** JSON text *)

#[local] Unset Elimination Schemes.

Inductive json : Type :=
| JInt (n : Z)
| JFloat (x : float)
| JStr (s : string)
| JList (l : list json)
| JDict (items : list (string * json)).

#[local] Set Elimination Schemes.

Definition dquote : ascii := ascii_of_N 34.

Definition hex_char (d : Z) : ascii :=
  if d <? 10 then digit_char d else ascii_of_N (Z.to_N (87 + d)).

(** [json.dumps] of one character of a string, with [ensure_ascii]. *)
Definition escape_char (c : ascii) : string :=
  let n := code c in
  if n =? 34 then String "\" (String dquote EmptyString)
  else if n =? 92 then "\\"
  else if n =? 8 then "\b"
  else if n =? 12 then "\f"
  else if n =? 10 then "\n"
  else if n =? 13 then "\r"
  else if n =? 9 then "\t"
  else if (32 <=? n) && (n <=? 126) then String c EmptyString
  else "\u00" ++ String (hex_char (n / 16)) (String (hex_char (n mod 16)) EmptyString).

Fixpoint escape (s : string) : string :=
  match s with
  | EmptyString => EmptyString
  | String c r => escape_char c ++ escape r
  end.

Definition quote (s : string) : string :=
  String dquote (escape s ++ String dquote EmptyString).

Definition int_repr (n : Z) : string :=
  if n <? 0 then String "-" (Z_to_dec (- n)) else Z_to_dec n.

Definition newline_indent (level : nat) : string :=
  nl ++ repeat_char " " (2 * level).

Section Dumps.

(** [float.__repr__] on finite values, the shortest decimal that reads back
    as the same double; it is not modelled and is taken as given. *)
Variable float_repr : float -> string.

Definition float_token (x : float) : string :=
  match x with
  | NaN => "NaN"
  | Inf false => "Infinity"
  | Inf true => "-Infinity"
  | _ => float_repr x
  end.

(** [json.dumps(j, indent=2)] at nesting depth [level]. *)
Fixpoint dumps_at (level : nat) (j : json) : string :=
  match j with
  | JInt n => int_repr n
  | JFloat x => float_token x
  | JStr s => quote s
  | JList [] => "[]"
  | JList l =>
      "[" ++ newline_indent (S level)
      ++ join ("," ++ newline_indent (S level)) (map (dumps_at (S level)) l)
      ++ newline_indent level ++ "]"
  | JDict [] => "{}"
  | JDict items =>
      "{" ++ newline_indent (S level)
      ++ join ("," ++ newline_indent (S level))
           (map (fun kv => quote (fst kv) ++ ": " ++ dumps_at (S level) (snd kv))
              items)
      ++ newline_indent level ++ "}"
  end.

Definition dumps (j : json) : string := dumps_at 0 j.

Definition json_of_point (p : point) : json :=
  JList [JFloat (fst p); JFloat (snd p)].

Definition json_of_geometry (g : geometry) : json :=
  match g with
  | Polygon rings =>
      JDict [("type", JStr "Polygon");
             ("coordinates",
              JList (map (fun ring => JList (map json_of_point ring)) rings))]
  | LineString coords =>
      JDict [("type", JStr "LineString");
             ("coordinates", JList (map json_of_point coords))]
  end.

Definition json_of_taxitime (t : taxitime) : json :=
  match t with
  | TaxiInt n => JInt n
  | TaxiFloat x => JFloat x
  | TaxiStr s => JStr s
  end.

Definition json_of_feature (f : feature) : json :=
  JDict [("type", JStr "Feature");
         ("geometry", json_of_geometry (f_geometry f));
         ("properties",
          JDict ([("airport", JStr (f_airport f));
                  ("runway", JStr (f_runway f));
                  ("taxitime", json_of_taxitime (f_taxitime f))]
                 ++ match f_remarks f with
                    | Some rs => [("remarks", JList (map JStr rs))]
                    | None => []
                    end)%list);
         ("raw", JStr (f_raw f))].

Definition json_of_collection (features : list feature) : json :=
  JDict [("type", JStr "FeatureCollection");
         ("features", JList (map json_of_feature features))].

(** The text [main] writes to the output file. *)
Definition main (lines : list string) : exc string :=
  features <- convert_file lines ;;
  Ok (dumps (json_of_collection features)).

End Dumps.

End GeoJson.

(** ** Vocabulary of the statements *)

Section NumericVocabulary.

Open Scope Q_scope.

(** The double nearest to [n / 1000], for [n] thousandths of a second. *)
Definition thousandths (n : Z) : float := RN (inject_Z n / 1000).

(** The text [HDDD.MM.SS.mmm] of four integer fields. *)
Definition dms_text (hem : string) (D M sec msec : Z) : string :=
  (hem ++ fmt_0d 3 D ++ "." ++ fmt_0d 2 M ++ "."
       ++ fmt_0d 2 sec ++ "." ++ fmt_0d 3 msec)%string.

(** The fields after the carry of lines 61-67, from the degrees and minutes
    of [split_degrees] and the seconds in thousandths [n]. *)
Definition carried_fields (deg minute n : Z) : Z * Z * Z * Z :=
  let carried := (n =? 60000)%Z in
  let n' := if carried then 0%Z else n in
  let minute1 := if carried then (minute + 1)%Z else minute in
  let M := if (minute1 >=? 60)%Z then (minute1 - 60)%Z else minute1 in
  let D := if (minute1 >=? 60)%Z then (deg + 1)%Z else deg in
  (D, M, (n' / 1000)%Z, (n' mod 1000)%Z).

(** The exact degrees that four fields denote. *)
Definition dms_exact (D M sec msec : Z) : Q :=
  inject_Z D + inject_Z M * (1 # 60)
  + (inject_Z sec + inject_Z msec * (1 # 1000)) * (1 # 3600).

(** [float(n)] when [n] is in range. *)
Definition float_of_Z (n : Z) : float := RN (inject_Z n).

(** [deg + minute/60.0 + (sec + msec/1000.0)/3600.0] on floats. *)
Definition dms_formula (fdeg : float) (minute sec msec : Z) : float :=
  add (add fdeg (div (float_of_Z minute) (Fin 60)))
      (div (add (float_of_Z sec) (div (float_of_Z msec) (Fin 1000)))
           (Fin 3600)).

End NumericVocabulary.

Definition not_space (c : ascii) : bool := negb (is_space c).

(** The hemisphere letters of each axis. *)
Definition hem_of_axis (is_lat : bool) (h : ascii) : bool :=
  if is_lat then Ascii.eqb h "N" || Ascii.eqb h "S"
  else Ascii.eqb h "E" || Ascii.eqb h "W".

Definition negative_hem (h : ascii) : bool :=
  Ascii.eqb h "S" || Ascii.eqb h "W".

(** The first character is a hemisphere letter of the axis, in either case. *)
Definition hem_ok (is_lat : bool) (s : string) : bool :=
  match s with
  | String c _ => hem_of_axis is_lat (upper c)
  | EmptyString => false
  end.

(** The dot-separated groups after the first character. *)
Definition dms_groups (s : string) : list string :=
  match s with
  | String _ rest => split "." rest
  | EmptyString => []
  end.

Definition is_numeric (g : string) : bool :=
  match int_of_string g with
  | Ok _ => true
  | Raise _ => false
  end.



(** The coordinate tokens of a line, as lines 31-52 of geojson.py select
    them. *)
Definition coord_tokens_of (line : string) : list string :=
  removelast
    (snd (GeoJson.split_remarks (skipn 2 (split ":" (strip line))))).

Definition origin : GeoJson.point := (Fin 0, Fin 0).

Fixpoint last_char (s : string) : option ascii :=
  match s with
  | EmptyString => None
  | String c EmptyString => Some c
  | String _ r => last_char r
  end.

(** How many newline characters end [s]. *)
Definition trailing_newlines (s : string) : nat :=
  String.length s - String.length (rstrip_newlines s).

(** A text that does not end in a newline. *)
Definition no_newline_end (l : string) : Prop :=
  forall c, last_char l = Some c -> c <> newline.

(** *** Sample inputs *)

Definition dms_tok : string := "N049.38.04.530".

Definition dec_tok : string := "50.9019".

Definition long_degrees : string :=
  "N1" ++ repeat_char "0" 309 ++ ".00.00.000".

Definition sample_record : string :=
  "EBBR:25L:50.9008489:4.4756856:50.9:4.4:50.8:4.5:50.7:4.6:12:rem1,rem2".

(** The sample record as a line of a file, with a blank on either side. *)
Definition padded_record : string := " " ++ sample_record ++ " " ++ nl.

Definition sample_polygon_line : string :=
  "EBBR:25L:50.9:4.4:50.8:4.5:50.7:4.6:50.6:4.7:12:rem1,rem2".

Definition sample_segment_line : string := "ELLX:24:49.6:6.2:49.7:6.3:8".

Definition default_args : Convert.args := Convert.mkArgs false false 7.

(** *** More vocabulary *)

(** The letter of the opposite hemisphere. *)
Definition mirror_hem (c : ascii) : ascii :=
  if Ascii.eqb c "N" then "S"%char
  else if Ascii.eqb c "S" then "N"%char
  else if Ascii.eqb c "E" then "W"%char
  else if Ascii.eqb c "W" then "E"%char
  else c.

(** A DMS text with the hemisphere letter mirrored. *)
Definition mirror_text (t : string) : string :=
  match t with
  | String c r => String (mirror_hem c) r
  | EmptyString => EmptyString
  end.

(** All four fields of a DMS text are zero. *)
Definition zero_fields (D M sec msec : Z) : bool :=
  (D =? 0) && (M =? 0) && (sec =? 0) && (msec =? 0).

(** The letter that [decimal_to_dms_hem] writes for a value that is not
    negative. *)
Definition positive_hem (is_lat : bool) : ascii :=
  if is_lat then "N"%char else "E"%char.

(** The lines that [main] of convert.py passes through: comments and blank
    lines (line 225). *)
Definition passes_through (raw : string) : bool :=
  starts_with "#" (lstrip raw) || is_empty (strip raw).

(** The lines that [convert_line] of convert-coordinates.py answers with the
    empty text (lines 82-85). *)
Definition ignored_line (line : string) : bool :=
  is_empty (strip line) || starts_with "#" (strip line).

(** The sample record in DMS form. *)
Definition sample_dms_record : string :=
  "EBBR:25L:N050.54.03.056:E004.28.32.468:N050.54.00.000:E004.24.00.000:N050.48.00.000:E004.30.00.000:N050.42.00.000:E004.36.00.000:12:rem1,rem2".

(** One coordinate field as convert-coordinates.py converts it when nothing
    is raised: [decimal_to_dms_hem(float(raw))]. *)
Definition generic_field (is_lat : bool) (raw : string) : exc string :=
  x <- float_of_string raw ;; ConvertCoordinates.decimal_to_dms_hem x is_lat.

(** The fields of a list converted in turn, latitude and longitude
    alternating. *)
Fixpoint forward_all (is_lat : bool) (fields : list string) : exc (list string) :=
  match fields with
  | [] => Ok []
  | c :: fields' =>
      v <- generic_field is_lat (strip c) ;;
      vs <- forward_all (negb is_lat) fields' ;;
      Ok (v :: vs)
  end.

(** The features that one input line of geojson.py contributes. *)
Definition line_features (line : string) : list GeoJson.feature :=
  match GeoJson.parse_line line with
  | Ok (Some feat) => [feat]
  | _ => []
  end.

(** The characters of a decimal numeral: digits, the point and the minus
    sign. *)
Definition num_char (c : ascii) : bool :=
  is_digit c || Ascii.eqb c "." || Ascii.eqb c "-".

(** The double that [float] reads from the decimal with the digits of [n]
    and [places] digits after the point, negated when [neg] holds. *)
Definition decimal_value (neg : bool) (n places : Z) : float :=
  let r := RN (inject_Z n * 10 ^ (- places))%Q in
  if neg then opp r else r.

(** A coordinate field in the form that [decimal_to_dms_hem] writes, below
    1000 degrees: a letter of the axis and four fields in range, and not
    the text of zero with S or W. *)
Definition canonical_dms (is_lat : bool) (c : string) : Prop :=
  exists h D M sec msec,
    c = dms_text (String h EmptyString) D M sec msec /\
    hem_of_axis is_lat h = true /\
    0 <= D <= 999 /\ 0 <= M < 60 /\ 0 <= sec < 60 /\ 0 <= msec < 1000 /\
    (zero_fields D M sec msec = true -> negative_hem h = false).

(** * Properties *)

Ltac push_inject :=
  repeat first
    [ rewrite inject_Z_plus | rewrite inject_Z_opp
    | rewrite inject_Z_mult ];
  change (inject_Z 1) with 1%Q; change (inject_Z 0) with 0%Q.

Section RationalFacts.

Open Scope Q_scope.

(** ** Rationals: comparisons, powers of two, rounding to an integer *)

Lemma Qlt_bool_iff (a b : Q) : Qlt_bool a b = true <-> a < b.
Proof.
  unfold Qlt_bool. rewrite negb_true_iff.
  split; intro H.
  - apply Qnot_le_lt. intro Hle. apply Qle_bool_iff in Hle. congruence.
  - destruct (Qle_bool b a) eqn:E; [|reflexivity].
    apply Qle_bool_iff in E. exfalso. lra.
Qed.

Lemma Qlt_bool_false_iff (a b : Q) : Qlt_bool a b = false <-> b <= a.
Proof.
  unfold Qlt_bool. rewrite negb_false_iff. apply Qle_bool_iff.
Qed.

Lemma Qle_bool_false_iff (a b : Q) : Qle_bool a b = false <-> b < a.
Proof.
  split; intro H.
  - apply Qnot_le_lt. intro Hle. apply Qle_bool_iff in Hle. congruence.
  - destruct (Qle_bool a b) eqn:E; [|reflexivity].
    apply Qle_bool_iff in E. exfalso. lra.
Qed.

Lemma Qeq_bool_false_iff (a b : Q) : Qeq_bool a b = false <-> ~ a == b.
Proof.
  split; intro H.
  - intro E. apply Qeq_bool_iff in E. congruence.
  - destruct (Qeq_bool a b) eqn:E; [|reflexivity].
    apply Qeq_bool_iff in E. contradiction.
Qed.

Lemma pow2_pos (e : Z) : 0 < 2 ^ e.
Proof. apply Qpower_0_lt. reflexivity. Qed.

Lemma pow2_plus (a b : Z) : 2 ^ (a + b) == 2 ^ a * 2 ^ b.
Proof. apply Qpower_plus. discriminate. Qed.

Lemma pow2_le (a b : Z) : (a <= b)%Z -> 2 ^ a <= 2 ^ b.
Proof. intro H. apply Qpower_le_compat_l; [exact H | discriminate]. Qed.

Lemma pow2_lt (a b : Z) : (a < b)%Z -> 2 ^ a < 2 ^ b.
Proof. intro H. apply Qpower_lt_compat_l; [exact H | reflexivity]. Qed.

Lemma pow2_lt_inv (a b : Z) : 2 ^ a < 2 ^ b -> (a < b)%Z.
Proof. intro H. apply Qpower_lt_compat_l_inv with (q := 2); [exact H | reflexivity]. Qed.

Lemma pow2_half (e : Z) : 2 ^ (e - 1) == 2 ^ e / 2.
Proof. rewrite Qpower_minus by discriminate. reflexivity. Qed.

Lemma pow2_inject (n : Z) : (0 <= n)%Z -> 2 ^ n == inject_Z (2 ^ n).
Proof. intro H. rewrite Zpower_Qpower by exact H. reflexivity. Qed.

Lemma inject_Z_lt_inv (a b : Z) : inject_Z a < inject_Z b -> (a < b)%Z.
Proof. intro H. rewrite Zlt_Qlt. exact H. Qed.

Lemma inject_Z_le_inv (a b : Z) : inject_Z a <= inject_Z b -> (a <= b)%Z.
Proof. intro H. rewrite Zle_Qle. exact H. Qed.

Lemma inject_Z_le (a b : Z) : (a <= b)%Z -> inject_Z a <= inject_Z b.
Proof. intro H. rewrite <- Zle_Qle. exact H. Qed.

Lemma inject_Z_lt (a b : Z) : (a < b)%Z -> inject_Z a < inject_Z b.
Proof. intro H. rewrite <- Zlt_Qlt. exact H. Qed.

Lemma Qfloor_spec (q : Q) : inject_Z (Qfloor q) <= q < inject_Z (Qfloor q) + 1.
Proof.
  split; [apply Qfloor_le|].
  pose proof (Qlt_floor q) as H. rewrite inject_Z_plus in H.
  change (inject_Z 1) with 1 in H. exact H.
Qed.

Lemma Qfloor_unique (q : Q) (z : Z) :
  inject_Z z <= q -> q < inject_Z z + 1 -> Qfloor q = z.
Proof.
  intros H1 H2. destruct (Qfloor_spec q) as [F1 F2].
  assert (A : inject_Z z < inject_Z (Qfloor q + 1)) by (push_inject; lra).
  assert (B : inject_Z (Qfloor q) < inject_Z (z + 1)) by (push_inject; lra).
  apply inject_Z_lt_inv in A, B. lia.
Qed.

Lemma Qround_half_even_spec (q : Q) :
  inject_Z (Qround_half_even q) - q <= 1 # 2 /\
  q - inject_Z (Qround_half_even q) <= 1 # 2.
Proof.
  unfold Qround_half_even. destruct (Qfloor_spec q) as [F1 F2].
  destruct (Qcompare (q - inject_Z (Qfloor q)) (1 # 2)) eqn:E.
  - apply Qeq_alt in E.
    destruct (Z.even (Qfloor q)); push_inject; lra.
  - apply Qlt_alt in E. lra.
  - apply Qgt_alt in E. push_inject. lra.
Qed.

Lemma Qround_half_even_near (q : Q) (k : Z) :
  Qabs (q - inject_Z k) < 1 # 2 -> Qround_half_even q = k.
Proof.
  intro H. apply Qabs_Qlt_condition in H.
  destruct (Qround_half_even_spec q) as [R1 R2].
  assert (A : inject_Z (Qround_half_even q) < inject_Z (k + 1)) by (push_inject; lra).
  assert (B : inject_Z k < inject_Z (Qround_half_even q + 1)) by (push_inject; lra).
  apply inject_Z_lt_inv in A, B. lia.
Qed.

Lemma Qround_half_even_Z (z : Z) : Qround_half_even (inject_Z z) = z.
Proof.
  apply Qround_half_even_near.
  setoid_replace (inject_Z z - inject_Z z) with 0 by ring. reflexivity.
Qed.

Lemma Qround_half_even_comp (q q' : Q) :
  q == q' -> Qround_half_even q = Qround_half_even q'.
Proof.
  intro H. unfold Qround_half_even.
  rewrite (Qfloor_comp q q' H).
  assert (E : q - inject_Z (Qfloor q') == q' - inject_Z (Qfloor q'))
    by (rewrite H; reflexivity).
  rewrite (Qcompare_comp _ _ E _ _ (Qeq_refl (1 # 2))). reflexivity.
Qed.

Lemma Qround_half_even_nonneg (q : Q) : 0 <= q -> (0 <= Qround_half_even q)%Z.
Proof.
  intro H. destruct (Qround_half_even_spec q) as [R1 R2].
  assert (A : inject_Z (-1) < inject_Z (Qround_half_even q)) by (change (inject_Z (-1)) with (-1); lra).
  apply inject_Z_lt_inv in A. lia.
Qed.

Lemma Qround_half_even_le (q : Q) (n : Z) :
  q < inject_Z n + (1 # 2) -> (Qround_half_even q <= n)%Z.
Proof.
  intro H. destruct (Qround_half_even_spec q) as [R1 R2].
  assert (A : inject_Z (Qround_half_even q) < inject_Z (n + 1)) by (push_inject; lra).
  apply inject_Z_lt_inv in A. lia.
Qed.

Lemma Qtrunc_nonneg (q : Q) : 0 <= q -> Qtrunc q = Qfloor q.
Proof.
  intro H. unfold Qtrunc.
  destruct (Qlt_bool q 0) eqn:E; [|reflexivity].
  apply Qlt_bool_iff in E. lra.
Qed.

(** ** The binary logarithm and rounding to binary64 *)

Lemma Qdiv_mult_cancel (x y : Q) : 0 < y -> (x / y) * y == x.
Proof. intro H. field. lra. Qed.

Lemma Qlog2_spec (q : Q) :
  0 < q -> 2 ^ Qlog2 q <= q /\ q < 2 ^ (Qlog2 q + 1).
Proof.
  intro Hq. destruct q as [n d].
  assert (Hn : (0 < n)%Z).
  { unfold Qlt in Hq. simpl in Hq. lia. }
  unfold Qlog2. cbn [Qnum Qden].
  set (a := Z.log2 n). set (b := Z.log2 (Z.pos d)).
  assert (Ha : (0 <= a)%Z) by apply Z.log2_nonneg.
  assert (Hb : (0 <= b)%Z) by apply Z.log2_nonneg.
  destruct (Z.log2_spec n Hn) as [A1 A2]. fold a in A1, A2.
  destruct (Z.log2_spec (Z.pos d) eq_refl) as [B1 B2]. fold b in B1, B2.
  apply inject_Z_le in A1, B1. apply inject_Z_lt in A2, B2.
  replace (Z.succ a) with (a + 1)%Z in A2 by lia.
  replace (Z.succ b) with (b + 1)%Z in B2 by lia.
  rewrite <- pow2_inject in A1, A2, B1, B2 by lia.
  rewrite pow2_plus in A2, B2. change (2 ^ 1) with 2 in A2, B2.
  pose proof (pow2_pos a) as PA. pose proof (pow2_pos b) as PB.
  assert (HD : 0 < inject_Z (Z.pos d)) by reflexivity.
  assert (Eq : (n # d) * inject_Z (Z.pos d) == inject_Z n).
  { rewrite Qmake_Qdiv. apply Qdiv_mult_cancel. exact HD. }
  assert (Eu : 2 ^ (a - b) * 2 ^ b == 2 ^ a).
  { rewrite <- pow2_plus. replace (a - b + b)%Z with a by lia. reflexivity. }
  pose proof (pow2_pos (a - b)) as PU.
  set (t := n # d) in *. set (u := 2 ^ (a - b)) in *.
  set (N := inject_Z n) in *. set (D := inject_Z (Z.pos d)) in *.
  set (A := 2 ^ a) in *. set (B := 2 ^ b) in *.
  destruct (Qle_bool u t) eqn:E.
  - apply Qle_bool_iff in E. split; [exact E|].
    rewrite pow2_plus. change (2 ^ 1) with 2. fold u.
    apply Qnot_le_lt. intro C.
    assert (H1 : 0 <= (t - 2 * u) * D) by (apply Qmult_le_0_compat; lra).
    assert (H2 : 0 <= u * (D - B)) by (apply Qmult_le_0_compat; lra).
    nra.
  - apply Qle_bool_false_iff in E.
    replace (a - b - 1 + 1)%Z with (a - b)%Z by lia. fold u.
    split; [|exact E].
    rewrite pow2_half. fold u.
    setoid_replace (u / 2) with ((1 # 2) * u) by field.
    apply Qnot_lt_le. intro C.
    assert (H1 : 0 <= ((1 # 2) * u - t) * D) by (apply Qmult_le_0_compat; lra).
    assert (H2 : 0 <= u * (2 * B - D)) by (apply Qmult_le_0_compat; lra).
    nra.
Qed.

Lemma Qlog2_lt (q : Q) (k : Z) : 0 < q -> q < 2 ^ k -> (Qlog2 q < k)%Z.
Proof.
  intros Hq H. destruct (Qlog2_spec q Hq) as [L1 L2].
  apply pow2_lt_inv. lra.
Qed.

Lemma Qlog2_ge (q : Q) (k : Z) : 0 < q -> 2 ^ k <= q -> (k <= Qlog2 q)%Z.
Proof.
  intros Hq H. destruct (Qlog2_spec q Hq) as [L1 L2].
  assert (A : (k < Qlog2 q + 1)%Z) by (apply pow2_lt_inv; lra).
  lia.
Qed.

Lemma Qlog2_unique (q : Q) (k : Z) :
  2 ^ k <= q -> q < 2 ^ (k + 1) -> Qlog2 q = k.
Proof.
  intros H1 H2.
  assert (Hq : 0 < q) by (pose proof (pow2_pos k); lra).
  pose proof (Qlog2_lt q (k + 1) Hq H2).
  pose proof (Qlog2_ge q k Hq H1). lia.
Qed.

Lemma Qlog2_comp (q q' : Q) : 0 < q -> q == q' -> Qlog2 q = Qlog2 q'.
Proof.
  intros Hq E. symmetry. destruct (Qlog2_spec q Hq) as [L1 L2].
  apply Qlog2_unique; rewrite <- E; assumption.
Qed.

Lemma cexp_comp (q q' : Q) : ~ q == 0 -> q == q' -> cexp q = cexp q'.
Proof.
  intros Hq E. unfold cexp. f_equal. f_equal.
  apply Qlog2_comp.
  - pose proof (Qabs_nonneg q) as A.
    destruct (Qeq_dec (Qabs q) 0) as [Z0|NZ].
    + exfalso. apply Hq. revert Z0. apply Qabs_case; intros; lra.
    + lra.
  - rewrite E. reflexivity.
Qed.

Lemma cexp_upper (q : Q) (k : Z) :
  0 < Qabs q -> Qabs q < 2 ^ k -> (-1021 <= k)%Z -> (cexp q <= k - 53)%Z.
Proof.
  intros Hq H Hk. unfold cexp.
  pose proof (Qlog2_lt (Qabs q) k Hq H). lia.
Qed.

(** [round_mag q] is [Qabs q] rounded to a multiple of [2 ^ cexp q]. *)
Lemma round_mag_eq (q : Q) :
  round_mag q ==
  inject_Z (Qround_half_even (Qabs q / 2 ^ cexp q)) * 2 ^ cexp q.
Proof. unfold round_mag. apply Qred_correct. Qed.

Lemma round_mag_nonneg (q : Q) : 0 <= round_mag q.
Proof.
  rewrite round_mag_eq. apply Qmult_le_0_compat.
  - change 0 with (inject_Z 0). apply inject_Z_le.
    apply Qround_half_even_nonneg.
    apply Qle_shift_div_l; [apply pow2_pos|].
    pose proof (Qabs_nonneg q). lra.
  - apply Qlt_le_weak, pow2_pos.
Qed.

Lemma round_mag_err (q : Q) :
  Qabs (round_mag q - Qabs q) <= 2 ^ cexp q / 2.
Proof.
  rewrite round_mag_eq.
  set (e := cexp q). pose proof (pow2_pos e) as P.
  assert (Ey : (Qabs q / 2 ^ e) * 2 ^ e == Qabs q) by (apply Qdiv_mult_cancel; exact P).
  destruct (Qround_half_even_spec (Qabs q / 2 ^ e)) as [R1 R2].
  set (y := Qabs q / 2 ^ e) in *. set (r := inject_Z (Qround_half_even y)) in *.
  set (p := 2 ^ e) in *. set (a := Qabs q) in *.
  apply Qabs_Qle_condition. split.
  - setoid_replace (r * p - a) with ((r - y) * p) by (rewrite <- Ey; ring).
    setoid_replace (- (p / 2)) with ((- (1 # 2)) * p) by field. nra.
  - setoid_replace (r * p - a) with ((r - y) * p) by (rewrite <- Ey; ring).
    setoid_replace (p / 2) with ((1 # 2) * p) by field. nra.
Qed.

Lemma round_mag_comp (q q' : Q) : q == q' -> round_mag q = round_mag q'.
Proof.
  intro E. unfold round_mag. apply Qred_complete.
  destruct (Qeq_dec q 0) as [Z0|NZ].
  - assert (Z0' : q' == 0) by (rewrite <- E; exact Z0).
    assert (A : forall x e, x == 0 ->
      inject_Z (Qround_half_even (Qabs x / 2 ^ e)) * 2 ^ e == 0).
    { intros x e Hx.
      rewrite (Qround_half_even_comp _ (inject_Z 0)).
      - rewrite Qround_half_even_Z. ring.
      - rewrite Hx. change (Qabs 0) with 0. change (inject_Z 0) with 0.
        unfold Qdiv. ring. }
    rewrite (A q _ Z0), (A q' _ Z0'). reflexivity.
  - rewrite <- (cexp_comp q q' NZ E).
    rewrite (Qround_half_even_comp (Qabs q / 2 ^ cexp q) (Qabs q' / 2 ^ cexp q)).
    + reflexivity.
    + apply Qdiv_comp; [apply Qabs_wd; exact E | reflexivity].
Qed.

Lemma round_mag_abs (q : Q) : round_mag (Qabs q) = round_mag q.
Proof.
  unfold round_mag, cexp.
  assert (E : Qabs (Qabs q) = Qabs q).
  { destruct q as [[|p|p] d]; reflexivity. }
  rewrite E. reflexivity.
Qed.

End RationalFacts.

Section FloatFacts.

Open Scope Q_scope.

(** ** Rounding to nearest *)

Lemma Qlt_bool_comp (a a' b : Q) : a == a' -> Qlt_bool a b = Qlt_bool a' b.
Proof.
  intro E. destruct (Qlt_bool a' b) eqn:H.
  - apply Qlt_bool_iff. apply Qlt_bool_iff in H. lra.
  - apply Qlt_bool_false_iff. apply Qlt_bool_false_iff in H. lra.
Qed.

Lemma RN_comp (q q' : Q) : q == q' -> RN q = RN q'.
Proof.
  intro E. unfold RN.
  rewrite (round_mag_comp q q' E), (Qlt_bool_comp q q' 0 E). reflexivity.
Qed.

Lemma RN_0 : RN 0 = Fin 0.
Proof. reflexivity. Qed.

(** [RN] on familiar values: 0.1, ties to even at [2^53], the largest
    double and the overflow threshold, and the least subnormal. *)
Example RN_tenth : RN (1 # 10) = Fin (3602879701896397 # 36028797018963968).
Proof. vm_compute. reflexivity. Qed.

Example RN_ties_to_even :
  RN (inject_Z (2 ^ 53 + 1)) = Fin (inject_Z (2 ^ 53)) /\
  RN (inject_Z (2 ^ 53 + 3)) = Fin (inject_Z (2 ^ 53 + 4)).
Proof. split; vm_compute; reflexivity. Qed.

Example RN_largest :
  RN (inject_Z (2 ^ 1024 - 2 ^ 970 - 1)) = Fin (inject_Z (2 ^ 1024 - 2 ^ 971)) /\
  RN (inject_Z (2 ^ 1024 - 2 ^ 970)) = Inf false.
Proof. split; vm_compute; reflexivity. Qed.

Example RN_subnormal :
  RN (2 ^ (-1075)) = Fin 0 /\
  RN (3 * 2 ^ (-1075)) = Fin (2 ^ (-1073)) /\
  RN (- (2 ^ (-1076))) = NegZero.
Proof. repeat split; vm_compute; reflexivity. Qed.

(** The value that [RN] returns when it does not overflow. *)
Lemma RN_finite (q : Q) :
  round_mag q < 2 ^ 1024 ->
  is_finite (RN q) = true /\
  fval (RN q) == (if Qlt_bool q 0 then - round_mag q else round_mag q).
Proof.
  intro H. unfold RN.
  destruct (Qle_bool (2 ^ 1024) (round_mag q)) eqn:O.
  - apply Qle_bool_iff in O. lra.
  - destruct (Qeq_bool (round_mag q) 0) eqn:Z0.
    + apply Qeq_bool_iff in Z0.
      destruct (Qlt_bool q 0); split; try reflexivity; simpl; lra.
    + split; reflexivity.
Qed.

Lemma RN_nonneg (q : Q) : 0 <= q -> 0 <= fval (RN q).
Proof.
  intro H. unfold RN.
  assert (E : Qlt_bool q 0 = false) by (apply Qlt_bool_false_iff; exact H).
  rewrite E. pose proof (round_mag_nonneg q).
  destruct (Qle_bool (2 ^ 1024) (round_mag q)); [simpl; lra|].
  destruct (Qeq_bool (round_mag q) 0); simpl; lra.
Qed.

Lemma Qabs_signed (q a : Q) :
  0 <= a ->
  Qabs ((if Qlt_bool q 0 then - a else a) - q) == Qabs (a - Qabs q).
Proof.
  intro Ha. destruct (Qlt_bool q 0) eqn:E.
  - apply Qlt_bool_iff in E. rewrite (Qabs_neg q) by lra.
    setoid_replace (- a - q) with (- (a - - q)) by ring.
    apply Qabs_opp.
  - apply Qlt_bool_false_iff in E. rewrite (Qabs_pos q) by lra. reflexivity.
Qed.

Lemma Qabs_zero_iff (q : Q) : Qabs q == 0 <-> q == 0.
Proof.
  split; intro H.
  - revert H. apply Qabs_case; intros; lra.
  - rewrite H. reflexivity.
Qed.

Lemma Qabs_pos_lt (q : Q) : ~ q == 0 -> 0 < Qabs q.
Proof.
  intro H. pose proof (Qabs_nonneg q).
  destruct (Qeq_dec (Qabs q) 0) as [E|E]; [|lra].
  exfalso. apply H. apply (proj1 (Qabs_zero_iff q)). exact E.
Qed.

(** Below the overflow threshold the error is at most half a unit in the
    last place. *)
Lemma RN_err (q : Q) (k : Z) :
  Qabs q < 2 ^ k -> (-1021 <= k <= 1023)%Z ->
  is_finite (RN q) = true /\ Qabs (fval (RN q) - q) <= 2 ^ (k - 54).
Proof.
  intros H Hk.
  destruct (Qeq_dec q 0) as [Z0|NZ].
  - rewrite (RN_comp q 0 Z0), RN_0. split; [reflexivity|].
    change (fval (Fin 0)) with 0. rewrite Z0.
    change (Qabs (0 - 0)) with 0. apply Qlt_le_weak, pow2_pos.
  - pose proof (Qabs_pos_lt q NZ) as Hpos.
    pose proof (cexp_upper q k Hpos H ltac:(lia)) as Hc.
    pose proof (round_mag_err q) as He.
    pose proof (round_mag_nonneg q) as Hn.
    assert (Hp : 2 ^ cexp q / 2 <= 2 ^ (k - 54)).
    { rewrite <- pow2_half. apply pow2_le. lia. }
    assert (Hs : 2 ^ (k - 54) < 2 ^ k) by (apply pow2_lt; lia).
    assert (Hk1 : 2 ^ (k + 1) <= 2 ^ 1024) by (apply pow2_le; lia).
    rewrite pow2_plus in Hk1. change (2 ^ 1) with 2 in Hk1.
    assert (Hfin : round_mag q < 2 ^ 1024).
    { apply Qabs_Qle_condition in He. lra. }
    destruct (RN_finite q Hfin) as [F V]. split; [exact F|].
    rewrite V, Qabs_signed by exact Hn. lra.
Qed.

(** A value on the grid of its own binade is left alone. *)
Lemma round_mag_grid (q : Q) (m : Z) :
  Qabs q / 2 ^ cexp q == inject_Z m -> round_mag q == Qabs q.
Proof.
  intro H. rewrite round_mag_eq.
  rewrite (Qround_half_even_comp _ _ H), Qround_half_even_Z, <- H.
  apply Qdiv_mult_cancel, pow2_pos.
Qed.

Lemma pow2_neg_inject (e : Z) (x : Q) :
  (e <= 0)%Z -> x / 2 ^ e == x * inject_Z (2 ^ (- e)).
Proof.
  intro H. rewrite <- pow2_inject by lia.
  rewrite Qpower_opp. field.
  pose proof (pow2_pos e). lra.
Qed.

Lemma Qabs_inject (z : Z) : Qabs (inject_Z z) == inject_Z (Z.abs z).
Proof.
  destruct z; reflexivity.
Qed.

Lemma round_mag_int (z : Z) :
  (Z.abs z < 2 ^ 53)%Z -> round_mag (inject_Z z) == inject_Z (Z.abs z).
Proof.
  intro H.
  destruct (Z.eq_dec z 0) as [->|NZ]; [reflexivity|].
  rewrite <- Qabs_inject.
  assert (Hpos : 0 < Qabs (inject_Z z)).
  { rewrite Qabs_inject. change 0 with (inject_Z 0). apply inject_Z_lt. lia. }
  assert (Hlt : Qabs (inject_Z z) < 2 ^ 53).
  { rewrite Qabs_inject, pow2_inject by lia. apply inject_Z_lt. exact H. }
  pose proof (cexp_upper (inject_Z z) 53 Hpos Hlt ltac:(lia)) as Hc.
  apply round_mag_grid with (m := (Z.abs z * 2 ^ (- cexp (inject_Z z)))%Z).
  rewrite pow2_neg_inject by lia.
  rewrite Qabs_inject, <- inject_Z_mult. reflexivity.
Qed.

Lemma RN_int (z : Z) :
  (Z.abs z < 2 ^ 53)%Z ->
  is_finite (RN (inject_Z z)) = true /\ fval (RN (inject_Z z)) == inject_Z z.
Proof.
  intro H. pose proof (round_mag_int z H) as E.
  assert (Hfin : round_mag (inject_Z z) < 2 ^ 1024).
  { rewrite E. apply Qlt_trans with (2 ^ 53).
    - rewrite pow2_inject by lia. apply inject_Z_lt. exact H.
    - apply pow2_lt. lia. }
  destruct (RN_finite _ Hfin) as [F V]. split; [exact F|].
  rewrite V.
  destruct (Qlt_bool (inject_Z z) 0) eqn:S; rewrite E.
  - apply Qlt_bool_iff in S. change 0 with (inject_Z 0) in S.
    apply inject_Z_lt_inv in S.
    rewrite <- inject_Z_opp. replace (- Z.abs z)%Z with z by lia. reflexivity.
  - apply Qlt_bool_false_iff in S. change 0 with (inject_Z 0) in S.
    apply inject_Z_le_inv in S. replace (Z.abs z) with z by lia. reflexivity.
Qed.

(** *** Well-formed doubles *)

Lemma is_double_RN (q : Q) :
  is_double (Fin q) = true ->
  is_finite (RN q) = true /\ fval (RN q) == q /\ round_mag q < 2 ^ 1024.
Proof.
  unfold is_double. intro H.
  destruct (RN q) as [r| | |] eqn:E; try discriminate.
  apply Qeq_bool_iff in H. split; [reflexivity|]. split; [exact H|].
  unfold RN in E.
  destruct (Qle_bool (2 ^ 1024) (round_mag q)) eqn:O; [discriminate|].
  apply Qle_bool_false_iff in O. exact O.
Qed.

Lemma is_double_round_mag (q : Q) :
  is_double (Fin q) = true -> round_mag q == Qabs q.
Proof.
  intro H. destruct (is_double_RN q H) as [_ [V Hfin]].
  destruct (RN_finite q Hfin) as [_ V'].
  rewrite V' in V. pose proof (round_mag_nonneg q) as Hn.
  destruct (Qlt_bool q 0) eqn:S.
  - apply Qlt_bool_iff in S. rewrite Qabs_neg by lra. lra.
  - apply Qlt_bool_false_iff in S. rewrite Qabs_pos by lra. lra.
Qed.

Lemma is_double_abs (q : Q) :
  is_double (Fin q) = true -> is_double (Fin (Qabs q)) = true.
Proof.
  intro H. pose proof (is_double_round_mag q H) as E.
  destruct (is_double_RN q H) as [_ [_ Hfin]].
  unfold is_double.
  assert (Hfin' : round_mag (Qabs q) < 2 ^ 1024) by (rewrite round_mag_abs; exact Hfin).
  destruct (RN_finite _ Hfin') as [F V].
  assert (S : Qlt_bool (Qabs q) 0 = false).
  { apply Qlt_bool_false_iff. apply Qabs_nonneg. }
  rewrite S, round_mag_abs, E in V.
  destruct (RN (Qabs q)) as [r| | |] eqn:R.
  - apply Qeq_bool_iff. exact V.
  - unfold RN in R. rewrite S in R. rewrite round_mag_abs in R.
    destruct (Qle_bool (2 ^ 1024) (round_mag q)); [discriminate|].
    destruct (Qeq_bool (round_mag q) 0) eqn:Z0; [|discriminate].
    discriminate.
  - discriminate.
  - discriminate.
Qed.

(** A double of magnitude [2^53] or more is an integer. *)
Lemma is_double_large_int (q : Q) :
  is_double (Fin q) = true -> 2 ^ 53 <= Qabs q ->
  exists z : Z, Qabs q == inject_Z z.
Proof.
  intros H Hl. pose proof (is_double_round_mag q H) as E.
  assert (Hpos : 0 < Qabs q) by (pose proof (pow2_pos 53); lra).
  pose proof (Qlog2_ge (Qabs q) 53 Hpos Hl) as Hlog.
  assert (Hc : (0 <= cexp q)%Z) by (unfold cexp; lia).
  rewrite round_mag_eq in E.
  exists (Qround_half_even (Qabs q / 2 ^ cexp q) * 2 ^ cexp q)%Z.
  rewrite inject_Z_mult, <- (pow2_inject (cexp q) Hc). symmetry. exact E.
Qed.

(** The integer part of a double converts back to a double exactly. *)
Lemma RN_floor_double (q : Q) :
  is_double (Fin q) = true -> 0 <= q ->
  is_finite (RN (inject_Z (Qfloor q))) = true /\
  fval (RN (inject_Z (Qfloor q))) == inject_Z (Qfloor q).
Proof.
  intros H Hq.
  destruct (Qlt_le_dec q (2 ^ 53)) as [Hs|Hl].
  - apply RN_int.
    destruct (Qfloor_spec q) as [F1 F2].
    assert (A : inject_Z (Qfloor q) < inject_Z (2 ^ 53)).
    { rewrite <- pow2_inject by lia. lra. }
    assert (B : inject_Z (-1) < inject_Z (Qfloor q)).
    { change (inject_Z (-1)) with (-1). lra. }
    apply inject_Z_lt_inv in A, B. lia.
  - assert (Hl' : 2 ^ 53 <= Qabs q) by (rewrite Qabs_pos by exact Hq; exact Hl).
    destruct (is_double_large_int q H Hl') as [z Ez].
    rewrite Qabs_pos in Ez by exact Hq.
    rewrite (Qfloor_comp _ _ Ez), Qfloor_Z.
    rewrite <- (RN_comp q (inject_Z z) Ez).
    destruct (is_double_RN q H) as [F [V _]].
    split; [exact F|]. rewrite V. exact Ez.
Qed.

(** ** Arithmetic on finite floats *)

Lemma is_zero_fval (x : float) : is_zero x = true -> fval x == 0.
Proof.
  destruct x; try discriminate; simpl; intro H; [apply Qeq_bool_iff; exact H | reflexivity].
Qed.

Lemma opp_finite (x : float) :
  is_finite x = true -> is_finite (opp x) = true /\ fval (opp x) == - fval x.
Proof.
  destruct x; try discriminate; intros _; simpl.
  - destruct (Qeq_bool q 0) eqn:E; simpl; split; try reflexivity.
    apply Qeq_bool_iff in E. lra.
  - split; reflexivity.
Qed.

Lemma abs_finite (x : float) :
  is_finite x = true ->
  is_finite (abs x) = true /\ fval (abs x) == Qabs (fval x).
Proof.
  destruct x; try discriminate; intros _; simpl; split; reflexivity.
Qed.

Lemma add_finite (x y : float) :
  is_finite x = true -> is_finite y = true ->
  is_finite (add x y) = is_finite (RN (fval x + fval y)) /\
  fval (add x y) == fval (RN (fval x + fval y)).
Proof.
  destruct x as [a| | |], y as [b| | |]; try discriminate; intros _ _; simpl.
  - split; reflexivity.
  - rewrite (RN_comp (a + 0) a) by ring. split; reflexivity.
  - rewrite (RN_comp (0 + b) b) by ring. split; reflexivity.
  - split; reflexivity.
Qed.

Lemma sub_finite (x y : float) :
  is_finite x = true -> is_finite y = true ->
  is_finite (sub x y) = is_finite (RN (fval x - fval y)) /\
  fval (sub x y) == fval (RN (fval x - fval y)).
Proof.
  intros Hx Hy. unfold sub.
  destruct (opp_finite y Hy) as [Fo Vo].
  destruct (add_finite x (opp y) Hx Fo) as [F V].
  rewrite (RN_comp (fval x - fval y) (fval x + fval (opp y))) by (rewrite Vo; ring).
  split; assumption.
Qed.

Lemma mul_finite (x y : float) :
  is_finite x = true -> is_finite y = true ->
  is_finite (mul x y) = is_finite (RN (fval x * fval y)) /\
  fval (mul x y) == fval (RN (fval x * fval y)).
Proof.
  intros Hx Hy.
  assert (E : mul x y =
              if is_zero x || is_zero y
              then signed_zero (xorb (sign x) (sign y))
              else RN (fval x * fval y)).
  { destruct x, y; try discriminate; reflexivity. }
  rewrite E. destruct (is_zero x || is_zero y) eqn:Z0.
  - assert (P : fval x * fval y == 0).
    { apply orb_true_iff in Z0. destruct Z0 as [Z0|Z0];
        apply is_zero_fval in Z0; rewrite Z0; ring. }
    rewrite (RN_comp _ 0 P), RN_0.
    destruct (xorb (sign x) (sign y)); split; reflexivity.
  - split; reflexivity.
Qed.

Lemma div_finite (x y : float) :
  is_finite x = true -> is_finite y = true -> is_zero y = false ->
  is_finite (div x y) = is_finite (RN (fval x / fval y)) /\
  fval (div x y) == fval (RN (fval x / fval y)).
Proof.
  intros Hx Hy Hz.
  assert (E : div x y =
              if is_zero x then signed_zero (xorb (sign x) (sign y))
              else RN (fval x / fval y)).
  { destruct x, y; try discriminate; simpl in *; rewrite ?Hz; reflexivity. }
  rewrite E. destruct (is_zero x) eqn:Z0.
  - assert (P : fval x / fval y == 0).
    { apply is_zero_fval in Z0. rewrite Z0. unfold Qdiv. ring. }
    rewrite (RN_comp _ 0 P), RN_0.
    destruct (xorb (sign x) (sign y)); split; reflexivity.
  - split; reflexivity.
Qed.

Lemma truediv_finite (x y : float) :
  is_zero y = false -> truediv x y = Ok (div x y).
Proof. intro H. unfold truediv. rewrite H. reflexivity. Qed.

(** The error of one operation on operands of bounded magnitude. *)
Section OpError.

Variables (x y : float) (k : Z).
Hypothesis Hx : is_finite x = true.
Hypothesis Hy : is_finite y = true.
Hypothesis Hk : (-1021 <= k <= 1023)%Z.

Lemma add_err :
  Qabs (fval x + fval y) < 2 ^ k ->
  is_finite (add x y) = true /\
  Qabs (fval (add x y) - (fval x + fval y)) <= 2 ^ (k - 54).
Proof.
  intro H. destruct (add_finite x y Hx Hy) as [F V].
  destruct (RN_err _ k H Hk) as [F' E'].
  rewrite F, V. split; assumption.
Qed.

Lemma sub_err :
  Qabs (fval x - fval y) < 2 ^ k ->
  is_finite (sub x y) = true /\
  Qabs (fval (sub x y) - (fval x - fval y)) <= 2 ^ (k - 54).
Proof.
  intro H. destruct (sub_finite x y Hx Hy) as [F V].
  destruct (RN_err _ k H Hk) as [F' E'].
  rewrite F, V. split; assumption.
Qed.

Lemma mul_err :
  Qabs (fval x * fval y) < 2 ^ k ->
  is_finite (mul x y) = true /\
  Qabs (fval (mul x y) - fval x * fval y) <= 2 ^ (k - 54).
Proof.
  intro H. destruct (mul_finite x y Hx Hy) as [F V].
  destruct (RN_err _ k H Hk) as [F' E'].
  rewrite F, V. split; assumption.
Qed.

Lemma div_err :
  is_zero y = false ->
  Qabs (fval x / fval y) < 2 ^ k ->
  is_finite (div x y) = true /\
  Qabs (fval (div x y) - fval x / fval y) <= 2 ^ (k - 54).
Proof.
  intros Hz H. destruct (div_finite x y Hx Hy Hz) as [F V].
  destruct (RN_err _ k H Hk) as [F' E'].
  rewrite F, V. split; assumption.
Qed.

End OpError.

Lemma sub_nonneg (x y : float) :
  is_finite x = true -> is_finite y = true ->
  fval y <= fval x -> 0 <= fval (sub x y).
Proof.
  intros Hx Hy H. destruct (sub_finite x y Hx Hy) as [_ V].
  rewrite V. apply RN_nonneg. lra.
Qed.

Lemma mul_nonneg (x y : float) :
  is_finite x = true -> is_finite y = true ->
  0 <= fval x -> 0 <= fval y -> 0 <= fval (mul x y).
Proof.
  intros Hx Hy H1 H2. destruct (mul_finite x y Hx Hy) as [_ V].
  rewrite V. apply RN_nonneg. apply Qmult_le_0_compat; assumption.
Qed.

Lemma sub_self (x y : float) :
  is_finite x = true -> is_finite y = true -> fval x == fval y ->
  is_finite (sub x y) = true /\ fval (sub x y) == 0.
Proof.
  intros Hx Hy E. destruct (sub_finite x y Hx Hy) as [F V].
  assert (P : fval x - fval y == 0) by lra.
  rewrite (RN_comp _ 0 P), RN_0 in F, V. split; assumption.
Qed.

(** *** Conversions *)

Lemma to_int_finite (x : float) :
  is_finite x = true -> to_int x = Ok (Qtrunc (fval x)).
Proof. destruct x; try discriminate; reflexivity. Qed.

Lemma round_int_finite (x : float) :
  is_finite x = true -> round_int x = Ok (Qround_half_even (fval x)).
Proof. destruct x; try discriminate; reflexivity. Qed.

Lemma geb_finite (x y : float) :
  is_finite x = true -> is_finite y = true ->
  geb x y = Qle_bool (fval y) (fval x).
Proof. destruct x, y; try discriminate; reflexivity. Qed.

Lemma of_int_finite (z : Z) :
  is_finite (RN (inject_Z z)) = true -> of_int z = Ok (RN (inject_Z z)).
Proof.
  unfold of_int. destruct (RN (inject_Z z)); try discriminate; reflexivity.
Qed.

Lemma of_int_small (z : Z) :
  (Z.abs z < 2 ^ 53)%Z ->
  exists f, of_int z = Ok f /\ is_finite f = true /\ fval f == inject_Z z.
Proof.
  intro H. destruct (RN_int z H) as [F V].
  exists (RN (inject_Z z)). split; [apply of_int_finite; exact F|].
  split; assumption.
Qed.

End FloatFacts.

Section DecimalToDms.

Open Scope Q_scope.

(** ** [decimal_to_dms_hem] on finite doubles *)

Lemma range_0 : (-1021 <= 0 <= 1023)%Z. Proof. lia. Qed.
Lemma range_6 : (-1021 <= 6 <= 1023)%Z. Proof. lia. Qed.
Lemma range_10 : (-1021 <= 10 <= 1023)%Z. Proof. lia. Qed.

Lemma Qabs_lt_of_bounds (q hi : Q) : - hi < q -> q < hi -> Qabs q < hi.
Proof. intros. apply Qabs_Qlt_condition. split; assumption. Qed.

(** The fractional part of a non-negative float [x], as [sub] computes it
    from [int(x)]. *)
Lemma frac_part (x : float) :
  is_finite x = true -> 0 <= fval x ->
  (Z.abs (Qfloor (fval x)) < 2 ^ 53)%Z \/ is_double x = true ->
  exists fz f,
    of_int (Qfloor (fval x)) = Ok fz /\
    f = sub x fz /\
    is_finite f = true /\ 0 <= fval f /\
    Qabs (fval f - (fval x - inject_Z (Qfloor (fval x)))) <= 1 # 18014398509481984.
Proof.
  intros Hx H0 Hd.
  assert (Hz : is_finite (RN (inject_Z (Qfloor (fval x)))) = true /\
               fval (RN (inject_Z (Qfloor (fval x)))) == inject_Z (Qfloor (fval x))).
  { destruct Hd as [Hs|Hd].
    - apply RN_int. exact Hs.
    - destruct x as [q| | |]; try discriminate.
      + apply RN_floor_double; assumption.
      + apply RN_int. simpl. lia. }
  destruct Hz as [Fz Vz].
  exists (RN (inject_Z (Qfloor (fval x)))), (sub x (RN (inject_Z (Qfloor (fval x))))).
  split; [apply of_int_finite; exact Fz|]. split; [reflexivity|].
  destruct (Qfloor_spec (fval x)) as [L U].
  assert (B : Qabs (fval x - fval (RN (inject_Z (Qfloor (fval x))))) < 2 ^ 0).
  { rewrite Vz. change (2 ^ 0) with 1. apply Qabs_lt_of_bounds; lra. }
  destruct (sub_err x _ 0 Hx Fz range_0 B) as [F E].
  split; [exact F|]. split.
  - apply sub_nonneg; try assumption. rewrite Vz. exact L.
  - rewrite Vz in E. exact E.
Qed.

(** Multiplying a float in [[0, 1 + 2^-54]] by [60.0]. *)
Lemma times_60 (f : float) :
  is_finite f = true -> 0 <= fval f -> fval f <= 1 + (1 # 18014398509481984) ->
  is_finite (mul f (Fin 60)) = true /\ 0 <= fval (mul f (Fin 60)) /\
  Qabs (fval (mul f (Fin 60)) - fval f * 60) <= 1 # 281474976710656.
Proof.
  intros Hf H0 H1.
  assert (B : Qabs (fval f * fval (Fin 60)) < 2 ^ 6).
  { change (fval (Fin 60)) with 60. change (2 ^ 6) with 64.
    apply Qabs_lt_of_bounds; lra. }
  destruct (mul_err f (Fin 60) 6 Hf eq_refl range_6 B) as [F E].
  split; [exact F|]. split.
  - apply mul_nonneg; try assumption; try reflexivity. simpl. lra.
  - exact E.
Qed.

(** [split_degrees] succeeds on every finite double; the three parts add up
    to [abs(value)] up to the rounding of the four float operations. *)
Lemma split_degrees_spec (value : float) :
  is_finite value = true -> is_double value = true ->
  exists deg minute s0,
    Convert.split_degrees value = Ok (deg, minute, s0) /\
    deg = Qfloor (Qabs (fval value)) /\
    (0 <= deg)%Z /\ (0 <= minute <= 60)%Z /\
    is_finite s0 = true /\ 0 <= fval s0 /\
    fval s0 <= 60 + (1 # 1099511627776) /\
    Qabs (inject_Z deg + inject_Z minute / 60 + fval s0 / 3600
          - Qabs (fval value)) <= 1 # 1125899906842624.
Proof.
  intros Hfin Hdbl.
  destruct (abs_finite value Hfin) as [Fv Vv].
  assert (Dv : is_double (abs value) = true).
  { destruct value as [q| | |]; try discriminate; simpl.
    - apply is_double_abs. exact Hdbl.
    - reflexivity. }
  assert (V0 : 0 <= fval (abs value)) by (rewrite Vv; apply Qabs_nonneg).
  destruct (frac_part (abs value) Fv V0 (or_intror Dv))
    as (fdeg & f1 & Edeg & Ef1 & F1 & P1 & E1).
  destruct (Qfloor_spec (fval (abs value))) as [L1 U1].
  apply Qabs_Qle_condition in E1.
  assert (B1 : fval f1 <= 1 + (1 # 18014398509481984)) by lra.
  destruct (times_60 f1 F1 P1 B1) as (Fm & Pm & Em).
  apply Qabs_Qle_condition in Em.
  set (mf := mul f1 (Fin 60)) in *.
  assert (Hsmall : (Z.abs (Qfloor (fval mf)) < 2 ^ 53)%Z).
  { destruct (Qfloor_spec (fval mf)) as [L U].
    assert (A : inject_Z (Qfloor (fval mf)) < inject_Z 61).
    { change (inject_Z 61) with 61. lra. }
    assert (B : inject_Z (-1) < inject_Z (Qfloor (fval mf))).
    { change (inject_Z (-1)) with (-1). lra. }
    apply inject_Z_lt_inv in A, B.
    change (2 ^ 53)%Z with 9007199254740992%Z. lia. }
  destruct (frac_part mf Fm Pm (or_introl Hsmall))
    as (fmin & f2 & Emin & Ef2 & F2 & P2 & E2).
  destruct (Qfloor_spec (fval mf)) as [L2 U2].
  apply Qabs_Qle_condition in E2.
  assert (B2 : fval f2 <= 1 + (1 # 18014398509481984)) by lra.
  destruct (times_60 f2 F2 P2 B2) as (Fs & Ps & Es).
  apply Qabs_Qle_condition in Es.
  exists (Qfloor (fval (abs value))), (Qfloor (fval mf)), (mul f2 (Fin 60)).
  assert (M0 : (0 <= Qfloor (fval mf) <= 60)%Z).
  { assert (A : inject_Z (Qfloor (fval mf)) < inject_Z 61).
    { change (inject_Z 61) with 61. lra. }
    assert (B : inject_Z (-1) < inject_Z (Qfloor (fval mf))).
    { change (inject_Z (-1)) with (-1). lra. }
    apply inject_Z_lt_inv in A, B. lia. }
  assert (D0 : (0 <= Qfloor (fval (abs value)))%Z).
  { assert (B : inject_Z (-1) < inject_Z (Qfloor (fval (abs value)))).
    { change (inject_Z (-1)) with (-1). lra. }
    apply inject_Z_lt_inv in B. lia. }
  split.
  { unfold Convert.split_degrees.
    rewrite (to_int_finite _ Fv). cbn [bind].
    rewrite (Qtrunc_nonneg _ V0), Edeg. cbn [bind].
    rewrite <- Ef1. fold mf.
    rewrite (to_int_finite _ Fm). cbn [bind].
    rewrite (Qtrunc_nonneg _ Pm), Emin. cbn [bind].
    rewrite <- Ef2. reflexivity. }
  split; [rewrite (Qfloor_comp _ _ Vv); reflexivity|].
  split; [exact D0|]. split; [exact M0|].
  split; [exact Fs|]. split; [exact Ps|].
  split; [lra|].
  rewrite <- Vv. apply Qabs_Qle_condition.
  set (v := fval (abs value)) in *.
  set (D := inject_Z (Qfloor v)) in *.
  set (M := inject_Z (Qfloor (fval mf))) in *.
  set (a := fval f1) in *. set (b := fval mf) in *.
  set (c := fval f2) in *. set (s := fval (mul f2 (Fin 60))) in *.
  split.
  - setoid_replace (D + M / 60 + s / 3600 - v)
      with ((a - (v - D)) + (b - a * 60) * (1 # 60) + (c - (b - M)) * (1 # 60)
            + (s - c * 60) * (1 # 3600)) by field.
    lra.
  - setoid_replace (D + M / 60 + s / 3600 - v)
      with ((a - (v - D)) + (b - a * 60) * (1 # 60) + (c - (b - M)) * (1 # 60)
            + (s - c * 60) * (1 # 3600)) by field.
    lra.
Qed.

(** ** Seconds rounded to three decimals *)

Lemma thousandths_spec (n : Z) :
  (0 <= n <= 60000)%Z ->
  is_finite (thousandths n) = true /\
  0 <= fval (thousandths n) /\
  Qabs (fval (thousandths n) - inject_Z n / 1000) <= 1 # 281474976710656.
Proof.
  intro Hn. unfold thousandths.
  assert (A : 0 <= inject_Z n / 1000 <= 60).
  { destruct Hn as [L U]. apply inject_Z_le in L, U.
    change (inject_Z 0) with 0 in L. change (inject_Z 60000) with 60000 in U.
    split.
    - apply Qle_shift_div_l; lra.
    - apply Qle_shift_div_r; lra. }
  assert (B : Qabs (inject_Z n / 1000) < 2 ^ 6).
  { change (2 ^ 6) with 64. apply Qabs_lt_of_bounds; lra. }
  destruct (RN_err _ 6 B range_6) as [F E].
  split; [exact F|]. split; [apply RN_nonneg; lra | exact E].
Qed.

Lemma thousandths_whole (n : Z) :
  (0 <= n <= 60000)%Z -> (n mod 1000 = 0)%Z ->
  fval (thousandths n) == inject_Z (n / 1000).
Proof.
  intros Hn Hm. unfold thousandths.
  assert (E : inject_Z n / 1000 == inject_Z (n / 1000)).
  { assert (En : n = (1000 * (n / 1000))%Z) by (Z.to_euclidean_division_equations; lia).
    rewrite En at 1. rewrite inject_Z_mult. change (inject_Z 1000) with 1000.
    field. }
  rewrite (RN_comp _ _ E). apply RN_int.
  change (2 ^ 53)%Z with 9007199254740992%Z.
  Z.to_euclidean_division_equations. lia.
Qed.

Lemma round_ndigits_3 (s0 : float) :
  is_finite s0 = true -> 0 <= fval s0 -> fval s0 <= 60 + (1 # 1099511627776) ->
  (0 <= Qround_half_even (fval s0 * 1000) <= 60000)%Z /\
  exists r,
    round_ndigits s0 3 = Ok r /\ is_finite r = true /\
    fval r == fval (thousandths (Qround_half_even (fval s0 * 1000))).
Proof.
  intros Hf H0 H1.
  assert (Hn : (0 <= Qround_half_even (fval s0 * 1000) <= 60000)%Z).
  { split.
    - apply Qround_half_even_nonneg. lra.
    - apply Qround_half_even_le. change (inject_Z 60000) with 60000. lra. }
  split; [exact Hn|].
  destruct (thousandths_spec _ Hn) as (F & P & E).
  destruct s0 as [q| | |]; try discriminate.
  - simpl in H0, H1.
    assert (S : sign (Fin q) = false) by (apply Qlt_bool_false_iff; exact H0).
    assert (En : Qround_half_even (Qabs q * 10 ^ 3) = Qround_half_even (fval (Fin q) * 1000)).
    { apply Qround_half_even_comp. simpl. rewrite Qabs_pos by exact H0.
      change (10 ^ 3) with 1000. reflexivity. }
    unfold round_ndigits. change (323 <? 3)%Z with false.
    change (3 <? -308)%Z with false. cbn iota. rewrite En, S.
    change (10 ^ 3) with 1000. fold (thousandths (Qround_half_even (fval (Fin q) * 1000))).
    exists (thousandths (Qround_half_even (fval (Fin q) * 1000))).
    split; [|split; [exact F | reflexivity]].
    destruct (thousandths _); try discriminate; reflexivity.
  - exists NegZero. split; [reflexivity|]. split; reflexivity.
Qed.

(** The integer seconds and the millisecond part of a rounded value. *)
Lemma split_seconds_spec (r : float) (n : Z) :
  is_finite r = true -> (0 <= n < 60000)%Z ->
  fval r == fval (thousandths n) ->
  Convert.split_seconds r = Ok ((n / 1000)%Z, (n mod 1000)%Z).
Proof.
  intros Hr Hn Er.
  destruct (thousandths_spec n ltac:(lia)) as (Ft & Pt & Et).
  rewrite <- Er in Pt, Et.
  set (S := (n / 1000)%Z). set (K := (n mod 1000)%Z).
  assert (HSK : (n = 1000 * S + K /\ 0 <= K < 1000 /\ 0 <= S < 60)%Z).
  { unfold S, K. Z.to_euclidean_division_equations. lia. }
  destruct HSK as (En & HK & HS).
  assert (EnQ : inject_Z n / 1000 == inject_Z S + inject_Z K / 1000).
  { rewrite En. push_inject. change (inject_Z 1000) with 1000. field. }
  assert (HKQ : 0 <= inject_Z K /\ inject_Z K <= 999).
  { destruct HK as [L U]. split.
    - change 0 with (inject_Z 0). apply inject_Z_le. exact L.
    - change 999 with (inject_Z 999). apply inject_Z_le. lia. }
  assert (Hfloor : Qfloor (fval r) = S).
  { destruct (Z.eq_dec K 0) as [K0|K0].
    - assert (W : fval r == inject_Z S).
      { rewrite Er. unfold S. apply thousandths_whole; [lia|exact K0]. }
      rewrite (Qfloor_comp _ _ W). apply Qfloor_Z.
    - assert (K1 : 1 <= inject_Z K).
      { change 1 with (inject_Z 1). apply inject_Z_le. lia. }
      apply Qabs_Qle_condition in Et.
      unfold Qdiv in Et, EnQ. change (/ 1000) with (1 # 1000) in Et, EnQ.
      apply Qfloor_unique; lra. }
  assert (HS53 : (Z.abs S < 2 ^ 53)%Z).
  { change (2 ^ 53)%Z with 9007199254740992%Z. lia. }
  destruct (of_int_small S HS53) as (fS & EfS & FS & VS).
  assert (Hfrac : 0 <= fval r - fval fS /\ fval r - fval fS < 1).
  { rewrite VS, <- Hfloor. destruct (Qfloor_spec (fval r)). split; lra. }
  assert (B : Qabs (fval r - fval fS) < 2 ^ 0).
  { change (2 ^ 0) with 1. apply Qabs_lt_of_bounds; lra. }
  destruct (sub_err r fS 0 Hr FS range_0 B) as [Fd Ed].
  apply Qabs_Qle_condition in Ed.
  change (2 ^ (0 - 54)) with (1 # 18014398509481984) in Ed.
  assert (B2 : Qabs (fval (sub r fS) * fval (Fin 1000)) < 2 ^ 10).
  { change (fval (Fin 1000)) with 1000. change (2 ^ 10) with 1024.
    apply Qabs_lt_of_bounds; lra. }
  destruct (mul_err (sub r fS) (Fin 1000) 10 Fd eq_refl range_10 B2) as [Fy Ey].
  apply Qabs_Qle_condition in Ey.
  change (2 ^ (10 - 54)) with (1 # 17592186044416) in Ey.
  change (fval (Fin 1000)) with 1000 in Ey.
  unfold Convert.split_seconds.
  rewrite (to_int_finite _ Hr). cbn [bind].
  rewrite (Qtrunc_nonneg _ Pt), Hfloor, EfS. cbn [bind].
  rewrite (round_int_finite _ Fy). cbn [bind].
  rewrite (Qround_half_even_near _ K); [reflexivity|].
  apply Qabs_Qle_condition in Et.
  apply Qabs_Qlt_condition.
  set (y := fval (mul (sub r fS) (Fin 1000))) in *.
  set (d := fval (sub r fS)) in *.
  unfold Qdiv in Et, EnQ. change (/ 1000) with (1 # 1000) in Et, EnQ.
  rewrite VS in Ed. split; lra.
Qed.

Lemma carry_seconds_spec (deg minute : Z) (s0 : float) :
  is_finite s0 = true -> 0 <= fval s0 -> fval s0 <= 60 + (1 # 1099511627776) ->
  let n := Qround_half_even (fval s0 * 1000) in
  let n' := if (n =? 60000)%Z then 0%Z else n in
  exists r sec',
    round_ndigits s0 3 = Ok r /\
    geb r (Fin 60) = (n =? 60000)%Z /\
    Convert.carry_seconds deg minute s0 =
      Ok (fst (fst (fst (carried_fields deg minute n))),
          snd (fst (fst (carried_fields deg minute n))), sec') /\
    is_finite sec' = true /\ fval sec' == fval (thousandths n').
Proof.
  intros Hf H0 H1 n n'.
  destruct (round_ndigits_3 s0 Hf H0 H1) as (Hn & r & Er & Fr & Vr).
  fold n in Hn, Vr.
  destruct (thousandths_spec n Hn) as (Ft & Pt & Et).
  assert (G : geb r (Fin 60) = (n =? 60000)%Z).
  { rewrite (geb_finite r (Fin 60) Fr eq_refl). change (fval (Fin 60)) with 60.
    destruct (Z.eqb_spec n 60000) as [E|NE].
    - apply Qle_bool_iff. rewrite Vr, E.
      rewrite thousandths_whole by (try reflexivity; lia).
      change (inject_Z (60000 / 1000)) with 60. lra.
    - apply Qle_bool_false_iff. rewrite Vr.
      assert (U : inject_Z n <= 59999).
      { change 59999 with (inject_Z 59999). apply inject_Z_le. lia. }
      apply Qabs_Qle_condition in Et.
      unfold Qdiv in Et. change (/ 1000) with (1 # 1000) in Et. lra. }
  exists r.
  exists (if (n =? 60000)%Z then sub r (Fin 60) else r).
  split; [exact Er|]. split; [exact G|].
  split.
  { unfold Convert.carry_seconds, carried_fields. rewrite Er. cbn [bind].
    rewrite G. fold n.
    destruct (n =? 60000)%Z;
      [destruct (minute + 1 >=? 60)%Z | destruct (minute >=? 60)%Z]; reflexivity. }
  unfold n'. destruct (Z.eqb_spec n 60000) as [E|NE].
  - assert (W : fval r == fval (Fin 60)).
    { rewrite Vr, E. rewrite thousandths_whole by (try reflexivity; lia).
      reflexivity. }
    destruct (sub_self r (Fin 60) Fr eq_refl W) as [F V].
    split; [exact F|]. rewrite V. reflexivity.
  - split; [exact Fr | exact Vr].
Qed.

Lemma render_dms_plain (hem : string) (D M : Z) (sec : float) (n : Z) :
  is_finite sec = true -> (0 <= n < 60000)%Z ->
  fval sec == fval (thousandths n) ->
  Convert.render_dms hem D M sec =
    Ok (dms_text hem D M (n / 1000) (n mod 1000)).
Proof.
  intros Hs Hn Vs. unfold Convert.render_dms.
  rewrite (split_seconds_spec sec n Hs Hn Vs). cbn [bind].
  assert (K : (n mod 1000 =? 1000)%Z = false).
  { apply Z.eqb_neq. Z.to_euclidean_division_equations. lia. }
  rewrite K. reflexivity.
Qed.

(** [decimal_to_dms_hem] returns on every finite double, and what it
    returns. *)
Theorem decimal_to_dms_hem_spec (value : float) (is_lat : bool) :
  is_finite value = true -> is_double value = true ->
  exists deg minute s0,
    Convert.split_degrees value = Ok (deg, minute, s0) /\
    (0 <= deg)%Z /\ (0 <= minute <= 60)%Z /\
    is_finite s0 = true /\ 0 <= fval s0 /\
    fval s0 <= 60 + (1 # 1099511627776) /\
    Qabs (inject_Z deg + inject_Z minute / 60 + fval s0 / 3600
          - Qabs (fval value)) <= 1 # 1125899906842624 /\
    let n := Qround_half_even (fval s0 * 1000) in
    (0 <= n <= 60000)%Z /\
    let '(D, M, sec, msec) := carried_fields deg minute n in
    Convert.decimal_to_dms_hem value is_lat =
      Ok (dms_text (Convert.hemisphere value is_lat) D M sec msec).
Proof.
  intros Hfin Hdbl.
  destruct (split_degrees_spec value Hfin Hdbl)
    as (deg & minute & s0 & Es & _ & Hd & Hm & Fs & Ps & Us & Err).
  exists deg, minute, s0.
  repeat (split; [assumption|]).
  intro n.
  destruct (round_ndigits_3 s0 Fs Ps Us) as (Hn & _). fold n in Hn.
  split; [exact Hn|].
  destruct (carry_seconds_spec deg minute s0 Fs Ps Us)
    as (r & sec' & _ & _ & Ec & Fc & Vc).
  fold n in Ec, Vc.
  unfold Convert.decimal_to_dms_hem. rewrite Es. cbn [bind]. rewrite Ec. cbn [bind].
  set (n' := if (n =? 60000)%Z then 0%Z else n) in *.
  assert (Hn' : (0 <= n' < 60000)%Z).
  { unfold n'. destruct (Z.eqb_spec n 60000); lia. }
  rewrite (render_dms_plain _ _ _ sec' n' Fc Hn' Vc).
  unfold carried_fields. fold n'. reflexivity.
Qed.

End DecimalToDms.

Section TextFacts.

(** ** Strings *)

Lemma append_nil_r (s : string) : s ++ "" = s.
Proof. induction s; simpl; congruence. Qed.

Lemma append_assoc (a b c : string) : (a ++ b) ++ c = a ++ (b ++ c).
Proof. induction a; simpl; congruence. Qed.

Lemma length_append (a b : string) :
  String.length (a ++ b) = (String.length a + String.length b)%nat.
Proof. induction a; simpl; congruence. Qed.

Lemma all_chars_append (p : ascii -> bool) (a b : string) :
  all_chars p (a ++ b) = all_chars p a && all_chars p b.
Proof.
  induction a; simpl; [reflexivity|]. rewrite IHa. apply andb_assoc.
Qed.

Lemma all_chars_impl (p q : ascii -> bool) (s : string) :
  (forall c, p c = true -> q c = true) ->
  all_chars p s = true -> all_chars q s = true.
Proof.
  intros H. induction s; simpl; [reflexivity|].
  intro A. apply andb_true_iff in A. destruct A as [A1 A2].
  rewrite (H _ A1), (IHs A2). reflexivity.
Qed.

Lemma all_chars_repeat (p : ascii -> bool) (c : ascii) (n : nat) :
  p c = true -> all_chars p (repeat_char c n) = true.
Proof. intro H. induction n; simpl; [reflexivity|]. rewrite H, IHn. reflexivity. Qed.

Lemma length_repeat (c : ascii) (n : nat) : String.length (repeat_char c n) = n.
Proof. induction n; simpl; congruence. Qed.

Lemma lstrip_no_space (s : string) :
  all_chars not_space s = true -> lstrip s = s.
Proof.
  destruct s; simpl; [reflexivity|]. unfold not_space.
  intro H. apply andb_true_iff in H. destruct H as [H _].
  apply negb_true_iff in H. rewrite H. reflexivity.
Qed.

Lemma rstrip_with_none (p : ascii -> bool) (s : string) :
  all_chars (fun c => negb (p c)) s = true -> rstrip_with p s = s.
Proof.
  induction s; simpl; [reflexivity|].
  intro H. apply andb_true_iff in H. destruct H as [H1 H2].
  rewrite (IHs H2). apply negb_true_iff in H1. rewrite H1, andb_false_r.
  reflexivity.
Qed.

Lemma strip_no_space (s : string) :
  all_chars not_space s = true -> strip s = s.
Proof.
  intro H. unfold strip, rstrip. rewrite (lstrip_no_space s H).
  apply rstrip_with_none. exact H.
Qed.

(** The blanks of a numeral are blanks of [str.strip]. *)
Lemma is_num_space_is_space (c : ascii) :
  is_num_space c = true -> is_space c = true.
Proof.
  unfold is_num_space, is_space. cbv zeta.
  generalize (code c). intros n H.
  repeat rewrite orb_true_iff in *. repeat rewrite andb_true_iff in *.
  repeat rewrite Z.leb_le in *. repeat rewrite Z.eqb_eq in *. lia.
Qed.

Lemma not_space_not_num_space (s : string) :
  all_chars not_space s = true ->
  all_chars (fun c => negb (is_num_space c)) s = true.
Proof.
  intro H. apply all_chars_impl with (2 := H). intros c Hc.
  unfold not_space in Hc. apply negb_true_iff in Hc. apply negb_true_iff.
  destruct (is_num_space c) eqn:E; [|reflexivity].
  rewrite (is_num_space_is_space c E) in Hc. discriminate Hc.
Qed.

Lemma lstrip_with_none (p : ascii -> bool) (s : string) :
  all_chars (fun c => negb (p c)) s = true -> lstrip_with p s = s.
Proof.
  destruct s; simpl; [reflexivity|].
  intro H. apply andb_true_iff in H. destruct H as [H _].
  apply negb_true_iff in H. rewrite H. reflexivity.
Qed.

Lemma num_strip_no_space (s : string) :
  all_chars not_space s = true -> num_strip s = s.
Proof.
  intro H. apply not_space_not_num_space in H. unfold num_strip.
  rewrite (lstrip_with_none _ s H). apply rstrip_with_none. exact H.
Qed.

(** *** [split] and [join] *)

Lemma split_no_sep (sep : ascii) (s : string) :
  contains sep s = false -> split sep s = [s].
Proof.
  induction s; simpl; [reflexivity|].
  intro H. apply orb_false_iff in H. destruct H as [H1 H2].
  rewrite H1, (IHs H2). reflexivity.
Qed.

Lemma split_append_sep (sep : ascii) (a b : string) :
  contains sep a = false ->
  split sep (a ++ String sep b) = a :: split sep b.
Proof.
  induction a; simpl.
  - intros _. rewrite Ascii.eqb_refl. reflexivity.
  - intro H. apply orb_false_iff in H. destruct H as [H1 H2].
    rewrite H1, (IHa H2). reflexivity.
Qed.

Lemma contains_all_chars (sep : ascii) (p : ascii -> bool) (s : string) :
  p sep = false -> all_chars p s = true -> contains sep s = false.
Proof.
  intro Hp. induction s; simpl; [reflexivity|].
  intro H. apply andb_true_iff in H. destruct H as [H1 H2].
  rewrite (IHs H2), orb_false_r.
  destruct (Ascii.eqb_spec a sep) as [->|]; [congruence | reflexivity].
Qed.

Lemma split_nonempty (sep : ascii) (s : string) : split sep s <> [].
Proof.
  destruct s; simpl; [discriminate|].
  destruct (Ascii.eqb a sep); [discriminate|].
  destruct (split sep s); discriminate.
Qed.

(** *** Digits *)

Lemma code_ascii_of (n : Z) :
  0 <= n < 256 -> code (ascii_of_N (Z.to_N n)) = n.
Proof.
  intro H. unfold code. rewrite N_ascii_embedding; lia.
Qed.

Lemma digit_char_val (d : Z) : 0 <= d <= 9 -> digit_val (digit_char d) = d.
Proof.
  intro H. unfold digit_val, digit_char. rewrite code_ascii_of; lia.
Qed.

Lemma digit_char_is_digit (d : Z) : 0 <= d <= 9 -> is_digit (digit_char d) = true.
Proof.
  intro H. unfold is_digit, digit_char. rewrite code_ascii_of by lia.
  apply andb_true_iff. split; apply Z.leb_le; lia.
Qed.

Lemma digits_value_append (a : Z) (s t : string) :
  digits_value a (s ++ t) = digits_value (digits_value a s) t.
Proof. revert a. induction s; simpl; intro a0; [reflexivity | apply IHs]. Qed.

Lemma digits_value_zeros (n : nat) : digits_value 0 (repeat_char "0" n) = 0.
Proof. induction n; simpl; [reflexivity | exact IHn]. Qed.

(** [dec_digits] writes the decimal digits of [n] in front of [acc]. *)
Lemma dec_digits_spec (fuel : nat) :
  forall (n : Z) (acc : string),
    0 <= n < 10 ^ Z.of_nat fuel -> (0 < fuel)%nat ->
    exists ds,
      dec_digits fuel n acc = ds ++ acc /\
      all_chars is_digit ds = true /\
      (0 < String.length ds <= fuel)%nat /\
      forall a, digits_value a ds = a * 10 ^ Z.of_nat (String.length ds) + n.
Proof.
  induction fuel as [|fuel IH]; intros n acc Hn Hf; [lia|].
  cbn [dec_digits].
  assert (Hd : 0 <= n mod 10 <= 9) by (Z.to_euclidean_division_equations; lia).
  destruct (Z.ltb_spec n 10) as [Hs|Hl].
  - exists (String (digit_char (n mod 10)) "").
    split; [reflexivity|]. split.
    { simpl. rewrite digit_char_is_digit by exact Hd. reflexivity. }
    split; [simpl; lia|].
    intro a. cbn [digits_value String.length].
    rewrite digit_char_val by exact Hd.
    change (Z.of_nat 1) with 1. rewrite Z.pow_1_r, Z.mod_small by lia. lia.
  - assert (Hf' : (0 < fuel)%nat).
    { destruct fuel; [|lia]. simpl in Hn. lia. }
    assert (Hn' : 0 <= n / 10 < 10 ^ Z.of_nat fuel).
    { rewrite Nat2Z.inj_succ, Z.pow_succ_r in Hn by lia.
      Z.to_euclidean_division_equations. nia. }
    destruct (IH (n / 10) (String (digit_char (n mod 10)) acc) Hn' Hf')
      as (ds & E & A & L & V).
    exists (ds ++ String (digit_char (n mod 10)) "").
    split.
    { rewrite E, append_assoc. reflexivity. }
    split.
    { rewrite all_chars_append, A. simpl.
      rewrite digit_char_is_digit by exact Hd. reflexivity. }
    split.
    { rewrite length_append. simpl. lia. }
    intro a. rewrite digits_value_append, V. cbn [digits_value].
    rewrite digit_char_val by exact Hd.
    rewrite length_append. cbn [String.length].
    replace (Z.of_nat (String.length ds + 1)) with (Z.succ (Z.of_nat (String.length ds))) by lia.
    rewrite Z.pow_succ_r by lia.
    Z.to_euclidean_division_equations. nia.
Qed.

Lemma Z_to_dec_spec (n : Z) :
  0 <= n ->
  all_chars is_digit (Z_to_dec n) = true /\
  (0 < String.length (Z_to_dec n) <= S (Z.to_nat (Z.log2 n)))%nat /\
  digits_value 0 (Z_to_dec n) = n.
Proof.
  intro Hn. unfold Z_to_dec.
  assert (B : 0 <= n < 10 ^ Z.of_nat (S (Z.to_nat (Z.log2 n)))).
  { split; [exact Hn|].
    destruct (Z.eq_dec n 0) as [->|NZ]; [reflexivity|].
    pose proof (Z.log2_spec n ltac:(lia)) as [_ U].
    pose proof (Z.log2_nonneg n) as L.
    rewrite Nat2Z.inj_succ, Z2Nat.id by exact L.
    apply Z.lt_le_trans with (1 := U).
    apply Z.pow_le_mono_l. lia. }
  destruct (dec_digits_spec _ n "" B ltac:(lia)) as (ds & E & A & L & V).
  rewrite append_nil_r in E. rewrite E.
  split; [exact A|]. split; [exact L|].
  rewrite V. lia.
Qed.

Lemma fmt_0d_spec (w : nat) (n : Z) :
  0 <= n ->
  all_chars is_digit (fmt_0d w n) = true /\
  (0 < String.length (fmt_0d w n) <= w + S (Z.to_nat (Z.log2 n)))%nat /\
  digits_value 0 (fmt_0d w n) = n.
Proof.
  intro Hn. unfold fmt_0d.
  destruct (Z.ltb_spec n 0) as [C|_]; [lia|].
  destruct (Z_to_dec_spec n Hn) as (A & L & V).
  unfold zfill. split.
  { rewrite all_chars_append, A, all_chars_repeat; reflexivity. }
  split.
  { rewrite length_append, length_repeat. lia. }
  rewrite digits_value_append, digits_value_zeros. exact V.
Qed.

(** ** Reading back what the formatter wrote *)

Lemma is_digit_code (c : ascii) : is_digit c = true -> 48 <= code c <= 57.
Proof.
  unfold is_digit. intro H. apply andb_true_iff in H.
  destruct H as [H1 H2]. apply Z.leb_le in H1, H2. lia.
Qed.

Lemma is_digit_not_space (c : ascii) : is_digit c = true -> not_space c = true.
Proof.
  intro H. apply is_digit_code in H. unfold not_space, is_space.
  set (n := code c) in *.
  destruct (Z.leb_spec 9 n), (Z.leb_spec n 13), (Z.leb_spec 28 n),
    (Z.leb_spec n 32), (Z.eqb_spec n 133), (Z.eqb_spec n 160);
    simpl; try reflexivity; lia.
Qed.

Lemma is_digit_neq (c d : ascii) :
  is_digit c = true -> is_digit d = false -> Ascii.eqb c d = false.
Proof.
  intros H1 H2. destruct (Ascii.eqb_spec c d) as [->|]; [congruence | reflexivity].
Qed.

Lemma split_sign_digit (c : ascii) (r : string) :
  is_digit c = true -> split_sign (String c r) = (false, String c r).
Proof.
  destruct c as [[] [] [] [] [] [] [] []]; intro H;
    try reflexivity; discriminate H.
Qed.

Lemma remove_underscores_digits (s : string) :
  all_chars is_digit s = true -> remove_underscores s = s.
Proof.
  induction s; simpl; [reflexivity|].
  intro H. apply andb_true_iff in H. destruct H as [H1 H2].
  rewrite (is_digit_neq a "_" H1 eq_refl), (IHs H2). reflexivity.
Qed.

Lemma underscores_ok_digits (s : string) :
  all_chars is_digit s = true ->
  forall c, is_digit c = true -> underscores_ok (Some c) s = true.
Proof.
  induction s; simpl; intros H c Hc.
  - destruct c as [[] [] [] [] [] [] [] []]; try reflexivity; discriminate Hc.
  - apply andb_true_iff in H. destruct H as [H1 H2].
    rewrite (is_digit_neq a "_" H1 eq_refl), (IHs H2 a H1), andb_true_r.
    destruct c as [[] [] [] [] [] [] [] []]; try reflexivity; exact H1.
Qed.

Lemma int_of_string_digits (s : string) :
  all_chars is_digit s = true -> (0 < String.length s <= 4300)%nat ->
  int_of_string s = Ok (digits_value 0 s).
Proof.
  intros A L. unfold int_of_string.
  rewrite num_strip_no_space
    by (apply all_chars_impl with (2 := A); apply is_digit_not_space).
  destruct s as [|c r]; [simpl in L; lia|].
  pose proof A as A'. simpl in A'. apply andb_true_iff in A'.
  destruct A' as [A1 A2].
  rewrite (split_sign_digit c r A1).
  rewrite (remove_underscores_digits _ A), A.
  assert (U : underscores_ok None (String c r) = true).
  { cbn [underscores_ok]. rewrite (is_digit_neq c "_" A1 eq_refl).
    apply underscores_ok_digits; assumption. }
  rewrite U. cbn [is_empty negb andb].
  assert (Len : (String.length (String c r) <=? int_max_str_digits)%nat = true).
  { apply Nat.leb_le. unfold int_max_str_digits. lia. }
  rewrite Len. reflexivity.
Qed.

Lemma int_of_string_fmt (w : nat) (n : Z) :
  0 <= n < 2 ^ 1024 -> (w <= 3)%nat -> int_of_string (fmt_0d w n) = Ok n.
Proof.
  intros Hn Hw. destruct (fmt_0d_spec w n ltac:(lia)) as (A & L & V).
  rewrite int_of_string_digits; [rewrite V; reflexivity | exact A |].
  assert (Z.log2 n < 1024).
  { destruct (Z.eq_dec n 0) as [->|NZ]; [reflexivity|].
    apply Z.log2_lt_pow2; lia. }
  lia.
Qed.

Lemma hem_of_axis_cases (is_lat : bool) (h : ascii) :
  hem_of_axis is_lat h = true ->
  (h = "N" \/ h = "S" \/ h = "E" \/ h = "W")%char.
Proof.
  unfold hem_of_axis. destruct is_lat; intro H;
    apply orb_true_iff in H; destruct H as [H|H];
    apply Ascii.eqb_eq in H; auto.
Qed.

(** [dms_hem_to_decimal] reads the four fields of a well-formed text back. *)
Lemma dms_hem_to_decimal_text (is_lat : bool) (h : ascii) (D M sec msec : Z) :
  hem_of_axis is_lat h = true ->
  0 <= D < 2 ^ 1024 -> 0 <= M < 60 -> 0 <= sec < 60 -> 0 <= msec < 1000 ->
  Convert.dms_hem_to_decimal (dms_text (String h "") D M sec msec) is_lat =
  Convert.dms_value h D M sec msec.
Proof.
  intros Hh HD HM HS HK.
  destruct (fmt_0d_spec 3 D ltac:(lia)) as (AD & LD & _).
  destruct (fmt_0d_spec 2 M ltac:(lia)) as (AM & LM & _).
  destruct (fmt_0d_spec 2 sec ltac:(lia)) as (AS & LS & _).
  destruct (fmt_0d_spec 3 msec ltac:(lia)) as (AK & LK & _).
  set (rest := fmt_0d 3 D ++ "." ++ fmt_0d 2 M ++ "."
               ++ fmt_0d 2 sec ++ "." ++ fmt_0d 3 msec).
  assert (Et : dms_text (String h "") D M sec msec = String h rest) by reflexivity.
  rewrite Et.
  assert (Hns : forall s, all_chars is_digit s = true -> all_chars not_space s = true).
  { intros s A. apply all_chars_impl with (2 := A). apply is_digit_not_space. }
  assert (Hsp : all_chars not_space (String h rest) = true).
  { cbn [all_chars]. apply andb_true_iff. split.
    - destruct (hem_of_axis_cases _ _ Hh) as [-> | [-> | [-> | ->]]]; reflexivity.
    - unfold rest. rewrite !all_chars_append.
      rewrite (Hns _ AD), (Hns _ AM), (Hns _ AS), (Hns _ AK). reflexivity. }
  unfold Convert.dms_hem_to_decimal.
  rewrite (strip_no_space _ Hsp).
  assert (Len : (String.length (String h rest) <? 2)%nat = false).
  { apply Nat.ltb_ge. cbn [String.length]. unfold rest.
    rewrite length_append. lia. }
  rewrite Len.
  assert (Hchk :
    (is_lat && negb (Ascii.eqb (upper h) "N" || Ascii.eqb (upper h) "S") = false) /\
    (negb is_lat && negb (Ascii.eqb (upper h) "E" || Ascii.eqb (upper h) "W") = false) /\
    upper h = h).
  { unfold hem_of_axis in Hh.
    destruct (hem_of_axis_cases _ _ Hh) as [-> | [-> | [-> | ->]]];
      destruct is_lat; try discriminate Hh; repeat split; reflexivity. }
  destruct Hchk as (C1 & C2 & Eu). rewrite C1, C2, Eu.
  assert (Hdot : forall s, all_chars is_digit s = true -> contains "." s = false).
  { intros s A. apply contains_all_chars with (p := is_digit); [reflexivity | exact A]. }
  assert (Esplit : split "." rest =
            [fmt_0d 3 D; fmt_0d 2 M; fmt_0d 2 sec; fmt_0d 3 msec]).
  { unfold rest. cbn [append].
    rewrite split_append_sep by (apply Hdot; exact AD).
    rewrite split_append_sep by (apply Hdot; exact AM).
    rewrite split_append_sep by (apply Hdot; exact AS).
    rewrite split_no_sep by (apply Hdot; exact AK). reflexivity. }
  rewrite Esplit.
  rewrite !int_of_string_fmt by lia.
  cbn [bind except_value_error].
  unfold Convert.in_range.
  assert (R1 : (0 <=? M) && (M <? 60) = true).
  { apply andb_true_iff. split; [apply Z.leb_le | apply Z.ltb_lt]; lia. }
  assert (R2 : (0 <=? sec) && (sec <? 60) = true).
  { apply andb_true_iff. split; [apply Z.leb_le | apply Z.ltb_lt]; lia. }
  assert (R3 : (0 <=? msec) && (msec <? 1000) = true).
  { apply andb_true_iff. split; [apply Z.leb_le | apply Z.ltb_lt]; lia. }
  rewrite R1, R2, R3. reflexivity.
Qed.

(** *** The fields of a trimmed line *)

Lemma split_not_nil (sep : ascii) (s : string) : split sep s <> [].
Proof.
  destruct s as [|c r]; cbn [split]; [discriminate|].
  destruct (Ascii.eqb c sep); [discriminate|].
  destruct (split sep r); discriminate.
Qed.

Lemma split_single (sep : ascii) (s h : string) :
  split sep s = [h] -> s = h.
Proof.
  revert h. induction s as [|c r IH]; intros h; cbn [split].
  - intro H. injection H as <-. reflexivity.
  - destruct (Ascii.eqb c sep).
    + intro H. injection H as _ H. destruct (split_not_nil sep r H).
    + destruct (split sep r) as [|h' t] eqn:E.
      * destruct (split_not_nil sep r E).
      * intro H. injection H as <- ->. rewrite (IH h' eq_refl). reflexivity.
Qed.

Lemma rstrip_with_empty (p : ascii -> bool) (s : string) :
  rstrip_with p s = EmptyString -> all_chars p s = true.
Proof.
  induction s as [|c r IH]; [reflexivity|].
  cbn [rstrip_with all_chars].
  destruct (is_empty (rstrip_with p r)) eqn:E.
  - destruct (p c); [|discriminate]. intros _.
    apply IH. destruct (rstrip_with p r); [reflexivity | discriminate E].
  - discriminate.
Qed.

Lemma all_chars_no_sep (p : ascii -> bool) (sep : ascii) (s : string) :
  p sep = false -> all_chars p s = true -> contains sep s = false.
Proof.
  intros Hp. induction s as [|c r IH]; [reflexivity|].
  cbn [all_chars contains]. intro A.
  apply andb_true_iff in A. destruct A as [Ac Ar].
  rewrite (IH Ar), orb_false_r.
  destruct (Ascii.eqb_spec c sep) as [->|]; [congruence | reflexivity].
Qed.

(** Trimming on the left touches the first field only. *)
Lemma split_lstrip (sep : ascii) (s : string) :
  is_space sep = false ->
  split sep (lstrip s) =
  match split sep s with
  | h :: t => lstrip h :: t
  | [] => []
  end.
Proof.
  intro Hsep. induction s as [|c r IH]; [reflexivity|].
  cbn [lstrip]. destruct (is_space c) eqn:Hc.
  - rewrite IH. cbn [split].
    destruct (Ascii.eqb_spec c sep) as [->|_]; [congruence|].
    destruct (split sep r) as [|h t] eqn:E;
      [destruct (split_not_nil sep r E)|].
    cbn [lstrip]. rewrite Hc. reflexivity.
  - cbn [split]. destruct (Ascii.eqb c sep); [reflexivity|].
    destruct (split sep r) as [|h t] eqn:E;
      [destruct (split_not_nil sep r E)|].
    cbn [lstrip]. rewrite Hc. reflexivity.
Qed.

(** Trimming on the right touches the last field only. *)
Lemma split_rstrip_with (p : ascii -> bool) (sep : ascii) (s : string) :
  p sep = false ->
  split sep (rstrip_with p s) =
  (removelast (split sep s)
   ++ [rstrip_with p (last (split sep s) EmptyString)])%list.
Proof.
  intro Hsep. induction s as [|c r IH]; [reflexivity|].
  cbn [rstrip_with].
  destruct (Ascii.eqb_spec c sep) as [->|NE].
  - rewrite Hsep, andb_false_r. cbn [split]. rewrite Ascii.eqb_refl, IH.
    destruct (split sep r) as [|h t] eqn:E;
      [destruct (split_not_nil sep r E)|].
    reflexivity.
  - assert (Ec : Ascii.eqb c sep = false) by (apply Ascii.eqb_neq; exact NE).
    destruct (is_empty (rstrip_with p r) && p c) eqn:K.
    + apply andb_true_iff in K. destruct K as [K1 K2].
      assert (Er : rstrip_with p r = EmptyString)
        by (destruct (rstrip_with p r); [reflexivity | discriminate K1]).
      pose proof (rstrip_with_empty p r Er) as Ar.
      pose proof (all_chars_no_sep p sep r Hsep Ar) as Cr.
      cbn [split]. rewrite Ec, (split_no_sep sep r Cr).
      cbn [removelast last app rstrip_with]. rewrite Er, K2. reflexivity.
    + cbn [split]. rewrite Ec, IH.
      destruct (split sep r) as [|h t] eqn:E;
        [destruct (split_not_nil sep r E)|].
      destruct t as [|h2 t2].
      * pose proof (split_single sep r h E) as ->.
        cbn [removelast last app rstrip_with]. rewrite K. reflexivity.
      * reflexivity.
Qed.

Lemma nth_removelast (l : list string) (i : nat) :
  (S i < List.length l)%nat ->
  nth i (removelast l) EmptyString = nth i l EmptyString.
Proof.
  revert i. induction l as [|a l IHl]; intros i H.
  - cbn [List.length] in H. lia.
  - destruct l as [|b l]; [cbn [List.length] in H; lia|].
    change (removelast (a :: b :: l)) with (a :: removelast (b :: l)).
    destruct i as [|i]; [reflexivity|].
    change (nth (S i) (a :: removelast (b :: l)) EmptyString)
      with (nth i (removelast (b :: l)) EmptyString).
    change (nth (S i) (a :: b :: l) EmptyString)
      with (nth i (b :: l) EmptyString).
    apply IHl. cbn [List.length] in *. lia.
Qed.

(** The fields of [s.strip()] are those of [s], the first without its
    leading and the last without its trailing whitespace. *)
Lemma split_strip (sep : ascii) (s : string) :
  is_space sep = false ->
  let raw := split sep s in
  let parts := split sep (strip s) in
  List.length parts = List.length raw /\
  (forall i, (0 < i)%nat -> (S i < List.length raw)%nat ->
     nth i parts EmptyString = nth i raw EmptyString) /\
  ((2 <= List.length raw)%nat ->
   nth 0 parts EmptyString = lstrip (nth 0 raw EmptyString) /\
   last parts EmptyString = rstrip (last raw EmptyString)).
Proof.
  intro Hsep. cbv zeta. unfold strip, rstrip.
  rewrite (split_rstrip_with is_space sep (lstrip s) Hsep).
  rewrite (split_lstrip sep s Hsep).
  destruct (split sep s) as [|h t] eqn:E; [destruct (split_not_nil sep s E)|].
  destruct t as [|h2 t2].
  - cbn [removelast last app List.length nth]. split; [reflexivity|].
    split; [intros i H1 H2; lia | intro H; lia].
  - assert (Hl : last (lstrip h :: h2 :: t2) EmptyString
                 = last (h :: h2 :: t2) EmptyString) by reflexivity.
    assert (Hr : removelast (lstrip h :: h2 :: t2)
                 = lstrip h :: removelast (h2 :: t2)) by reflexivity.
    rewrite Hl, Hr.
    assert (Hlen : forall (l : list string),
               l <> [] -> List.length (removelast l) = pred (List.length l)).
    { induction l as [|a l IHl]; [congruence|]. intros _.
      destruct l as [|b l]; [reflexivity|].
      change (removelast (a :: b :: l)) with (a :: removelast (b :: l)).
      cbn [List.length]. rewrite IHl by discriminate. reflexivity. }
    split; [|split].
    + cbn [List.length app]. rewrite length_app, Hlen by discriminate.
      cbn [List.length]. lia.
    + intros i H1 H2. destruct i as [|i]; [lia|].
      change (nth (S i) (h :: h2 :: t2) EmptyString)
        with (nth i (h2 :: t2) EmptyString).
      rewrite <- app_comm_cons. cbn [nth].
      assert (H3 : (S i < List.length (h2 :: t2))%nat)
        by (cbn [List.length] in H2 |- *; lia).
      assert (H4 : (i < List.length (removelast (h2 :: t2)))%nat).
      { rewrite (Hlen (h2 :: t2)) by discriminate. lia. }
      rewrite (app_nth1 _ _ EmptyString H4).
      apply nth_removelast. exact H3.
    + intros _. split; [reflexivity|]. rewrite last_last. reflexivity.
Qed.

End TextFacts.

Section DmsToDecimal.

Open Scope Q_scope.

(** ** [dms_hem_to_decimal] on well-formed fields *)

Lemma range_30 : (-1021 <= 30 <= 1023)%Z. Proof. lia. Qed.

Lemma inject_Z_bounds (z lo hi : Z) :
  (lo <= z <= hi)%Z -> inject_Z lo <= inject_Z z /\ inject_Z z <= inject_Z hi.
Proof. intros [L U]. split; apply inject_Z_le; assumption. Qed.

Lemma dms_value_spec (h : ascii) (D M sec msec : Z) :
  (0 <= D <= 1000000001)%Z -> (0 <= M < 60)%Z -> (0 <= sec < 60)%Z ->
  (0 <= msec < 1000)%Z ->
  exists dec,
    Convert.dms_value h D M sec msec =
      Ok (if negative_hem h then opp dec else dec) /\
    is_finite dec = true /\
    Qabs (fval dec - dms_exact D M sec msec) <= 1 # 8388000.
Proof.
  intros HD HM HS HK.
  assert (S53 : forall z, (0 <= z <= 1000000001)%Z -> (Z.abs z < 2 ^ 53)%Z).
  { intros z Hz. change (2 ^ 53)%Z with 9007199254740992%Z. lia. }
  destruct (of_int_small msec (S53 msec ltac:(lia))) as (fK & EK & FK & VK).
  destruct (of_int_small sec (S53 sec ltac:(lia))) as (fS & ES & FS & VS).
  destruct (of_int_small M (S53 M ltac:(lia))) as (fM & EM & FM & VM).
  destruct (of_int_small D (S53 D ltac:(lia))) as (fD & ED & FD & VD).
  destruct (inject_Z_bounds msec 0 999 ltac:(lia)) as [K0 K1].
  destruct (inject_Z_bounds sec 0 59 ltac:(lia)) as [S0 S1].
  destruct (inject_Z_bounds M 0 59 ltac:(lia)) as [M0 M1].
  destruct (inject_Z_bounds D 0 1000000001 ltac:(lia)) as [D0 D1].
  change (inject_Z 0) with 0 in *. change (inject_Z 999) with 999 in *.
  change (inject_Z 59) with 59 in *.
  change (inject_Z 1000000001) with 1000000001 in *.
  (* msec / 1000.0 *)
  assert (Bms : Qabs (fval fK / fval (Fin 1000)) < 2 ^ 0).
  { change (fval (Fin 1000)) with 1000. unfold Qdiv.
    change (/ 1000) with (1 # 1000). change (2 ^ 0) with 1.
    rewrite VK. apply Qabs_lt_of_bounds; lra. }
  destruct (div_err fK (Fin 1000) 0 FK eq_refl range_0 eq_refl Bms) as [Fms Ems].
  change (fval (Fin 1000)) with 1000 in Ems. unfold Qdiv in Ems.
  change (/ 1000) with (1 # 1000) in Ems.
  change (2 ^ (0 - 54)) with (1 # 18014398509481984) in Ems.
  rewrite VK in Ems. apply Qabs_Qle_condition in Ems.
  set (ms := div fK (Fin 1000)) in *.
  (* sec + ms *)
  assert (Bsec : Qabs (fval fS + fval ms) < 2 ^ 6).
  { change (2 ^ 6) with 64. rewrite VS. apply Qabs_lt_of_bounds; lra. }
  destruct (add_err fS ms 6 FS Fms range_6 Bsec) as [Fsec Esec].
  change (2 ^ (6 - 54)) with (1 # 281474976710656) in Esec.
  rewrite VS in Esec. apply Qabs_Qle_condition in Esec.
  set (seconds := add fS ms) in *.
  (* minute / 60.0 *)
  assert (Bm : Qabs (fval fM / fval (Fin 60)) < 2 ^ 0).
  { change (fval (Fin 60)) with 60. unfold Qdiv.
    change (/ 60) with (1 # 60). change (2 ^ 0) with 1.
    rewrite VM. apply Qabs_lt_of_bounds; lra. }
  destruct (div_err fM (Fin 60) 0 FM eq_refl range_0 eq_refl Bm) as [Fm Em].
  change (fval (Fin 60)) with 60 in Em. unfold Qdiv in Em.
  change (/ 60) with (1 # 60) in Em.
  change (2 ^ (0 - 54)) with (1 # 18014398509481984) in Em.
  rewrite VM in Em. apply Qabs_Qle_condition in Em.
  set (m := div fM (Fin 60)) in *.
  (* deg + m *)
  assert (Bdm : Qabs (fval fD + fval m) < 2 ^ 30).
  { change (2 ^ 30) with 1073741824. rewrite VD. apply Qabs_lt_of_bounds; lra. }
  destruct (add_err fD m 30 FD Fm range_30 Bdm) as [Fdm Edm].
  change (2 ^ (30 - 54)) with (1 # 16777216) in Edm.
  rewrite VD in Edm. apply Qabs_Qle_condition in Edm.
  set (dm := add fD m) in *.
  (* seconds / 3600.0 *)
  assert (Bs : Qabs (fval seconds / fval (Fin 3600)) < 2 ^ 0).
  { change (fval (Fin 3600)) with 3600. unfold Qdiv.
    change (/ 3600) with (1 # 3600). change (2 ^ 0) with 1.
    apply Qabs_lt_of_bounds; lra. }
  destruct (div_err seconds (Fin 3600) 0 Fsec eq_refl range_0 eq_refl Bs) as [Fs Es].
  change (fval (Fin 3600)) with 3600 in Es. unfold Qdiv in Es.
  change (/ 3600) with (1 # 3600) in Es.
  change (2 ^ (0 - 54)) with (1 # 18014398509481984) in Es.
  apply Qabs_Qle_condition in Es.
  set (s := div seconds (Fin 3600)) in *.
  (* dm + s *)
  assert (Bdec : Qabs (fval dm + fval s) < 2 ^ 30).
  { change (2 ^ 30) with 1073741824. apply Qabs_lt_of_bounds; lra. }
  destruct (add_err dm s 30 Fdm Fs range_30 Bdec) as [Fdec Edec].
  change (2 ^ (30 - 54)) with (1 # 16777216) in Edec.
  apply Qabs_Qle_condition in Edec.
  exists (add dm s).
  split.
  { unfold Convert.dms_value. rewrite EK. cbn [bind].
    rewrite (truediv_finite fK (Fin 1000) eq_refl). cbn [bind].
    rewrite ES. cbn [bind]. rewrite EM. cbn [bind].
    rewrite (truediv_finite fM (Fin 60) eq_refl). cbn [bind].
    rewrite ED. cbn [bind].
    rewrite (truediv_finite _ (Fin 3600) eq_refl). cbn [bind].
    reflexivity. }
  split; [exact Fdec|].
  unfold dms_exact. apply Qabs_Qle_condition. split; lra.
Qed.

End DmsToDecimal.

Section RoundTrip.

Open Scope Q_scope.

(** ** The round trip *)

Lemma carried_fields_spec (deg minute n : Z) :
  (0 <= deg)%Z -> (0 <= minute <= 60)%Z -> (0 <= n <= 60000)%Z ->
  let '(D, M, sec, msec) := carried_fields deg minute n in
  (deg <= D <= deg + 1)%Z /\ (0 <= M < 60)%Z /\ (0 <= sec < 60)%Z /\
  (0 <= msec < 1000)%Z /\
  (3600000 * D + 60000 * M + 1000 * sec + msec
   = 3600000 * deg + 60000 * minute + n)%Z.
Proof.
  intros Hd Hm Hn. unfold carried_fields.
  destruct (Z.eqb_spec n 60000) as [E|NE].
  - change (0 / 1000)%Z with 0%Z. change (0 mod 1000)%Z with 0%Z.
    destruct (Z.geb_spec (minute + 1) 60); lia.
  - destruct (Z.geb_spec minute 60);
      repeat split; Z.to_euclidean_division_equations; lia.
Qed.

Lemma dms_exact_carried (deg minute n D M sec msec : Z) :
  (3600000 * D + 60000 * M + 1000 * sec + msec
   = 3600000 * deg + 60000 * minute + n)%Z ->
  dms_exact D M sec msec ==
  inject_Z deg + inject_Z minute * (1 # 60) + inject_Z n * (1 # 3600000).
Proof.
  intro H. unfold dms_exact.
  assert (HQ : 3600000 * inject_Z D + 60000 * inject_Z M + 1000 * inject_Z sec
               + inject_Z msec ==
               3600000 * inject_Z deg + 60000 * inject_Z minute + inject_Z n).
  { change 3600000 with (inject_Z 3600000). change 60000 with (inject_Z 60000).
    change 1000 with (inject_Z 1000).
    rewrite <- !inject_Z_mult, <- !inject_Z_plus. rewrite H. reflexivity. }
  lra.
Qed.

Lemma hemisphere_spec (value : float) (is_lat : bool) :
  is_finite value = true ->
  exists h,
    Convert.hemisphere value is_lat = String h EmptyString /\
    hem_of_axis is_lat h = true /\
    negative_hem h = Qlt_bool (fval value) 0.
Proof.
  intro Hf. unfold Convert.hemisphere.
  rewrite (geb_finite value (Fin 0) Hf eq_refl). change (fval (Fin 0)) with 0.
  unfold Qlt_bool.
  destruct is_lat, (Qle_bool 0 (fval value));
    eexists; repeat split; reflexivity.
Qed.

(** C1 (amended).  For every finite double [d] with [|d| <= 10^9] and for
    either axis, [decimal_to_dms_hem d] returns a text and
    [dms_hem_to_decimal], on the same axis, reads that text back to a value
    within 1/3600000 of a degree of [d]. *)
Theorem round_trip_bounded (d : float) (is_lat : bool) :
  is_finite d = true -> is_double d = true ->
  Qabs (fval d) <= 1000000000 ->
  exists text r,
    Convert.decimal_to_dms_hem d is_lat = Ok text /\
    Convert.dms_hem_to_decimal text is_lat = Ok r /\
    is_finite r = true /\
    Qabs (fval r - fval d) <= 1 # 3600000.
Proof.
  intros Hfin Hdbl Hmag.
  destruct (decimal_to_dms_hem_spec d is_lat Hfin Hdbl)
    as (deg & minute & s0 & _ & Hd & Hm & Fs & Ps & Us & Err & Hn & Hout).
  set (n := Qround_half_even (fval s0 * 1000)) in *.
  pose proof (carried_fields_spec deg minute n Hd Hm Hn) as Hc.
  destruct (carried_fields deg minute n) as [[[D M] sec] msec].
  destruct Hc as (HD & HM & HS & HK & Eid).
  destruct (hemisphere_spec d is_lat Hfin) as (h & Eh & Hh & Hneg).
  rewrite Eh in Hout.
  apply Qabs_Qle_condition in Err.
  unfold Qdiv in Err. change (/ 60) with (1 # 60) in Err.
  change (/ 3600) with (1 # 3600) in Err.
  destruct (inject_Z_bounds minute 0 60 Hm) as [M0 M1].
  change (inject_Z 0) with 0 in M0. change (inject_Z 60) with 60 in M1.
  assert (Hdeg : (deg <= 1000000000)%Z).
  { assert (A : inject_Z deg < inject_Z 1000000001).
    { change (inject_Z 1000000001) with 1000000001. lra. }
    apply inject_Z_lt_inv in A. lia. }
  assert (HD' : (0 <= D < 2 ^ 1024)%Z).
  { split; [lia|]. apply Z.le_lt_trans with (2 ^ 53 - 1)%Z.
    - change (2 ^ 53 - 1)%Z with 9007199254740991%Z. lia.
    - apply Z.lt_trans with (2 ^ 53)%Z; [lia|]. apply Z.pow_lt_mono_r; lia. }
  pose proof (dms_hem_to_decimal_text is_lat h D M sec msec Hh HD' HM HS HK) as Eparse.
  destruct (dms_value_spec h D M sec msec ltac:(lia) HM HS HK)
    as (dec & Eval & Fdec & Edec).
  exists (dms_text (String h EmptyString) D M sec msec).
  exists (if negative_hem h then opp dec else dec).
  split; [exact Hout|]. split; [rewrite Eparse; exact Eval|].
  rewrite (dms_exact_carried deg minute n D M sec msec Eid) in Edec.
  apply Qabs_Qle_condition in Edec.
  destruct (Qround_half_even_spec (fval s0 * 1000)) as [R1 R2]. fold n in R1, R2.
  destruct (opp_finite dec Fdec) as [Fo Vo].
  rewrite Hneg. destruct (Qlt_bool (fval d) 0) eqn:Sg.
  - apply Qlt_bool_iff in Sg. rewrite (Qabs_neg (fval d)) in Err by lra.
    split; [exact Fo|]. rewrite Vo. apply Qabs_Qle_condition. split; lra.
  - apply Qlt_bool_false_iff in Sg. rewrite (Qabs_pos (fval d)) in Err by lra.
    split; [exact Fdec|]. apply Qabs_Qle_condition. split; lra.
Qed.

(** C1 as stated fails.  The double written 3000000000.02 is rendered as
    N3000000000.01.12.000 and read back more than 1/3600000 of a degree
    away (the sum [deg + minute/60.0] is rounded to a double whose last bit
    is worth more than the tolerance); on NaN and on the infinities
    [decimal_to_dms_hem] raises and returns no text at all. *)
Lemma round_trip_counterexample :
  let d := RN (300000000002 # 100) in
  (float_of_string "3000000000.02" = Ok d /\
   is_finite d = true /\ is_double d = true /\
   Convert.decimal_to_dms_hem d true = Ok "N3000000000.01.12.000" /\
   exists r,
     Convert.dms_hem_to_decimal "N3000000000.01.12.000" true = Ok r /\
     (1 # 3600000) < Qabs (fval r - fval d)) /\
  Convert.decimal_to_dms_hem NaN true = Raise E_nan_to_int /\
  Convert.decimal_to_dms_hem (Inf false) true = Raise E_inf_to_int.
Proof.
  cbv zeta. split; [|split; reflexivity].
  split; [vm_compute; reflexivity|].
  split; [vm_compute; reflexivity|].
  split; [vm_compute; reflexivity|].
  split; [vm_compute; reflexivity|].
  eexists. split; [vm_compute; reflexivity|].
  vm_compute. reflexivity.
Qed.

(** The round trip at the latitude 50.9008489. *)
Lemma round_trip_bounded_witness :
  exists text r,
    Convert.decimal_to_dms_hem (RN (509008489 # 10000000)) true = Ok text /\
    Convert.dms_hem_to_decimal text true = Ok r /\
    is_finite r = true /\
    Qabs (fval r - fval (RN (509008489 # 10000000))) <= 1 # 3600000.
Proof.
  apply (round_trip_bounded (RN (509008489 # 10000000)) true).
  - vm_compute. reflexivity.
  - vm_compute. reflexivity.
  - vm_compute. discriminate.
Defined.

End RoundTrip.

Section Carry.

Open Scope Q_scope.

(** ** The carry of the rounded seconds *)

Lemma split_degrees_finite (value : float) (r : Z * Z * float) :
  Convert.split_degrees value = Ok r -> is_finite value = true.
Proof.
  unfold Convert.split_degrees. destruct value; try discriminate; reflexivity.
Qed.

(** C2.  Whenever the seconds of a double [value], rounded to three
    decimals, are at least 60, [decimal_to_dms_hem] of either script
    (lines 61-67 of convert.py, lines 41-47 of convert-coordinates.py)
    subtracts 60.0 from the seconds and adds one to the minute, and a
    minute that reaches 60 is reduced by 60 with one added to the degree;
    the text returned shows these degrees and minutes and the seconds
    00.000. *)
Theorem carry_when_seconds_round_to_60
    (value : float) (is_lat : bool) (deg minute : Z) (s0 r : float) :
  is_double value = true ->
  Convert.split_degrees value = Ok (deg, minute, s0) ->
  round_ndigits s0 3 = Ok r ->
  geb r (Fin 60) = true ->
  (Convert.carry_seconds deg minute s0 =
     Ok (if (minute + 1 >=? 60)%Z then (deg + 1)%Z else deg,
         if (minute + 1 >=? 60)%Z then (minute + 1 - 60)%Z else (minute + 1)%Z,
         sub r (Fin 60)) /\
   Convert.decimal_to_dms_hem value is_lat =
     Ok (dms_text (Convert.hemisphere value is_lat)
           (if (minute + 1 >=? 60)%Z then (deg + 1)%Z else deg)
           (if (minute + 1 >=? 60)%Z then (minute + 1 - 60)%Z else (minute + 1)%Z)
           0 0)) /\
  (ConvertCoordinates.split_degrees value = Ok (deg, minute, s0) /\
   ConvertCoordinates.carry_seconds deg minute s0 =
     Ok (if (minute + 1 >=? 60)%Z then (deg + 1)%Z else deg,
         if (minute + 1 >=? 60)%Z then (minute + 1 - 60)%Z else (minute + 1)%Z,
         sub r (Fin 60)) /\
   ConvertCoordinates.decimal_to_dms_hem value is_lat =
     Ok (dms_text (ConvertCoordinates.hemisphere value is_lat)
           (if (minute + 1 >=? 60)%Z then (deg + 1)%Z else deg)
           (if (minute + 1 >=? 60)%Z then (minute + 1 - 60)%Z else (minute + 1)%Z)
           0 0)).
Proof.
  intros Hdbl Es Er Hge.
  pose proof (split_degrees_finite value _ Es) as Hfin.
  destruct (decimal_to_dms_hem_spec value is_lat Hfin Hdbl)
    as (deg' & minute' & s0' & Es' & _ & _ & Fs & Ps & Us & _ & _ & Hout).
  rewrite Es in Es'. injection Es' as <- <- <-.
  destruct (carry_seconds_spec deg minute s0 Fs Ps Us)
    as (r' & sec' & Er' & G & _ & _ & _).
  rewrite Er in Er'. injection Er' as <-.
  rewrite Hge in G. symmetry in G. apply Z.eqb_eq in G.
  rewrite G in Hout.
  assert (Hc : Convert.carry_seconds deg minute s0 =
     Ok (if (minute + 1 >=? 60)%Z then (deg + 1)%Z else deg,
         if (minute + 1 >=? 60)%Z then (minute + 1 - 60)%Z else (minute + 1)%Z,
         sub r (Fin 60))).
  { unfold Convert.carry_seconds. rewrite Er. cbn [bind]. rewrite Hge.
    destruct (minute + 1 >=? 60)%Z; reflexivity. }
  assert (Ht : Convert.decimal_to_dms_hem value is_lat =
     Ok (dms_text (Convert.hemisphere value is_lat)
           (if (minute + 1 >=? 60)%Z then (deg + 1)%Z else deg)
           (if (minute + 1 >=? 60)%Z then (minute + 1 - 60)%Z else (minute + 1)%Z)
           0 0)).
  { unfold carried_fields in Hout. change (60000 =? 60000)%Z with true in Hout.
    cbv iota in Hout.
    destruct (minute + 1 >=? 60)%Z; exact Hout. }
  split; [split; [exact Hc | exact Ht]|].
  split; [|split].
  - unfold ConvertCoordinates.split_degrees.
    unfold Convert.split_degrees in Es. exact Es.
  - unfold ConvertCoordinates.carry_seconds.
    unfold Convert.carry_seconds in Hc. exact Hc.
  - unfold ConvertCoordinates.decimal_to_dms_hem,
      ConvertCoordinates.split_degrees, ConvertCoordinates.carry_seconds,
      ConvertCoordinates.render_dms, ConvertCoordinates.split_seconds,
      ConvertCoordinates.hemisphere.
    unfold Convert.decimal_to_dms_hem, Convert.split_degrees,
      Convert.carry_seconds, Convert.render_dms, Convert.split_seconds,
      Convert.hemisphere in Ht.
    exact Ht.
Qed.

(** The latitude 50.999999999 of the specification: its seconds round to
    60.000, the minute 59 overflows, and the degree becomes 51, in the text
    of either script. *)
Lemma carry_when_seconds_round_to_60_witness :
  Convert.decimal_to_dms_hem (RN (50999999999 # 1000000000)) true
  = Ok "N051.00.00.000" /\
  ConvertCoordinates.decimal_to_dms_hem (RN (50999999999 # 1000000000)) true
  = Ok "N051.00.00.000".
Proof.
  refine ((fun H => conj (proj2 (proj1 H)) (proj2 (proj2 (proj2 H))))
            (carry_when_seconds_round_to_60
               (RN (50999999999 # 1000000000)) true 50 59 _ _ _ _ _ _)).
  - vm_compute. reflexivity.
  - vm_compute. reflexivity.
  - vm_compute. reflexivity.
  - vm_compute. reflexivity.
Defined.

End Carry.

Section SecondCascade.

(** ** The second cascade *)




End SecondCascade.

Section Examples.

(** ** The examples of the documentation *)

(** The two scripts carry the same [decimal_to_dms_hem]. *)
Lemma decimal_to_dms_hem_same :
  ConvertCoordinates.decimal_to_dms_hem = Convert.decimal_to_dms_hem.
Proof. reflexivity. Qed.

(** C6.  The generic transcoder maps the record of the specification to
    its DMS form; the doubles written 50.9008489 and 4.4756856 are rendered
    as N050.54.03.056 (latitude) and E004.28.32.468 (longitude), by the
    function of either script. *)
Theorem generic_transcoder_example :
  ConvertCoordinates.convert_line "KXYZ:09:50.9008489:4.4756856:TAIL"
  = Ok "KXYZ:09:N050.54.03.056:E004.28.32.468:TAIL" /\
  float_of_string "50.9008489" = Ok (RN (509008489 # 10000000)) /\
  float_of_string "4.4756856" = Ok (RN (44756856 # 10000000)) /\
  ConvertCoordinates.decimal_to_dms_hem (RN (509008489 # 10000000)) true
  = Ok "N050.54.03.056" /\
  ConvertCoordinates.decimal_to_dms_hem (RN (44756856 # 10000000)) false
  = Ok "E004.28.32.468" /\
  Convert.decimal_to_dms_hem (RN (509008489 # 10000000)) true
  = Ok "N050.54.03.056" /\
  Convert.decimal_to_dms_hem (RN (44756856 # 10000000)) false
  = Ok "E004.28.32.468".
Proof.
  repeat split; vm_compute; reflexivity.
Qed.

End Examples.

Section Detector.

(** ** The format detector *)

Lemma hem_letter_cases (h : ascii) :
  Convert.is_hem_letter h = true ->
  (h = "N" \/ h = "S" \/ h = "E" \/ h = "W" \/
   h = "n" \/ h = "s" \/ h = "e" \/ h = "w")%char.
Proof.
  destruct h as [[] [] [] [] [] [] [] []]; intro H;
    try discriminate H; auto 10.
Qed.

Lemma lower_digit (d : ascii) : is_digit d = true -> lower d = d.
Proof.
  intro H. apply is_digit_code in H. unfold lower.
  destruct (Z.leb_spec 65 (code d)); [lia | reflexivity].
Qed.

Lemma rstrip_with_keeps_head (p : ascii -> bool) (c : ascii) (r : string) :
  p c = false ->
  exists r', rstrip_with p (String c r) = String c r' /\
             (forall d t, r = String d t -> p d = false ->
                          exists t', r' = String d t').
Proof.
  intro Hc. cbn [rstrip_with]. rewrite Hc, andb_false_r.
  eexists. split; [reflexivity|].
  intros d t -> Hd. cbn [rstrip_with]. rewrite Hd, andb_false_r.
  eexists. reflexivity.
Qed.

Lemma rstrip_keeps_head (c : ascii) (r : string) :
  is_space c = false ->
  exists r', rstrip (String c r) = String c r' /\
             (forall d t, r = String d t -> is_space d = false ->
                          exists t', r' = String d t').
Proof. apply rstrip_with_keeps_head. Qed.

(** A token that starts with a hemisphere letter and a digit is not a
    float literal. *)
Lemma float_of_string_letter_digit (h d : ascii) (r : string) :
  Convert.is_hem_letter h = true -> is_digit d = true ->
  float_of_string (String h (String d r)) = Raise E_float_syntax.
Proof.
  intros Hh Hd. unfold float_of_string.
  destruct (underscores_ok None (String h (String d r))); [|reflexivity].
  cbn [negb].
  assert (Hds : is_num_space d = false).
  { pose proof (is_digit_not_space d Hd) as Hn. unfold not_space in Hn.
    apply negb_true_iff in Hn.
    destruct (is_num_space d) eqn:E; [|reflexivity].
    rewrite (is_num_space_is_space d E) in Hn. discriminate Hn. }
  assert (Hdu : Ascii.eqb d "_" = false)
    by (apply is_digit_neq; [exact Hd | reflexivity]).
  assert (Hda : Ascii.eqb d "a" = false)
    by (apply is_digit_neq; [exact Hd | reflexivity]).
  assert (E : exists t,
    num_strip (remove_underscores (String h (String d r)))
    = String h (String d t)).
  { assert (Hhu : Ascii.eqb h "_" = false /\ is_num_space h = false).
    { destruct (hem_letter_cases h Hh) as [->|[->|[->|[->|[->|[->|[->| ->]]]]]]];
        split; reflexivity. }
    destruct Hhu as [Hhu Hhs].
    cbn [remove_underscores]. rewrite Hhu, Hdu.
    unfold num_strip. cbn [lstrip_with]. rewrite Hhs.
    destruct (rstrip_with_keeps_head is_num_space h
                (String d (remove_underscores r)) Hhs)
      as (r' & E1 & E2).
    destruct (E2 d _ eq_refl Hds) as (t' & ->).
    exists t'. exact E1. }
  destruct E as (t & ->).
  destruct (hem_letter_cases h Hh) as [->|[->|[->|[->|[->|[->|[->| ->]]]]]]];
    cbn [split_sign map_chars];
    rewrite (lower_digit d Hd);
    cbn [String.eqb Ascii.eqb Bool.eqb orb lower code];
    try rewrite Hda;
    cbn [parse_decimal span_digits is_digit];
    reflexivity.
Qed.

Lemma match_classes_DMS (t rest : string) :
  Convert.match_classes Convert.DMS_RE t = Some rest ->
  exists h d r, t = String h (String d r) /\
                Convert.is_hem_letter h = true /\ is_digit d = true.
Proof.
  unfold Convert.DMS_RE. cbn [Convert.match_classes].
  destruct t as [|h [|d r]]; try discriminate.
  - destruct (Convert.is_hem_letter h); discriminate.
  - destruct (Convert.is_hem_letter h) eqn:Hh; [|discriminate].
    destruct (is_digit d) eqn:Hd; [|discriminate].
    intros _. exists h, d, r. repeat split; assumption.
Qed.

Lemma dms_not_decimal (s : string) :
  Convert.looks_like_dms s = true -> Convert.looks_like_decimal s = false.
Proof.
  unfold Convert.looks_like_dms, Convert.DMS_RE_match, Convert.looks_like_decimal.
  destruct (Convert.match_classes Convert.DMS_RE (strip s)) as [rest|] eqn:E;
    [|discriminate].
  intros _. destruct (match_classes_DMS _ _ E) as (h & d & r & -> & Hh & Hd).
  rewrite (float_of_string_letter_digit h d r Hh Hd). reflexivity.
Qed.

(** C4.  On the 8 coordinate tokens of a record, [detect_mode] answers
    reverse when all 8 match the DMS pattern and none reads as a float,
    forward when all 8 read as floats and none matches the pattern;
    otherwise the category with strictly more hits and at least 4 of them
    wins, and without such a category the answer is [None].  So 5 DMS and 3
    decimal tokens give reverse, 4 and 4 give [None].  A token that matches
    the DMS pattern never reads as a float. *)
Theorem detect_mode_spec (parts : list string) :
  let tokens := slice 2 10 parts in
  let dms_hits := count Convert.looks_like_dms tokens in
  let dec_hits := count Convert.looks_like_decimal tokens in
  List.length tokens = 8%nat ->
  (dms_hits = 8%nat /\ dec_hits = 0%nat ->
   Convert.detect_mode parts = Some true) /\
  (dec_hits = 8%nat /\ dms_hits = 0%nat ->
   Convert.detect_mode parts = Some false) /\
  (~ (dms_hits = 8%nat /\ dec_hits = 0%nat) ->
   ~ (dec_hits = 8%nat /\ dms_hits = 0%nat) ->
   ((dec_hits < dms_hits)%nat /\ (4 <= dms_hits)%nat ->
    Convert.detect_mode parts = Some true) /\
   ((dms_hits < dec_hits)%nat /\ (4 <= dec_hits)%nat ->
    Convert.detect_mode parts = Some false) /\
   (~ ((dec_hits < dms_hits)%nat /\ (4 <= dms_hits)%nat) ->
    ~ ((dms_hits < dec_hits)%nat /\ (4 <= dec_hits)%nat) ->
    Convert.detect_mode parts = None)) /\
  (dms_hits = 5%nat -> dec_hits = 3%nat ->
   Convert.detect_mode parts = Some true) /\
  (dms_hits = 4%nat -> dec_hits = 4%nat ->
   Convert.detect_mode parts = None) /\
  (forall s, In s tokens -> Convert.looks_like_dms s = true ->
             Convert.looks_like_decimal s = false).
Proof.
  intros tokens dms_hits dec_hits _.
  unfold Convert.detect_mode. fold tokens. fold dms_hits. fold dec_hits.
  repeat split.
  - intros [-> ->]. reflexivity.
  - intros [-> ->]. reflexivity.
  - intros [H1 H2].
    destruct (Nat.eqb_spec dms_hits 8), (Nat.eqb_spec dec_hits 0),
      (Nat.eqb_spec dec_hits 8), (Nat.eqb_spec dms_hits 0),
      (Nat.ltb_spec dec_hits dms_hits), (Nat.leb_spec 4 dms_hits);
      cbn [andb]; try reflexivity; lia.
  - intros [H1 H2].
    destruct (Nat.eqb_spec dms_hits 8), (Nat.eqb_spec dec_hits 0),
      (Nat.eqb_spec dec_hits 8), (Nat.eqb_spec dms_hits 0),
      (Nat.ltb_spec dec_hits dms_hits), (Nat.leb_spec 4 dms_hits),
      (Nat.ltb_spec dms_hits dec_hits), (Nat.leb_spec 4 dec_hits);
      cbn [andb]; try reflexivity; lia.
  - intros H1 H2.
    destruct (Nat.eqb_spec dms_hits 8), (Nat.eqb_spec dec_hits 0),
      (Nat.eqb_spec dec_hits 8), (Nat.eqb_spec dms_hits 0),
      (Nat.ltb_spec dec_hits dms_hits), (Nat.leb_spec 4 dms_hits),
      (Nat.ltb_spec dms_hits dec_hits), (Nat.leb_spec 4 dec_hits);
      cbn [andb]; try reflexivity; try lia; tauto.
  - intros -> ->. reflexivity.
  - intros -> ->. reflexivity.
  - intros s _. apply dms_not_decimal.
Qed.

(** Records with 5 + 3, 4 + 4, 8 + 0 and 0 + 8 DMS and decimal tokens. *)
Lemma detect_mode_spec_witness :
  Convert.detect_mode
    ["ELLX"; "24"; dms_tok; dms_tok; dms_tok; dms_tok; dms_tok;
     dec_tok; dec_tok; dec_tok; "12"] = Some true /\
  Convert.detect_mode
    ["ELLX"; "24"; dms_tok; dms_tok; dms_tok; dms_tok;
     dec_tok; dec_tok; dec_tok; dec_tok; "12"] = None /\
  Convert.detect_mode
    ["ELLX"; "24"; dms_tok; dms_tok; dms_tok; dms_tok;
     dms_tok; dms_tok; dms_tok; dms_tok; "12"] = Some true /\
  Convert.detect_mode
    ["ELLX"; "24"; dec_tok; dec_tok; dec_tok; dec_tok;
     dec_tok; dec_tok; dec_tok; dec_tok; "12"] = Some false.
Proof.
  split; [|split; [|split]].
  - refine (proj1 (proj2 (proj2 (proj2 (detect_mode_spec _ _)))) _ _);
      vm_compute; reflexivity.
  - refine (proj1 (proj2 (proj2 (proj2 (proj2 (detect_mode_spec _ _))))) _ _);
      vm_compute; reflexivity.
  - refine (proj1 (detect_mode_spec _ _) _);
      [vm_compute; reflexivity | split; vm_compute; reflexivity].
  - refine (proj1 (proj2 (detect_mode_spec _ _)) _);
      [vm_compute; reflexivity | split; vm_compute; reflexivity].
Defined.

End Detector.

Section DmsParser.

(** ** The checks of [dms_hem_to_decimal] *)

(** C5 as stated fails.  A text whose degrees have 310 digits passes every
    check (hemisphere, four numeric groups, ranges), yet the function
    raises [OverflowError] when [deg] meets a float; and a text that starts
    with a blank is trimmed first, so its first character is not the one
    that is checked. *)
Lemma dms_hem_to_decimal_counterexample :
  hem_ok true (strip long_degrees) = true /\
  dms_groups (strip long_degrees) = ["1" ++ repeat_char "0" 309; "00"; "00"; "000"] /\
  int_of_string ("1" ++ repeat_char "0" 309) = Ok (10 ^ 309) /\
  int_of_string "00" = Ok 0 /\ int_of_string "000" = Ok 0 /\
  Convert.dms_hem_to_decimal long_degrees true = Raise E_int_too_large /\
  is_format_error E_int_too_large = false /\
  is_range_error E_int_too_large = false /\
  hem_ok true " N050.54.03.056" = false /\
  Convert.dms_hem_to_decimal " N050.54.03.056" true
  = Convert.dms_hem_to_decimal "N050.54.03.056" true /\
  exists r, Convert.dms_hem_to_decimal " N050.54.03.056" true = Ok r.
Proof.
  repeat split; try (vm_compute; reflexivity).
  eexists. vm_compute. reflexivity.
Qed.

Lemma int_of_string_error (g : string) (e : error) :
  int_of_string g = Raise e -> e = E_int_syntax.
Proof.
  unfold int_of_string. destruct (split_sign (num_strip g)) as [neg body].
  destruct (_ && _); [discriminate|]. intro H. injection H as <-. reflexivity.
Qed.

Lemma of_int_small_eq (z : Z) :
  Z.abs z < 2 ^ 53 -> of_int z = Ok (float_of_Z z).
Proof.
  intro H. apply of_int_finite. apply RN_int. exact H.
Qed.

Lemma dms_value_formula (h : ascii) (deg minute sec msec : Z) (fdeg : float) :
  0 <= minute < 60 -> 0 <= sec < 60 -> 0 <= msec < 1000 ->
  of_int deg = Ok fdeg ->
  Convert.dms_value h deg minute sec msec =
    Ok (if negative_hem h then opp (dms_formula fdeg minute sec msec)
        else dms_formula fdeg minute sec msec).
Proof.
  intros HM HS HK ED.
  assert (S53 : forall z, 0 <= z < 1000 -> Z.abs z < 2 ^ 53).
  { intros z Hz. change (2 ^ 53) with 9007199254740992. lia. }
  unfold Convert.dms_value.
  rewrite (of_int_small_eq msec (S53 msec ltac:(lia))). cbn [bind].
  rewrite (truediv_finite _ (Fin 1000) eq_refl). cbn [bind].
  rewrite (of_int_small_eq sec (S53 sec ltac:(lia))). cbn [bind].
  rewrite (of_int_small_eq minute (S53 minute ltac:(lia))). cbn [bind].
  rewrite (truediv_finite _ (Fin 60) eq_refl). cbn [bind].
  rewrite ED. cbn [bind].
  rewrite (truediv_finite _ (Fin 3600) eq_refl). cbn [bind].
  reflexivity.
Qed.

Lemma dms_value_overflow (h : ascii) (deg minute sec msec : Z) (e : error) :
  0 <= minute < 60 -> 0 <= sec < 60 -> 0 <= msec < 1000 ->
  of_int deg = Raise e ->
  Convert.dms_value h deg minute sec msec = Raise E_int_too_large.
Proof.
  intros HM HS HK ED.
  assert (S53 : forall z, 0 <= z < 1000 -> Z.abs z < 2 ^ 53).
  { intros z Hz. change (2 ^ 53) with 9007199254740992. lia. }
  assert (Ee : e = E_int_too_large).
  { unfold of_int in ED. destruct (RN (inject_Z deg)); try discriminate.
    injection ED as <-. reflexivity. }
  subst e.
  unfold Convert.dms_value.
  rewrite (of_int_small_eq msec (S53 msec ltac:(lia))). cbn [bind].
  rewrite (truediv_finite _ (Fin 1000) eq_refl). cbn [bind].
  rewrite (of_int_small_eq sec (S53 sec ltac:(lia))). cbn [bind].
  rewrite (of_int_small_eq minute (S53 minute ltac:(lia))). cbn [bind].
  rewrite (truediv_finite _ (Fin 60) eq_refl). cbn [bind].
  rewrite ED. reflexivity.
Qed.

Lemma in_range_iff (lo x hi : Z) :
  Convert.in_range lo x hi = true <-> lo <= x < hi.
Proof.
  unfold Convert.in_range. rewrite andb_true_iff, Z.leb_le, Z.ltb_lt. tauto.
Qed.

(** The checks of [dms_hem_to_decimal] in the order of the code. *)
Lemma dms_hem_to_decimal_unfold (text : string) (is_lat : bool) :
  Convert.dms_hem_to_decimal text is_lat =
  let s := strip text in
  if (String.length s <? 2)%nat then Raise E_too_short
  else if negb (hem_ok is_lat s)
  then Raise (if is_lat then E_lat_hemisphere else E_lon_hemisphere)
  else
    match dms_groups s with
    | [g0; g1; g2; g3] =>
        match int_of_string g0, int_of_string g1,
              int_of_string g2, int_of_string g3 with
        | Ok deg, Ok minute, Ok sec, Ok msec =>
            if negb (Convert.in_range 0 minute 60) then Raise E_minutes_range
            else if negb (Convert.in_range 0 sec 60) then Raise E_seconds_range
            else if negb (Convert.in_range 0 msec 1000) then Raise E_msec_range
            else Convert.dms_value (upper (match s with
                                          | String c _ => c
                                          | EmptyString => "N"%char
                                          end)) deg minute sec msec
        | _, _, _, _ => Raise E_dms_non_numeric
        end
    | _ => Raise E_dms_shape
    end.
Proof.
  unfold Convert.dms_hem_to_decimal. cbv zeta.
  destruct (strip text) as [|c rest] eqn:Es.
  - reflexivity.
  - destruct (String.length (String c rest) <? 2)%nat; [reflexivity|].
    cbn [hem_ok dms_groups]. unfold hem_of_axis.
    destruct is_lat; cbn [andb negb].
    + destruct (Ascii.eqb (upper c) "N" || Ascii.eqb (upper c) "S");
        [|reflexivity]. cbn [negb].
      destruct (split "." rest) as [|g0 [|g1 [|g2 [|g3 [|g4 l]]]]]; try reflexivity.
      destruct (int_of_string g0) as [deg|e0] eqn:E0.
      2:{ rewrite (int_of_string_error _ _ E0). reflexivity. }
      destruct (int_of_string g1) as [minute|e1] eqn:E1.
      2:{ rewrite (int_of_string_error _ _ E1). reflexivity. }
      destruct (int_of_string g2) as [sec|e2] eqn:E2.
      2:{ rewrite (int_of_string_error _ _ E2). reflexivity. }
      destruct (int_of_string g3) as [msec|e3] eqn:E3.
      2:{ rewrite (int_of_string_error _ _ E3). reflexivity. }
      reflexivity.
    + destruct (Ascii.eqb (upper c) "E" || Ascii.eqb (upper c) "W");
        [|reflexivity]. cbn [negb].
      destruct (split "." rest) as [|g0 [|g1 [|g2 [|g3 [|g4 l]]]]]; try reflexivity.
      destruct (int_of_string g0) as [deg|e0] eqn:E0.
      2:{ rewrite (int_of_string_error _ _ E0). reflexivity. }
      destruct (int_of_string g1) as [minute|e1] eqn:E1.
      2:{ rewrite (int_of_string_error _ _ E1). reflexivity. }
      destruct (int_of_string g2) as [sec|e2] eqn:E2.
      2:{ rewrite (int_of_string_error _ _ E2). reflexivity. }
      destruct (int_of_string g3) as [msec|e3] eqn:E3.
      2:{ rewrite (int_of_string_error _ _ E3). reflexivity. }
      reflexivity.
Qed.

(** C5 (amended).  For a text of code points below 256, let [s] be the
    text without surrounding whitespace.  [dms_hem_to_decimal] raises a
    format error when [s] does not start with a hemisphere letter of the
    axis (N/S for latitude, E/W for longitude, either case) or when what
    follows does not split into exactly 4 dot-separated groups that [int]
    accepts; it raises a range error when the minutes or seconds are
    outside [0,60) or the milliseconds outside [0,1000); and on a text that
    passes these checks, with degrees that fit a float, it returns
    [deg + minute/60.0 + (sec + msec/1000.0)/3600.0], negated exactly when
    the letter is S or W.  Degrees too large for a float raise
    [OverflowError]. *)
Theorem dms_hem_to_decimal_spec (text : string) (is_lat : bool) :
  let s := strip text in
  (hem_ok is_lat s = false ->
   exists e, Convert.dms_hem_to_decimal text is_lat = Raise e /\
             is_format_error e = true) /\
  (hem_ok is_lat s = true ->
   List.length (dms_groups s) <> 4%nat \/
   existsb (fun g => negb (is_numeric g)) (dms_groups s) = true ->
   exists e, Convert.dms_hem_to_decimal text is_lat = Raise e /\
             is_format_error e = true) /\
  (forall g0 g1 g2 g3 deg minute sec msec,
      hem_ok is_lat s = true ->
      dms_groups s = [g0; g1; g2; g3] ->
      int_of_string g0 = Ok deg -> int_of_string g1 = Ok minute ->
      int_of_string g2 = Ok sec -> int_of_string g3 = Ok msec ->
      (~ (0 <= minute < 60) \/ ~ (0 <= sec < 60) \/ ~ (0 <= msec < 1000) ->
       exists e, Convert.dms_hem_to_decimal text is_lat = Raise e /\
                 is_range_error e = true) /\
      (0 <= minute < 60 -> 0 <= sec < 60 -> 0 <= msec < 1000 ->
       (forall fdeg, of_int deg = Ok fdeg ->
          exists c rest, s = String c rest /\
          Convert.dms_hem_to_decimal text is_lat =
            Ok (if negative_hem (upper c)
                then opp (dms_formula fdeg minute sec msec)
                else dms_formula fdeg minute sec msec)) /\
       (forall e, of_int deg = Raise e ->
          Convert.dms_hem_to_decimal text is_lat = Raise E_int_too_large))).
Proof.
  intro s. rewrite dms_hem_to_decimal_unfold. fold s. cbv zeta.
  split; [|split].
  - intro H. rewrite H. cbn [negb].
    destruct (String.length s <? 2)%nat.
    + eexists. split; reflexivity.
    + destruct is_lat; eexists; split; reflexivity.
  - intros H Hg. rewrite H. cbn [negb].
    destruct (String.length s <? 2)%nat; [eexists; split; reflexivity|].
    destruct (dms_groups s) as [|g0 [|g1 [|g2 [|g3 [|g4 l]]]]];
      try (eexists; split; reflexivity).
    destruct Hg as [Hg|Hg]; [cbn [List.length] in Hg; lia|].
    cbn [existsb] in Hg. unfold is_numeric in Hg.
    destruct (int_of_string g0); [|eexists; split; reflexivity].
    destruct (int_of_string g1); [|eexists; split; reflexivity].
    destruct (int_of_string g2); [|eexists; split; reflexivity].
    destruct (int_of_string g3); [|eexists; split; reflexivity].
    discriminate Hg.
  - intros g0 g1 g2 g3 deg minute sec msec H Eg E0 E1 E2 E3.
    assert (Hlen : (String.length s <? 2)%nat = false).
    { destruct s as [|c [|d r]]; try reflexivity; try discriminate H.
      cbn [dms_groups split] in Eg. discriminate Eg. }
    rewrite Hlen, H, Eg, E0, E1, E2, E3. cbn [negb].
    split.
    + intro Hr.
      destruct (Convert.in_range 0 minute 60) eqn:R1;
        [|eexists; split; reflexivity].
      destruct (Convert.in_range 0 sec 60) eqn:R2;
        [|eexists; split; reflexivity].
      destruct (Convert.in_range 0 msec 1000) eqn:R3;
        [|eexists; split; reflexivity].
      apply in_range_iff in R1, R2, R3. tauto.
    + intros HM HS HK.
      rewrite (proj2 (in_range_iff 0 minute 60) HM).
      rewrite (proj2 (in_range_iff 0 sec 60) HS).
      rewrite (proj2 (in_range_iff 0 msec 1000) HK). cbn [negb].
      split.
      * intros fdeg ED. destruct s as [|c rest]; [discriminate H|].
        exists c, rest. split; [reflexivity|].
        apply dms_value_formula; assumption.
      * intros e ED. apply dms_value_overflow with (e := e); assumption.
Qed.

(** A wrong letter, three groups, a degree group that starts with the
    separator U+001F (which [str.strip] removes and [int] rejects),
    60 minutes, and a southern latitude. *)
Lemma dms_hem_to_decimal_spec_witness :
  (exists e, Convert.dms_hem_to_decimal "X050.54.03.056" true = Raise e /\
             is_format_error e = true) /\
  (exists e, Convert.dms_hem_to_decimal "N050.54.03" true = Raise e /\
             is_format_error e = true) /\
  (exists e, Convert.dms_hem_to_decimal
               (String "N" (String (ascii_of_N 31) "050.54.03.056")) true
             = Raise e /\
             is_format_error e = true) /\
  (exists e, Convert.dms_hem_to_decimal "N050.60.03.056" true = Raise e /\
             is_range_error e = true) /\
  (exists c rest, strip "S050.54.03.056" = String c rest /\
     Convert.dms_hem_to_decimal "S050.54.03.056" true =
       Ok (if negative_hem (upper c)
           then opp (dms_formula (float_of_Z 50) 54 3 56)
           else dms_formula (float_of_Z 50) 54 3 56)).
Proof.
  split; [|split; [|split; [|split]]].
  - apply (proj1 (dms_hem_to_decimal_spec "X050.54.03.056" true)).
    vm_compute. reflexivity.
  - apply (proj1 (proj2 (dms_hem_to_decimal_spec "N050.54.03" true))).
    + vm_compute. reflexivity.
    + left. vm_compute. discriminate.
  - apply (proj1 (proj2 (dms_hem_to_decimal_spec
                           (String "N" (String (ascii_of_N 31) "050.54.03.056"))
                           true))).
    + vm_compute. reflexivity.
    + right. vm_compute. reflexivity.
  - refine (proj1 (proj2 (proj2 (dms_hem_to_decimal_spec "N050.60.03.056" true))
                     "050" "60" "03" "056" 50 60 3 56 _ _ _ _ _ _) _);
      try (vm_compute; reflexivity).
    left. lia.
  - refine (proj1 (proj2 (proj2 (proj2 (dms_hem_to_decimal_spec "S050.54.03.056" true))
                     "050" "54" "03" "056" 50 54 3 56 _ _ _ _ _ _) _ _ _)
                     (float_of_Z 50) _);
      try (vm_compute; reflexivity); lia.
Defined.

End DmsParser.

Section RunwayRecords.

(** ** Runway records *)

(** The fields that [convert_record_line] joins. *)
Lemma convert_fields_eight
    (reverse : bool) (decimal_places : Z)
    (p0 p1 c2 c3 c4 c5 c6 c7 c8 c9 : string) (tail : list string) :
  let parts := p0 :: p1 :: c2 :: c3 :: c4 :: c5 :: c6 :: c7 :: c8 :: c9 :: tail in
  Convert.convert_fields (seq 0 8) reverse decimal_places parts parts =
    (v2 <- Convert.convert_field reverse decimal_places true (strip c2) ;;
     v3 <- Convert.convert_field reverse decimal_places false (strip c3) ;;
     v4 <- Convert.convert_field reverse decimal_places true (strip c4) ;;
     v5 <- Convert.convert_field reverse decimal_places false (strip c5) ;;
     v6 <- Convert.convert_field reverse decimal_places true (strip c6) ;;
     v7 <- Convert.convert_field reverse decimal_places false (strip c7) ;;
     v8 <- Convert.convert_field reverse decimal_places true (strip c8) ;;
     v9 <- Convert.convert_field reverse decimal_places false (strip c9) ;;
     Ok (p0 :: p1 :: v2 :: v3 :: v4 :: v5 :: v6 :: v7 :: v8 :: v9 :: tail)).
Proof.
  cbv zeta.
  cbn [seq Convert.convert_fields Nat.add nth Nat.even].
  destruct (Convert.convert_field reverse decimal_places true (strip c2)); [|reflexivity].
  cbn [bind list_set].
  destruct (Convert.convert_field reverse decimal_places false (strip c3)); [|reflexivity].
  cbn [bind list_set].
  destruct (Convert.convert_field reverse decimal_places true (strip c4)); [|reflexivity].
  cbn [bind list_set].
  destruct (Convert.convert_field reverse decimal_places false (strip c5)); [|reflexivity].
  cbn [bind list_set].
  destruct (Convert.convert_field reverse decimal_places true (strip c6)); [|reflexivity].
  cbn [bind list_set].
  destruct (Convert.convert_field reverse decimal_places false (strip c7)); [|reflexivity].
  cbn [bind list_set].
  destruct (Convert.convert_field reverse decimal_places true (strip c8)); [|reflexivity].
  cbn [bind list_set].
  destruct (Convert.convert_field reverse decimal_places false (strip c9)); [|reflexivity].
  reflexivity.
Qed.

Lemma convert_fields_eight_shape
    (reverse : bool) (decimal_places : Z)
    (p0 p1 c2 c3 c4 c5 c6 c7 c8 c9 : string) (tail out : list string) :
  Convert.convert_fields (seq 0 8) reverse decimal_places
    (p0 :: p1 :: c2 :: c3 :: c4 :: c5 :: c6 :: c7 :: c8 :: c9 :: tail)
    (p0 :: p1 :: c2 :: c3 :: c4 :: c5 :: c6 :: c7 :: c8 :: c9 :: tail) = Ok out ->
  exists v2 v3 v4 v5 v6 v7 v8 v9,
    out = p0 :: p1 :: v2 :: v3 :: v4 :: v5 :: v6 :: v7 :: v8 :: v9 :: tail.
Proof.
  rewrite convert_fields_eight.
  destruct (Convert.convert_field _ _ true (strip c2)) as [v2|]; [|discriminate].
  destruct (Convert.convert_field _ _ false (strip c3)) as [v3|]; [|discriminate].
  destruct (Convert.convert_field _ _ true (strip c4)) as [v4|]; [|discriminate].
  destruct (Convert.convert_field _ _ false (strip c5)) as [v5|]; [|discriminate].
  destruct (Convert.convert_field _ _ true (strip c6)) as [v6|]; [|discriminate].
  destruct (Convert.convert_field _ _ false (strip c7)) as [v7|]; [|discriminate].
  destruct (Convert.convert_field _ _ true (strip c8)) as [v8|]; [|discriminate].
  destruct (Convert.convert_field _ _ false (strip c9)) as [v9|]; [|discriminate].
  cbn [bind]. intro H. injection H as <-.
  exists v2, v3, v4, v5, v6, v7, v8, v9. reflexivity.
Qed.

(** C7 as stated fails.  The line is trimmed before it is split, so on a
    line with a blank on either side, or with the newline that a line read
    from a file ends with, the first and the last field of the output are
    not the input's: field 0 comes back without its leading and the last
    field without its trailing whitespace. *)
Lemma convert_record_line_counterexample :
  exists out,
    Convert.convert_record_line padded_record false 7 = Ok out /\
    nth 0 (split ":" padded_record) EmptyString = " EBBR" /\
    nth 0 (split ":" out) EmptyString = "EBBR" /\
    nth 11 (split ":" padded_record) EmptyString = "rem1,rem2 " ++ nl /\
    nth 11 (split ":" out) EmptyString = "rem1,rem2".
Proof.
  eexists. split; [vm_compute; reflexivity|].
  repeat split; vm_compute; reflexivity.
Qed.

(** C7 (amended).  On a non-blank line whose trimmed text has 11 or 12
    colon-separated fields, [convert_record_line] converts the fields at
    positions 2..9, each trimmed, latitude and longitude in turn starting
    with a latitude, and joins them with the fields at positions 0, 1, 10
    and 11 of the trimmed line as they stand (an error of a conversion is
    raised in place of the result); with any other number of fields it
    raises the field-count error.  The trimmed line has as many fields as
    the input line, and the same ones, except that the first has lost its
    leading and the last its trailing whitespace. *)
Theorem convert_record_line_frame
    (line : string) (reverse : bool) (decimal_places : Z) :
  is_empty (strip line) = false ->
  (forall p0 p1 c2 c3 c4 c5 c6 c7 c8 c9 p10 rest,
      split ":" (strip line)
      = p0 :: p1 :: c2 :: c3 :: c4 :: c5 :: c6 :: c7 :: c8 :: c9 :: p10 :: rest ->
      (List.length rest <= 1)%nat ->
      Convert.convert_record_line line reverse decimal_places =
        (v2 <- Convert.convert_field reverse decimal_places true (strip c2) ;;
         v3 <- Convert.convert_field reverse decimal_places false (strip c3) ;;
         v4 <- Convert.convert_field reverse decimal_places true (strip c4) ;;
         v5 <- Convert.convert_field reverse decimal_places false (strip c5) ;;
         v6 <- Convert.convert_field reverse decimal_places true (strip c6) ;;
         v7 <- Convert.convert_field reverse decimal_places false (strip c7) ;;
         v8 <- Convert.convert_field reverse decimal_places true (strip c8) ;;
         v9 <- Convert.convert_field reverse decimal_places false (strip c9) ;;
         Ok (join ":"
               (p0 :: p1 :: v2 :: v3 :: v4 :: v5 :: v6 :: v7 :: v8 :: v9
                   :: p10 :: rest)))) /\
  (List.length (split ":" (strip line)) <> 11%nat ->
   List.length (split ":" (strip line)) <> 12%nat ->
   Convert.convert_record_line line reverse decimal_places =
     Raise (E_field_count (List.length (split ":" (strip line)))) /\
   is_field_count_error
     (E_field_count (List.length (split ":" (strip line)))) = true) /\
  (List.length (split ":" (strip line)) = List.length (split ":" line) /\
   (forall i, (0 < i)%nat -> (S i < List.length (split ":" line))%nat ->
      nth i (split ":" (strip line)) EmptyString
      = nth i (split ":" line) EmptyString) /\
   ((2 <= List.length (split ":" line))%nat ->
    nth 0 (split ":" (strip line)) EmptyString
    = lstrip (nth 0 (split ":" line) EmptyString) /\
    last (split ":" (strip line)) EmptyString
    = rstrip (last (split ":" line) EmptyString))).
Proof.
  intro Hne. split; [|split; [|exact (split_strip ":" line eq_refl)]];
    unfold Convert.convert_record_line; cbv zeta; rewrite Hne.
  - intros p0 p1 c2 c3 c4 c5 c6 c7 c8 c9 p10 rest E Hr. rewrite E.
    assert (Hlen : negb ((List.length (p0 :: p1 :: c2 :: c3 :: c4 :: c5 :: c6 :: c7
                    :: c8 :: c9 :: p10 :: rest) =? 11)
                  || (List.length (p0 :: p1 :: c2 :: c3 :: c4 :: c5 :: c6 :: c7
                    :: c8 :: c9 :: p10 :: rest) =? 12))%nat = false).
    { destruct rest as [|r0 [|r1 rest]]; [reflexivity | reflexivity |].
      cbn [List.length] in Hr. lia. }
    rewrite Hlen, convert_fields_eight.
    repeat (destruct (Convert.convert_field _ _ _ _); [cbn [bind]|reflexivity]).
    reflexivity.
  - intros H11 H12.
    destruct (Nat.eqb_spec (List.length (split ":" (strip line))) 11) as [C|_];
      [contradiction|].
    destruct (Nat.eqb_spec (List.length (split ":" (strip line))) 12) as [C|_];
      [contradiction|].
    split; reflexivity.
Qed.

(** A record of 12 fields, a line of 3, and the first field of the record
    with a blank on either side. *)
Lemma convert_record_line_frame_witness :
  Convert.convert_record_line sample_record false 7 =
    Ok "EBBR:25L:N050.54.03.056:E004.28.32.468:N050.54.00.000:E004.24.00.000:N050.48.00.000:E004.30.00.000:N050.42.00.000:E004.36.00.000:12:rem1,rem2" /\
  Convert.convert_record_line "a:b:c" false 7 = Raise (E_field_count 3) /\
  nth 0 (split ":" (strip padded_record)) EmptyString
  = lstrip (nth 0 (split ":" padded_record) EmptyString).
Proof.
  split; [|split].
  - refine (proj1 (convert_record_line_frame sample_record false 7 _)
              "EBBR" "25L" "50.9008489" "4.4756856" "50.9" "4.4" "50.8" "4.5"
              "50.7" "4.6" "12" ["rem1,rem2"] _ _).
    + vm_compute. reflexivity.
    + vm_compute. reflexivity.
    + cbn [List.length]. lia.
  - refine (proj1 (proj1 (proj2 (convert_record_line_frame "a:b:c" false 7 _)) _ _)).
    + vm_compute. reflexivity.
    + vm_compute. discriminate.
    + vm_compute. discriminate.
  - refine (proj1 (proj2 (proj2 (proj2 (proj2
              (convert_record_line_frame padded_record false 7 _)))) _)).
    + vm_compute. reflexivity.
    + vm_compute. lia.
Defined.

End RunwayRecords.

Section GeoJsonFeatures.

(** ** GeoJSON features *)

Lemma read_coords_spec (n : nat) :
  forall tokens coords,
    List.length tokens = (2 * n)%nat ->
    GeoJson.read_coords tokens = Ok coords ->
    List.length coords = n /\
    forall i, (i < n)%nat ->
      GeoJson._to_float (nth (2 * i) tokens EmptyString)
        = Ok (snd (nth i coords origin)) /\
      GeoJson._to_float (nth (2 * i + 1) tokens EmptyString)
        = Ok (fst (nth i coords origin)).
Proof.
  induction n as [|n IH]; intros tokens coords Hlen H.
  - destruct tokens; [|discriminate Hlen].
    injection H as <-. split; [reflexivity | intros i Hi; lia].
  - destruct tokens as [|lat_s [|lon_s rest]]; try (cbn in Hlen; lia).
    cbn [GeoJson.read_coords] in H.
    destruct (GeoJson._to_float lat_s) as [lat|] eqn:Elat; [|discriminate H].
    destruct (GeoJson._to_float lon_s) as [lon|] eqn:Elon; [|discriminate H].
    cbn [bind] in H.
    destruct (GeoJson.read_coords rest) as [cs|] eqn:Er; [|discriminate H].
    cbn [bind] in H. injection H as <-.
    assert (Hl : List.length rest = (2 * n)%nat) by (cbn in Hlen; lia).
    destruct (IH rest cs Hl Er) as [L N].
    split; [cbn [List.length]; lia|].
    intros [|i] Hi.
    + split; assumption.
    + replace (2 * S i)%nat with (S (S (2 * i))) by lia.
      replace (S (S (2 * i)) + 1)%nat with (S (S (2 * i + 1))) by lia.
      cbn [nth]. apply N. lia.
Qed.

Lemma even_double (m : nat) : Nat.even m = true -> exists n, m = (2 * n)%nat.
Proof.
  intro H. apply Nat.even_spec in H. destruct H as [n ->]. exists n. reflexivity.
Qed.

(** C8.  For every line from which [parse_line] builds a feature, the
    coordinates are the (lon, lat) pairs of the coordinate tokens in input
    order; 4 points give a Polygon with one ring of 5 entries whose last
    entry repeats the first, 2 points give a LineString of those 2 entries,
    and every other number of points gives a LineString over all points,
    not a Polygon. *)
Theorem parse_line_geometry (line : string) (feat : GeoJson.feature) :
  GeoJson.parse_line line = Ok (Some feat) ->
  let tokens := coord_tokens_of line in
  exists coords,
    GeoJson.read_coords tokens = Ok coords /\
    (2 * List.length coords = List.length tokens)%nat /\
    (forall i, (i < List.length coords)%nat ->
       GeoJson._to_float (nth (2 * i) tokens EmptyString)
         = Ok (snd (nth i coords origin)) /\
       GeoJson._to_float (nth (2 * i + 1) tokens EmptyString)
         = Ok (fst (nth i coords origin))) /\
    (List.length coords = 4%nat ->
       GeoJson.f_geometry feat
         = GeoJson.Polygon [(coords ++ [nth 0 coords origin])%list] /\
       List.length (coords ++ [nth 0 coords origin])%list = 5%nat /\
       nth 4 (coords ++ [nth 0 coords origin])%list origin = nth 0 coords origin) /\
    (List.length coords = 2%nat ->
       GeoJson.f_geometry feat = GeoJson.LineString coords) /\
    (List.length coords <> 4%nat ->
       GeoJson.f_geometry feat = GeoJson.LineString coords).
Proof.
  intros H tokens. unfold GeoJson.parse_line in H. cbv zeta in H.
  destruct (is_empty (strip line) || starts_with "#" (strip line));
    [discriminate H|].
  destruct (List.length (split ":" (strip line)) <? 3)%nat; [discriminate H|].
  unfold tokens, coord_tokens_of.
  destruct (GeoJson.split_remarks (skipn 2 (split ":" (strip line))))
    as [remarks rest].
  cbn [snd].
  destruct rest as [|r0 rest0]; [discriminate H|].
  set (rest := r0 :: rest0) in *.
  destruct ((List.length (removelast rest) <? 4)%nat
            || negb (Nat.even (List.length (removelast rest)))) eqn:Ec;
    [discriminate H|].
  apply orb_false_iff in Ec. destruct Ec as [_ Ev].
  apply negb_false_iff in Ev.
  destruct (GeoJson.read_coords (removelast rest)) as [coords|] eqn:Er;
    [|discriminate H].
  cbn [bind] in H. injection H as <-. cbn [GeoJson.f_geometry].
  destruct (even_double _ Ev) as [n Hn].
  destruct (read_coords_spec n _ _ Hn Er) as [L N].
  exists coords. split; [reflexivity|].
  split; [lia|]. split; [rewrite L; exact N|].
  unfold GeoJson.choose_geometry. fold origin.
  split; [|split].
  - intro H4. rewrite H4. cbn [Nat.eqb]. split; [reflexivity|].
    split; [rewrite length_app; cbn [List.length]; lia|].
    rewrite app_nth2 by lia. rewrite H4. reflexivity.
  - intro H2. rewrite H2. reflexivity.
  - intro H4. destruct (Nat.eqb_spec (List.length coords) 4) as [C|_];
      [contradiction|].
    destruct (List.length coords =? 2)%nat; reflexivity.
Qed.

(** A line with 4 pairs and a line with 2. *)
Lemma parse_line_geometry_witness :
  (exists feat ring,
     GeoJson.parse_line sample_polygon_line = Ok (Some feat) /\
     GeoJson.f_geometry feat = GeoJson.Polygon [ring] /\
     List.length ring = 5%nat /\ nth 4 ring origin = nth 0 ring origin) /\
  (exists feat coords,
     GeoJson.parse_line sample_segment_line = Ok (Some feat) /\
     GeoJson.f_geometry feat = GeoJson.LineString coords /\
     List.length coords = 2%nat).
Proof.
  split.
  - destruct (GeoJson.parse_line sample_polygon_line) as [[feat|]|] eqn:E;
      try (vm_compute in E; discriminate E).
    destruct (parse_line_geometry sample_polygon_line feat E)
      as (coords & Er & _ & _ & H4 & _).
    assert (L : List.length coords = 4%nat).
    { vm_compute in Er. injection Er as <-. reflexivity. }
    destruct (H4 L) as (G & L5 & N).
    exists feat, (coords ++ [nth 0 coords origin])%list.
    split; [reflexivity|]. split; [exact G|]. split; [exact L5|].
    rewrite N. destruct coords; [discriminate L | reflexivity].
  - destruct (GeoJson.parse_line sample_segment_line) as [[feat|]|] eqn:E;
      try (vm_compute in E; discriminate E).
    destruct (parse_line_geometry sample_segment_line feat E)
      as (coords & Er & _ & _ & _ & H2 & _).
    assert (L : List.length coords = 2%nat).
    { vm_compute in Er. injection Er as <-. reflexivity. }
    exists feat, coords. split; [reflexivity|]. split; [exact (H2 L) | exact L].
Defined.

(** C10.  A line that is neither blank nor a comment and has fewer than 3
    colon-separated fields, or on which nothing is left once the trailing
    comma-bearing remarks field is removed, makes [parse_line] return
    [None]: [convert_file] goes on to the next line without a feature and
    without an error.  When something is left, a number of coordinate
    tokens below 4 or odd raises the coordinate-count error. *)
Theorem parse_line_skips (line : string) :
  let s := strip line in
  let parts := split ":" s in
  let rest := snd (GeoJson.split_remarks (skipn 2 parts)) in
  is_empty s = false -> starts_with "#" s = false ->
  ((List.length parts < 3)%nat -> GeoJson.parse_line line = Ok None) /\
  ((3 <= List.length parts)%nat -> rest = [] ->
   GeoJson.parse_line line = Ok None) /\
  ((3 <= List.length parts)%nat -> rest <> [] ->
   (List.length (removelast rest) < 4)%nat \/
   Nat.even (List.length (removelast rest)) = false ->
   GeoJson.parse_line line = Raise E_bad_coord_count) /\
  (GeoJson.parse_line line = Ok None ->
   forall lineno lines features,
     GeoJson.convert_lines lineno (line :: lines) features
     = GeoJson.convert_lines (S lineno) lines features).
Proof.
  intros s parts rest He Hc.
  unfold GeoJson.parse_line. cbv zeta. fold s. rewrite He, Hc. cbn [orb].
  fold parts. split; [|split; [|split]].
  - intro H. apply Nat.ltb_lt in H. rewrite H. reflexivity.
  - intros H Hr. apply Nat.ltb_ge in H. rewrite H.
    unfold rest in Hr.
    destruct (GeoJson.split_remarks (skipn 2 parts)) as [remarks rest'].
    cbn [snd] in Hr. rewrite Hr. reflexivity.
  - intros H Hr Hbad. apply Nat.ltb_ge in H. rewrite H.
    unfold rest in Hr, Hbad.
    destruct (GeoJson.split_remarks (skipn 2 parts)) as [remarks rest'].
    cbn [snd] in Hr, Hbad.
    destruct rest' as [|r0 rest0]; [contradiction|].
    assert (E : (List.length (removelast (r0 :: rest0)) <? 4)%nat
                || negb (Nat.even (List.length (removelast (r0 :: rest0)))) = true).
    { apply orb_true_iff. destruct Hbad as [Hb|Hb].
      - left. apply Nat.ltb_lt. exact Hb.
      - right. rewrite Hb. reflexivity. }
    rewrite E. reflexivity.
  - intros Hn lineno lines features. cbn [GeoJson.convert_lines].
    unfold GeoJson.parse_line. cbv zeta. fold s. rewrite He, Hc. cbn [orb].
    fold parts. rewrite Hn. reflexivity.
Qed.

(** Two skipped lines, two lines with a bad token count, and a file whose
    first line is skipped. *)
Lemma parse_line_skips_witness :
  GeoJson.parse_line "EBBR:25L" = Ok None /\
  GeoJson.parse_line "EBBR:25L:rem1,rem2" = Ok None /\
  GeoJson.parse_line "EBBR:25L:50.9:4.4:50.8:12" = Raise E_bad_coord_count /\
  GeoJson.parse_line "EBBR:25L:50.9:4.4:12" = Raise E_bad_coord_count /\
  GeoJson.convert_file ["EBBR:25L"; sample_segment_line]
  = GeoJson.convert_lines 2 [sample_segment_line] [].
Proof.
  split; [|split; [|split; [|split]]].
  - refine (proj1 (parse_line_skips "EBBR:25L" _ _) _);
      first [vm_compute; reflexivity | vm_compute; lia].
  - refine (proj1 (proj2 (parse_line_skips "EBBR:25L:rem1,rem2" _ _)) _ _);
      first [vm_compute; reflexivity | vm_compute; lia].
  - refine (proj1 (proj2 (proj2 (parse_line_skips "EBBR:25L:50.9:4.4:50.8:12" _ _))) _ _ _);
      first [vm_compute; reflexivity | vm_compute; discriminate
            | vm_compute; lia | left; vm_compute; lia].
  - refine (proj1 (proj2 (proj2 (parse_line_skips "EBBR:25L:50.9:4.4:12" _ _))) _ _ _);
      first [vm_compute; reflexivity | vm_compute; discriminate
            | vm_compute; lia | left; vm_compute; lia].
  - unfold GeoJson.convert_file.
    refine (proj2 (proj2 (proj2 (parse_line_skips "EBBR:25L" _ _))) _ 1%nat _ _);
      vm_compute; reflexivity.
Defined.

End GeoJsonFeatures.

Section OutputText.

(** ** The end of the output text *)

Lemma last_char_some (c : ascii) (r : string) :
  exists d, last_char (String c r) = Some d.
Proof.
  revert c. induction r as [|a r IH]; intro c.
  - exists c. reflexivity.
  - destruct (IH a) as [d E]. exists d. exact E.
Qed.

Lemma last_char_cons (c : ascii) (r : string) :
  last_char (String c r) =
  match last_char r with
  | Some d => Some d
  | None => Some c
  end.
Proof.
  destruct r as [|a r]; [reflexivity|].
  destruct (last_char_some a r) as [d E].
  change (last_char (String c (String a r))) with (last_char (String a r)).
  rewrite E. reflexivity.
Qed.

Lemma last_char_none (s : string) : last_char s = None -> s = "".
Proof.
  induction s as [|c r IH]; [reflexivity|].
  rewrite last_char_cons. destruct (last_char r); discriminate.
Qed.

Lemma last_char_append (a b : string) :
  last_char (a ++ b) =
  match last_char b with
  | Some d => Some d
  | None => last_char a
  end.
Proof.
  induction a as [|c r IH]; cbn [append].
  - destruct (last_char b); reflexivity.
  - rewrite !last_char_cons, IH. destruct (last_char b); reflexivity.
Qed.

Lemma last_char_rstrip_with (p : ascii -> bool) (s : string) (c : ascii) :
  last_char (rstrip_with p s) = Some c -> p c = false.
Proof.
  induction s as [|a r IH]; [discriminate|]. cbn [rstrip_with].
  destruct (is_empty (rstrip_with p r)) eqn:E.
  - destruct (p a) eqn:Pa; cbn [andb]; [discriminate|].
    destruct (rstrip_with p r); [|discriminate E].
    cbn [last_char]. intro H. injection H as <-. exact Pa.
  - cbn [andb]. rewrite last_char_cons.
    destruct (last_char (rstrip_with p r)) as [d|] eqn:L.
    + intro H. injection H as <-. apply IH. reflexivity.
    + apply last_char_none in L. rewrite L in E. discriminate E.
Qed.

Lemma last_char_strip (s : string) (c : ascii) :
  last_char (strip s) = Some c -> is_space c = false.
Proof. apply last_char_rstrip_with. Qed.

Lemma rstrip_with_append_one (p : ascii -> bool) (s : string) (c : ascii) :
  p c = true -> rstrip_with p (s ++ String c "") = rstrip_with p s.
Proof.
  intro Pc. induction s as [|a r IH]; cbn [append rstrip_with].
  - rewrite Pc. reflexivity.
  - rewrite IH. reflexivity.
Qed.

Lemma rstrip_with_keep (p : ascii -> bool) (s : string) :
  (forall c, last_char s = Some c -> p c = false) -> rstrip_with p s = s.
Proof.
  induction s as [|a r IH]; [reflexivity|]. intro H. cbn [rstrip_with].
  rewrite last_char_cons in H.
  destruct (last_char r) as [d|] eqn:L.
  - rewrite IH by (intros c Hc; apply H; exact Hc).
    destruct r; [discriminate L|]. reflexivity.
  - apply last_char_none in L. subst r. cbn [rstrip_with is_empty andb].
    rewrite (H a eq_refl). reflexivity.
Qed.

Lemma trailing_newlines_none (s : string) :
  (forall c, last_char s = Some c -> c <> newline) -> trailing_newlines s = 0%nat.
Proof.
  intro H. unfold trailing_newlines, rstrip_newlines.
  rewrite rstrip_with_keep; [lia|].
  intros c Hc. destruct (Ascii.eqb_spec newline c) as [E|]; [|reflexivity].
  exfalso. apply (H c Hc). symmetry. exact E.
Qed.

Lemma trailing_newlines_one (s : string) :
  (forall c, last_char s = Some c -> c <> newline) ->
  trailing_newlines (s ++ nl) = 1%nat.
Proof.
  intro H. unfold trailing_newlines, rstrip_newlines, nl.
  rewrite rstrip_with_append_one by apply Ascii.eqb_refl.
  rewrite rstrip_with_keep.
  - rewrite length_append. cbn [String.length]. lia.
  - intros c Hc. destruct (Ascii.eqb_spec newline c) as [E|]; [|reflexivity].
    exfalso. apply (H c Hc). symmetry. exact E.
Qed.

(** *** [split] keeps the end of the text in its last field *)

Lemma last_split_suffix_strong (sep : ascii) (s : string) :
  exists pre, s = pre ++ last (split sep s) "" /\
              (List.length (split sep s) = 1%nat -> pre = "").
Proof.
  induction s as [|c r IH]; [exists ""; split; reflexivity|].
  destruct IH as (pre & E & S1). cbn [split].
  pose proof (split_nonempty sep r) as NE.
  destruct (Ascii.eqb c sep).
  - exists (String c pre). cbn [append].
    destruct (split sep r) as [|h t]; [contradiction|].
    split; [|cbn [List.length]; lia].
    cbn [last] in *. f_equal. exact E.
  - destruct (split sep r) as [|h [|h' t]]; [contradiction| |].
    + cbn [last] in *. rewrite (S1 eq_refl) in E. cbn [append] in E.
      exists "". split; [cbn [append]; f_equal; exact E | reflexivity].
    + exists (String c pre). split; [|cbn [List.length]; lia].
      cbn [last] in *. cbn [append]. f_equal. exact E.
Qed.

Lemma last_split_suffix (sep : ascii) (s : string) :
  exists pre, s = pre ++ last (split sep s) "".
Proof.
  destruct (last_split_suffix_strong sep s) as (pre & E & _).
  exists pre. exact E.
Qed.

Lemma last_char_last_split (sep : ascii) (s : string) (c : ascii) :
  last_char (last (split sep s) "") = Some c -> last_char s = Some c.
Proof.
  intro H. destruct (last_split_suffix sep s) as [pre E].
  rewrite E at 1. rewrite last_char_append, H. reflexivity.
Qed.

Lemma join_snoc (sep : string) (l : list string) (x : string) :
  l <> [] -> join sep (l ++ [x]) = join sep l ++ sep ++ x.
Proof.
  induction l as [|a l IH]; [contradiction|]. intros _.
  destruct l as [|b l].
  - reflexivity.
  - change (join sep ((a :: b :: l) ++ [x]))
      with (a ++ sep ++ join sep ((b :: l) ++ [x])).
    rewrite IH by discriminate.
    change (join sep (a :: b :: l)) with (a ++ sep ++ join sep (b :: l)).
    rewrite !append_assoc. reflexivity.
Qed.

(** A joined record whose last field ends a stripped line does not end
    with a newline. *)
Lemma join_colon_last (l : list string) (x line : string) :
  l <> [] -> x = last (split ":" (strip line)) "" ->
  join ":" (l ++ [x]) <> "" /\
  forall c, last_char (join ":" (l ++ [x])) = Some c -> c <> newline.
Proof.
  intros Hl Hx. rewrite join_snoc by exact Hl. split.
  - destruct (join ":" l); discriminate.
  - intros c. rewrite !last_char_append.
    destruct (last_char x) as [d|] eqn:L.
    + intro H. injection H as <-. rewrite Hx in L.
      apply last_char_last_split, last_char_strip in L.
      intros ->. discriminate L.
    + cbn [last_char]. intro H. injection H as <-. discriminate.
Qed.

Lemma last_char_join (sep : string) (l : list string) :
  l <> [] -> last l "" <> "" ->
  last_char (join sep l) = last_char (last l "").
Proof.
  induction l as [|a l IH]; [contradiction|]. intros _ Hx.
  destruct l as [|b l]; [reflexivity|].
  change (join sep (a :: b :: l)) with (a ++ sep ++ join sep (b :: l)).
  change (last (a :: b :: l) "") with (last (b :: l) "") in *.
  rewrite !last_char_append, IH by (try discriminate; exact Hx).
  destruct (last_char (last (b :: l) "")) eqn:L; [reflexivity|].
  apply last_char_none in L. contradiction.
Qed.

Lemma output_text_one_newline (out_lines : list string) :
  out_lines <> [] -> last out_lines "" <> "" ->
  no_newline_end (last out_lines "") ->
  trailing_newlines (join nl out_lines ++ nl) = 1%nat.
Proof.
  intros Hne Hx Hn. apply trailing_newlines_one.
  intros c Hc. rewrite last_char_join in Hc by assumption.
  apply Hn. exact Hc.
Qed.

(** *** convert-coordinates.py *)

Lemma generic_convert_line_end (line s : string) :
  ConvertCoordinates.convert_line line = Ok s ->
  s = "" \/ (s <> "" /\ no_newline_end s).
Proof.
  unfold ConvertCoordinates.convert_line. cbv zeta.
  destruct (is_empty (strip line)); [intro H; injection H as <-; left; reflexivity|].
  destruct (starts_with "#" (strip line));
    [intro H; injection H as <-; left; reflexivity|].
  destruct (Nat.ltb_spec (List.length (split ":" (strip line))) 5) as [|Hlen];
    [discriminate|].
  destruct (negb _); [discriminate|].
  destruct (ConvertCoordinates.convert_pairs _) as [out|]; [|discriminate].
  cbn [bind]. intro H. injection H as <-. right.
  rewrite app_assoc.
  apply join_colon_last with (line := line); [|reflexivity].
  destruct (split ":" (strip line)) as [|p0 l]; [cbn in Hlen; lia|].
  discriminate.
Qed.

Lemma generic_main_loop_lines (raws : list string) :
  forall acc out,
    ConvertCoordinates.main_loop raws acc = Ok out ->
    Forall (fun l => l <> "" /\ no_newline_end l) acc ->
    Forall (fun l => l <> "" /\ no_newline_end l) out.
Proof.
  induction raws as [|raw raws IH]; intros acc out H Hacc.
  - injection H as <-. exact Hacc.
  - cbn [ConvertCoordinates.main_loop] in H.
    destruct (ConvertCoordinates.convert_line raw) as [s|] eqn:E; [|discriminate H].
    cbn [bind] in H.
    destruct (generic_convert_line_end raw s E) as [->|[Hs Hn]].
    + cbn [is_empty] in H. apply (IH acc out H Hacc).
    + destruct s as [|c r]; [contradiction|]. cbn [is_empty] in H.
      apply (IH _ out H). apply Forall_app. split; [exact Hacc|].
      constructor; [split; assumption | constructor].
Qed.

Lemma Forall_last (P : string -> Prop) (l : list string) :
  l <> [] -> Forall P l -> P (last l "").
Proof.
  intros Hne H. rewrite Forall_forall in H. apply H.
  destruct l as [|a l]; [contradiction|].
  destruct (exists_last (l := a :: l) ltac:(discriminate)) as (l' & x & ->).
  rewrite last_last. apply in_or_app. right. left. reflexivity.
Qed.

(** *** convert.py *)

Lemma runway_record_line_end (line : string) (reverse : bool) (places : Z) (s : string) :
  is_empty (strip line) = false ->
  Convert.convert_record_line line reverse places = Ok s ->
  s <> "" /\ no_newline_end s.
Proof.
  intros Hne. unfold Convert.convert_record_line. cbv zeta. rewrite Hne.
  destruct (split ":" (strip line))
    as [|p0 [|p1 [|c2 [|c3 [|c4 [|c5 [|c6 [|c7 [|c8 [|c9 [|p10 [|p11 [|p12 rest]]]]]]]]]]]]]
    eqn:E; try discriminate.
  - cbn [List.length Nat.eqb orb negb].
    destruct (Convert.convert_fields _ _ _ _ _) as [out|] eqn:Ef; [|discriminate].
    cbn [bind]. intro H. injection H as <-.
    destruct (convert_fields_eight_shape _ _ _ _ _ _ _ _ _ _ _ _ _ _ Ef)
      as (v2 & v3 & v4 & v5 & v6 & v7 & v8 & v9 & ->).
    apply (join_colon_last [p0; p1; v2; v3; v4; v5; v6; v7; v8; v9] p10 line);
      [discriminate | rewrite E; reflexivity].
  - cbn [List.length Nat.eqb orb negb].
    destruct (Convert.convert_fields _ _ _ _ _) as [out|] eqn:Ef; [|discriminate].
    cbn [bind]. intro H. injection H as <-.
    destruct (convert_fields_eight_shape _ _ _ _ _ _ _ _ _ _ _ _ _ _ Ef)
      as (v2 & v3 & v4 & v5 & v6 & v7 & v8 & v9 & ->).
    apply (join_colon_last [p0; p1; v2; v3; v4; v5; v6; v7; v8; v9; p10] p11 line);
      [discriminate | rewrite E; reflexivity].
Qed.

Lemma runway_main_line_end (a : Convert.args) (raw : string)
    (w : list Convert.warning) (o : string) :
  Convert.main_line a raw = (w, Ok o) ->
  no_newline_end o /\ (o = "" -> rstrip_newlines raw = "").
Proof.
  unfold Convert.main_line. cbv zeta.
  destruct (starts_with "#" (lstrip raw) || is_empty (strip raw)) eqn:P.
  - intro H. injection H as _ <-. split; [|intro H; exact H].
    intros c Hc. apply last_char_rstrip_with in Hc.
    intros ->. rewrite Ascii.eqb_refl in Hc. discriminate Hc.
  - apply orb_false_iff in P. destruct P as [_ Hne].
    destruct (negb _); [discriminate|].
    destruct (if Convert.arg_force a then _ else _) as [chosen ws].
    destruct (Convert.convert_record_line raw chosen (Convert.arg_decimal_places a))
      as [s|e] eqn:E.
    + intro H. injection H as _ <-.
      destruct (runway_record_line_end raw chosen _ s Hne E) as [Hs Hn].
      split; [exact Hn | intro C; contradiction].
    + destruct (is_value_error e); discriminate.
Qed.

Lemma runway_main_loop_lines (a : Convert.args) (raws : list string) :
  forall acc ws w out,
    Convert.main_loop a raws acc ws = (w, Ok out) ->
    Forall no_newline_end acc -> Forall no_newline_end out.
Proof.
  induction raws as [|raw raws IH]; intros acc ws w out H Hacc.
  - injection H as _ <-. exact Hacc.
  - cbn [Convert.main_loop] in H.
    destruct (Convert.main_line a raw) as [w1 [o|e]] eqn:E; [|discriminate H].
    apply (IH _ _ _ _ H). apply Forall_app. split; [exact Hacc|].
    constructor; [|constructor].
    apply (runway_main_line_end a raw w1 o E).
Qed.

(** The last collected line comes from the last input line. *)
Lemma runway_main_loop_last (a : Convert.args) (raws : list string) :
  forall acc ws w out,
    Convert.main_loop a raws acc ws = (w, Ok out) ->
    raws <> [] ->
    out <> [] /\
    exists w', Convert.main_line a (last raws "") = (w', Ok (last out "")).
Proof.
  induction raws as [|raw raws IH]; intros acc ws w out H Hne; [contradiction|].
  cbn [Convert.main_loop] in H.
  destruct (Convert.main_line a raw) as [w1 [o|e]] eqn:E; [|discriminate H].
  destruct raws as [|raw' raws].
  - cbn [Convert.main_loop] in H. injection H as _ <-.
    split; [destruct acc; discriminate|].
    exists w1. cbn [last]. rewrite last_last. exact E.
  - change (last (raw :: raw' :: raws) "") with (last (raw' :: raws) "").
    apply (IH _ _ _ _ H). discriminate.
Qed.

(** *** geojson.py *)

Lemma dumps_collection_end (float_repr : float -> string)
    (features : list GeoJson.feature) :
  last_char (GeoJson.dumps float_repr (GeoJson.json_of_collection features))
  = Some "}"%char.
Proof.
  unfold GeoJson.dumps, GeoJson.json_of_collection.
  cbn [GeoJson.dumps_at]. rewrite !last_char_append. reflexivity.
Qed.

(** C9 as stated fails.  The GeoJSON tool writes [json.dumps(...)] as it
    is: the text is never empty and has no trailing newline.  The runway
    tool passes a blank last line through as an empty output line, and the
    text then ends with two newlines. *)
Lemma output_newline_counterexample :
  (forall float_repr,
     exists text,
       GeoJson.main float_repr [] = Ok text /\ text <> "" /\
       trailing_newlines text = 0%nat) /\
  (exists w text,
     Convert.main default_args (Lines [sample_record ++ nl; nl]) = (w, Ok text) /\
     text <> "" /\ trailing_newlines text = 2%nat).
Proof.
  split.
  - intro float_repr. eexists. split; [reflexivity|].
    split; [discriminate | vm_compute; reflexivity].
  - eexists. eexists. split; [vm_compute; reflexivity|].
    split; [discriminate | vm_compute; reflexivity].
Qed.

(** C9 (amended).  The generic tool writes the empty text or a text that
    ends with exactly one newline.  The runway tool writes the collected
    lines joined by newlines and followed by one more newline, the empty
    text when no line was collected; the text ends with exactly one newline
    whenever the last collected line is not empty, and so whenever the last
    input line holds a character other than a newline.  The GeoJSON tool
    writes a JSON document that is not empty and ends with a closing brace,
    without a trailing newline. *)
Theorem output_text_newline :
  (forall i text,
      ConvertCoordinates.main i = Ok text ->
      text = "" \/ trailing_newlines text = 1%nat) /\
  (forall a i w text,
      Convert.main a i = (w, Ok text) ->
      exists out_lines,
        Convert.main_loop a (iter_input_lines i) [] [] = (w, Ok out_lines) /\
        text = Convert.output_text out_lines /\
        (out_lines = [] -> text = "") /\
        (out_lines <> [] -> last out_lines "" <> "" ->
         trailing_newlines text = 1%nat) /\
        (iter_input_lines i <> [] ->
         rstrip_newlines (last (iter_input_lines i) "") <> "" ->
         trailing_newlines text = 1%nat)) /\
  (forall float_repr lines text,
      GeoJson.main float_repr lines = Ok text ->
      text <> "" /\ last_char text = Some "}"%char /\
      trailing_newlines text = 0%nat).
Proof.
  split; [|split].
  - intros i text. unfold ConvertCoordinates.main.
    destruct (ConvertCoordinates.main_loop (iter_input_lines i) []) as [out|] eqn:E;
      [|discriminate].
    cbn [bind]. intro H. injection H as <-.
    pose proof (generic_main_loop_lines _ _ _ E (Forall_nil _)) as F.
    unfold ConvertCoordinates.output_text.
    destruct out as [|l0 out]; [left; reflexivity|]. right.
    set (ls := l0 :: out) in *.
    assert (Hne : ls <> []) by discriminate.
    destruct (Forall_last _ ls Hne F) as [Hx Hn].
    apply output_text_one_newline; assumption.
  - intros a i w text. unfold Convert.main.
    destruct (Convert.main_loop a (iter_input_lines i) [] []) as [w' [out|e]] eqn:E;
      cbn [bind]; intro H; [|discriminate H].
    injection H as <- <-. exists out.
    split; [reflexivity|]. split; [reflexivity|].
    split; [intros ->; reflexivity|].
    pose proof (runway_main_loop_lines a _ _ _ _ _ E (Forall_nil _)) as F.
    assert (One : out <> [] -> last out "" <> "" ->
                  trailing_newlines (Convert.output_text out) = 1%nat).
    { intros Hne Hx. unfold Convert.output_text.
      destruct out as [|l0 out]; [contradiction|].
      set (ls := l0 :: out) in *.
      apply output_text_one_newline; try assumption.
      apply (Forall_last _ ls Hne F). }
    split; [exact One|].
    intros Hraws Hlast.
    destruct (runway_main_loop_last a _ _ _ _ _ E Hraws) as (Hne & w1 & El).
    apply One; [exact Hne|].
    intro C. apply Hlast.
    apply (proj2 (runway_main_line_end a _ w1 _ El)). exact C.
  - intros float_repr lines text. unfold GeoJson.main.
    destruct (GeoJson.convert_file lines) as [fs|]; [|discriminate].
    cbn [bind]. intro H. injection H as <-.
    pose proof (dumps_collection_end float_repr fs) as L.
    split; [|split].
    + intro C. rewrite C in L. discriminate L.
    + exact L.
    + apply trailing_newlines_none. intros c Hc. rewrite L in Hc.
      injection Hc as <-. discriminate.
Qed.

(** The three tools on one record, and on no line for the GeoJSON tool. *)
Lemma output_text_newline_witness :
  ("KXYZ:09:N050.54.03.056:E004.28.32.468:TAIL" ++ nl = "" \/
   trailing_newlines ("KXYZ:09:N050.54.03.056:E004.28.32.468:TAIL" ++ nl)
   = 1%nat) /\
  (exists out_lines,
     Convert.main_loop default_args (iter_input_lines (Direct sample_record)) [] []
       = ([], Ok out_lines) /\
     (out_lines <> [] -> last out_lines "" <> "" ->
      trailing_newlines (Convert.output_text out_lines) = 1%nat)) /\
  (forall float_repr,
     last_char (GeoJson.dumps float_repr (GeoJson.json_of_collection []))
     = Some "}"%char).
Proof.
  split; [|split].
  - apply (proj1 output_text_newline
             (Direct "KXYZ:09:50.9008489:4.4756856:TAIL")).
    vm_compute. reflexivity.
  - destruct (proj1 (proj2 output_text_newline) default_args (Direct sample_record)
                []
                ("EBBR:25L:N050.54.03.056:E004.28.32.468:N050.54.00.000:E004.24.00.000:N050.48.00.000:E004.30.00.000:N050.42.00.000:E004.36.00.000:12:rem1,rem2" ++ nl))
      as (out_lines & E & Et & _ & H1 & _).
    + vm_compute. reflexivity.
    + exists out_lines. split; [exact E|].
      rewrite Et in H1. exact H1.
  - intro float_repr.
    apply (proj2 (proj2 output_text_newline) float_repr []). reflexivity.
Defined.

End OutputText.

Section RoundingResults.

Open Scope Q_scope.

(** ** Every result of a rounding is a double *)

Lemma pow2_minus (a b : Z) : 2 ^ (a - b) == 2 ^ a / 2 ^ b.
Proof.
  pose proof (pow2_pos b) as Hb.
  replace a with ((a - b) + b)%Z at 2 by lia.
  rewrite pow2_plus. field. lra.
Qed.

(** A multiple [m * 2^e] of a representable power of two, with at most 53
    bits in [m], is left alone by the rounding. *)
Lemma round_mag_fixed (m e : Z) :
  (0 < m <= 2 ^ 53)%Z -> (-1074 <= e)%Z ->
  round_mag (inject_Z m * 2 ^ e) == inject_Z m * 2 ^ e.
Proof.
  intros Hm He.
  set (a := inject_Z m * 2 ^ e).
  pose proof (pow2_pos e) as Pe.
  assert (Hm1 : 1 <= inject_Z m).
  { change 1 with (inject_Z 1). apply inject_Z_le. lia. }
  assert (Ha : 0 < a) by (unfold a; nra).
  assert (Eabs : Qabs a == a) by (apply Qabs_pos; lra).
  rewrite <- Eabs at 2.
  destruct (Z_le_gt_dec (cexp a) e) as [C|C].
  - apply (round_mag_grid a (m * 2 ^ (e - cexp a))).
    rewrite Eabs. generalize dependent (cexp a). intros c C.
    unfold a. rewrite inject_Z_mult.
    rewrite <- (pow2_inject (e - c)) by lia.
    rewrite pow2_minus. pose proof (pow2_pos c). field. lra.
  - assert (Hl : (e + 53 <= Qlog2 (Qabs a))%Z) by (unfold cexp in C; lia).
    assert (Hpos : 0 < Qabs a) by lra.
    destruct (Qlog2_spec (Qabs a) Hpos) as [L _].
    pose proof (pow2_le (e + 53) (Qlog2 (Qabs a)) Hl) as L'.
    rewrite pow2_plus in L'.
    assert (L2 : 2 ^ Qlog2 (Qabs a) <= a) by lra.
    clear L. rename L2 into L.
    assert (M53 : 2 ^ 53 <= inject_Z m).
    { apply (Qmult_le_r _ _ (2 ^ e)); [exact Pe|].
      assert (Ea0 : a == inject_Z m * 2 ^ e) by reflexivity. lra. }
    rewrite pow2_inject in M53 by lia. apply inject_Z_le_inv in M53.
    assert (Em : m = (2 ^ 53)%Z) by lia.
    assert (Ea : a == 2 ^ (e + 53)).
    { unfold a. rewrite Em, <- pow2_inject by lia. rewrite pow2_plus. ring. }
    assert (El : Qlog2 (Qabs a) = (e + 53)%Z).
    { apply Qlog2_unique; rewrite Eabs, Ea.
      - lra.
      - apply pow2_lt. lia. }
    assert (Ec : cexp a = (e + 1)%Z) by (unfold cexp; rewrite El; lia).
    apply (round_mag_grid a (2 ^ 52)).
    rewrite Ec, Eabs, Ea. rewrite <- (pow2_inject 52) by lia.
    replace 52%Z with ((e + 53) - (e + 1))%Z by lia.
    rewrite pow2_minus. reflexivity.
Qed.

(** The integer that [round_mag] scales has at most 53 bits. *)
Lemma round_mag_bits (q : Q) :
  ~ q == 0 ->
  (0 <= Qround_half_even (Qabs q / 2 ^ cexp q) <= 2 ^ 53)%Z /\
  (-1074 <= cexp q)%Z.
Proof.
  intro Hq. pose proof (Qabs_pos_lt q Hq) as Hpos.
  pose proof (pow2_pos (cexp q)) as Pc.
  split; [|unfold cexp; lia].
  split.
  - apply Qround_half_even_nonneg.
    apply Qle_shift_div_l; [exact Pc|]. lra.
  - apply Qround_half_even_le.
    destruct (Qlog2_spec (Qabs q) Hpos) as [_ U].
    assert (Hc : (Qlog2 (Qabs q) + 1 <= cexp q + 53)%Z) by (unfold cexp; lia).
    pose proof (pow2_le _ _ Hc) as U'.
    pose proof (pow2_plus (cexp q) 53) as E1.
    rewrite <- pow2_inject by lia.
    assert (D : Qabs q / 2 ^ cexp q < 2 ^ 53).
    { apply Qlt_shift_div_r; [exact Pc|]. lra. }
    lra.
Qed.

Lemma round_mag_idem (q : Q) : round_mag (round_mag q) == round_mag q.
Proof.
  destruct (Qeq_dec q 0) as [Z0|NZ].
  - rewrite (round_mag_comp q 0 Z0). reflexivity.
  - destruct (round_mag_bits q NZ) as [[M0 M1] He].
    set (m := Qround_half_even (Qabs q / 2 ^ cexp q)) in *.
    destruct (Z.eq_dec m 0) as [Em|Nm].
    + assert (E0 : round_mag q == 0).
      { rewrite round_mag_eq. fold m. rewrite Em. ring. }
      rewrite (round_mag_comp _ 0 E0), E0. vm_compute. reflexivity.
    + assert (E : round_mag q == inject_Z m * 2 ^ cexp q) by apply round_mag_eq.
      rewrite (round_mag_comp _ _ E), E.
      apply round_mag_fixed; lia.
Qed.

(** A rational that the rounding leaves alone is a double. *)
Lemma is_double_fixed (r : Q) :
  round_mag r == Qabs r -> round_mag r < 2 ^ 1024 -> is_double (Fin r) = true.
Proof.
  intros E Hfin. destruct (RN_finite r Hfin) as [F V].
  unfold is_double.
  destruct (RN r) as [x| | |] eqn:R; try discriminate F.
  - apply Qeq_bool_iff. simpl in V. rewrite V.
    destruct (Qlt_bool r 0) eqn:S; rewrite E.
    + apply Qlt_bool_iff in S. rewrite Qabs_neg by lra. ring.
    + apply Qlt_bool_false_iff in S. apply Qabs_pos. exact S.
  - unfold RN in R.
    destruct (Qle_bool (2 ^ 1024) (round_mag r)); [discriminate R|].
    destruct (Qeq_bool (round_mag r) 0) eqn:Z1; [|discriminate R].
    destruct (Qlt_bool r 0) eqn:S; [|discriminate R].
    apply Qeq_bool_iff in Z1. rewrite E in Z1. apply (proj1 (Qabs_zero_iff r)) in Z1.
    apply Qlt_bool_iff in S. lra.
Qed.

Lemma RN_is_double (q : Q) : is_double (RN q) = true.
Proof.
  unfold RN.
  destruct (Qle_bool (2 ^ 1024) (round_mag q)) eqn:O; [reflexivity|].
  destruct (Qeq_bool (round_mag q) 0) eqn:Z0.
  { destruct (Qlt_bool q 0); reflexivity. }
  apply Qle_bool_false_iff in O.
  pose proof (round_mag_nonneg q) as Hn.
  pose proof (round_mag_idem q) as Hi.
  assert (Hr : forall r, Qabs r == round_mag q -> is_double (Fin r) = true).
  { intros r Hr.
    assert (Em : round_mag r == round_mag q).
    { rewrite <- (round_mag_abs r), (round_mag_comp _ _ Hr). exact Hi. }
    apply is_double_fixed; rewrite Em; [symmetry; exact Hr | exact O]. }
  destruct (Qlt_bool q 0); apply Hr.
  - rewrite Qabs_opp. apply Qabs_pos. exact Hn.
  - apply Qabs_pos. exact Hn.
Qed.

Lemma opp_is_double (x : float) : is_double x = true -> is_double (opp x) = true.
Proof.
  destruct x as [q| | |]; try reflexivity.
  intro H. unfold opp.
  destruct (Qeq_bool q 0) eqn:Z0; [reflexivity|].
  pose proof (is_double_round_mag q H) as E.
  destruct (is_double_RN q H) as [_ [_ Hfin]].
  assert (Em : round_mag (- q) == Qabs (- q)).
  { rewrite <- (round_mag_abs (- q)), (round_mag_comp _ _ (Qabs_opp q)),
      round_mag_abs, Qabs_opp. exact E. }
  apply is_double_fixed; [exact Em|].
  rewrite Em, Qabs_opp, <- E. exact Hfin.
Qed.

Lemma add_is_double (x y : float) : is_double (add x y) = true.
Proof.
  destruct x as [a| |[|]|], y as [b| |[|]|]; try reflexivity; apply RN_is_double.
Qed.

Lemma signed_zero_is_double (b : bool) : is_double (signed_zero b) = true.
Proof. destruct b; reflexivity. Qed.

Lemma div_is_double (x y : float) : is_double (div x y) = true.
Proof.
  unfold div.
  destruct x as [a| |[|]|], y as [b| |[|]|]; try reflexivity;
    repeat match goal with
           | |- context [if ?c then _ else _] => destruct c
           end;
    try reflexivity; try apply RN_is_double; try apply signed_zero_is_double.
Qed.

End RoundingResults.

Section ForwardText.

Open Scope Q_scope.

(** ** The text of a finite double *)

(** The fields that [decimal_to_dms_hem] writes for a finite double. *)
Lemma forward_fields (value : float) (is_lat : bool) :
  is_double value = true -> is_finite value = true ->
  exists h D M sec msec,
    Convert.decimal_to_dms_hem value is_lat
    = Ok (dms_text (String h EmptyString) D M sec msec) /\
    hem_of_axis is_lat h = true /\
    negative_hem h = Qlt_bool (fval value) 0 /\
    (Qfloor (Qabs (fval value)) <= D <= Qfloor (Qabs (fval value)) + 1)%Z /\
    (0 <= M < 60)%Z /\ (0 <= sec < 60)%Z /\ (0 <= msec < 1000)%Z /\
    Qabs (dms_exact D M sec msec - Qabs (fval value))
    <= (1 # 7200000) + (1 # 1125899906842624).
Proof.
  intros Hdbl Hfin.
  destruct (decimal_to_dms_hem_spec value is_lat Hfin Hdbl)
    as (deg & minute & s0 & Es & Hd & Hm & Fs & Ps & Us & Err & Hn & Hout).
  destruct (split_degrees_spec value Hfin Hdbl)
    as (deg' & minute' & s0' & Es' & Edeg & _).
  rewrite Es in Es'. injection Es' as <- <- <-.
  set (n := Qround_half_even (fval s0 * 1000)) in *.
  pose proof (carried_fields_spec deg minute n Hd Hm Hn) as Hc.
  destruct (carried_fields deg minute n) as [[[D M] sec] msec].
  destruct Hc as (HD & HM & HS & HK & Eid).
  destruct (hemisphere_spec value is_lat Hfin) as (h & Eh & Hh & Hneg).
  rewrite Eh in Hout.
  exists h, D, M, sec, msec.
  split; [exact Hout|]. split; [exact Hh|]. split; [exact Hneg|].
  split; [rewrite <- Edeg; exact HD|].
  split; [exact HM|]. split; [exact HS|]. split; [exact HK|].
  rewrite (dms_exact_carried deg minute n D M sec msec Eid).
  destruct (Qround_half_even_spec (fval s0 * 1000)) as [R1 R2].
  fold n in R1, R2.
  apply Qabs_Qle_condition in Err.
  unfold Qdiv in Err. change (/ 60) with (1 # 60) in Err.
  change (/ 3600) with (1 # 3600) in Err.
  apply Qabs_Qle_condition. split; lra.
Qed.

(** X1.  On a finite double [decimal_to_dms_hem] always returns a text
    [HDDD.MM.SS.mmm]: the letter is that of the axis, S or W exactly for a
    negative value; the degrees are the integer part of [abs(value)] or one
    more; minutes and seconds are below 60 and the milliseconds below 1000;
    and the fields denote [abs(value)] to within half a millisecond of arc
    (and the [2^-50] of a degree that the float operations may lose).  On
    NaN the function raises the [ValueError] of [int(nan)], on an infinity
    the [OverflowError] of [int(inf)]. *)
Theorem decimal_to_dms_hem_fields (value : float) (is_lat : bool) :
  is_double value = true ->
  (is_finite value = true ->
   exists h D M sec msec,
     Convert.decimal_to_dms_hem value is_lat
     = Ok (dms_text (String h EmptyString) D M sec msec) /\
     hem_of_axis is_lat h = true /\
     negative_hem h = Qlt_bool (fval value) 0 /\
     (Qfloor (Qabs (fval value)) <= D <= Qfloor (Qabs (fval value)) + 1)%Z /\
     (0 <= M < 60)%Z /\ (0 <= sec < 60)%Z /\ (0 <= msec < 1000)%Z /\
     Qabs (dms_exact D M sec msec - Qabs (fval value))
     <= (1 # 7200000) + (1 # 1125899906842624)) /\
  (is_finite value = false ->
   exists e,
     Convert.decimal_to_dms_hem value is_lat = Raise e /\
     class_of e = match value with NaN => ValueError | _ => OverflowError end).
Proof.
  intro Hdbl. split.
  - intro Hfin. apply forward_fields; assumption.
  - intro Hinf. destruct value as [q| |b|]; try discriminate Hinf.
    + exists E_inf_to_int. split; reflexivity.
    + exists E_nan_to_int. split; reflexivity.
Qed.

(** The latitude 50.9008489, and the infinity that [float("inf")] reads. *)
Lemma decimal_to_dms_hem_fields_witness :
  (exists h D M sec msec,
     Convert.decimal_to_dms_hem (RN (509008489 # 10000000)) true
     = Ok (dms_text (String h EmptyString) D M sec msec) /\
     hem_of_axis true h = true /\
     negative_hem h = Qlt_bool (fval (RN (509008489 # 10000000))) 0 /\
     (Qfloor (Qabs (fval (RN (509008489 # 10000000)))) <= D
      <= Qfloor (Qabs (fval (RN (509008489 # 10000000)))) + 1)%Z /\
     (0 <= M < 60)%Z /\ (0 <= sec < 60)%Z /\ (0 <= msec < 1000)%Z /\
     Qabs (dms_exact D M sec msec - Qabs (fval (RN (509008489 # 10000000))))
     <= (1 # 7200000) + (1 # 1125899906842624)) /\
  (exists e,
     Convert.decimal_to_dms_hem (Inf false) true = Raise e /\
     class_of e = OverflowError).
Proof.
  split.
  - apply (proj1 (decimal_to_dms_hem_fields (RN (509008489 # 10000000)) true
                    eq_refl)).
    vm_compute. reflexivity.
  - apply (proj2 (decimal_to_dms_hem_fields (Inf false) true eq_refl)).
    reflexivity.
Defined.

(** ** Mirrored values *)

Lemma Qabs_opp_eq (q : Q) : Qabs (- q) = Qabs q.
Proof. destruct q as [n d]. unfold Qabs, Qopp. simpl. rewrite Z.abs_opp. reflexivity. Qed.

Lemma abs_opp (x : float) : is_zero x = false -> abs (opp x) = abs x.
Proof.
  destruct x as [q| |b|]; try reflexivity; try discriminate.
  intro H. unfold is_zero in H. unfold opp. rewrite H. unfold abs.
  rewrite Qabs_opp_eq. reflexivity.
Qed.

(** The hemisphere letter is a prefix that [render_dms] does not look at. *)
Lemma render_dms_hem (hem : string) (D M : Z) (s : float) :
  Convert.render_dms hem D M s =
  (t <- Convert.render_dms EmptyString D M s ;; Ok (hem ++ t)).
Proof.
  unfold Convert.render_dms.
  destruct (Convert.split_seconds s) as [[sec_int sec_frac]|e]; [|reflexivity].
  cbn [bind].
  destruct (sec_frac =? 1000)%Z; [|reflexivity].
  destruct (sec_int + 1 >=? 60)%Z; [|reflexivity].
  destruct (M + 1 >=? 60)%Z; reflexivity.
Qed.

Lemma hemisphere_opp (x : float) (is_lat : bool) :
  is_finite x = true -> ~ fval x == 0 ->
  exists h,
    Convert.hemisphere x is_lat = String h EmptyString /\
    Convert.hemisphere (opp x) is_lat = String (mirror_hem h) EmptyString.
Proof.
  intros Hf Hz.
  destruct (opp_finite x Hf) as [Fo Vo].
  unfold Convert.hemisphere.
  rewrite (geb_finite x (Fin 0) Hf eq_refl), (geb_finite (opp x) (Fin 0) Fo eq_refl).
  change (fval (Fin 0)) with 0.
  destruct (Qle_bool 0 (fval x)) eqn:A, (Qle_bool 0 (fval (opp x))) eqn:B.
  - apply Qle_bool_iff in A, B. rewrite Vo in B. exfalso. apply Hz. lra.
  - destruct is_lat; eexists; split; reflexivity.
  - destruct is_lat; eexists; split; reflexivity.
  - apply Qle_bool_false_iff in A, B. rewrite Vo in B. exfalso. lra.
Qed.

(** X2.  For a finite value other than zero, the text of [-value] is the
    text of [value] with the hemisphere letter mirrored (N/S, E/W): the
    digits depend on [abs(value)] alone. *)
Theorem decimal_to_dms_hem_mirror (value : float) (is_lat : bool) :
  is_finite value = true -> ~ fval value == 0 ->
  Convert.decimal_to_dms_hem (opp value) is_lat =
  (t <- Convert.decimal_to_dms_hem value is_lat ;; Ok (mirror_text t)).
Proof.
  intros Hf Hz.
  assert (Hnz : is_zero value = false).
  { destruct (is_zero value) eqn:Z0; [|reflexivity].
    apply is_zero_fval in Z0. contradiction. }
  destruct (hemisphere_opp value is_lat Hf Hz) as (h & E1 & E2).
  unfold Convert.decimal_to_dms_hem, Convert.split_degrees.
  rewrite (abs_opp value Hnz), E1, E2.
  fold (Convert.split_degrees value).
  destruct (Convert.split_degrees value) as [[[deg minute] s0]|e]; [|reflexivity].
  cbn [bind].
  destruct (Convert.carry_seconds deg minute s0) as [[[D M] s]|e]; [|reflexivity].
  cbn [bind].
  rewrite (render_dms_hem (String h EmptyString)),
    (render_dms_hem (String (mirror_hem h) EmptyString)).
  destruct (Convert.render_dms EmptyString D M s); reflexivity.
Qed.

(** The latitudes 50.9008489 and -50.9008489. *)
Lemma decimal_to_dms_hem_mirror_witness :
  Convert.decimal_to_dms_hem (opp (RN (509008489 # 10000000))) true
  = Ok "S050.54.03.056".
Proof.
  rewrite (decimal_to_dms_hem_mirror (RN (509008489 # 10000000)) true).
  - vm_compute. reflexivity.
  - vm_compute. reflexivity.
  - vm_compute. discriminate.
Defined.

End ForwardText.

Section FieldWidth.

(** ** The width of a formatted field *)

Lemma dec_digits_length (fuel : nat) :
  forall (n : Z) (acc : string) (k : nat),
    0 <= n < 10 ^ Z.of_nat fuel ->
    (n < 10 ^ Z.of_nat k -> (0 < k)%nat ->
     (String.length (dec_digits fuel n acc) <= k + String.length acc)%nat) /\
    (10 ^ Z.of_nat k <= n ->
     (k + 1 + String.length acc <= String.length (dec_digits fuel n acc))%nat).
Proof.
  induction fuel as [|fuel IH]; intros n acc k Hn.
  - change (10 ^ Z.of_nat 0) with 1 in Hn. cbn [dec_digits]. split.
    + intros _ _. lia.
    + intro H. pose proof (Z.pow_pos_nonneg 10 (Z.of_nat k)). lia.
  - cbn [dec_digits]. destruct (Z.ltb_spec n 10) as [Hs|Hl].
    + cbn [String.length]. split.
      * intros _ Hk. lia.
      * intro H. destruct k as [|k]; [lia|].
        rewrite Nat2Z.inj_succ, Z.pow_succ_r in H by lia.
        pose proof (Z.pow_pos_nonneg 10 (Z.of_nat k)). lia.
    + assert (Hn' : 0 <= n / 10 < 10 ^ Z.of_nat fuel).
      { rewrite Nat2Z.inj_succ, Z.pow_succ_r in Hn by lia.
        Z.to_euclidean_division_equations. nia. }
      split.
      * intros Hu Hk. destruct k as [|k]; [lia|].
        rewrite Nat2Z.inj_succ, Z.pow_succ_r in Hu by lia.
        assert (Hk' : (0 < k)%nat).
        { destruct k; [|lia]. change (10 ^ Z.of_nat 0) with 1 in Hu. lia. }
        assert (Hu' : n / 10 < 10 ^ Z.of_nat k).
        { Z.to_euclidean_division_equations. nia. }
        pose proof (proj1 (IH (n / 10) (String (digit_char (n mod 10)) acc) k Hn')
                      Hu' Hk') as L.
        cbn [String.length] in L. lia.
      * intro Hlow. destruct k as [|k].
        -- assert (H1 : 10 ^ Z.of_nat 0 <= n / 10).
           { change (10 ^ Z.of_nat 0) with 1.
             Z.to_euclidean_division_equations. lia. }
           pose proof (proj2 (IH (n / 10) (String (digit_char (n mod 10)) acc) O Hn')
                         H1) as L.
           cbn [String.length] in L. lia.
        -- rewrite Nat2Z.inj_succ, Z.pow_succ_r in Hlow by lia.
           assert (H1 : 10 ^ Z.of_nat k <= n / 10).
           { Z.to_euclidean_division_equations. nia. }
           pose proof (proj2 (IH (n / 10) (String (digit_char (n mod 10)) acc) k Hn')
                         H1) as L.
           cbn [String.length] in L. lia.
Qed.

Lemma Z_to_dec_fuel (n : Z) :
  0 <= n -> 0 <= n < 10 ^ Z.of_nat (S (Z.to_nat (Z.log2 n))).
Proof.
  intro Hn. split; [exact Hn|].
  destruct (Z.eq_dec n 0) as [->|NZ]; [reflexivity|].
  pose proof (Z.log2_spec n ltac:(lia)) as [_ U].
  pose proof (Z.log2_nonneg n) as L.
  rewrite Nat2Z.inj_succ, Z2Nat.id by exact L.
  apply Z.lt_le_trans with (1 := U).
  apply Z.pow_le_mono_l. lia.
Qed.

(** [f"{n:0{w}d}"] has exactly [w] characters when [n] has at most [w]
    digits, and more otherwise. *)
Lemma fmt_0d_length (w : nat) (n : Z) :
  0 <= n -> (0 < w)%nat ->
  (n < 10 ^ Z.of_nat w -> String.length (fmt_0d w n) = w) /\
  (10 ^ Z.of_nat w <= n -> (w < String.length (fmt_0d w n))%nat).
Proof.
  intros Hn Hw. unfold fmt_0d.
  destruct (Z.ltb_spec n 0) as [C|_]; [lia|].
  unfold zfill. rewrite length_append, length_repeat. unfold Z_to_dec.
  destruct (dec_digits_length _ n EmptyString w (Z_to_dec_fuel n Hn)) as [U L].
  cbn [String.length] in U, L. split.
  - intro H. specialize (U H Hw). lia.
  - intro H. specialize (L H). lia.
Qed.

(** ** Texts that match the DMS pattern *)

Lemma match_digits (n : nat) :
  forall (s rest : string) (pat : list (ascii -> bool)),
    all_chars is_digit s = true -> String.length s = n ->
    Convert.match_classes (repeat is_digit n ++ pat)%list (s ++ rest)
    = Convert.match_classes pat rest.
Proof.
  induction n as [|n IH]; intros s rest pat A L.
  - destruct s; [reflexivity | discriminate L].
  - destruct s as [|c s]; [discriminate L|].
    cbn [all_chars] in A. apply andb_true_iff in A. destruct A as [Ac As].
    cbn [repeat app append Convert.match_classes]. rewrite Ac.
    apply IH; [exact As|]. cbn [String.length] in L. lia.
Qed.

(** A run of more than [n] digits does not end at a dot after [n]. *)
Lemma match_digits_long (n : nat) :
  forall (s rest : string) (pat : list (ascii -> bool)),
    all_chars is_digit s = true -> (n < String.length s)%nat ->
    Convert.match_classes (repeat is_digit n ++ Convert.is_dot :: pat)%list
      (s ++ rest) = None.
Proof.
  induction n as [|n IH]; intros s rest pat A L.
  - destruct s as [|c s]; [cbn [String.length] in L; lia|].
    cbn [all_chars] in A. apply andb_true_iff in A. destruct A as [Ac _].
    cbn [repeat app append Convert.match_classes].
    assert (E : Convert.is_dot c = false).
    { unfold Convert.is_dot. apply is_digit_neq; [exact Ac | reflexivity]. }
    rewrite E. reflexivity.
  - destruct s as [|c s]; [cbn [String.length] in L; lia|].
    cbn [all_chars] in A. apply andb_true_iff in A. destruct A as [Ac As].
    cbn [repeat app append Convert.match_classes]. rewrite Ac.
    apply IH; [exact As|]. cbn [String.length] in L. lia.
Qed.

Lemma hem_of_axis_letter (is_lat : bool) (h : ascii) :
  hem_of_axis is_lat h = true -> Convert.is_hem_letter h = true.
Proof.
  intro H. destruct (hem_of_axis_cases _ _ H) as [-> | [-> | [-> | ->]]];
    reflexivity.
Qed.

Lemma dms_text_no_space (is_lat : bool) (h : ascii) (D M sec msec : Z) :
  hem_of_axis is_lat h = true ->
  0 <= D -> 0 <= M -> 0 <= sec -> 0 <= msec ->
  strip (dms_text (String h EmptyString) D M sec msec)
  = dms_text (String h EmptyString) D M sec msec.
Proof.
  intros Hh HD HM HS HK.
  destruct (fmt_0d_spec 3 D HD) as (AD & _ & _).
  destruct (fmt_0d_spec 2 M HM) as (AM & _ & _).
  destruct (fmt_0d_spec 2 sec HS) as (AS & _ & _).
  destruct (fmt_0d_spec 3 msec HK) as (AK & _ & _).
  assert (Hns : forall s, all_chars is_digit s = true -> all_chars not_space s = true).
  { intros s A. apply all_chars_impl with (2 := A). apply is_digit_not_space. }
  apply strip_no_space.
  set (rest := fmt_0d 3 D ++ "." ++ fmt_0d 2 M ++ "."
               ++ fmt_0d 2 sec ++ "." ++ fmt_0d 3 msec).
  change (dms_text (String h EmptyString) D M sec msec) with (String h rest).
  cbn [all_chars]. apply andb_true_iff. split.
  - destruct (hem_of_axis_cases _ _ Hh) as [-> | [-> | [-> | ->]]]; reflexivity.
  - unfold rest. rewrite !all_chars_append.
    rewrite (Hns _ AD), (Hns _ AM), (Hns _ AS), (Hns _ AK). reflexivity.
Qed.

(** A text [HDDD.MM.SS.mmm] matches the pattern exactly when the degrees
    have at most three digits. *)
Lemma looks_like_dms_text (is_lat : bool) (h : ascii) (D M sec msec : Z) :
  hem_of_axis is_lat h = true ->
  0 <= D -> 0 <= M < 60 -> 0 <= sec < 60 -> 0 <= msec < 1000 ->
  Convert.looks_like_dms (dms_text (String h EmptyString) D M sec msec)
  = (D <? 1000).
Proof.
  intros Hh HD HM HS HK.
  destruct (fmt_0d_spec 3 D HD) as (AD & _ & _).
  destruct (fmt_0d_spec 2 M ltac:(lia)) as (AM & _ & _).
  destruct (fmt_0d_spec 2 sec ltac:(lia)) as (AS & _ & _).
  destruct (fmt_0d_spec 3 msec ltac:(lia)) as (AK & _ & _).
  pose proof (proj1 (fmt_0d_length 2 M ltac:(lia) ltac:(lia))
                ltac:(change (10 ^ Z.of_nat 2) with 100; lia)) as LM.
  pose proof (proj1 (fmt_0d_length 2 sec ltac:(lia) ltac:(lia))
                ltac:(change (10 ^ Z.of_nat 2) with 100; lia)) as LS.
  pose proof (proj1 (fmt_0d_length 3 msec ltac:(lia) ltac:(lia))
                ltac:(change (10 ^ Z.of_nat 3) with 1000; lia)) as LK.
  destruct (fmt_0d_length 3 D HD ltac:(lia)) as [LD LD'].
  change (10 ^ Z.of_nat 3) with 1000 in LD, LD'.
  unfold Convert.looks_like_dms.
  rewrite (dms_text_no_space is_lat h D M sec msec Hh HD) by lia.
  unfold Convert.DMS_RE_match, dms_text. cbn [append].
  change Convert.DMS_RE with
    (Convert.is_hem_letter ::
     (repeat is_digit 3 ++ Convert.is_dot ::
      (repeat is_digit 2 ++ Convert.is_dot ::
       (repeat is_digit 2 ++ Convert.is_dot ::
        (repeat is_digit 3 ++ [])))))%list.
  cbn [Convert.match_classes]. rewrite (hem_of_axis_letter _ _ Hh).
  destruct (Z.ltb_spec D 1000) as [Hs|Hl].
  - rewrite (match_digits 3 _ _ _ AD (LD Hs)).
    cbn [Convert.match_classes]. change (Convert.is_dot ".") with true. cbv iota.
    rewrite (match_digits 2 _ _ _ AM LM).
    cbn [Convert.match_classes]. change (Convert.is_dot ".") with true. cbv iota.
    rewrite (match_digits 2 _ _ _ AS LS).
    cbn [Convert.match_classes]. change (Convert.is_dot ".") with true. cbv iota.
    rewrite <- (append_nil_r (fmt_0d 3 msec)).
    rewrite (match_digits 3 _ _ _ AK LK). reflexivity.
  - rewrite (match_digits_long 3 _ _ _ AD (LD' Hl)). reflexivity.
Qed.

End FieldWidth.

Section ForwardDetector.

Open Scope Q_scope.

(** ** The detector on the text of a double *)

Lemma dms_text_not_decimal (is_lat : bool) (h : ascii) (D M sec msec : Z) :
  hem_of_axis is_lat h = true ->
  (0 <= D)%Z -> (0 <= M)%Z -> (0 <= sec)%Z -> (0 <= msec)%Z ->
  Convert.looks_like_decimal (dms_text (String h EmptyString) D M sec msec)
  = false.
Proof.
  intros Hh HD HM HS HK. unfold Convert.looks_like_decimal.
  rewrite (dms_text_no_space is_lat h D M sec msec Hh HD HM HS HK).
  destruct (fmt_0d_spec 3 D HD) as (AD & LD & _).
  unfold dms_text. cbn [append].
  destruct (fmt_0d 3 D) as [|d r]; [cbn [String.length] in LD; lia|].
  cbn [all_chars] in AD. apply andb_true_iff in AD. destruct AD as [Ad _].
  cbn [append].
  rewrite (float_of_string_letter_digit h d _ (hem_of_axis_letter _ _ Hh) Ad).
  reflexivity.
Qed.

(** What the detector says of the text of a finite double. *)
Lemma forward_text_looks (value : float) (is_lat : bool) :
  is_double value = true -> is_finite value = true ->
  exists text,
    Convert.decimal_to_dms_hem value is_lat = Ok text /\
    Convert.looks_like_decimal text = false /\
    (Qabs (fval value) < 999 -> Convert.looks_like_dms text = true) /\
    (1000 <= Qabs (fval value) -> Convert.looks_like_dms text = false).
Proof.
  intros Hdbl Hfin.
  destruct (forward_fields value is_lat Hdbl Hfin)
    as (h & D & M & sec & msec & Hout & Hh & _ & HD & HM & HS & HK & _).
  destruct (Qfloor_spec (Qabs (fval value))) as [F1 F2].
  pose proof (Qabs_nonneg (fval value)) as Hn.
  assert (HD0 : (0 <= D)%Z).
  { assert (A : inject_Z (-1) < inject_Z (Qfloor (Qabs (fval value)))).
    { change (inject_Z (-1)) with (-1). lra. }
    apply inject_Z_lt_inv in A. lia. }
  exists (dms_text (String h EmptyString) D M sec msec).
  split; [exact Hout|].
  split; [apply (dms_text_not_decimal is_lat); try assumption; lia|].
  rewrite (looks_like_dms_text is_lat h D M sec msec Hh HD0 HM HS HK).
  split; intro H.
  - apply Z.ltb_lt.
    assert (A : inject_Z (Qfloor (Qabs (fval value))) < inject_Z 999).
    { change (inject_Z 999) with 999. lra. }
    apply inject_Z_lt_inv in A. lia.
  - apply Z.ltb_ge.
    assert (A : inject_Z 1000 < inject_Z (Qfloor (Qabs (fval value))) + 1).
    { change (inject_Z 1000) with 1000. lra. }
    assert (B : inject_Z 1000 < inject_Z (Qfloor (Qabs (fval value)) + 1)).
    { rewrite inject_Z_plus. exact A. }
    apply inject_Z_lt_inv in B. lia.
Qed.

(** X3.  The text that [decimal_to_dms_hem] writes for a finite double
    never reads as a decimal number; it matches the DMS pattern of the
    detector whenever [abs(value) < 999], and it does not match it from
    1000 degrees on, where the degree field has four digits or more. *)
Theorem forward_text_detected (value : float) (is_lat : bool) :
  is_double value = true -> is_finite value = true ->
  exists text,
    Convert.decimal_to_dms_hem value is_lat = Ok text /\
    Convert.looks_like_decimal text = false /\
    (Qabs (fval value) < 999 -> Convert.looks_like_dms text = true) /\
    (1000 <= Qabs (fval value) -> Convert.looks_like_dms text = false).
Proof. apply forward_text_looks. Qed.

(** The latitude 50.9008489, and the double 1000.5. *)
Lemma forward_text_detected_witness :
  (exists text,
     Convert.decimal_to_dms_hem (RN (509008489 # 10000000)) true = Ok text /\
     Convert.looks_like_decimal text = false /\
     Convert.looks_like_dms text = true) /\
  (exists text,
     Convert.decimal_to_dms_hem (RN (2001 # 2)) false = Ok text /\
     Convert.looks_like_dms text = false).
Proof.
  split.
  - destruct (forward_text_detected (RN (509008489 # 10000000)) true
                eq_refl eq_refl) as (text & E & Hdec & Hdms & _).
    exists text. split; [exact E|]. split; [exact Hdec|].
    apply Hdms. vm_compute. reflexivity.
  - destruct (forward_text_detected (RN (2001 # 2)) false eq_refl eq_refl)
      as (text & E & _ & _ & Hno).
    exists text. split; [exact E|]. apply Hno. vm_compute. discriminate.
Defined.

End ForwardDetector.

Section TextRoundTrip.

Open Scope Q_scope.

(** ** From a DMS text to a double and back *)

Lemma dms_value_is_double (h : ascii) (D M sec msec : Z) (v : float) :
  Convert.dms_value h D M sec msec = Ok v -> is_double v = true.
Proof.
  unfold Convert.dms_value.
  destruct (of_int msec) as [fK|]; [|discriminate]. cbn [bind].
  destruct (truediv fK (Fin 1000)) as [ms|]; [|discriminate]. cbn [bind].
  destruct (of_int sec) as [fS|]; [|discriminate]. cbn [bind].
  destruct (of_int M) as [fM|]; [|discriminate]. cbn [bind].
  destruct (truediv fM (Fin 60)) as [m|]; [|discriminate]. cbn [bind].
  destruct (of_int D) as [fD|]; [|discriminate]. cbn [bind].
  destruct (truediv (add fS ms) (Fin 3600)) as [s|]; [|discriminate].
  cbn [bind]. intro H. injection H as <-.
  destruct (Ascii.eqb h "S" || Ascii.eqb h "W").
  - apply opp_is_double, add_is_double.
  - apply add_is_double.
Qed.

(** Two letters of one axis with the same sign are the same letter. *)
Lemma hem_of_axis_unique (is_lat : bool) (h h' : ascii) :
  hem_of_axis is_lat h = true -> hem_of_axis is_lat h' = true ->
  negative_hem h' = negative_hem h -> h' = h.
Proof.
  intros H H' E.
  destruct (hem_of_axis_cases _ _ H) as [-> | [-> | [-> | ->]]];
    destruct (hem_of_axis_cases _ _ H') as [-> | [-> | [-> | ->]]];
    destruct is_lat; try reflexivity; discriminate.
Qed.

Lemma zero_fields_false (D M sec msec : Z) :
  (0 <= D)%Z -> (0 <= M)%Z -> (0 <= sec)%Z -> (0 <= msec)%Z ->
  zero_fields D M sec msec = false ->
  (1 <= 3600000 * D + 60000 * M + 1000 * sec + msec)%Z.
Proof.
  intros HD HM HS HK. unfold zero_fields.
  destruct (Z.eqb_spec D 0), (Z.eqb_spec M 0), (Z.eqb_spec sec 0),
    (Z.eqb_spec msec 0); cbn [andb]; try discriminate; lia.
Qed.

Lemma zero_fields_true (D M sec msec : Z) :
  zero_fields D M sec msec = true -> D = 0%Z /\ M = 0%Z /\ sec = 0%Z /\ msec = 0%Z.
Proof.
  unfold zero_fields.
  destruct (Z.eqb_spec D 0), (Z.eqb_spec M 0), (Z.eqb_spec sec 0),
    (Z.eqb_spec msec 0); cbn [andb]; try discriminate; auto.
Qed.

Lemma dms_exact_thousandths (D M sec msec : Z) :
  dms_exact D M sec msec * 3600000 ==
  inject_Z (3600000 * D + 60000 * M + 1000 * sec + msec).
Proof.
  unfold dms_exact. push_inject.
  change (inject_Z 3600000) with 3600000. change (inject_Z 60000) with 60000.
  change (inject_Z 1000) with 1000. field.
Qed.

(** A double close enough to the value of four fields is written back as
    these fields: the forward conversion rounds to the nearest millisecond
    of arc. *)
Lemma forward_recovers (y : float) (is_lat : bool) (h : ascii) (D M sec msec : Z) :
  is_finite y = true -> is_double y = true ->
  hem_of_axis is_lat h = true ->
  (0 <= D)%Z -> (0 <= M < 60)%Z -> (0 <= sec < 60)%Z -> (0 <= msec < 1000)%Z ->
  Qlt_bool (fval y) 0 = negative_hem h ->
  Qabs (Qabs (fval y) - dms_exact D M sec msec) <= 138 # 1000000000 ->
  Convert.decimal_to_dms_hem y is_lat
  = Ok (dms_text (String h EmptyString) D M sec msec).
Proof.
  intros Fy Hdbl Hh HD HM HS HK Sy Hclose.
  set (N := (3600000 * D + 60000 * M + 1000 * sec + msec)%Z).
  pose proof (dms_exact_thousandths D M sec msec) as EX. fold N in EX.
  set (X := dms_exact D M sec msec) in *.
  apply Qabs_Qle_condition in Hclose.
  destruct (decimal_to_dms_hem_spec y is_lat Fy Hdbl)
    as (deg & minute & s0 & _ & Hd & Hm & Fs & Ps & Us & Err & Hn & Hout).
  set (n := Qround_half_even (fval s0 * 1000)) in *.
  apply Qabs_Qle_condition in Err.
  unfold Qdiv in Err. change (/ 60) with (1 # 60) in Err.
  change (/ 3600) with (1 # 3600) in Err.
  set (k := (N + - (3600000 * deg) + - (60000 * minute))%Z).
  assert (Ek : inject_Z k ==
               inject_Z N - 3600000 * inject_Z deg - 60000 * inject_Z minute).
  { unfold k. push_inject.
    change (inject_Z 3600000) with 3600000. change (inject_Z 60000) with 60000.
    ring. }
  assert (En : n = k).
  { unfold n. apply Qround_half_even_near. rewrite Ek.
    apply Qabs_lt_of_bounds; lra. }
  pose proof (carried_fields_spec deg minute n Hd Hm Hn) as Hc.
  destruct (carried_fields deg minute n) as [[[D' M'] sec'] msec'].
  destruct Hc as (HD1 & HM1 & HS1 & HK1 & Eid).
  rewrite En in Eid. unfold k in Eid.
  assert (ED : D' = D) by (unfold N in Eid; lia).
  assert (EM : M' = M) by (unfold N in Eid; lia).
  assert (ES : sec' = sec) by (unfold N in Eid; lia).
  assert (EK : msec' = msec) by (unfold N in Eid; lia).
  subst D' M' sec' msec'.
  destruct (hemisphere_spec y is_lat Fy) as (h' & Eh & Hh' & Hneg).
  rewrite Sy in Hneg.
  rewrite (hem_of_axis_unique is_lat h h' Hh Hh' Hneg) in Eh.
  rewrite Eh in Hout. exact Hout.
Qed.

(** X4.  A text [HDDD.MM.SS.mmm] with a letter of the axis, degrees up to
    [10^9], minutes and seconds below 60 and milliseconds below 1000 is read
    by [dms_hem_to_decimal] to a double that [decimal_to_dms_hem] writes
    back as the same text.  The one exception is the text of zero with the
    letter S or W: it is read as [-0.0], for which [value >= 0] holds, and
    is written back with N or E. *)
Theorem dms_text_round_trip (is_lat : bool) (h : ascii) (D M sec msec : Z) :
  hem_of_axis is_lat h = true ->
  (0 <= D <= 1000000000)%Z -> (0 <= M < 60)%Z -> (0 <= sec < 60)%Z ->
  (0 <= msec < 1000)%Z ->
  exists v,
    Convert.dms_hem_to_decimal (dms_text (String h EmptyString) D M sec msec)
      is_lat = Ok v /\
    Convert.decimal_to_dms_hem v is_lat =
      Ok (dms_text
            (String (if zero_fields D M sec msec then positive_hem is_lat else h)
               EmptyString)
            D M sec msec).
Proof.
  intros Hh HD HM HS HK.
  assert (HD' : (0 <= D < 2 ^ 1024)%Z).
  { split; [lia|]. apply Z.le_lt_trans with (2 ^ 53 - 1)%Z.
    - change (2 ^ 53 - 1)%Z with 9007199254740991%Z. lia.
    - apply Z.lt_trans with (2 ^ 53)%Z; [lia|]. apply Z.pow_lt_mono_r; lia. }
  rewrite (dms_hem_to_decimal_text is_lat h D M sec msec Hh HD' HM HS HK).
  destruct (zero_fields D M sec msec) eqn:Z0.
  - apply zero_fields_true in Z0. destruct Z0 as (-> & -> & -> & ->).
    destruct (hem_of_axis_cases _ _ Hh) as [-> | [-> | [-> | ->]]];
      destruct is_lat; try discriminate Hh;
      first [ exists (Fin 0); split; vm_compute; reflexivity
            | exists NegZero; split; vm_compute; reflexivity ].
  - pose proof (zero_fields_false D M sec msec ltac:(lia) ltac:(lia) ltac:(lia)
                  ltac:(lia) Z0) as HN.
    destruct (dms_value_spec h D M sec msec ltac:(lia) HM HS HK)
      as (dec & Eval & Fdec & Edec).
    pose proof (dms_value_is_double h D M sec msec _ Eval) as Hdbl.
    set (v := if negative_hem h then opp dec else dec) in *.
    exists v. split; [exact Eval|].
    pose proof (dms_exact_thousandths D M sec msec) as EX.
    set (X := dms_exact D M sec msec) in *.
    assert (N1 : 1 <= inject_Z (3600000 * D + 60000 * M + 1000 * sec + msec)).
    { change 1 with (inject_Z 1). apply inject_Z_le. exact HN. }
    apply Qabs_Qle_condition in Edec.
    assert (Pdec : 0 < fval dec) by lra.
    destruct (opp_finite dec Fdec) as [Fo Vo].
    assert (Fv : is_finite v = true).
    { unfold v. destruct (negative_hem h); assumption. }
    assert (Sv : Qlt_bool (fval v) 0 = negative_hem h).
    { unfold v. destruct (negative_hem h).
      - apply Qlt_bool_iff. rewrite Vo. lra.
      - apply Qlt_bool_false_iff. lra. }
    assert (Av : Qabs (fval v) == fval dec).
    { unfold v. destruct (negative_hem h).
      - rewrite Vo, Qabs_opp. apply Qabs_pos. lra.
      - apply Qabs_pos. lra. }
    apply (forward_recovers v is_lat h D M sec msec Fv Hdbl Hh); try lia;
      try assumption.
    fold X. rewrite Av. apply Qabs_Qle_condition. split; lra.
Qed.

(** The text of the latitude 50.9008489, and the text of zero with S. *)
Lemma dms_text_round_trip_witness :
  (exists v,
     Convert.dms_hem_to_decimal "N050.54.03.056" true = Ok v /\
     Convert.decimal_to_dms_hem v true = Ok "N050.54.03.056") /\
  (exists v,
     Convert.dms_hem_to_decimal "S000.00.00.000" true = Ok v /\
     Convert.decimal_to_dms_hem v true = Ok "N000.00.00.000").
Proof.
  split.
  - change "N050.54.03.056" with (dms_text (String "N" EmptyString) 50 54 3 56).
    apply (dms_text_round_trip true "N" 50 54 3 56); first [reflexivity | lia].
  - change "S000.00.00.000" with (dms_text (String "S" EmptyString) 0 0 0 0).
    change "N000.00.00.000" with (dms_text (String "N" EmptyString) 0 0 0 0).
    apply (dms_text_round_trip true "S" 0 0 0 0); first [reflexivity | lia].
Defined.

End TextRoundTrip.

Section SplitJoin.

(** ** Splitting what was joined *)

Lemma contains_append (c : ascii) (a b : string) :
  contains c (a ++ b) = contains c a || contains c b.
Proof.
  induction a as [|x a IH]; [reflexivity|].
  cbn [append contains]. rewrite IH, orb_assoc. reflexivity.
Qed.

(** No field of [s.split(sep)] holds the separator. *)
Lemma split_fields_no_sep (sep : ascii) (s : string) :
  Forall (fun f => contains sep f = false) (split sep s).
Proof.
  induction s as [|c r IH]; cbn [split].
  - constructor; [reflexivity | constructor].
  - destruct (Ascii.eqb c sep) eqn:E.
    + constructor; [reflexivity | exact IH].
    + destruct (split sep r) as [|h t]; [constructor; [|constructor]|].
      * cbn [contains]. rewrite E. reflexivity.
      * inversion IH as [|? ? Hh Ht]; subst. constructor; [|exact Ht].
        cbn [contains]. rewrite E, Hh. reflexivity.
Qed.

Lemma split_cons_field (sep : ascii) (f rest : string) :
  contains sep f = false ->
  split sep (f ++ String sep rest) = f :: split sep rest.
Proof. apply split_append_sep. Qed.

(** [sep.join(l).split(sep)] is [l] when no field of [l] holds [sep]. *)
Lemma split_join (sep : ascii) (l : list string) :
  l <> [] -> Forall (fun f => contains sep f = false) l ->
  split sep (join (String sep EmptyString) l) = l.
Proof.
  induction l as [|f l IH]; intros Hne F; [contradiction|].
  inversion F as [|? ? Hf Hl]; subst.
  destruct l as [|g l].
  - cbn [join]. apply split_no_sep. exact Hf.
  - change (join (String sep EmptyString) (f :: g :: l))
      with (f ++ String sep (join (String sep EmptyString) (g :: l))).
    rewrite split_append_sep by exact Hf.
    rewrite IH; [reflexivity | discriminate | exact Hl].
Qed.

(** [sep.join(s.split(sep))] is [s]. *)
Lemma join_split (sep : ascii) (s : string) :
  join (String sep EmptyString) (split sep s) = s.
Proof.
  induction s as [|c r IH]; [reflexivity|].
  cbn [split]. destruct (Ascii.eqb_spec c sep) as [->|N].
  - pose proof (split_nonempty sep r) as Hne.
    destruct (split sep r) as [|h t] eqn:E; [contradiction|].
    change (join (String sep EmptyString) (EmptyString :: h :: t))
      with (String sep (join (String sep EmptyString) (h :: t))).
    rewrite IH. reflexivity.
  - pose proof (split_nonempty sep r) as Hne.
    destruct (split sep r) as [|h t] eqn:E; [contradiction|].
    destruct t as [|g t].
    + cbn [join] in *. rewrite IH. reflexivity.
    + change (join (String sep EmptyString) (String c h :: g :: t))
        with (String c (h ++ String sep (join (String sep EmptyString) (g :: t)))).
      change (join (String sep EmptyString) (h :: g :: t))
        with (h ++ String sep (join (String sep EmptyString) (g :: t))) in IH.
      rewrite IH. reflexivity.
Qed.

(** ** Converted fields hold no colon *)

Lemma Z_to_dec_no_colon (n : Z) : 0 <= n -> contains ":" (Z_to_dec n) = false.
Proof.
  intro Hn. destruct (Z_to_dec_spec n Hn) as (A & _ & _).
  apply contains_all_chars with (p := is_digit); [reflexivity | exact A].
Qed.

Lemma repeat_zero_no_colon (n : nat) : contains ":" (repeat_char "0" n) = false.
Proof. induction n as [|n IH]; [reflexivity|]. cbn [repeat_char contains]. exact IH. Qed.

Lemma fmt_0d_no_colon (w : nat) (n : Z) : contains ":" (fmt_0d w n) = false.
Proof.
  unfold fmt_0d, zfill. destruct (Z.ltb_spec n 0) as [C|C].
  - cbn [contains]. rewrite contains_append, repeat_zero_no_colon,
      Z_to_dec_no_colon by lia. reflexivity.
  - rewrite contains_append, repeat_zero_no_colon, Z_to_dec_no_colon by lia.
    reflexivity.
Qed.

Lemma dms_text_no_colon (hem : string) (D M sec msec : Z) :
  contains ":" hem = false -> contains ":" (dms_text hem D M sec msec) = false.
Proof.
  intro H. unfold dms_text.
  rewrite !contains_append, H, !fmt_0d_no_colon. reflexivity.
Qed.

Lemma render_dms_text (hem : string) (D M : Z) (s : float) (t : string) :
  Convert.render_dms hem D M s = Ok t ->
  exists D' M' sec msec, t = dms_text hem D' M' sec msec.
Proof.
  unfold Convert.render_dms.
  destruct (Convert.split_seconds s) as [[sec_int sec_frac]|e]; [|discriminate].
  cbn [bind].
  destruct (sec_frac =? 1000).
  - destruct (sec_int + 1 >=? 60).
    + destruct (M + 1 >=? 60); intro H; injection H as <-.
      * exists (D + 1), 0, 0, 0. reflexivity.
      * exists D, M, 0, 0. reflexivity.
    + intro H. injection H as <-. exists D, M, (sec_int + 1), 0. reflexivity.
  - intro H. injection H as <-. exists D, M, sec_int, sec_frac. reflexivity.
Qed.

Lemma hemisphere_no_colon (value : float) (is_lat : bool) :
  contains ":" (Convert.hemisphere value is_lat) = false.
Proof.
  unfold Convert.hemisphere.
  destruct is_lat, (geb value (Fin 0)); reflexivity.
Qed.

Lemma decimal_to_dms_hem_no_colon (value : float) (is_lat : bool) (t : string) :
  Convert.decimal_to_dms_hem value is_lat = Ok t -> contains ":" t = false.
Proof.
  unfold Convert.decimal_to_dms_hem.
  destruct (Convert.split_degrees value) as [[[deg minute] s0]|e]; [|discriminate].
  cbn [bind].
  destruct (Convert.carry_seconds deg minute s0) as [[[D M] s]|e]; [|discriminate].
  cbn [bind]. intro H.
  destruct (render_dms_text _ _ _ _ _ H) as (D' & M' & sec & msec & ->).
  apply dms_text_no_colon, hemisphere_no_colon.
Qed.

Lemma format_fixed_no_colon (x : float) (places : Z) (t : string) :
  format_fixed x places = Ok t -> contains ":" t = false.
Proof.
  unfold format_fixed.
  destruct ((places <? 0) || (2147483647 <? places)) eqn:B; [discriminate|].
  apply orb_false_iff in B. destruct B as [B _]. apply Z.ltb_ge in B.
  assert (Hn : forall q : Q,
             0 <= PyFloat.Qround_half_even (Qabs q * 10 ^ places)%Q).
  { intro q. apply Qround_half_even_nonneg.
    apply Qmult_le_0_compat; [apply Qabs_nonneg|].
    apply Qpower_pos. discriminate. }
  assert (Hp : 0 < 10 ^ places) by (apply Z.pow_pos_nonneg; lia).
  assert (G : forall q : Q,
    contains ":"
      ((if PyFloat.sign x then "-" else EmptyString) ++
       Z_to_dec (PyFloat.Qround_half_even (Qabs q * 10 ^ places)%Q / 10 ^ places) ++
       (if places =? 0 then EmptyString
        else String "." (zfill (Z.to_nat places)
               (Z_to_dec (PyFloat.Qround_half_even (Qabs q * 10 ^ places)%Q
                          mod 10 ^ places))))) = false).
  { intro q. specialize (Hn q).
    rewrite !contains_append.
    rewrite Z_to_dec_no_colon by (apply Z.div_pos; lia).
    destruct (PyFloat.sign x), (places =? 0); cbn [contains orb];
      try reflexivity;
      unfold zfill; rewrite contains_append, repeat_zero_no_colon,
        Z_to_dec_no_colon by (apply Z.mod_pos_bound; lia); reflexivity. }
  destruct x as [q| |b|]; intro H; injection H as <-.
  - apply G.
  - apply (G 0%Q).
  - destruct b; reflexivity.
  - reflexivity.
Qed.

Lemma convert_field_no_colon (reverse : bool) (places : Z) (is_lat : bool)
    (raw v : string) :
  Convert.convert_field reverse places is_lat raw = Ok v ->
  contains ":" v = false.
Proof.
  unfold Convert.convert_field. destruct reverse.
  - destruct (Convert.dms_hem_to_decimal raw is_lat) as [dec|]; [|discriminate].
    cbn [bind]. apply format_fixed_no_colon.
  - destruct (float_of_string raw) as [dec|]; [|discriminate].
    cbn [bind]. apply decimal_to_dms_hem_no_colon.
Qed.

End SplitJoin.

Section RecordFields.

(** ** The fields of a converted runway record *)

(** A list of 11 or 12 fields, spelled out. *)
Lemma eleven_or_twelve (parts : list string) :
  negb ((List.length parts =? 11) || (List.length parts =? 12))%nat = false ->
  exists p0 p1 c2 c3 c4 c5 c6 c7 c8 c9 p10 rest,
    parts = p0 :: p1 :: c2 :: c3 :: c4 :: c5 :: c6 :: c7 :: c8 :: c9 :: p10 :: rest
    /\ (List.length rest <= 1)%nat.
Proof.
  intro H. apply negb_false_iff, orb_true_iff in H.
  destruct parts as [|p0 [|p1 [|c2 [|c3 [|c4 [|c5 [|c6 [|c7 [|c8 [|c9 [|p10 rest]]]]]]]]]]];
    try (destruct H as [H|H]; discriminate H).
  exists p0, p1, c2, c3, c4, c5, c6, c7, c8, c9, p10, rest.
  split; [reflexivity|].
  destruct rest as [|r0 [|r1 rest]]; cbn [List.length]; try lia.
  destruct H as [H|H]; discriminate H.
Qed.

(** The fields of the input and of the output of [convert_record_line]. *)
Lemma convert_record_line_split
    (line : string) (reverse : bool) (decimal_places : Z) (out : string) :
  is_empty (strip line) = false ->
  Convert.convert_record_line line reverse decimal_places = Ok out ->
  exists p0 p1 c2 c3 c4 c5 c6 c7 c8 c9 p10 rest v2 v3 v4 v5 v6 v7 v8 v9,
    split ":" (strip line)
    = p0 :: p1 :: c2 :: c3 :: c4 :: c5 :: c6 :: c7 :: c8 :: c9 :: p10 :: rest /\
    (List.length rest <= 1)%nat /\
    Convert.convert_field reverse decimal_places true (strip c2) = Ok v2 /\
    Convert.convert_field reverse decimal_places false (strip c3) = Ok v3 /\
    Convert.convert_field reverse decimal_places true (strip c4) = Ok v4 /\
    Convert.convert_field reverse decimal_places false (strip c5) = Ok v5 /\
    Convert.convert_field reverse decimal_places true (strip c6) = Ok v6 /\
    Convert.convert_field reverse decimal_places false (strip c7) = Ok v7 /\
    Convert.convert_field reverse decimal_places true (strip c8) = Ok v8 /\
    Convert.convert_field reverse decimal_places false (strip c9) = Ok v9 /\
    out = join ":"
            (p0 :: p1 :: v2 :: v3 :: v4 :: v5 :: v6 :: v7 :: v8 :: v9 :: p10 :: rest) /\
    split ":" out
    = p0 :: p1 :: v2 :: v3 :: v4 :: v5 :: v6 :: v7 :: v8 :: v9 :: p10 :: rest.
Proof.
  intros Hne H.
  unfold Convert.convert_record_line in H. cbv zeta in H.
  rewrite Hne in H.
  destruct (negb ((List.length (split ":" (strip line)) =? 11)
                  || (List.length (split ":" (strip line)) =? 12))%nat)
    eqn:Hlen; [discriminate H|].
  destruct (eleven_or_twelve _ Hlen)
    as (p0 & p1 & c2 & c3 & c4 & c5 & c6 & c7 & c8 & c9 & p10 & rest & Ep & Hr).
  pose proof (split_fields_no_sep ":" (strip line)) as Fp.
  rewrite Ep in H, Fp. rewrite convert_fields_eight in H.
  destruct (Convert.convert_field _ _ true (strip c2)) as [v2|] eqn:E2;
    [|discriminate H].
  destruct (Convert.convert_field _ _ false (strip c3)) as [v3|] eqn:E3;
    [|discriminate H].
  destruct (Convert.convert_field _ _ true (strip c4)) as [v4|] eqn:E4;
    [|discriminate H].
  destruct (Convert.convert_field _ _ false (strip c5)) as [v5|] eqn:E5;
    [|discriminate H].
  destruct (Convert.convert_field _ _ true (strip c6)) as [v6|] eqn:E6;
    [|discriminate H].
  destruct (Convert.convert_field _ _ false (strip c7)) as [v7|] eqn:E7;
    [|discriminate H].
  destruct (Convert.convert_field _ _ true (strip c8)) as [v8|] eqn:E8;
    [|discriminate H].
  destruct (Convert.convert_field _ _ false (strip c9)) as [v9|] eqn:E9;
    [|discriminate H].
  unfold bind in H. injection H as <-.
  exists p0, p1, c2, c3, c4, c5, c6, c7, c8, c9, p10, rest,
    v2, v3, v4, v5, v6, v7, v8, v9.
  split; [exact Ep|]. split; [exact Hr|].
  do 8 (split; [assumption|]). split; [reflexivity|].
  apply (split_join ":"
           (p0 :: p1 :: v2 :: v3 :: v4 :: v5 :: v6 :: v7 :: v8 :: v9 :: p10 :: rest));
    [discriminate|].
  repeat match goal with
         | F : Forall _ (_ :: _) |- _ => inversion F; subst; clear F
         end.
  repeat (constructor; [first [assumption
                              | eapply convert_field_no_colon; eassumption]|]).
  assumption.
Qed.

(** X5.  When [convert_record_line] returns a text for a non-blank line,
    the text splits at the colons into as many fields (11 or 12) as the
    trimmed line, [line.strip()]; the fields at positions 0, 1, 10 and 11
    are those of the trimmed line, and the field at each position [2 + j]
    is the conversion of the field of the trimmed line at that position,
    itself trimmed, as a latitude for even [j] and a longitude for odd
    [j].  No converted field holds a colon, so the output is a record
    again. *)
Theorem convert_record_line_fields
    (line : string) (reverse : bool) (decimal_places : Z) (out : string) :
  is_empty (strip line) = false ->
  Convert.convert_record_line line reverse decimal_places = Ok out ->
  let parts := split ":" (strip line) in
  let fields := split ":" out in
  List.length fields = List.length parts /\
  (List.length parts = 11%nat \/ List.length parts = 12%nat) /\
  (forall i, (i < 2 \/ 10 <= i)%nat ->
     nth i fields EmptyString = nth i parts EmptyString) /\
  (forall j, (j < 8)%nat ->
     Convert.convert_field reverse decimal_places (Nat.even j)
       (strip (nth (2 + j) parts EmptyString))
     = Ok (nth (2 + j) fields EmptyString)).
Proof.
  intros Hne H parts fields.
  destruct (convert_record_line_split line reverse decimal_places out Hne H)
    as (p0 & p1 & c2 & c3 & c4 & c5 & c6 & c7 & c8 & c9 & p10 & rest
        & v2 & v3 & v4 & v5 & v6 & v7 & v8 & v9
        & Ep & Hr & E2 & E3 & E4 & E5 & E6 & E7 & E8 & E9 & _ & Es).
  unfold fields, parts. rewrite Es, Ep. split; [reflexivity|].
  split.
  { destruct rest as [|r0 [|r1 rest]]; cbn [List.length] in *;
      [left; reflexivity | right; reflexivity | lia]. }
  split.
  - intros i Hi.
    do 2 (destruct i as [|i]; [reflexivity|]).
    do 8 (destruct i as [|i]; [lia|]).
    reflexivity.
  - intros j Hj. cbn [Nat.add].
    do 8 (destruct j as [|j]; [cbn [nth Nat.even]; assumption|]).
    lia.
Qed.

(** The sample record, forwards. *)
Lemma convert_record_line_fields_witness :
  exists out,
    Convert.convert_record_line sample_record false 7 = Ok out /\
    List.length (split ":" out) = List.length (split ":" (strip sample_record)) /\
    nth 11 (split ":" out) EmptyString = "rem1,rem2" /\
    nth 2 (split ":" out) EmptyString = "N050.54.03.056".
Proof.
  assert (E : Convert.convert_record_line sample_record false 7
              = Ok "EBBR:25L:N050.54.03.056:E004.28.32.468:N050.54.00.000:E004.24.00.000:N050.48.00.000:E004.30.00.000:N050.42.00.000:E004.36.00.000:12:rem1,rem2")
    by (vm_compute; reflexivity).
  destruct (convert_record_line_fields sample_record false 7 _ eq_refl E)
    as (L & _ & Hframe & Hconv).
  eexists. split; [exact E|]. split; [exact L|].
  split.
  - rewrite (Hframe 11%nat) by lia. vm_compute. reflexivity.
  - vm_compute. reflexivity.
Defined.

End RecordFields.

Section RunwayMain.

(** ** The loop of [main] in convert.py *)

(** What one iteration appends, read off [main_line]. *)
Lemma main_line_result (a : Convert.args) (raw l : string) :
  snd (Convert.main_line a raw) = Ok l ->
  (passes_through raw = true /\ l = rstrip_newlines raw) \/
  (passes_through raw = false /\
   exists rev,
     Convert.convert_record_line raw rev (Convert.arg_decimal_places a) = Ok l /\
     (Convert.arg_force a = true -> rev = Convert.arg_reverse a)).
Proof.
  unfold Convert.main_line. fold (passes_through raw).
  destruct (passes_through raw).
  - cbn [snd]. intro H. injection H as <-. left. split; reflexivity.
  - cbv zeta.
    destruct (negb ((List.length (split ":" (strip raw)) =? 11)
                    || (List.length (split ":" (strip raw)) =? 12))%nat);
      [discriminate|].
    match goal with
    | |- snd (let '(c, w) := ?X in _) = _ -> _ =>
        assert (Hc : Convert.arg_force a = true -> fst X = Convert.arg_reverse a);
        [|destruct X as [chosen warnings]]
    end.
    { intros ->. reflexivity. }
    cbn [snd fst] in *.
    destruct (Convert.convert_record_line raw chosen (Convert.arg_decimal_places a))
      as [c|e] eqn:E.
    + intro H. injection H as <-. right. split; [reflexivity|].
      exists chosen. split; [exact E | exact Hc].
    + destruct (is_value_error e); discriminate.
Qed.

Lemma main_loop_acc (a : Convert.args) (raws : list string) :
  forall (out0 : list string) (w0 w : list Convert.warning) (out : list string),
    Convert.main_loop a raws out0 w0 = (w, Ok out) ->
    exists ls,
      out = (out0 ++ ls)%list /\
      Forall2 (fun raw l => snd (Convert.main_line a raw) = Ok l) raws ls /\
      w = (w0 ++ flat_map (fun raw => fst (Convert.main_line a raw)) raws)%list.
Proof.
  induction raws as [|raw raws IH]; intros out0 w0 w out H.
  - cbn [Convert.main_loop] in H. injection H as <- <-.
    exists []. rewrite !app_nil_r. repeat split. constructor.
  - cbn [Convert.main_loop] in H.
    destruct (Convert.main_line a raw) as [w1 [l|e]] eqn:E.
    + destruct (IH _ _ _ _ H) as (ls & -> & F & ->).
      exists (l :: ls). split; [rewrite <- app_assoc; reflexivity|].
      split.
      * constructor; [rewrite E; reflexivity | exact F].
      * cbn [flat_map]. rewrite E. cbn [fst]. rewrite app_assoc. reflexivity.
    + discriminate H.
Qed.

Lemma main_loop_raise (a : Convert.args) (raws : list string) :
  forall (out0 : list string) (w0 w : list Convert.warning) (e : error),
    Convert.main_loop a raws out0 w0 = (w, Raise e) ->
    exists pre raw post,
      raws = (pre ++ raw :: post)%list /\
      Forall (fun r => exists l, snd (Convert.main_line a r) = Ok l) pre /\
      snd (Convert.main_line a raw) = Raise e.
Proof.
  induction raws as [|raw raws IH]; intros out0 w0 w e H.
  - discriminate H.
  - cbn [Convert.main_loop] in H.
    destruct (Convert.main_line a raw) as [w1 [l|e1]] eqn:E.
    + destruct (IH _ _ _ _ H) as (pre & r & post & -> & F & Er).
      exists (raw :: pre), r, post. split; [reflexivity|].
      split; [|exact Er].
      constructor; [exists l; rewrite E; reflexivity | exact F].
    + injection H as <- <-. exists [], raw, raws.
      split; [reflexivity|]. split; [constructor|]. rewrite E. reflexivity.
Qed.

(** X6.  When [main] of convert.py writes a text, the text holds exactly
    one line per input line, in the order of the input: a comment or blank
    line as it is, without its trailing newlines, and every other line as
    [convert_record_line] converts it, in the direction of [--reverse]
    when [--force] is given.  When some line fails, [main] raises the error
    of the first such line and returns no text at all. *)
Theorem runway_main_lines (a : Convert.args) (i : input) :
  (forall w text,
      Convert.main a i = (w, Ok text) ->
      exists out_lines,
        text = Convert.output_text out_lines /\
        List.length out_lines = List.length (iter_input_lines i) /\
        forall k raw,
          nth_error (iter_input_lines i) k = Some raw ->
          exists l,
            nth_error out_lines k = Some l /\
            (passes_through raw = true -> l = rstrip_newlines raw) /\
            (passes_through raw = false ->
             exists rev,
               Convert.convert_record_line raw rev (Convert.arg_decimal_places a)
               = Ok l /\
               (Convert.arg_force a = true -> rev = Convert.arg_reverse a))) /\
  (forall w e,
      Convert.main a i = (w, Raise e) ->
      exists pre raw post,
        iter_input_lines i = (pre ++ raw :: post)%list /\
        Forall (fun r => exists l, snd (Convert.main_line a r) = Ok l) pre /\
        snd (Convert.main_line a raw) = Raise e).
Proof.
  split.
  - intros w text. unfold Convert.main.
    destruct (Convert.main_loop a (iter_input_lines i) [] []) as [w' [out|e]] eqn:E;
      cbn [bind]; intro H; [|discriminate H].
    injection H as <- <-.
    destruct (main_loop_acc a _ _ _ _ _ E) as (ls & -> & F & _).
    cbn [app]. exists ls. split; [reflexivity|].
    split; [symmetry; apply (Forall2_length F)|].
    clear E. revert F. generalize (iter_input_lines i). clear i.
    intros raws F. induction F as [|raw l raws ls Hl F IH]; intros k r Hk.
    + destruct k; discriminate Hk.
    + destruct k as [|k].
      * cbn [nth_error] in Hk. injection Hk as <-. exists l.
        split; [reflexivity|].
        destruct (main_line_result a raw l Hl) as [[P ->]|[P R]]; rewrite P.
        -- split; [reflexivity | discriminate].
        -- split; [discriminate | intros _; exact R].
      * cbn [nth_error] in Hk |- *. apply IH. exact Hk.
  - intros w e. unfold Convert.main.
    destruct (Convert.main_loop a (iter_input_lines i) [] []) as [w' [out|e']] eqn:E;
      cbn [bind]; intro H; [discriminate H|].
    injection H as <- <-.
    apply (main_loop_raise a _ _ _ _ _ E).
Qed.

(** A comment, a blank line and the sample record. *)
Lemma runway_main_lines_witness :
  exists out_lines,
    List.length out_lines = 3%nat /\
    nth_error out_lines 0 = Some "# runway 25L" /\
    nth_error out_lines 1 = Some "  ".
Proof.
  destruct (proj1 (runway_main_lines default_args
                     (Lines ["# runway 25L" ++ nl; "  " ++ nl; sample_record ++ nl]))
              []
              ("# runway 25L" ++ nl ++ "  " ++ nl ++
               "EBBR:25L:N050.54.03.056:E004.28.32.468:N050.54.00.000:E004.24.00.000:N050.48.00.000:E004.30.00.000:N050.42.00.000:E004.36.00.000:12:rem1,rem2" ++ nl))
    as (out_lines & _ & L & H).
  - vm_compute. reflexivity.
  - exists out_lines. split; [exact L|]. split.
    + destruct (H 0%nat _ eq_refl) as (l & El & Hp & _).
      rewrite El, (Hp eq_refl). reflexivity.
    + destruct (H 1%nat _ eq_refl) as (l & El & Hp & _).
      rewrite El, (Hp eq_refl). reflexivity.
Defined.

End RunwayMain.

Section AutoDetect.

(** ** Auto-detection and [--force] *)

(** X7.  Without [--force], a line on which [detect_mode] decides is
    converted in the detected direction whatever [--reverse] says: the
    result (text or error) is the same with and without the flag.  On a
    record of 11 or 12 fields the run whose flag agrees with the detector
    writes no warning, and the other run writes exactly one, naming the
    direction it switched to. *)
Theorem auto_detect_overrides (places : Z) (raw : string) (d : bool) :
  Convert.detect_mode (split ":" (strip raw)) = Some d ->
  (forall r,
     snd (Convert.main_line (Convert.mkArgs r false places) raw)
     = snd (Convert.main_line (Convert.mkArgs d false places) raw)) /\
  (passes_through raw = false ->
   (List.length (split ":" (strip raw)) = 11%nat \/
    List.length (split ":" (strip raw)) = 12%nat) ->
   fst (Convert.main_line (Convert.mkArgs d false places) raw) = [] /\
   fst (Convert.main_line (Convert.mkArgs (negb d) false places) raw)
   = [if d then Convert.W_auto_reverse (strip raw)
      else Convert.W_auto_forward (strip raw)] /\
   snd (Convert.main_line (Convert.mkArgs d false places) raw)
   = match Convert.convert_record_line raw d places with
     | Ok converted => Ok converted
     | Raise e => if is_value_error e then Raise (E_hinted e None) else Raise e
     end).
Proof.
  intro Hd. split.
  - intro r. unfold Convert.main_line. cbn [Convert.arg_force Convert.arg_reverse
      Convert.arg_decimal_places]. rewrite Hd.
    destruct (starts_with "#" (lstrip raw) || is_empty (strip raw)); [reflexivity|].
    cbv zeta.
    destruct (negb ((List.length (split ":" (strip raw)) =? 11)
                    || (List.length (split ":" (strip raw)) =? 12))%nat);
      [reflexivity|].
    rewrite eqb_reflx. unfold Convert.force_hint.
    cbn [Convert.arg_force].
    destruct (Bool.eqb d r) eqn:E.
    + apply eqb_prop in E. subst r. reflexivity.
    + reflexivity.
  - intros Hp Hn. unfold Convert.main_line. unfold passes_through in Hp.
    cbn [Convert.arg_force Convert.arg_reverse Convert.arg_decimal_places].
    rewrite Hd, Hp. cbv zeta.
    assert (Hlen : negb ((List.length (split ":" (strip raw)) =? 11)
                         || (List.length (split ":" (strip raw)) =? 12))%nat = false).
    { destruct Hn as [-> | ->]; reflexivity. }
    rewrite Hlen, eqb_reflx.
    assert (Hneg : Bool.eqb d (negb d) = false) by (destruct d; reflexivity).
    rewrite Hneg. unfold Convert.force_hint. cbn [Convert.arg_force fst snd].
    split; [reflexivity|]. split; [reflexivity|]. reflexivity.
Qed.

(** The DMS form of the sample record, with and without [--reverse]. *)
Lemma auto_detect_overrides_witness :
  snd (Convert.main_line (Convert.mkArgs false false 7) sample_dms_record)
  = snd (Convert.main_line (Convert.mkArgs true false 7) sample_dms_record) /\
  fst (Convert.main_line (Convert.mkArgs false false 7) sample_dms_record)
  = [Convert.W_auto_reverse (strip sample_dms_record)].
Proof.
  assert (Hd : Convert.detect_mode (split ":" (strip sample_dms_record)) = Some true)
    by (vm_compute; reflexivity).
  destruct (auto_detect_overrides 7 sample_dms_record true Hd) as [H1 H2].
  split.
  - apply H1.
  - destruct H2 as (_ & W & _).
    + vm_compute. reflexivity.
    + right. vm_compute. reflexivity.
    + exact W.
Defined.

(** ** Forcing the forward direction on DMS input *)

Lemma float_of_string_raise (s : string) (e : error) :
  float_of_string s = Raise e -> e = E_float_syntax.
Proof.
  unfold float_of_string.
  destruct (negb (underscores_ok None s)); [intro H; injection H as <-; reflexivity|].
  destruct (split_sign (num_strip (remove_underscores s))) as [neg body].
  destruct (String.eqb (map_chars lower body) "inf"
            || String.eqb (map_chars lower body) "infinity"); [discriminate|].
  destruct (String.eqb (map_chars lower body) "nan"); [discriminate|].
  destruct (parse_decimal body) as [[m ex]|]; [discriminate|].
  intro H. injection H as <-. reflexivity.
Qed.

(** A field that looks like DMS is not converted forwards. *)
Lemma convert_field_forward_dms (places : Z) (is_lat : bool) (c : string) :
  Convert.looks_like_dms c = true ->
  Convert.convert_field false places is_lat (strip c) = Raise E_float_syntax.
Proof.
  intro H. apply dms_not_decimal in H.
  unfold Convert.looks_like_decimal in H. unfold Convert.convert_field.
  destruct (float_of_string (strip c)) as [x|e] eqn:E; [discriminate H|].
  rewrite (float_of_string_raise _ _ E). reflexivity.
Qed.

(** X8.  With [--force] and without [--reverse], a record of 11 or 12
    fields with a coordinate field that looks like DMS is never converted:
    [main] raises, without a warning, and when the error is a [ValueError]
    it carries the hint to try [--reverse].  When the first coordinate field
    is such a field, the error is the [ValueError] of [float] with that
    hint. *)
Theorem forced_forward_on_dms (places : Z) (raw : string) :
  passes_through raw = false ->
  (List.length (split ":" (strip raw)) = 11%nat \/
   List.length (split ":" (strip raw)) = 12%nat) ->
  existsb Convert.looks_like_dms (slice 2 10 (split ":" (strip raw))) = true ->
  (exists e,
     Convert.main_line (Convert.mkArgs false true places) raw = ([], Raise e) /\
     (is_value_error e = true -> exists inner, e = E_hinted inner (Some true))) /\
  (Convert.looks_like_dms (nth 2 (split ":" (strip raw)) EmptyString) = true ->
   Convert.main_line (Convert.mkArgs false true places) raw
   = ([], Raise (E_hinted E_float_syntax (Some true)))).
Proof.
  intros Hp Hn Hex. unfold Convert.main_line. unfold passes_through in Hp.
  rewrite Hp. cbv zeta.
  assert (Hlen : negb ((List.length (split ":" (strip raw)) =? 11)
                       || (List.length (split ":" (strip raw)) =? 12))%nat = false).
  { destruct Hn as [-> | ->]; reflexivity. }
  rewrite Hlen. cbn [Convert.arg_force Convert.arg_reverse Convert.arg_decimal_places].
  unfold Convert.force_hint. cbn [Convert.arg_force Convert.arg_reverse].
  rewrite Hex. cbn [andb negb].
  unfold Convert.convert_record_line. cbv zeta.
  assert (Hne : is_empty (strip raw) = false).
  { apply orb_false_iff in Hp. apply Hp. }
  rewrite Hne, Hlen.
  destruct (eleven_or_twelve _ Hlen)
    as (p0 & p1 & c2 & c3 & c4 & c5 & c6 & c7 & c8 & c9 & p10 & rest & Ep & Hr).
  rewrite Ep in Hex |- *. rewrite convert_fields_eight.
  split.
  - assert (Hsome :
      Convert.looks_like_dms c2 = true \/ Convert.looks_like_dms c3 = true \/
      Convert.looks_like_dms c4 = true \/ Convert.looks_like_dms c5 = true \/
      Convert.looks_like_dms c6 = true \/ Convert.looks_like_dms c7 = true \/
      Convert.looks_like_dms c8 = true \/ Convert.looks_like_dms c9 = true).
    { unfold slice in Hex. cbn [skipn firstn Nat.sub existsb] in Hex.
      repeat (apply orb_true_iff in Hex; destruct Hex as [Hex|Hex]; [tauto|]).
      destruct rest; discriminate Hex. }
    assert (Hraise : forall (r : exc string),
      (forall v, r <> Ok v) ->
      exists e,
        ([] : list Convert.warning,
         match r with
         | Ok converted => Ok converted
         | Raise e =>
             if is_value_error e then Raise (E_hinted e (Some true)) else Raise e
         end) = ([], Raise e) /\
        (is_value_error e = true -> exists inner, e = E_hinted inner (Some true))).
    { intros [v|e] Hr'; [exfalso; apply (Hr' v); reflexivity|].
      destruct (is_value_error e) eqn:V.
      - eexists. split; [reflexivity|]. intros _. eexists. reflexivity.
      - exists e. split; [reflexivity|]. rewrite V. discriminate. }
    apply Hraise. intros v Hv.
    destruct (Convert.convert_field false places true (strip c2)) as [v2|] eqn:E2;
      [|discriminate Hv].
    destruct (Convert.convert_field false places false (strip c3)) as [v3|] eqn:E3;
      [|discriminate Hv].
    destruct (Convert.convert_field false places true (strip c4)) as [v4|] eqn:E4;
      [|discriminate Hv].
    destruct (Convert.convert_field false places false (strip c5)) as [v5|] eqn:E5;
      [|discriminate Hv].
    destruct (Convert.convert_field false places true (strip c6)) as [v6|] eqn:E6;
      [|discriminate Hv].
    destruct (Convert.convert_field false places false (strip c7)) as [v7|] eqn:E7;
      [|discriminate Hv].
    destruct (Convert.convert_field false places true (strip c8)) as [v8|] eqn:E8;
      [|discriminate Hv].
    destruct (Convert.convert_field false places false (strip c9)) as [v9|] eqn:E9;
      [|discriminate Hv].
    destruct Hsome as [H|[H|[H|[H|[H|[H|[H|H]]]]]]];
      match goal with
      | E : Convert.convert_field false places ?b (strip ?c) = Ok _,
        H : Convert.looks_like_dms ?c = true |- _ =>
          rewrite (convert_field_forward_dms places b c H) in E; discriminate E
      end.
  - cbn [nth]. intro H2.
    rewrite (convert_field_forward_dms places true c2 H2). reflexivity.
Qed.

(** The DMS form of the sample record, forced forwards. *)
Lemma forced_forward_on_dms_witness :
  Convert.main_line (Convert.mkArgs false true 7) sample_dms_record
  = ([], Raise (E_hinted E_float_syntax (Some true))).
Proof.
  apply (proj2 (forced_forward_on_dms 7 sample_dms_record
                  ltac:(vm_compute; reflexivity)
                  ltac:(right; vm_compute; reflexivity)
                  ltac:(vm_compute; reflexivity))).
  vm_compute. reflexivity.
Defined.

End AutoDetect.

Section GenericRecords.

(** ** The generic transcoder on any record *)

Lemma length_removelast (A : Type) (l : list A) :
  List.length (removelast l) = pred (List.length l).
Proof.
  induction l as [|a l IH]; [reflexivity|].
  destruct l as [|b l]; [reflexivity|].
  change (removelast (a :: b :: l)) with (a :: removelast (b :: l)).
  cbn [List.length] in *. rewrite IH. reflexivity.
Qed.

Lemma Forall_removelast (A : Type) (P : A -> Prop) (l : list A) :
  Forall P l -> Forall P (removelast l).
Proof.
  induction l as [|a l IH]; intro F; [constructor|].
  inversion F; subst. destruct l as [|b l]; [constructor|].
  change (removelast (a :: b :: l)) with (a :: removelast (b :: l)).
  constructor; [assumption | apply IH; assumption].
Qed.

Lemma Forall_firstn_keep (A : Type) (P : A -> Prop) (n : nat) (l : list A) :
  Forall P l -> Forall P (firstn n l).
Proof.
  revert l. induction n as [|n IH]; intros l F; [constructor|].
  destruct l as [|a l]; [constructor|].
  inversion F; subst. cbn [firstn]. constructor; [assumption | apply IH; assumption].
Qed.

Lemma Forall_last_default (A : Type) (P : A -> Prop) (l : list A) (d : A) :
  l <> [] -> Forall P l -> P (last l d).
Proof.
  induction l as [|a l IH]; intros Hne F; [contradiction|].
  inversion F; subst. destruct l as [|b l]; [assumption|].
  change (last (a :: b :: l) d) with (last (b :: l) d).
  apply IH; [discriminate | assumption].
Qed.

(** [convert_pairs] returns what converting each field in turn returns. *)
Lemma convert_pairs_forward (n : nat) :
  forall (l out : list string),
    List.length l = (2 * n)%nat ->
    (ConvertCoordinates.convert_pairs l = Ok out <-> forward_all true l = Ok out).
Proof.
  induction n as [|n IH]; intros l out Hl.
  - destruct l; [|discriminate Hl]. reflexivity.
  - destruct l as [|c1 [|c2 rest]]; try (cbn [List.length] in Hl; lia).
    assert (Hrest : List.length rest = (2 * n)%nat) by (cbn [List.length] in Hl; lia).
    cbn [ConvertCoordinates.convert_pairs forward_all negb].
    unfold generic_field.
    destruct (float_of_string (strip c1)) as [x|e1] eqn:E1.
    2:{ cbn [bind except_value_error].
        destruct (is_value_error e1); split; discriminate. }
    destruct (float_of_string (strip c2)) as [y|e2] eqn:E2.
    2:{ cbn [bind except_value_error].
        destruct (ConvertCoordinates.decimal_to_dms_hem x true);
          destruct (is_value_error e2); split; discriminate. }
    cbn [bind except_value_error].
    destruct (ConvertCoordinates.decimal_to_dms_hem x true) as [a|];
      [|split; discriminate].
    cbn [bind].
    destruct (ConvertCoordinates.decimal_to_dms_hem y false) as [b|];
      [|split; discriminate].
    cbn [bind].
    destruct (ConvertCoordinates.convert_pairs rest) as [o1|e] eqn:P1;
      destruct (forward_all true rest) as [o2|e'] eqn:P2; cbn [bind].
    + assert (o1 = o2).
      { pose proof (proj1 (IH rest o1 Hrest) P1) as H. rewrite P2 in H.
        injection H as ->. reflexivity. }
      subst. reflexivity.
    + pose proof (proj1 (IH rest o1 Hrest) P1) as H. rewrite P2 in H. discriminate H.
    + pose proof (proj2 (IH rest o2 Hrest) P2) as H. rewrite P1 in H. discriminate H.
    + split; discriminate.
Qed.

Lemma forward_all_fields (l : list string) :
  forall (is_lat : bool) (vs : list string),
    forward_all is_lat l = Ok vs ->
    List.length vs = List.length l /\
    Forall (fun v => contains ":" v = false) vs /\
    forall j, (j < List.length l)%nat ->
      generic_field (if Nat.even j then is_lat else negb is_lat)
        (strip (nth j l EmptyString))
      = Ok (nth j vs EmptyString).
Proof.
  induction l as [|c l IH]; intros is_lat vs H.
  - injection H as <-. split; [reflexivity|]. split; [constructor|].
    intros j Hj. cbn [List.length] in Hj. lia.
  - cbn [forward_all] in H.
    destruct (generic_field is_lat (strip c)) as [v|] eqn:E; [|discriminate H].
    cbn [bind] in H.
    destruct (forward_all (negb is_lat) l) as [vs'|] eqn:E'; [|discriminate H].
    cbn [bind] in H. injection H as <-.
    destruct (IH _ _ E') as (L & F & Hj).
    split; [cbn [List.length]; rewrite L; reflexivity|].
    split.
    + constructor; [|exact F].
      unfold generic_field in E.
      destruct (float_of_string (strip c)) as [x|]; [|discriminate E].
      cbn [bind] in E. rewrite decimal_to_dms_hem_same in E.
      apply (decimal_to_dms_hem_no_colon _ _ _ E).
    + intros [|j] Hlt; [exact E|].
      cbn [nth]. cbn [List.length] in Hlt.
      specialize (Hj j ltac:(lia)).
      rewrite Nat.even_succ, <- Nat.negb_even.
      destruct (Nat.even j); cbn [negb]; [exact Hj|].
      rewrite negb_involutive in Hj. exact Hj.
Qed.

Lemma even_length_double (A : Type) (l : list A) :
  Nat.even (List.length l) = true -> exists n, List.length l = (2 * n)%nat.
Proof.
  intro H. apply Nat.even_spec in H. destruct H as [n H]. exists n. exact H.
Qed.

(** When [convert_line] returns a text for a record. *)
Lemma generic_convert_line_ok (line : string) :
  ignored_line line = false ->
  let parts := split ":" (strip line) in
  let coord_fields := removelast (skipn 2 parts) in
  (5 <= List.length parts)%nat -> Nat.even (List.length coord_fields) = true ->
  forall out,
    ConvertCoordinates.convert_line line = Ok out <->
    exists vs,
      forward_all true coord_fields = Ok vs /\
      out = join ":" (firstn 2 parts ++ vs ++ [last parts EmptyString])%list.
Proof.
  intros Hig parts coord_fields H5 Hev out. unfold ignored_line in Hig.
  apply orb_false_iff in Hig. destruct Hig as [Hb Hc].
  unfold ConvertCoordinates.convert_line. cbv zeta.
  rewrite Hb, Hc. fold parts. fold coord_fields.
  destruct (Nat.ltb_spec (List.length parts) 5) as [C|_]; [lia|].
  rewrite Hev. cbn [negb].
  destruct (even_length_double _ _ Hev) as [n Hn].
  pose proof (convert_pairs_forward n coord_fields) as Hcp.
  destruct (ConvertCoordinates.convert_pairs coord_fields) as [o|e] eqn:P;
    cbn [bind].
  - pose proof (proj1 (Hcp o Hn) eq_refl) as Hf. split.
    + intro H. injection H as <-. exists o. split; [exact Hf | reflexivity].
    + intros (vs & Hvs & ->). rewrite Hf in Hvs. injection Hvs as <-.
      reflexivity.
  - split; [discriminate|].
    intros (vs & Hvs & _). pose proof (proj2 (Hcp vs Hn) Hvs) as H.
    discriminate H.
Qed.

(** X9.  Let the fields be those of the trimmed line, [line.strip()].
    On a line that is neither blank nor a comment, [convert_line] of
    convert-coordinates.py raises when there are fewer than 5 fields or an
    odd number of fields between the second and the last; otherwise it
    returns a text exactly when every coordinate field converts, and the
    text then splits at the colons into as many fields as the trimmed
    line: its first two fields and its last as they stand, and between
    them the conversions of its coordinate fields, each trimmed, in order,
    latitudes at the even and longitudes at the odd positions. *)
Theorem generic_convert_line_frame (line : string) :
  ignored_line line = false ->
  let parts := split ":" (strip line) in
  let coord_fields := removelast (skipn 2 parts) in
  ((List.length parts < 5)%nat ->
   ConvertCoordinates.convert_line line = Raise E_too_few_fields) /\
  ((5 <= List.length parts)%nat -> Nat.even (List.length coord_fields) = false ->
   ConvertCoordinates.convert_line line = Raise E_odd_coord_count) /\
  ((5 <= List.length parts)%nat -> Nat.even (List.length coord_fields) = true ->
   forall out,
     ConvertCoordinates.convert_line line = Ok out <->
     exists vs,
       forward_all true coord_fields = Ok vs /\
       out = join ":" (firstn 2 parts ++ vs ++ [last parts EmptyString])%list) /\
  (forall out,
     ConvertCoordinates.convert_line line = Ok out ->
     exists vs,
       forward_all true coord_fields = Ok vs /\
       split ":" out = (firstn 2 parts ++ vs ++ [last parts EmptyString])%list /\
       List.length (split ":" out) = List.length parts /\
       forall j, (j < List.length coord_fields)%nat ->
         generic_field (Nat.even j) (strip (nth (2 + j) parts EmptyString))
         = Ok (nth (2 + j) (split ":" out) EmptyString)).
Proof.
  intros Hig parts coord_fields.
  pose proof (generic_convert_line_ok line Hig) as Hconv.
  cbv zeta in Hconv. fold parts in Hconv. fold coord_fields in Hconv.
  unfold ignored_line in Hig.
  apply orb_false_iff in Hig. destruct Hig as [Hb Hc].
  split; [|split; [|split]].
  - intro H. unfold ConvertCoordinates.convert_line. cbv zeta.
    rewrite Hb, Hc. fold parts. apply Nat.ltb_lt in H. rewrite H. reflexivity.
  - intros H5 Hodd. unfold ConvertCoordinates.convert_line. cbv zeta.
    rewrite Hb, Hc. fold parts. fold coord_fields.
    destruct (Nat.ltb_spec (List.length parts) 5) as [C|_]; [lia|].
    rewrite Hodd. reflexivity.
  - intros H5 Hev out. apply Hconv; assumption.
  - intros out H.
    assert (H5 : (5 <= List.length parts)%nat).
    { unfold ConvertCoordinates.convert_line in H. cbv zeta in H.
      rewrite Hb, Hc in H. fold parts in H.
      destruct (Nat.ltb_spec (List.length parts) 5) as [C|C];
        [discriminate H | exact C]. }
    assert (Hev : Nat.even (List.length coord_fields) = true).
    { unfold ConvertCoordinates.convert_line in H. cbv zeta in H.
      rewrite Hb, Hc in H. fold parts in H. fold coord_fields in H.
      destruct (List.length parts <? 5)%nat; [discriminate H|].
      destruct (Nat.even (List.length coord_fields)); [reflexivity|discriminate H]. }
    destruct (proj1 (Hconv H5 Hev out) H) as (vs & Hvs & ->).
    destruct (forward_all_fields _ _ _ Hvs) as (L & F & Hj).
    pose proof (split_fields_no_sep ":" (strip line)) as Fp. fold parts in Fp.
    assert (Lc : List.length coord_fields = (List.length parts - 3)%nat).
    { unfold coord_fields. rewrite length_removelast, length_skipn. lia. }
    assert (Es : split ":" (join ":" (firstn 2 parts ++ vs ++ [last parts EmptyString])%list)
                 = (firstn 2 parts ++ vs ++ [last parts EmptyString])%list).
    { apply (split_join ":").
      - destruct parts as [|p0 l]; [cbn [List.length] in H5; lia|]. discriminate.
      - apply Forall_app. split; [apply Forall_firstn_keep; exact Fp|].
        apply Forall_app. split; [exact F|].
        constructor; [|constructor].
        apply (Forall_last_default _ (fun f => contains ":" f = false));
          [|exact Fp].
        destruct parts; [cbn [List.length] in H5; lia | discriminate]. }
    exists vs. split; [exact Hvs|]. split; [exact Es|]. rewrite Es.
    split.
    + rewrite !length_app, length_firstn, L, Lc. cbn [List.length]. lia.
    + intros j Hlt. specialize (Hj j Hlt). cbn [negb] in Hj.
      assert (E1 : nth j coord_fields EmptyString = nth (2 + j) parts EmptyString).
      { unfold coord_fields.
        destruct parts as [|p0 [|p1 l]]; try (cbn [List.length] in H5; lia).
        cbn [skipn Nat.add nth].
        clear - Hlt. unfold coord_fields in Hlt. cbn [skipn] in Hlt.
        revert j Hlt. induction l as [|a l IH]; intros j Hlt.
        - cbn [removelast List.length] in Hlt. lia.
        - destruct l as [|b l]; [cbn [removelast List.length] in Hlt; lia|].
          change (removelast (a :: b :: l)) with (a :: removelast (b :: l)) in *.
          destruct j as [|j]; [reflexivity|].
          cbn [nth]. apply IH. cbn [List.length] in Hlt |- *. lia. }
      assert (E2 : nth (2 + j) (firstn 2 parts ++ vs ++ [last parts EmptyString])%list
                     EmptyString = nth j vs EmptyString).
      { destruct parts as [|p0 [|p1 l]]; try (cbn [List.length] in H5; lia).
        cbn [firstn app Nat.add nth].
        rewrite app_nth1 by lia. reflexivity. }
      rewrite E1 in Hj. rewrite E2.
      destruct (Nat.even j); exact Hj.
Qed.

(** The record of the documentation, and a record of four fields. *)
Lemma generic_convert_line_frame_witness :
  (exists vs,
     forward_all true ["50.9008489"; "4.4756856"] = Ok vs /\
     split ":" "KXYZ:09:N050.54.03.056:E004.28.32.468:TAIL"
     = (["KXYZ"; "09"] ++ vs ++ ["TAIL"])%list) /\
  ConvertCoordinates.convert_line "KXYZ:09:50.9008489:TAIL" = Raise E_too_few_fields.
Proof.
  split.
  - destruct (proj2 (proj2 (proj2 (generic_convert_line_frame
                 "KXYZ:09:50.9008489:4.4756856:TAIL" eq_refl)))
                "KXYZ:09:N050.54.03.056:E004.28.32.468:TAIL")
      as (vs & Hvs & Es & _).
    + vm_compute. reflexivity.
    + exists vs. split; [exact Hvs | exact Es].
  - apply (proj1 (generic_convert_line_frame "KXYZ:09:50.9008489:TAIL" eq_refl)).
    vm_compute. lia.
Defined.

End GenericRecords.

Section GenericMain.

(** ** The two transcoders on one record *)

Lemma convert_field_forward (places : Z) (is_lat : bool) (raw : string) :
  Convert.convert_field false places is_lat raw = generic_field is_lat raw.
Proof. reflexivity. Qed.

(** The eight conversions of the runway transcoder, forwards, are the
    conversions of the fields in turn. *)
Lemma eight_forward (places : Z)
    (p0 p1 c2 c3 c4 c5 c6 c7 c8 c9 : string) (tail : list string) (out : list string) :
  Convert.convert_fields (seq 0 8) false places
    (p0 :: p1 :: c2 :: c3 :: c4 :: c5 :: c6 :: c7 :: c8 :: c9 :: tail)
    (p0 :: p1 :: c2 :: c3 :: c4 :: c5 :: c6 :: c7 :: c8 :: c9 :: tail) = Ok out <->
  exists vs,
    forward_all true [c2; c3; c4; c5; c6; c7; c8; c9] = Ok vs /\
    out = (p0 :: p1 :: vs ++ tail)%list.
Proof.
  rewrite convert_fields_eight. rewrite !convert_field_forward.
  cbn [forward_all negb].
  destruct (generic_field true (strip c2)) as [v2|];
    [|split; [discriminate | intros (vs & H & _); discriminate H]].
  cbn [bind].
  destruct (generic_field false (strip c3)) as [v3|];
    [|split; [discriminate | intros (vs & H & _); discriminate H]].
  cbn [bind].
  destruct (generic_field true (strip c4)) as [v4|];
    [|split; [discriminate | intros (vs & H & _); discriminate H]].
  cbn [bind].
  destruct (generic_field false (strip c5)) as [v5|];
    [|split; [discriminate | intros (vs & H & _); discriminate H]].
  cbn [bind].
  destruct (generic_field true (strip c6)) as [v6|];
    [|split; [discriminate | intros (vs & H & _); discriminate H]].
  cbn [bind].
  destruct (generic_field false (strip c7)) as [v7|];
    [|split; [discriminate | intros (vs & H & _); discriminate H]].
  cbn [bind].
  destruct (generic_field true (strip c8)) as [v8|];
    [|split; [discriminate | intros (vs & H & _); discriminate H]].
  cbn [bind].
  destruct (generic_field false (strip c9)) as [v9|];
    [|split; [discriminate | intros (vs & H & _); discriminate H]].
  cbn [bind]. split.
  - intro H. injection H as <-. eexists. split; reflexivity.
  - intros (vs & H & ->). injection H as <-. reflexivity.
Qed.

(** X10.  On a record of 11 fields that is not a comment, the runway
    transcoder in forward mode and the generic transcoder return the same
    text, and one returns a text exactly when the other does.  On a record
    of 12 fields, which the runway transcoder accepts, the generic
    transcoder counts the taxitime among the coordinates and raises the
    odd-count error. *)
Theorem transcoders_agree (line : string) (places : Z) :
  ignored_line line = false ->
  (List.length (split ":" (strip line)) = 11%nat ->
   forall out,
     Convert.convert_record_line line false places = Ok out <->
     ConvertCoordinates.convert_line line = Ok out) /\
  (List.length (split ":" (strip line)) = 12%nat ->
   ConvertCoordinates.convert_line line = Raise E_odd_coord_count).
Proof.
  intro Hig. pose proof Hig as Hig'. unfold ignored_line in Hig'.
  apply orb_false_iff in Hig'. destruct Hig' as [Hb Hc].
  split.
  - intros H11 out.
    pose proof (generic_convert_line_ok line Hig) as G. cbv zeta in G.
    unfold Convert.convert_record_line. cbv zeta. rewrite Hb, H11.
    cbn [Nat.eqb orb negb].
    destruct (split ":" (strip line))
      as [|p0 [|p1 [|c2 [|c3 [|c4 [|c5 [|c6 [|c7 [|c8 [|c9 [|p10 [|x rest]]]]]]]]]]]];
      try discriminate H11.
    specialize (G ltac:(cbn [List.length]; lia) eq_refl out).
    cbn [skipn removelast firstn last] in G.
    rewrite G. clear G.
    pose proof (eight_forward places p0 p1 c2 c3 c4 c5 c6 c7 c8 c9 [p10]) as E.
    destruct (Convert.convert_fields (seq 0 8) false places _ _) as [o|e];
      cbn [bind].
    + split.
      * intro H. injection H as <-.
        destruct (proj1 (E o) eq_refl) as (vs & Hvs & ->).
        exists vs. split; [exact Hvs | reflexivity].
      * intros (vs & Hvs & ->).
        assert (Eo : Ok o = Ok (p0 :: p1 :: vs ++ [p10])%list).
        { apply (proj2 (E _)). exists vs. split; [exact Hvs | reflexivity]. }
        injection Eo as ->. reflexivity.
    + split; [discriminate|].
      intros (vs & Hvs & _).
      assert (Eo : Raise e = Ok (p0 :: p1 :: vs ++ [p10])%list).
      { apply (proj2 (E _)). exists vs. split; [exact Hvs | reflexivity]. }
      discriminate Eo.
  - intro H12. unfold ConvertCoordinates.convert_line. cbv zeta.
    rewrite Hb, Hc, length_removelast, length_skipn, H12. reflexivity.
Qed.

(** The first 11 fields of the sample record, and the sample record. *)
Lemma transcoders_agree_witness :
  ConvertCoordinates.convert_line
    "EBBR:25L:50.9008489:4.4756856:50.9:4.4:50.8:4.5:50.7:4.6:12"
  = Ok "EBBR:25L:N050.54.03.056:E004.28.32.468:N050.54.00.000:E004.24.00.000:N050.48.00.000:E004.30.00.000:N050.42.00.000:E004.36.00.000:12" /\
  ConvertCoordinates.convert_line sample_record = Raise E_odd_coord_count.
Proof.
  split.
  - apply (proj1 (transcoders_agree
                    "EBBR:25L:50.9008489:4.4756856:50.9:4.4:50.8:4.5:50.7:4.6:12"
                    7 eq_refl)).
    + vm_compute. reflexivity.
    + vm_compute. reflexivity.
  - apply (proj2 (transcoders_agree sample_record 7 eq_refl)).
    vm_compute. reflexivity.
Defined.

(** ** The loop of [main] in convert-coordinates.py *)

(** A record is never converted to the empty text. *)
Lemma generic_convert_line_empty (line l : string) :
  ConvertCoordinates.convert_line line = Ok l ->
  (ignored_line line = true /\ l = EmptyString) \/
  (ignored_line line = false /\ is_empty l = false).
Proof.
  unfold ConvertCoordinates.convert_line, ignored_line. cbv zeta.
  destruct (is_empty (strip line));
    [intro H; injection H as <-; left; split; reflexivity|].
  destruct (starts_with "#" (strip line));
    [intro H; injection H as <-; left; split; reflexivity|].
  destruct (Nat.ltb_spec (List.length (split ":" (strip line))) 5) as [|Hlen];
    [discriminate|].
  destruct (negb _); [discriminate|].
  destruct (ConvertCoordinates.convert_pairs _) as [out|]; [|discriminate].
  cbn [bind orb]. intro H. injection H as <-. right. split; [reflexivity|].
  destruct (split ":" (strip line)) as [|p0 [|p1 rest]];
    try (cbn [List.length] in Hlen; lia).
  cbn [firstn app].
  change (join ":" (p0 :: p1 :: (out ++ [last (p0 :: p1 :: rest) EmptyString])%list))
    with (p0 ++ String ":" (join ":" (p1 :: (out ++ [last (p0 :: p1 :: rest) EmptyString])%list))).
  destruct p0; reflexivity.
Qed.

Lemma generic_main_loop_acc (raws : list string) :
  forall (out0 out : list string),
    ConvertCoordinates.main_loop raws out0 = Ok out ->
    exists ls,
      out = (out0 ++ ls)%list /\
      Forall2 (fun raw l => ConvertCoordinates.convert_line raw = Ok l)
        (filter (fun raw => negb (ignored_line raw)) raws) ls.
Proof.
  induction raws as [|raw raws IH]; intros out0 out H.
  - injection H as <-. exists []. rewrite app_nil_r.
    split; [reflexivity | constructor].
  - cbn [ConvertCoordinates.main_loop] in H.
    destruct (ConvertCoordinates.convert_line raw) as [l|] eqn:E; [|discriminate H].
    cbn [bind] in H. cbn [filter].
    destruct (generic_convert_line_empty raw l E) as [[Hi ->]|[Hi Hl]];
      rewrite Hi; cbn [negb].
    + cbn [is_empty] in H. destruct (IH _ _ H) as (ls & -> & F).
      exists ls. split; [reflexivity | exact F].
    + rewrite Hl in H. destruct (IH _ _ H) as (ls & -> & F).
      exists (l :: ls). split; [rewrite <- app_assoc; reflexivity|].
      constructor; [exact E | exact F].
Qed.

Lemma generic_main_loop_raise (raws : list string) :
  forall (out0 : list string) (e : error),
    ConvertCoordinates.main_loop raws out0 = Raise e ->
    exists pre raw post,
      raws = (pre ++ raw :: post)%list /\
      Forall (fun r => exists l, ConvertCoordinates.convert_line r = Ok l) pre /\
      ConvertCoordinates.convert_line raw = Raise e.
Proof.
  induction raws as [|raw raws IH]; intros out0 e H.
  - discriminate H.
  - cbn [ConvertCoordinates.main_loop] in H.
    destruct (ConvertCoordinates.convert_line raw) as [l|e1] eqn:E.
    + cbn [bind] in H.
      assert (Hrec : exists acc, ConvertCoordinates.main_loop raws acc = Raise e).
      { destruct (is_empty l); eexists; exact H. }
      destruct Hrec as [acc Hacc].
      destruct (IH _ _ Hacc) as (pre & r & post & -> & F & Er).
      exists (raw :: pre), r, post. split; [reflexivity|].
      split; [|exact Er]. constructor; [exists l; exact E | exact F].
    + cbn [bind] in H. injection H as <-. exists [], raw, raws.
      split; [reflexivity|]. split; [constructor | exact E].
Qed.

(** X11.  When [main] of convert-coordinates.py writes a text, the text
    holds one line for every input line that is neither blank nor a comment,
    in the order of the input, each as [convert_line] converts it; blank
    lines and comments leave nothing in the output, and no record is
    dropped.  When some line fails, [main] raises the error of the first
    such line and returns no text. *)
Theorem generic_main_lines (i : input) :
  (forall text,
      ConvertCoordinates.main i = Ok text ->
      exists out_lines,
        text = ConvertCoordinates.output_text out_lines /\
        Forall2 (fun raw l => ConvertCoordinates.convert_line raw = Ok l)
          (filter (fun raw => negb (ignored_line raw)) (iter_input_lines i))
          out_lines /\
        List.length out_lines
        = List.length (filter (fun raw => negb (ignored_line raw))
                         (iter_input_lines i))) /\
  (forall e,
      ConvertCoordinates.main i = Raise e ->
      exists pre raw post,
        iter_input_lines i = (pre ++ raw :: post)%list /\
        Forall (fun r => exists l, ConvertCoordinates.convert_line r = Ok l) pre /\
        ConvertCoordinates.convert_line raw = Raise e).
Proof.
  split.
  - intros text. unfold ConvertCoordinates.main.
    destruct (ConvertCoordinates.main_loop (iter_input_lines i) []) as [out|] eqn:E;
      [|discriminate].
    cbn [bind]. intro H. injection H as <-.
    destruct (generic_main_loop_acc _ _ _ E) as (ls & -> & F).
    cbn [app]. exists ls. split; [reflexivity|]. split; [exact F|].
    symmetry. apply (Forall2_length F).
  - intros e. unfold ConvertCoordinates.main.
    destruct (ConvertCoordinates.main_loop (iter_input_lines i) []) as [out|e'] eqn:E;
      [discriminate|].
    cbn [bind]. intro H. injection H as <-.
    apply (generic_main_loop_raise _ _ _ E).
Qed.

(** A comment, a record and a blank line. *)
Lemma generic_main_lines_witness :
  exists out_lines,
    "KXYZ:09:N050.54.03.056:E004.28.32.468:TAIL" ++ nl
    = ConvertCoordinates.output_text out_lines /\
    List.length out_lines = 1%nat.
Proof.
  destruct (proj1 (generic_main_lines
                     (Lines ["# generic" ++ nl;
                             "KXYZ:09:50.9008489:4.4756856:TAIL" ++ nl; nl]))
              ("KXYZ:09:N050.54.03.056:E004.28.32.468:TAIL" ++ nl))
    as (out_lines & Et & _ & L).
  - vm_compute. reflexivity.
  - exists out_lines. split; [exact Et | exact L].
Defined.

End GenericMain.

Section GeoJsonFile.

(** ** The features of a file *)

Lemma convert_lines_acc (lines : list string) :
  forall (lineno : nat) (fs0 fs : list GeoJson.feature),
    GeoJson.convert_lines lineno lines fs0 = Ok fs ->
    fs = (fs0 ++ flat_map line_features lines)%list /\
    Forall (fun l => exists r, GeoJson.parse_line l = Ok r) lines.
Proof.
  induction lines as [|line lines IH]; intros lineno fs0 fs H.
  - injection H as <-. rewrite app_nil_r. split; [reflexivity | constructor].
  - cbn [GeoJson.convert_lines] in H. cbn [flat_map]. unfold line_features at 1.
    destruct (GeoJson.parse_line line) as [[feat|]|e] eqn:E; [| |discriminate H].
    + destruct (IH _ _ _ H) as [-> F]. split.
      * rewrite <- app_assoc. reflexivity.
      * constructor; [exists (Some feat); exact E | exact F].
    + destruct (IH _ _ _ H) as [-> F]. split; [reflexivity|].
      constructor; [exists None; exact E | exact F].
Qed.

Lemma convert_lines_raise (lines : list string) :
  forall (lineno : nat) (fs0 : list GeoJson.feature) (e : error),
    GeoJson.convert_lines lineno lines fs0 = Raise e ->
    exists pre line post inner,
      lines = (pre ++ line :: post)%list /\
      e = E_line (lineno + List.length pre) inner /\
      GeoJson.parse_line line = Raise inner /\
      Forall (fun l => exists r, GeoJson.parse_line l = Ok r) pre.
Proof.
  induction lines as [|line lines IH]; intros lineno fs0 e H.
  - discriminate H.
  - cbn [GeoJson.convert_lines] in H.
    destruct (GeoJson.parse_line line) as [r|e1] eqn:E.
    + assert (Hrec : exists acc,
                GeoJson.convert_lines (S lineno) lines acc = Raise e).
      { destruct r; eexists; exact H. }
      destruct Hrec as [acc Hacc].
      destruct (IH _ _ _ Hacc) as (pre & l & post & inner & -> & -> & Er & F).
      exists (line :: pre), l, post, inner.
      split; [reflexivity|]. split; [cbn [List.length]; f_equal; lia|].
      split; [exact Er|]. constructor; [exists r; exact E | exact F].
    + injection H as <-. exists [], line, lines, e1.
      split; [reflexivity|]. split; [cbn [List.length]; f_equal; lia|].
      split; [exact E | constructor].
Qed.

(** X12.  When [convert_file] returns, its features are those of the
    input lines in input order, one for each line from which [parse_line]
    builds a feature and none for the lines it skips.  When it raises, no
    feature is returned: the error is a [ValueError] that carries the
    number, counted from 1, of the first line on which [parse_line] raises,
    and the error of that line. *)
Theorem convert_file_lines (lines : list string) :
  (forall fs,
      GeoJson.convert_file lines = Ok fs ->
      fs = flat_map line_features lines /\
      Forall (fun l => exists r, GeoJson.parse_line l = Ok r) lines /\
      (List.length fs <= List.length lines)%nat) /\
  (forall e,
      GeoJson.convert_file lines = Raise e ->
      exists pre line post inner,
        lines = (pre ++ line :: post)%list /\
        e = E_line (S (List.length pre)) inner /\
        class_of e = ValueError /\
        GeoJson.parse_line line = Raise inner /\
        Forall (fun l => exists r, GeoJson.parse_line l = Ok r) pre).
Proof.
  split.
  - intros fs H. unfold GeoJson.convert_file in H.
    destruct (convert_lines_acc _ _ _ _ H) as [-> F]. cbn [app].
    split; [reflexivity|]. split; [exact F|].
    clear. induction lines as [|l lines IH]; [cbn; lia|].
    cbn [flat_map]. rewrite length_app. unfold line_features at 1.
    destruct (GeoJson.parse_line l) as [[f|]|]; cbn [List.length]; lia.
  - intros e H. unfold GeoJson.convert_file in H.
    destruct (convert_lines_raise _ _ _ _ H) as (pre & l & post & inner & E & -> & Er & F).
    exists pre, l, post, inner. repeat split; assumption.
Qed.

(** A file of a comment, a segment and a line with one coordinate pair. *)
Lemma convert_file_lines_witness :
  exists pre line post inner,
    ["# apron"; sample_segment_line; "ELLX:24:49.6:6.2:8"]
    = (pre ++ line :: post)%list /\
    E_line 3 E_bad_coord_count = E_line (S (List.length pre)) inner /\
    class_of (E_line 3 E_bad_coord_count) = ValueError /\
    GeoJson.parse_line line = Raise inner /\
    Forall (fun l => exists r, GeoJson.parse_line l = Ok r) pre.
Proof.
  apply (proj2 (convert_file_lines
                  ["# apron"; sample_segment_line; "ELLX:24:49.6:6.2:8"])).
  vm_compute. reflexivity.
Defined.

End GeoJsonFile.

Section FeatureProperties.

(** ** Trimming twice *)

Lemma lstrip_head (s : string) :
  lstrip s = EmptyString \/
  exists c r, lstrip s = String c r /\ is_space c = false.
Proof.
  induction s as [|c r IH]; [left; reflexivity|].
  cbn [lstrip]. destruct (is_space c) eqn:E; [exact IH|].
  right. exists c, r. split; [reflexivity | exact E].
Qed.

Lemma rstrip_with_idem (p : ascii -> bool) (s : string) :
  rstrip_with p (rstrip_with p s) = rstrip_with p s.
Proof.
  induction s as [|c r IH]; [reflexivity|].
  cbn [rstrip_with].
  destruct (is_empty (rstrip_with p r) && p c) eqn:E; [reflexivity|].
  cbn [rstrip_with]. rewrite IH, E. reflexivity.
Qed.

(** [s.strip().strip()] is [s.strip()]. *)
Lemma strip_idem (s : string) : strip (strip s) = strip s.
Proof.
  unfold strip at 2 3.
  destruct (lstrip_head s) as [->|(c & r & -> & Hc)]; [reflexivity|].
  destruct (rstrip_keeps_head c r Hc) as (r' & E & _).
  rewrite E. unfold strip. cbn [lstrip]. rewrite Hc.
  rewrite <- E. apply rstrip_with_idem.
Qed.

Lemma contains_lstrip (c : ascii) (s : string) :
  contains c s = false -> contains c (lstrip s) = false.
Proof.
  induction s as [|a r IH]; [reflexivity|].
  cbn [lstrip contains]. intro H. apply orb_false_iff in H. destruct H as [Ha Hr].
  destruct (is_space a); [apply IH; exact Hr|].
  cbn [contains]. rewrite Ha, Hr. reflexivity.
Qed.

Lemma contains_rstrip_with (p : ascii -> bool) (c : ascii) (s : string) :
  contains c s = false -> contains c (rstrip_with p s) = false.
Proof.
  induction s as [|a r IH]; [reflexivity|].
  cbn [rstrip_with contains]. intro H. apply orb_false_iff in H.
  destruct H as [Ha Hr].
  destruct (is_empty (rstrip_with p r) && p a); [reflexivity|].
  cbn [contains]. rewrite Ha, (IH Hr). reflexivity.
Qed.

Lemma contains_strip (c : ascii) (s : string) :
  contains c s = false -> contains c (strip s) = false.
Proof.
  intro H. unfold strip, rstrip. apply contains_rstrip_with, contains_lstrip, H.
Qed.

(** ** The properties of a feature *)

Lemma remarks_fields (field : string) :
  Forall (fun r => is_empty r = false /\ strip r = r /\ contains "," r = false)
    (filter (fun r => negb (is_empty r)) (map strip (split "," field))).
Proof.
  pose proof (split_fields_no_sep "," field) as F.
  induction (split "," field) as [|g l IH]; [constructor|].
  inversion F as [|? ? Hg Hl]; subst.
  cbn [map filter]. destruct (is_empty (strip g)) eqn:E; cbn [negb].
  - apply IH. exact Hl.
  - constructor; [|apply IH; exact Hl].
    split; [exact E|]. split; [apply strip_idem | apply contains_strip; exact Hg].
Qed.

(** X13.  A feature that [parse_line] builds keeps the trimmed line as
    [raw] and the trimmed first two fields as airport and runway.  It has
    remarks exactly when the last field holds a comma: they are the
    comma-separated pieces of that field, trimmed, and none of them is
    empty, has surrounding whitespace or holds a comma; the taxitime is
    then read from the field before, and from the last field otherwise. *)
Theorem parse_line_properties (line : string) (feat : GeoJson.feature) :
  GeoJson.parse_line line = Ok (Some feat) ->
  let parts := split ":" (strip line) in
  let rest := skipn 2 parts in
  GeoJson.f_raw feat = strip line /\
  strip (GeoJson.f_raw feat) = GeoJson.f_raw feat /\
  GeoJson.f_airport feat = strip (nth 0 parts EmptyString) /\
  GeoJson.f_runway feat = strip (nth 1 parts EmptyString) /\
  (contains "," (last rest EmptyString) = false ->
   GeoJson.f_remarks feat = None /\
   GeoJson.f_taxitime feat
   = GeoJson.parse_taxitime (strip (last rest EmptyString))) /\
  (contains "," (last rest EmptyString) = true ->
   exists rs,
     GeoJson.f_remarks feat = Some rs /\
     rs = filter (fun r => negb (is_empty r))
            (map strip (split "," (last rest EmptyString))) /\
     Forall (fun r => is_empty r = false /\ strip r = r /\ contains "," r = false)
       rs /\
     GeoJson.f_taxitime feat
     = GeoJson.parse_taxitime (strip (last (removelast rest) EmptyString))).
Proof.
  intros H parts rest. unfold GeoJson.parse_line in H. cbv zeta in H.
  destruct (is_empty (strip line) || starts_with "#" (strip line));
    [discriminate H|].
  fold parts in H.
  destruct (List.length parts <? 3)%nat; [discriminate H|].
  fold rest in H. unfold GeoJson.split_remarks in H.
  destruct rest as [|r0 rest0] eqn:Er; [discriminate H|].
  rewrite <- Er in *.
  destruct (contains "," (last rest EmptyString)) eqn:Hc.
  - destruct (removelast rest) as [|q0 q] eqn:Eq; [discriminate H|].
    rewrite <- Eq in *.
    destruct ((List.length (removelast (removelast rest)) <? 4)%nat
              || negb (Nat.even (List.length (removelast (removelast rest)))));
      [discriminate H|].
    destruct (GeoJson.read_coords _) as [coords|]; [|discriminate H].
    cbn [bind] in H. injection H as <-. cbn.
    split; [reflexivity|]. split; [apply strip_idem|].
    split; [reflexivity|]. split; [reflexivity|].
    split; [discriminate|]. intros _.
    eexists. split; [reflexivity|]. split; [reflexivity|].
    split; [apply remarks_fields | reflexivity].
  - rewrite Er in H. rewrite <- Er in H.
    destruct ((List.length (removelast rest) <? 4)%nat
              || negb (Nat.even (List.length (removelast rest))));
      [discriminate H|].
    destruct (GeoJson.read_coords _) as [coords|]; [|discriminate H].
    cbn [bind] in H. injection H as <-. cbn.
    split; [reflexivity|]. split; [apply strip_idem|].
    split; [reflexivity|]. split; [reflexivity|].
    split; [intros _; split; reflexivity | discriminate].
Qed.

(** The polygon line of the samples, with two remarks. *)
Lemma parse_line_properties_witness :
  exists feat,
    GeoJson.parse_line sample_polygon_line = Ok (Some feat) /\
    GeoJson.f_airport feat = "EBBR" /\
    GeoJson.f_remarks feat = Some ["rem1"; "rem2"] /\
    GeoJson.f_taxitime feat = GeoJson.TaxiInt 12.
Proof.
  destruct (GeoJson.parse_line sample_polygon_line) as [[feat|]|] eqn:E;
    try (vm_compute in E; discriminate E).
  destruct (parse_line_properties sample_polygon_line feat E)
    as (_ & _ & Ha & _ & _ & Hr).
  destruct (Hr ltac:(vm_compute; reflexivity)) as (rs & Er & Ers & _ & Et).
  exists feat. split; [reflexivity|].
  split; [rewrite Ha; vm_compute; reflexivity|].
  split; [rewrite Er, Ers; vm_compute; reflexivity|].
  rewrite Et. vm_compute. reflexivity.
Defined.

End FeatureProperties.

Section RunwayGeoJson.

(** ** Runway records as GeoJSON input *)

(** [read_coords] returns exactly when every token reads as a float. *)
Lemma read_coords_ok (n : nat) :
  forall tokens,
    List.length tokens = (2 * n)%nat ->
    ((exists coords, GeoJson.read_coords tokens = Ok coords) <->
     forallb Convert.looks_like_decimal tokens = true) /\
    (forall e, GeoJson.read_coords tokens = Raise e -> e = E_float_syntax).
Proof.
  induction n as [|n IH]; intros tokens Hlen.
  - destruct tokens; [|discriminate Hlen]. split.
    + split; [reflexivity | intros _; exists []; reflexivity].
    + discriminate.
  - destruct tokens as [|lat_s [|lon_s rest]]; try (cbn in Hlen; lia).
    assert (Hl : List.length rest = (2 * n)%nat) by (cbn in Hlen; lia).
    destruct (IH rest Hl) as [IH1 IH2].
    cbn [GeoJson.read_coords forallb].
    unfold Convert.looks_like_decimal at 1 2. unfold GeoJson._to_float.
    destruct (float_of_string (strip lat_s)) as [lat|e1] eqn:E1.
    2:{ cbn [bind andb]. split.
        - split; [intros [c H]; discriminate H | discriminate].
        - intros e H. injection H as <-. apply (float_of_string_raise _ _ E1). }
    destruct (float_of_string (strip lon_s)) as [lon|e2] eqn:E2.
    2:{ cbn [bind andb]. split.
        - split; [intros [c H]; discriminate H | discriminate].
        - intros e H. injection H as <-. apply (float_of_string_raise _ _ E2). }
    cbn [bind andb].
    destruct (GeoJson.read_coords rest) as [cs|e3] eqn:E3; cbn [bind].
    + split.
      * split; [intros _; apply IH1; exists cs; reflexivity|].
        intros _. eexists. reflexivity.
      * discriminate.
    + split.
      * split; [intros [c H]; discriminate H|].
        intro H. apply IH1 in H. destruct H as [c H]. discriminate H.
      * intros e H. injection H as <-. apply IH2. reflexivity.
Qed.

(** [parse_line] on a line whose fields after the runway are eight
    coordinates and a taxitime, once the remarks are set apart. *)
Lemma parse_line_eight (line : string)
    (p0 p1 c2 c3 c4 c5 c6 c7 c8 c9 p10 : string) (extra : list string)
    (remarks : option (list string)) :
  ignored_line line = false ->
  split ":" (strip line)
  = p0 :: p1 :: c2 :: c3 :: c4 :: c5 :: c6 :: c7 :: c8 :: c9 :: p10 :: extra ->
  GeoJson.split_remarks (c2 :: c3 :: c4 :: c5 :: c6 :: c7 :: c8 :: c9 :: p10 :: extra)
  = (remarks, [c2; c3; c4; c5; c6; c7; c8; c9; p10]) ->
  GeoJson.parse_line line =
  (coords <- GeoJson.read_coords [c2; c3; c4; c5; c6; c7; c8; c9] ;;
   Ok (Some (GeoJson.mkFeature
               (GeoJson.Polygon [(coords ++ [nth 0 coords origin])%list])
               (strip p0) (strip p1) (GeoJson.parse_taxitime (strip p10))
               remarks (strip line)))).
Proof.
  intros Hig Ep Hs. unfold GeoJson.parse_line. cbv zeta.
  unfold ignored_line in Hig. rewrite Hig, Ep.
  cbn [List.length Nat.ltb Nat.leb skipn nth]. rewrite Hs.
  cbn [last removelast List.length Nat.ltb Nat.leb Nat.even orb negb].
  destruct (GeoJson.read_coords [c2; c3; c4; c5; c6; c7; c8; c9]) as [coords|] eqn:E;
    [|reflexivity].
  cbn [bind].
  destruct (read_coords_spec 4 [c2; c3; c4; c5; c6; c7; c8; c9] coords eq_refl E)
      as [L _].
  unfold GeoJson.choose_geometry. rewrite L. reflexivity.
Qed.

(** X14.  What geojson.py does with a runway record that is not a
    comment.  A record of 11 fields whose last field holds no comma, and a
    record of 12 fields whose last field holds one, give a feature exactly
    when the eight coordinate fields read as floats; the feature is a
    Polygon with a ring of 5 points, and these records are never skipped.
    A record of 12 fields whose remarks field holds no comma (a single
    remark), and a record of 11 fields whose taxitime holds a comma, raise
    the coordinate-count error. *)
Theorem geojson_on_runway_records (line : string) :
  ignored_line line = false ->
  let parts := split ":" (strip line) in
  let last_field := last parts EmptyString in
  ((List.length parts = 11%nat /\ contains "," last_field = false) \/
   (List.length parts = 12%nat /\ contains "," last_field = true) ->
   ((exists feat, GeoJson.parse_line line = Ok (Some feat)) <->
    forallb Convert.looks_like_decimal (slice 2 10 parts) = true) /\
   (forall feat,
      GeoJson.parse_line line = Ok (Some feat) ->
      exists ring,
        GeoJson.f_geometry feat = GeoJson.Polygon [ring] /\
        List.length ring = 5%nat /\
        (GeoJson.f_remarks feat = None <-> List.length parts = 11%nat)) /\
   GeoJson.parse_line line <> Ok None) /\
  ((List.length parts = 12%nat /\ contains "," last_field = false) \/
   (List.length parts = 11%nat /\ contains "," last_field = true) ->
   GeoJson.parse_line line = Raise E_bad_coord_count).
Proof.
  intros Hig parts last_field.
  assert (Hshape : forall remarks p0 p1 c2 c3 c4 c5 c6 c7 c8 c9 p10 extra,
    parts = p0 :: p1 :: c2 :: c3 :: c4 :: c5 :: c6 :: c7 :: c8 :: c9 :: p10 :: extra ->
    GeoJson.split_remarks (c2 :: c3 :: c4 :: c5 :: c6 :: c7 :: c8 :: c9 :: p10 :: extra)
    = (remarks, [c2; c3; c4; c5; c6; c7; c8; c9; p10]) ->
    ((exists feat, GeoJson.parse_line line = Ok (Some feat)) <->
     forallb Convert.looks_like_decimal [c2; c3; c4; c5; c6; c7; c8; c9] = true) /\
    (forall feat,
       GeoJson.parse_line line = Ok (Some feat) ->
       exists ring,
         GeoJson.f_geometry feat = GeoJson.Polygon [ring] /\
         List.length ring = 5%nat /\
         GeoJson.f_remarks feat = remarks) /\
    GeoJson.parse_line line <> Ok None).
  { intros remarks p0 p1 c2 c3 c4 c5 c6 c7 c8 c9 p10 extra Ep Hs.
    rewrite (parse_line_eight line p0 p1 c2 c3 c4 c5 c6 c7 c8 c9 p10 extra remarks
               Hig Ep Hs).
    destruct (read_coords_ok 4 [c2; c3; c4; c5; c6; c7; c8; c9] eq_refl) as [Hok _].
    destruct (GeoJson.read_coords [c2; c3; c4; c5; c6; c7; c8; c9]) as [coords|e] eqn:E;
      cbn [bind].
    - destruct (read_coords_spec 4 [c2; c3; c4; c5; c6; c7; c8; c9] coords eq_refl E)
      as [L _].
      split; [|split].
      + split; [intros _; apply Hok; exists coords; reflexivity|].
        intros _. eexists. reflexivity.
      + intros feat H. injection H as <-. cbn.
        eexists. split; [reflexivity|]. split; [|reflexivity].
        rewrite length_app, L. reflexivity.
      + discriminate.
    - split; [|split].
      + split; [intros [f H]; discriminate H|].
        intro H. apply Hok in H. destruct H as [c H]. discriminate H.
      + intros feat H. discriminate H.
      + discriminate. }
  split.
  - intros [[H11 Hc]|[H12 Hc]]; unfold last_field in Hc.
    + destruct parts
        as [|p0 [|p1 [|c2 [|c3 [|c4 [|c5 [|c6 [|c7 [|c8 [|c9 [|p10 [|x extra]]]]]]]]]]]]
        eqn:Ep; try discriminate H11.
      cbn [last] in Hc.
      destruct (Hshape None p0 p1 c2 c3 c4 c5 c6 c7 c8 c9 p10 [] eq_refl)
        as (A & B & C).
      { unfold GeoJson.split_remarks. cbn [last]. rewrite Hc. reflexivity. }
      split; [exact A|]. split; [|exact C].
      intros feat H. destruct (B feat H) as (ring & G & L & R).
      exists ring. split; [exact G|]. split; [exact L|].
      rewrite R. split; reflexivity.
    + destruct parts
        as [|p0 [|p1 [|c2 [|c3 [|c4 [|c5 [|c6 [|c7 [|c8 [|c9 [|p10 [|p11 [|x extra]]]]]]]]]]]]]
        eqn:Ep; try discriminate H12.
      cbn [last] in Hc.
      destruct (Hshape (Some (filter (fun r => negb (is_empty r))
                                (map strip (split "," p11))))
                  p0 p1 c2 c3 c4 c5 c6 c7 c8 c9 p10 [p11] eq_refl)
        as (A & B & C).
      { unfold GeoJson.split_remarks. cbn [last]. rewrite Hc. reflexivity. }
      split; [exact A|]. split; [|exact C].
      intros feat H. destruct (B feat H) as (ring & G & L & R).
      exists ring. split; [exact G|]. split; [exact L|].
      rewrite R. split; [discriminate | intro H'; discriminate H'].
  - unfold ignored_line in Hig.
    intros [[H12 Hc]|[H11 Hc]]; unfold last_field in Hc;
      unfold GeoJson.parse_line; cbv zeta; rewrite Hig; fold parts.
    + destruct parts
        as [|p0 [|p1 [|c2 [|c3 [|c4 [|c5 [|c6 [|c7 [|c8 [|c9 [|p10 [|p11 [|x extra]]]]]]]]]]]]]
        eqn:Ep; try discriminate H12.
      cbn [last] in Hc.
      cbn [List.length Nat.ltb Nat.leb skipn nth].
      unfold GeoJson.split_remarks. cbn [last]. rewrite Hc. reflexivity.
    + destruct parts
        as [|p0 [|p1 [|c2 [|c3 [|c4 [|c5 [|c6 [|c7 [|c8 [|c9 [|p10 [|x extra]]]]]]]]]]]]
        eqn:Ep; try discriminate H11.
      cbn [last] in Hc.
      cbn [List.length Nat.ltb Nat.leb skipn nth].
      unfold GeoJson.split_remarks. cbn [last]. rewrite Hc. reflexivity.
Qed.

(** The sample record, and the sample record with a single remark. *)
Lemma geojson_on_runway_records_witness :
  (exists feat, GeoJson.parse_line sample_record = Ok (Some feat)) /\
  GeoJson.parse_line
    "EBBR:25L:50.9008489:4.4756856:50.9:4.4:50.8:4.5:50.7:4.6:12:rem1"
  = Raise E_bad_coord_count.
Proof.
  split.
  - apply (proj1 (proj1 (geojson_on_runway_records sample_record eq_refl)
                    ltac:(right; split; vm_compute; reflexivity))).
    vm_compute. reflexivity.
  - apply (proj2 (geojson_on_runway_records
                    "EBBR:25L:50.9008489:4.4756856:50.9:4.4:50.8:4.5:50.7:4.6:12:rem1"
                    eq_refl)).
    left. split; vm_compute; reflexivity.
Defined.

End RunwayGeoJson.

Section ForwardOutput.

(** ** The output of [convert_record_line] as input *)

Lemma strip_head (s : string) :
  strip s = EmptyString \/
  exists c r, strip s = String c r /\ is_space c = false.
Proof.
  unfold strip.
  destruct (lstrip_head s) as [->|(c & r & -> & Hc)]; [left; reflexivity|].
  destruct (rstrip_keeps_head c r Hc) as (r' & E & _).
  right. exists c, r'. split; [exact E | exact Hc].
Qed.

(** A text whose first and last characters are not whitespace is its own
    trimmed form. *)
Lemma strip_trimmed (c : ascii) (r : string) :
  is_space c = false ->
  (forall d, last_char (String c r) = Some d -> is_space d = false) ->
  strip (String c r) = String c r.
Proof.
  intros Hc Hl. unfold strip. cbn [lstrip]. rewrite Hc.
  apply rstrip_with_keep. exact Hl.
Qed.

Lemma join_cons2 (sep : string) (a b : string) (l : list string) :
  join sep (a :: b :: l) = a ++ sep ++ join sep (b :: l).
Proof. reflexivity. Qed.

(** Two records with the same first and last fields are trimmed together. *)
Lemma strip_join_frame (p0 : string) (mid mid' : list string) (pl : string) :
  strip (join ":" (p0 :: mid ++ [pl])%list) = join ":" (p0 :: mid ++ [pl])%list ->
  strip (join ":" (p0 :: mid' ++ [pl])%list) = join ":" (p0 :: mid' ++ [pl])%list.
Proof.
  intro H.
  assert (Hf : forall m : list string,
             exists x l, (m ++ [pl])%list = x :: l).
  { intros [|x l]; [exists pl, []; reflexivity | exists x, (l ++ [pl])%list; reflexivity]. }
  assert (Hlast : forall (m : list string) d,
    last_char (join ":" (p0 :: m ++ [pl])%list) = Some d ->
    (pl = EmptyString /\ d = ":"%char) \/ (pl <> EmptyString /\ last_char pl = Some d)).
  { intros m d. change (p0 :: m ++ [pl])%list with ((p0 :: m) ++ [pl])%list.
    rewrite join_snoc by discriminate. rewrite !last_char_append.
    destruct pl as [|a pl'].
    - cbn [last_char]. intro E. left. split; [reflexivity|]. congruence.
    - destruct (last_char_some a pl') as [z Ez]. rewrite Ez.
      intro E. right. split; [discriminate | exact E]. }
  assert (Hfirst : forall m : list string,
    exists c r, join ":" (p0 :: m ++ [pl])%list = String c r /\
                ((p0 = EmptyString /\ c = ":"%char) \/
                 exists r0, p0 = String c r0)).
  { intro m. destruct (Hf m) as (x & l & E). rewrite E, join_cons2.
    destruct p0 as [|c r0].
    - eexists. eexists. split; [reflexivity|]. left. split; reflexivity.
    - eexists. eexists. split; [reflexivity|]. right. exists r0. reflexivity. }
  destruct (Hfirst mid) as (c & r & E & Hc).
  destruct (Hfirst mid') as (c' & r' & E' & Hc').
  assert (Ecc : c' = c).
  { destruct Hc as [[-> ->]|[r0 ->]], Hc' as [[Hp ->]|[r1 Hp]];
      try reflexivity; try discriminate Hp.
    injection Hp as -> _. reflexivity. }
  subst c'.
  assert (Sc : is_space c = false).
  { destruct (strip_head (join ":" (p0 :: mid ++ [pl])%list))
      as [Z|(a & t & Ea & Ha)]; rewrite H, E in *; [discriminate Z|].
    injection Ea as -> _. exact Ha. }
  rewrite E'. apply strip_trimmed; [exact Sc|].
  intros d Hd. rewrite <- E' in Hd.
  destruct (Hlast mid' d Hd) as [[_ ->]|[Hne Hl]]; [reflexivity|].
  apply (last_char_strip (join ":" (p0 :: mid ++ [pl])%list)).
  rewrite H.
  change (p0 :: mid ++ [pl])%list with ((p0 :: mid) ++ [pl])%list.
  rewrite join_snoc by discriminate. rewrite !last_char_append, Hl. reflexivity.
Qed.

(** The text that [convert_record_line] returns has no surrounding
    whitespace. *)
Lemma record_output_trimmed
    (line : string) (reverse : bool) (places : Z) (out : string) :
  is_empty (strip line) = false ->
  Convert.convert_record_line line reverse places = Ok out ->
  strip out = out.
Proof.
  intros Hne H.
  destruct (convert_record_line_split line reverse places out Hne H)
    as (p0 & p1 & c2 & c3 & c4 & c5 & c6 & c7 & c8 & c9 & p10 & rest
        & v2 & v3 & v4 & v5 & v6 & v7 & v8 & v9
        & Ep & Hr & _ & _ & _ & _ & _ & _ & _ & _ & -> & _).
  pose proof (join_split ":" (strip line)) as J. rewrite Ep in J.
  pose proof (strip_idem line) as I. rewrite <- J in I.
  destruct rest as [|r0 [|r1 rest]]; [| |cbn [List.length] in Hr; lia].
  - apply (strip_join_frame p0 [p1; c2; c3; c4; c5; c6; c7; c8; c9]
             [p1; v2; v3; v4; v5; v6; v7; v8; v9] p10). exact I.
  - apply (strip_join_frame p0 [p1; c2; c3; c4; c5; c6; c7; c8; c9; p10]
             [p1; v2; v3; v4; v5; v6; v7; v8; v9; p10] r0). exact I.
Qed.

Lemma float_of_string_is_double (s : string) (x : float) :
  float_of_string s = Ok x -> is_double x = true.
Proof.
  unfold float_of_string.
  destruct (negb (underscores_ok None s)); [discriminate|].
  destruct (split_sign (num_strip (remove_underscores s))) as [neg body].
  destruct (String.eqb (map_chars lower body) "inf"
            || String.eqb (map_chars lower body) "infinity");
    [intro H; injection H as <-; reflexivity|].
  destruct (String.eqb (map_chars lower body) "nan");
    [intro H; injection H as <-; reflexivity|].
  destruct (parse_decimal body) as [[m ex]|]; [|discriminate].
  intro H. injection H as <-.
  destruct neg; [apply opp_is_double|]; apply RN_is_double.
Qed.

Lemma decimal_to_dms_hem_finite (x : float) (is_lat : bool) (t : string) :
  Convert.decimal_to_dms_hem x is_lat = Ok t -> is_finite x = true.
Proof.
  unfold Convert.decimal_to_dms_hem.
  destruct (Convert.split_degrees x) as [r|] eqn:E; [|discriminate].
  intros _. apply (split_degrees_finite x r E).
Qed.

(** A coordinate field converted forwards from a value below 999 degrees
    looks like DMS and not like a decimal. *)
Lemma convert_field_forward_looks (places : Z) (is_lat : bool) (raw v : string) :
  Convert.convert_field false places is_lat raw = Ok v ->
  (forall x, float_of_string raw = Ok x -> (Qabs (fval x) < 999)%Q) ->
  Convert.looks_like_dms v = true /\ Convert.looks_like_decimal v = false.
Proof.
  unfold Convert.convert_field. intros H Hx.
  destruct (float_of_string raw) as [x|] eqn:E; [|discriminate H].
  cbn [bind] in H.
  pose proof (float_of_string_is_double raw x E) as Hd.
  pose proof (decimal_to_dms_hem_finite x is_lat v H) as Hf.
  destruct (forward_text_looks x is_lat Hd Hf) as (t & Et & Hdec & Hdms & _).
  rewrite H in Et. injection Et as <-.
  split; [apply Hdms, Hx; reflexivity | exact Hdec].
Qed.

(** X15.  A record that [convert_record_line] converts forwards, from
    coordinates below 999 degrees in magnitude, gives a text without
    surrounding whitespace on which [detect_mode] answers reverse: all 8
    coordinate fields of the output look like DMS and none like a decimal,
    so that [main] without [--force] converts the output back whatever
    [--reverse] says. *)
Theorem forward_output_detected (line : string) (places : Z) (out : string) :
  is_empty (strip line) = false ->
  Convert.convert_record_line line false places = Ok out ->
  (forall j x, (j < 8)%nat ->
     float_of_string (strip (nth (2 + j) (split ":" (strip line)) EmptyString))
     = Ok x ->
     (Qabs (fval x) < 999)%Q) ->
  strip out = out /\
  count Convert.looks_like_dms (slice 2 10 (split ":" (strip out))) = 8%nat /\
  count Convert.looks_like_decimal (slice 2 10 (split ":" (strip out))) = 0%nat /\
  Convert.detect_mode (split ":" (strip out)) = Some true.
Proof.
  intros Hne H Hsmall.
  pose proof (record_output_trimmed line false places out Hne H) as Ht.
  destruct (convert_record_line_split line false places out Hne H)
    as (p0 & p1 & c2 & c3 & c4 & c5 & c6 & c7 & c8 & c9 & p10 & rest
        & v2 & v3 & v4 & v5 & v6 & v7 & v8 & v9
        & Ep & Hr & E2 & E3 & E4 & E5 & E6 & E7 & E8 & E9 & _ & Es).
  rewrite Ep in Hsmall.
  destruct (convert_field_forward_looks _ _ _ _ E2 (fun x => Hsmall 0%nat x ltac:(lia)))
    as [A2 B2'].
  destruct (convert_field_forward_looks _ _ _ _ E3 (fun x => Hsmall 1%nat x ltac:(lia)))
    as [A3 B3'].
  destruct (convert_field_forward_looks _ _ _ _ E4 (fun x => Hsmall 2%nat x ltac:(lia)))
    as [A4 B4'].
  destruct (convert_field_forward_looks _ _ _ _ E5 (fun x => Hsmall 3%nat x ltac:(lia)))
    as [A5 B5'].
  destruct (convert_field_forward_looks _ _ _ _ E6 (fun x => Hsmall 4%nat x ltac:(lia)))
    as [A6 B6'].
  destruct (convert_field_forward_looks _ _ _ _ E7 (fun x => Hsmall 5%nat x ltac:(lia)))
    as [A7 B7'].
  destruct (convert_field_forward_looks _ _ _ _ E8 (fun x => Hsmall 6%nat x ltac:(lia)))
    as [A8 B8'].
  destruct (convert_field_forward_looks _ _ _ _ E9 (fun x => Hsmall 7%nat x ltac:(lia)))
    as [A9 B9'].
  split; [exact Ht|]. rewrite Ht, Es.
  unfold Convert.detect_mode, slice, count.
  cbn [skipn firstn Nat.sub filter].
  rewrite A2, A3, A4, A5, A6, A7, A8, A9, B2', B3', B4', B5', B6', B7', B8', B9'.
  cbn [filter]. repeat split.
Qed.

(** The sample record. *)
Lemma forward_output_detected_witness :
  Convert.detect_mode (split ":" (strip sample_dms_record)) = Some true.
Proof.
  assert (E : Convert.convert_record_line sample_record false 7
              = Ok sample_dms_record) by (vm_compute; reflexivity).
  apply (forward_output_detected sample_record 7 sample_dms_record eq_refl E).
  intros j x Hj.
  do 8 (destruct j as [|j];
        [intro Hx; vm_compute in Hx; injection Hx as <-; vm_compute; reflexivity|]).
  lia.
Defined.

End ForwardOutput.

Section DecimalText.

(** ** Reading back what [format_decimal] wrote *)

Lemma num_char_cases (c : ascii) :
  num_char c = true -> Ascii.eqb c "_" = false /\ is_space c = false.
Proof.
  unfold num_char. intro H. apply orb_true_iff in H. destruct H as [H|H].
  - apply orb_true_iff in H. destruct H as [H|H].
    + split; [apply is_digit_neq; [exact H | reflexivity]|].
      apply is_digit_not_space in H. unfold not_space in H.
      apply negb_true_iff in H. exact H.
    + apply Ascii.eqb_eq in H. subst c. split; reflexivity.
  - apply Ascii.eqb_eq in H. subst c. split; reflexivity.
Qed.

Lemma not_underscore_match (A : Type) (prev : option ascii) (x y : A) :
  (forall p, prev = Some p -> Ascii.eqb p "_" = false) ->
  match prev with
  | Some "_"%char => x
  | _ => y
  end = y.
Proof.
  intro H. destruct prev as [p|]; [|reflexivity].
  specialize (H p eq_refl).
  destruct p as [[] [] [] [] [] [] [] []]; try reflexivity; discriminate H.
Qed.

Lemma underscores_ok_num (s : string) :
  all_chars num_char s = true ->
  forall prev, (forall p, prev = Some p -> Ascii.eqb p "_" = false) ->
               underscores_ok prev s = true.
Proof.
  induction s as [|c r IH]; intros A prev Hp.
  - cbn [underscores_ok]. apply not_underscore_match. exact Hp.
  - cbn [all_chars] in A. apply andb_true_iff in A. destruct A as [Ac Ar].
    destruct (num_char_cases c Ac) as [Hu _].
    cbn [underscores_ok]. rewrite Hu.
    rewrite (not_underscore_match bool prev (is_digit c) true Hp).
    cbn [andb]. apply IH; [exact Ar|].
    intros p E. injection E as <-. exact Hu.
Qed.

Lemma remove_underscores_num (s : string) :
  all_chars num_char s = true -> remove_underscores s = s.
Proof.
  induction s as [|c r IH]; [reflexivity|].
  cbn [all_chars remove_underscores]. intro A.
  apply andb_true_iff in A. destruct A as [Ac Ar].
  destruct (num_char_cases c Ac) as [Hu _]. rewrite Hu, (IH Ar). reflexivity.
Qed.

Lemma strip_num (s : string) : all_chars num_char s = true -> strip s = s.
Proof.
  intro A. apply strip_no_space. apply all_chars_impl with (2 := A).
  intros c Hc. destruct (num_char_cases c Hc) as [_ Hs].
  unfold not_space. rewrite Hs. reflexivity.
Qed.

Lemma num_strip_num (s : string) :
  all_chars num_char s = true -> num_strip s = s.
Proof.
  intro A. apply num_strip_no_space. apply all_chars_impl with (2 := A).
  intros c Hc. destruct (num_char_cases c Hc) as [_ Hs].
  unfold not_space. rewrite Hs. reflexivity.
Qed.

Lemma digits_num (s : string) :
  all_chars is_digit s = true -> all_chars num_char s = true.
Proof.
  intro A. apply all_chars_impl with (2 := A).
  intros c Hc. unfold num_char. rewrite Hc. reflexivity.
Qed.

Lemma span_digits_all (a b : string) :
  all_chars is_digit a = true ->
  match b with
  | EmptyString => True
  | String c _ => is_digit c = false
  end ->
  span_digits (a ++ b) = (a, b).
Proof.
  intros A Hb. induction a as [|c r IH].
  - cbn [append]. destruct b as [|c r]; [reflexivity|].
    cbn [span_digits]. rewrite Hb. reflexivity.
  - cbn [all_chars] in A. apply andb_true_iff in A. destruct A as [Ac Ar].
    cbn [append span_digits]. rewrite Ac, (IH Ar). reflexivity.
Qed.

Lemma digits_value_shift (s : string) :
  forall a, digits_value a s = a * 10 ^ Z.of_nat (String.length s) + digits_value 0 s.
Proof.
  induction s as [|c r IH]; intro a.
  - cbn [digits_value String.length]. change (10 ^ Z.of_nat 0) with 1. lia.
  - cbn [digits_value String.length].
    rewrite (IH (10 * a + digit_val c)), (IH (10 * 0 + digit_val c)).
    rewrite Nat2Z.inj_succ, Z.pow_succ_r by lia. ring.
Qed.

(** [float] on a numeral: an optional minus sign, digits, and an optional
    point with digits. *)
Lemma float_of_string_numeral (neg : bool) (whole fd : string) (point : bool) :
  all_chars is_digit whole = true -> whole <> EmptyString ->
  all_chars is_digit fd = true -> (point = false -> fd = EmptyString) ->
  float_of_string
    ((if neg then "-" else EmptyString) ++ whole
     ++ (if point then String "." fd else EmptyString))
  = Ok (decimal_value neg (digits_value 0 (whole ++ fd))
          (Z.of_nat (String.length fd))).
Proof.
  intros Aw Hw Af Hp.
  set (tail := if point then String "." fd else EmptyString).
  set (body := whole ++ tail).
  assert (At : all_chars num_char tail = true).
  { unfold tail. destruct point; [|reflexivity].
    cbn [all_chars]. rewrite (digits_num fd Af). reflexivity. }
  assert (Ab : all_chars num_char body = true).
  { unfold body. rewrite all_chars_append, (digits_num whole Aw), At. reflexivity. }
  assert (Atext : all_chars num_char ((if neg then "-" else EmptyString) ++ body) = true).
  { destruct neg; [cbn [append all_chars]; rewrite Ab; reflexivity | exact Ab]. }
  fold body. unfold float_of_string.
  rewrite (underscores_ok_num _ Atext None) by discriminate.
  cbn [negb]. rewrite (remove_underscores_num _ Atext), (num_strip_num _ Atext).
  destruct whole as [|d w]; [contradiction|].
  cbn [all_chars] in Aw. apply andb_true_iff in Aw. destruct Aw as [Ad Aw].
  assert (Esign : split_sign ((if neg then "-" else EmptyString) ++ body) = (neg, body)).
  { destruct neg; [reflexivity|]. cbn [append]. unfold body. cbn [append].
    apply split_sign_digit. exact Ad. }
  rewrite Esign.
  assert (Ew : exists t, map_chars lower body = String d t).
  { unfold body. cbn [append map_chars]. rewrite (lower_digit d Ad).
    eexists. reflexivity. }
  destruct Ew as [t Ew]. rewrite Ew.
  cbn [String.eqb].
  rewrite (is_digit_neq d "i" Ad eq_refl), (is_digit_neq d "n" Ad eq_refl).
  cbn [orb].
  assert (Eparse : parse_decimal body
                   = Some (digits_value 0 (String d w ++ fd),
                           0 - Z.of_nat (String.length fd))).
  { unfold parse_decimal, body.
    assert (Hs1 : span_digits (String d w ++ tail) = (String d w, tail)).
    { apply span_digits_all.
      - cbn [all_chars]. rewrite Ad, Aw. reflexivity.
      - unfold tail. destruct point; [reflexivity | exact I]. }
    rewrite Hs1. unfold tail. destruct point.
    - rewrite <- (append_nil_r fd) at 1.
      rewrite (span_digits_all fd EmptyString Af I).
      cbn [is_empty andb parse_exponent]. reflexivity.
    - rewrite (Hp eq_refl). cbn [is_empty andb parse_exponent]. reflexivity. }
  rewrite Eparse. unfold decimal_value.
  replace (0 - Z.of_nat (String.length fd)) with (- Z.of_nat (String.length fd)) by lia.
  reflexivity.
Qed.

Lemma zfill_digits (w : nat) (n : Z) :
  0 <= n < 10 ^ Z.of_nat w -> (0 < w)%nat ->
  all_chars is_digit (zfill w (Z_to_dec n)) = true /\
  String.length (zfill w (Z_to_dec n)) = w /\
  digits_value 0 (zfill w (Z_to_dec n)) = n.
Proof.
  intros Hn Hw.
  destruct (fmt_0d_spec w n ltac:(lia)) as (A & _ & V).
  pose proof (proj1 (fmt_0d_length w n ltac:(lia) Hw) ltac:(lia)) as L.
  unfold fmt_0d in A, V, L.
  destruct (Z.ltb_spec n 0) as [C|_]; [lia|].
  split; [exact A|]. split; [exact L | exact V].
Qed.

(** The text of [format_fixed] on a finite float. *)
Lemma format_fixed_shape (x : float) (places : Z) (text : string) :
  is_finite x = true -> format_fixed x places = Ok text ->
  exists (whole fd : string) (point : bool),
    text = (if sign x then "-" else EmptyString) ++ whole
           ++ (if point then String "." fd else EmptyString) /\
    all_chars is_digit whole = true /\ whole <> EmptyString /\
    all_chars is_digit fd = true /\ (point = false -> fd = EmptyString) /\
    digits_value 0 (whole ++ fd)
    = PyFloat.Qround_half_even (Qabs (fval x) * 10 ^ places)%Q /\
    Z.of_nat (String.length fd) = places.
Proof.
  intros Hf. unfold format_fixed.
  destruct ((places <? 0) || (2147483647 <? places)) eqn:B; [discriminate|].
  apply orb_false_iff in B. destruct B as [B _]. apply Z.ltb_ge in B.
  set (n := PyFloat.Qround_half_even (Qabs (fval x) * 10 ^ places)%Q).
  assert (Hn : 0 <= n).
  { unfold n. apply Qround_half_even_nonneg.
    apply Qmult_le_0_compat; [apply Qabs_nonneg|].
    apply Qpower_pos. discriminate. }
  assert (Hp : 0 < 10 ^ places) by (apply Z.pow_pos_nonneg; lia).
  assert (Etext :
    (if sign x then "-" else EmptyString) ++ Z_to_dec (n / 10 ^ places) ++
    (if places =? 0 then EmptyString
     else String "." (zfill (Z.to_nat places) (Z_to_dec (n mod 10 ^ places))))
    = text ->
    exists (whole fd : string) (point : bool),
      text = (if sign x then "-" else EmptyString) ++ whole
             ++ (if point then String "." fd else EmptyString) /\
      all_chars is_digit whole = true /\ whole <> EmptyString /\
      all_chars is_digit fd = true /\ (point = false -> fd = EmptyString) /\
      digits_value 0 (whole ++ fd) = n /\
      Z.of_nat (String.length fd) = places).
  { intros <-.
    destruct (Z_to_dec_spec (n / 10 ^ places) ltac:(apply Z.div_pos; lia))
      as (Aw & Lw & Vw).
    assert (Hw : Z_to_dec (n / 10 ^ places) <> EmptyString).
    { intro E. rewrite E in Lw. cbn [String.length] in Lw. lia. }
    destruct (Z.eqb_spec places 0) as [E0|N0].
    - exists (Z_to_dec (n / 10 ^ places)), EmptyString, false.
      split; [reflexivity|]. split; [exact Aw|]. split; [exact Hw|].
      split; [reflexivity|]. split; [reflexivity|].
      split; [|cbn [String.length]; lia].
      rewrite append_nil_r, Vw. subst places.
      change (10 ^ 0) with 1. apply Z.div_1_r.
    - assert (Hnat : (0 < Z.to_nat places)%nat) by lia.
      assert (Hm : 0 <= n mod 10 ^ places < 10 ^ Z.of_nat (Z.to_nat places)).
      { rewrite Z2Nat.id by lia. apply Z.mod_pos_bound. exact Hp. }
      destruct (zfill_digits (Z.to_nat places) (n mod 10 ^ places) Hm Hnat)
        as (Af & Lf & Vf).
      exists (Z_to_dec (n / 10 ^ places)),
        (zfill (Z.to_nat places) (Z_to_dec (n mod 10 ^ places))), true.
      split; [reflexivity|]. split; [exact Aw|]. split; [exact Hw|].
      split; [exact Af|]. split; [discriminate|].
      split; [|rewrite Lf; lia].
      rewrite digits_value_append, Vw, digits_value_shift, Vf, Lf.
      rewrite Z2Nat.id by lia.
      rewrite Z.mul_comm. symmetry. apply Z.div_mod. lia. }
  destruct x as [q| |b|]; try discriminate Hf;
    intro H; injection H as H; apply Etext; exact H.
Qed.

Lemma format_fixed_finite (x : float) (places : Z) (text : string) :
  is_finite x = true -> format_fixed x places = Ok text ->
  float_of_string text
  = Ok (decimal_value (sign x)
          (PyFloat.Qround_half_even (Qabs (fval x) * 10 ^ places)%Q) places) /\
  strip text = text.
Proof.
  intros Hf H.
  destruct (format_fixed_shape x places text Hf H)
    as (whole & fd & point & -> & Aw & Hw & Af & Hp & V & L).
  split.
  - rewrite (float_of_string_numeral (sign x) whole fd point Aw Hw Af Hp), V, L.
    reflexivity.
  - apply strip_num. rewrite !all_chars_append, (digits_num whole Aw).
    assert (At : all_chars num_char (if point then String "." fd else EmptyString)
                 = true).
    { destruct point; [|reflexivity].
      cbn [all_chars]. rewrite (digits_num fd Af). reflexivity. }
    rewrite At. destruct (sign x); reflexivity.
Qed.

(** What the detector says of a text of [format_decimal]. *)
Lemma format_decimal_looks (x : float) (places : Z) (text : string) :
  Convert.format_decimal x places = Ok text ->
  Convert.looks_like_decimal text = true /\ Convert.looks_like_dms text = false.
Proof.
  unfold Convert.format_decimal. intro H.
  assert (Hdec : Convert.looks_like_decimal text = true).
  { destruct (is_finite x) eqn:Hf.
    - destruct (format_fixed_finite x places text Hf H) as [E Es].
      unfold Convert.looks_like_decimal. rewrite Es, E. reflexivity.
    - unfold format_fixed in H.
      destruct ((places <? 0) || (2147483647 <? places)); [discriminate H|].
      destruct x as [q| |[|]|]; try discriminate Hf; injection H as <-;
        reflexivity. }
  split; [exact Hdec|].
  destruct (Convert.looks_like_dms text) eqn:D; [|reflexivity].
  apply dms_not_decimal in D. rewrite Hdec in D. discriminate D.
Qed.

(** X16.  Every text that [format_decimal] returns reads as a decimal
    number for the detector and does not match its DMS pattern.  For a
    finite value the text is the value rounded to [places] decimals, ties to
    even, and [float] reads it back as the double nearest to that decimal,
    with the sign of the value. *)
Theorem format_decimal_reads_back (x : float) (places : Z) (text : string) :
  Convert.format_decimal x places = Ok text ->
  Convert.looks_like_decimal text = true /\
  Convert.looks_like_dms text = false /\
  (is_finite x = true ->
   float_of_string text
   = Ok (decimal_value (sign x)
           (PyFloat.Qround_half_even (Qabs (fval x) * 10 ^ places)%Q) places)).
Proof.
  intro H. destruct (format_decimal_looks x places text H) as [A B].
  split; [exact A|]. split; [exact B|].
  intro Hf. apply (format_fixed_finite x places text Hf H).
Qed.

(** The latitude 50.9008489 with 7 and with 3 places. *)
Lemma format_decimal_reads_back_witness :
  float_of_string "50.9008489" = Ok (decimal_value false 509008489 7) /\
  float_of_string "50.901" = Ok (decimal_value false 50901 3).
Proof.
  split.
  - apply (format_decimal_reads_back (RN (509008489 # 10000000)) 7 "50.9008489");
      vm_compute; reflexivity.
  - apply (format_decimal_reads_back (RN (509008489 # 10000000)) 3 "50.901");
      vm_compute; reflexivity.
Defined.

End DecimalText.

Section ReverseOutput.

(** ** The output of the reverse conversion as input *)

Lemma convert_field_reverse_looks (places : Z) (is_lat : bool) (raw v : string) :
  Convert.convert_field true places is_lat raw = Ok v ->
  Convert.looks_like_decimal v = true /\ Convert.looks_like_dms v = false.
Proof.
  unfold Convert.convert_field. intro H.
  destruct (Convert.dms_hem_to_decimal raw is_lat) as [dec|]; [|discriminate H].
  cbn [bind] in H. apply (format_decimal_looks dec places v H).
Qed.

(** X17.  Every record that [convert_record_line] converts in reverse
    gives a text without surrounding whitespace on which [detect_mode]
    answers forward: all 8 coordinate fields of the output read as decimal
    numbers and none matches the DMS pattern. *)
Theorem reverse_output_detected (line : string) (places : Z) (out : string) :
  is_empty (strip line) = false ->
  Convert.convert_record_line line true places = Ok out ->
  strip out = out /\
  count Convert.looks_like_decimal (slice 2 10 (split ":" (strip out))) = 8%nat /\
  count Convert.looks_like_dms (slice 2 10 (split ":" (strip out))) = 0%nat /\
  Convert.detect_mode (split ":" (strip out)) = Some false.
Proof.
  intros Hne H.
  pose proof (record_output_trimmed line true places out Hne H) as Ht.
  destruct (convert_record_line_split line true places out Hne H)
    as (p0 & p1 & c2 & c3 & c4 & c5 & c6 & c7 & c8 & c9 & p10 & rest
        & v2 & v3 & v4 & v5 & v6 & v7 & v8 & v9
        & Ep & Hr & E2 & E3 & E4 & E5 & E6 & E7 & E8 & E9 & _ & Es).
  destruct (convert_field_reverse_looks _ _ _ _ E2) as [A2 B2'].
  destruct (convert_field_reverse_looks _ _ _ _ E3) as [A3 B3'].
  destruct (convert_field_reverse_looks _ _ _ _ E4) as [A4 B4'].
  destruct (convert_field_reverse_looks _ _ _ _ E5) as [A5 B5'].
  destruct (convert_field_reverse_looks _ _ _ _ E6) as [A6 B6'].
  destruct (convert_field_reverse_looks _ _ _ _ E7) as [A7 B7'].
  destruct (convert_field_reverse_looks _ _ _ _ E8) as [A8 B8'].
  destruct (convert_field_reverse_looks _ _ _ _ E9) as [A9 B9'].
  split; [exact Ht|]. rewrite Ht, Es.
  unfold Convert.detect_mode, slice, count.
  cbn [skipn firstn Nat.sub filter].
  rewrite A2, A3, A4, A5, A6, A7, A8, A9, B2', B3', B4', B5', B6', B7', B8', B9'.
  cbn [filter]. repeat split.
Qed.

(** The DMS form of the sample record, converted back with 7 places. *)
Lemma reverse_output_detected_witness :
  exists out,
    Convert.convert_record_line sample_dms_record true 7 = Ok out /\
    Convert.detect_mode (split ":" (strip out)) = Some false.
Proof.
  destruct (Convert.convert_record_line sample_dms_record true 7) as [out|] eqn:E;
    [|vm_compute in E; discriminate E].
  exists out. split; [reflexivity|].
  apply (reverse_output_detected sample_dms_record 7 out eq_refl E).
Defined.

End ReverseOutput.

Section DmsDecimalDms.

Open Scope Q_scope.

(** ** From DMS to decimal text and back *)

(** [dms_value] below 1000 degrees: the error of the six float operations. *)
Lemma dms_value_small (h : ascii) (D M sec msec : Z) :
  (0 <= D <= 999)%Z -> (0 <= M < 60)%Z -> (0 <= sec < 60)%Z ->
  (0 <= msec < 1000)%Z ->
  exists dec,
    Convert.dms_value h D M sec msec =
      Ok (if negative_hem h then opp dec else dec) /\
    is_finite dec = true /\
    Qabs (fval dec - dms_exact D M sec msec) <= 1 # 4398046511104.
Proof.
  intros HD HM HS HK.
  assert (S53 : forall z, (0 <= z <= 1000)%Z -> (Z.abs z < 2 ^ 53)%Z).
  { intros z Hz. change (2 ^ 53)%Z with 9007199254740992%Z. lia. }
  destruct (of_int_small msec (S53 msec ltac:(lia))) as (fK & EK & FK & VK).
  destruct (of_int_small sec (S53 sec ltac:(lia))) as (fS & ES & FS & VS).
  destruct (of_int_small M (S53 M ltac:(lia))) as (fM & EM & FM & VM).
  destruct (of_int_small D (S53 D ltac:(lia))) as (fD & ED & FD & VD).
  destruct (inject_Z_bounds msec 0 999 ltac:(lia)) as [K0 K1].
  destruct (inject_Z_bounds sec 0 59 ltac:(lia)) as [S0 S1].
  destruct (inject_Z_bounds M 0 59 ltac:(lia)) as [M0 M1].
  destruct (inject_Z_bounds D 0 999 ltac:(lia)) as [D0 D1].
  change (inject_Z 0) with 0 in *. change (inject_Z 999) with 999 in *.
  change (inject_Z 59) with 59 in *.
  assert (Bms : Qabs (fval fK / fval (Fin 1000)) < 2 ^ 0).
  { change (fval (Fin 1000)) with 1000. unfold Qdiv.
    change (/ 1000) with (1 # 1000). change (2 ^ 0) with 1.
    rewrite VK. apply Qabs_lt_of_bounds; lra. }
  destruct (div_err fK (Fin 1000) 0 FK eq_refl range_0 eq_refl Bms) as [Fms Ems].
  change (fval (Fin 1000)) with 1000 in Ems. unfold Qdiv in Ems.
  change (/ 1000) with (1 # 1000) in Ems.
  change (2 ^ (0 - 54)) with (1 # 18014398509481984) in Ems.
  rewrite VK in Ems. apply Qabs_Qle_condition in Ems.
  set (ms := div fK (Fin 1000)) in *.
  assert (Bsec : Qabs (fval fS + fval ms) < 2 ^ 6).
  { change (2 ^ 6) with 64. rewrite VS. apply Qabs_lt_of_bounds; lra. }
  destruct (add_err fS ms 6 FS Fms range_6 Bsec) as [Fsec Esec].
  change (2 ^ (6 - 54)) with (1 # 281474976710656) in Esec.
  rewrite VS in Esec. apply Qabs_Qle_condition in Esec.
  set (seconds := add fS ms) in *.
  assert (Bm : Qabs (fval fM / fval (Fin 60)) < 2 ^ 0).
  { change (fval (Fin 60)) with 60. unfold Qdiv.
    change (/ 60) with (1 # 60). change (2 ^ 0) with 1.
    rewrite VM. apply Qabs_lt_of_bounds; lra. }
  destruct (div_err fM (Fin 60) 0 FM eq_refl range_0 eq_refl Bm) as [Fm Em].
  change (fval (Fin 60)) with 60 in Em. unfold Qdiv in Em.
  change (/ 60) with (1 # 60) in Em.
  change (2 ^ (0 - 54)) with (1 # 18014398509481984) in Em.
  rewrite VM in Em. apply Qabs_Qle_condition in Em.
  set (m := div fM (Fin 60)) in *.
  assert (Bdm : Qabs (fval fD + fval m) < 2 ^ 10).
  { change (2 ^ 10) with 1024. rewrite VD. apply Qabs_lt_of_bounds; lra. }
  destruct (add_err fD m 10 FD Fm range_10 Bdm) as [Fdm Edm].
  change (2 ^ (10 - 54)) with (1 # 17592186044416) in Edm.
  rewrite VD in Edm. apply Qabs_Qle_condition in Edm.
  set (dm := add fD m) in *.
  assert (Bs : Qabs (fval seconds / fval (Fin 3600)) < 2 ^ 0).
  { change (fval (Fin 3600)) with 3600. unfold Qdiv.
    change (/ 3600) with (1 # 3600). change (2 ^ 0) with 1.
    apply Qabs_lt_of_bounds; lra. }
  destruct (div_err seconds (Fin 3600) 0 Fsec eq_refl range_0 eq_refl Bs) as [Fs Es].
  change (fval (Fin 3600)) with 3600 in Es. unfold Qdiv in Es.
  change (/ 3600) with (1 # 3600) in Es.
  change (2 ^ (0 - 54)) with (1 # 18014398509481984) in Es.
  apply Qabs_Qle_condition in Es.
  set (s := div seconds (Fin 3600)) in *.
  assert (Bdec : Qabs (fval dm + fval s) < 2 ^ 10).
  { change (2 ^ 10) with 1024. apply Qabs_lt_of_bounds; lra. }
  destruct (add_err dm s 10 Fdm Fs range_10 Bdec) as [Fdec Edec].
  change (2 ^ (10 - 54)) with (1 # 17592186044416) in Edec.
  apply Qabs_Qle_condition in Edec.
  exists (add dm s).
  split.
  { unfold Convert.dms_value. rewrite EK. cbn [bind].
    rewrite (truediv_finite fK (Fin 1000) eq_refl). cbn [bind].
    rewrite ES. cbn [bind]. rewrite EM. cbn [bind].
    rewrite (truediv_finite fM (Fin 60) eq_refl). cbn [bind].
    rewrite ED. cbn [bind].
    rewrite (truediv_finite _ (Fin 3600) eq_refl). cbn [bind].
    reflexivity. }
  split; [exact Fdec|].
  unfold dms_exact. apply Qabs_Qle_condition. split; lra.
Qed.

Lemma sign_positive (x : float) :
  is_finite x = true -> 0 < fval x -> sign x = false /\ sign (opp x) = true.
Proof.
  intros Hf Hp. destruct x as [q| |b|]; try discriminate Hf.
  - simpl in Hp. split.
    + simpl. apply Qlt_bool_false_iff. lra.
    + unfold opp. destruct (Qeq_bool q 0) eqn:Z0.
      * apply Qeq_bool_iff in Z0. lra.
      * simpl. apply Qlt_bool_iff. lra.
  - simpl in Hp. lra.
Qed.

Lemma format_fixed_total (x : float) (places : Z) :
  (0 <= places <= 2147483647)%Z -> exists text, format_fixed x places = Ok text.
Proof.
  intro Hp. unfold format_fixed.
  destruct (Z.ltb_spec places 0) as [C|_]; [lia|].
  destruct (Z.ltb_spec 2147483647 places) as [C|_]; [lia|].
  cbn [orb]. destruct x as [q| |b|]; eexists; reflexivity.
Qed.

(** Rounding a value in [(0, 1000)] to at least 7 decimals and reading the
    decimal as a double moves it by little more than half a unit of the
    seventh decimal. *)
Lemma decimal_value_close (a : Q) (places : Z) :
  (7 <= places)%Z -> (1 # 10000000) <= a -> a < 1000 ->
  let r := RN (inject_Z (Qround_half_even (a * 10 ^ places)) * 10 ^ (- places)) in
  is_finite r = true /\ 0 < fval r /\
  Qabs (fval r - a) <= (1 # 20000000) + (1 # 17592186044416).
Proof.
  intros Hp Ha0 Ha1 r.
  set (P := 10 ^ places). set (iP := 10 ^ (- places)).
  assert (PP : 0 < P) by (apply Qpower_0_lt; reflexivity).
  assert (PiP : 0 < iP) by (apply Qpower_0_lt; reflexivity).
  assert (EiP : iP * P == 1).
  { unfold iP, P. rewrite Qpower_opp. field. fold P. lra. }
  assert (LiP : iP <= 1 # 10000000).
  { change (1 # 10000000) with (10 ^ (-7)). unfold iP.
    apply Qpower_le_compat_l; [lia | discriminate]. }
  set (n := Qround_half_even (a * P)).
  destruct (Qround_half_even_spec (a * P)) as [R1 R2]. fold n in R1, R2.
  set (u := inject_Z n - a * P).
  assert (Hu : u == inject_Z n - a * P) by reflexivity.
  assert (Ed : inject_Z n * iP - a == u * iP).
  { unfold u. setoid_replace a with (a * (iP * P)) at 1 by (rewrite EiP; ring).
    ring. }
  assert (U1 : u * iP <= (1 # 2) * iP) by (apply Qmult_le_compat_r; lra).
  assert (U2 : (- (1 # 2)) * iP <= u * iP) by (apply Qmult_le_compat_r; lra).
  assert (Bd : Qabs (inject_Z n * iP) < 2 ^ 10).
  { change (2 ^ 10) with 1024. apply Qabs_lt_of_bounds; lra. }
  destruct (RN_err (inject_Z n * iP) 10 Bd range_10) as [Fr Er].
  change (2 ^ (10 - 54)) with (1 # 17592186044416) in Er.
  apply Qabs_Qle_condition in Er.
  assert (Hr : r = RN (inject_Z n * iP)) by reflexivity.
  rewrite Hr.
  split; [exact Fr|]. split; [lra|].
  apply Qabs_Qle_condition. split; lra.
Qed.

(** One field from DMS to decimal text and back. *)
Lemma field_round_trip
    (is_lat : bool) (h : ascii) (D M sec msec places : Z) :
  hem_of_axis is_lat h = true ->
  (0 <= D <= 999)%Z -> (0 <= M < 60)%Z -> (0 <= sec < 60)%Z ->
  (0 <= msec < 1000)%Z -> (7 <= places <= 2147483647)%Z ->
  exists dtext,
    Convert.convert_field true places is_lat
      (dms_text (String h EmptyString) D M sec msec) = Ok dtext /\
    strip dtext = dtext /\
    Convert.convert_field false places is_lat dtext =
      Ok (dms_text
            (String (if zero_fields D M sec msec then positive_hem is_lat else h)
               EmptyString)
            D M sec msec).
Proof.
  intros Hh HD HM HS HK Hp.
  assert (HD' : (0 <= D < 2 ^ 1024)%Z).
  { split; [lia|]. apply Z.le_lt_trans with (2 ^ 53 - 1)%Z.
    - change (2 ^ 53 - 1)%Z with 9007199254740991%Z. lia.
    - apply Z.lt_trans with (2 ^ 53)%Z; [lia|]. apply Z.pow_lt_mono_r; lia. }
  unfold Convert.convert_field.
  rewrite (dms_hem_to_decimal_text is_lat h D M sec msec Hh HD' HM HS HK).
  destruct (zero_fields D M sec msec) eqn:Z0.
  - apply zero_fields_true in Z0. destruct Z0 as (-> & -> & -> & ->).
    assert (E0 : exists v, Convert.dms_value h 0 0 0 0 = Ok v /\
                           (v = Fin 0 \/ v = NegZero)).
    { destruct (hem_of_axis_cases _ _ Hh) as [-> | [-> | [-> | ->]]];
        eexists; (split; [vm_compute; reflexivity|]); auto. }
    destruct E0 as (v & Eval & Ev). rewrite Eval. cbn [bind].
    unfold Convert.format_decimal.
    assert (Fv : is_finite v = true) by (destruct Ev as [-> | ->]; reflexivity).
    destruct (format_fixed_total v places ltac:(lia)) as [dtext Ef].
    destruct (format_fixed_finite v places dtext Fv Ef) as [Ey Es].
    exists dtext. split; [exact Ef|]. split; [exact Es|].
    rewrite Ey. cbn [bind].
    assert (En : Qround_half_even (Qabs (fval v) * 10 ^ places) = 0%Z).
    { assert (E0 : Qabs (fval v) * 10 ^ places == inject_Z 0).
      { destruct Ev as [-> | ->]; simpl fval; change (Qabs 0) with 0;
          change (inject_Z 0) with 0; ring. }
      rewrite (Qround_half_even_comp _ _ E0). apply Qround_half_even_Z. }
    rewrite En. unfold decimal_value.
    assert (Er : RN (inject_Z 0 * 10 ^ (- places)) = Fin 0).
    { rewrite (RN_comp _ 0); [reflexivity|]. change (inject_Z 0) with 0. ring. }
    rewrite Er.
    destruct Ev as [-> | ->]; destruct is_lat; vm_compute; reflexivity.
  - destruct (dms_value_small h D M sec msec HD HM HS HK)
      as (dec & Eval & Fdec & Edec).
    rewrite Eval. cbn [bind]. unfold Convert.format_decimal.
    set (v := if negative_hem h then opp dec else dec) in *.
    destruct (opp_finite dec Fdec) as [Fo Vo].
    assert (Fv : is_finite v = true).
    { unfold v. destruct (negative_hem h); assumption. }
    destruct (format_fixed_total v places ltac:(lia)) as [dtext Ef].
    destruct (format_fixed_finite v places dtext Fv Ef) as [Ey Es].
    exists dtext. split; [exact Ef|]. split; [exact Es|].
    rewrite Ey. cbn [bind].
    pose proof (zero_fields_false D M sec msec ltac:(lia) ltac:(lia) ltac:(lia)
                  ltac:(lia) Z0) as HN.
    pose proof (dms_exact_thousandths D M sec msec) as EX.
    set (X := dms_exact D M sec msec) in *.
    assert (N1 : 1 <= inject_Z (3600000 * D + 60000 * M + 1000 * sec + msec)).
    { change 1 with (inject_Z 1). apply inject_Z_le. exact HN. }
    assert (XU : X <= 1000 - (1 # 3600000)).
    { unfold X, dms_exact.
      destruct (inject_Z_bounds msec 0 999 ltac:(lia)) as [K0 K1].
      destruct (inject_Z_bounds sec 0 59 ltac:(lia)) as [S0 S1].
      destruct (inject_Z_bounds M 0 59 ltac:(lia)) as [M0 M1].
      destruct (inject_Z_bounds D 0 999 ltac:(lia)) as [D0 D1].
      change (inject_Z 0) with 0 in *. change (inject_Z 999) with 999 in *.
      change (inject_Z 59) with 59 in *. lra. }
    apply Qabs_Qle_condition in Edec.
    assert (Pdec : 0 < fval dec) by lra.
    destruct (sign_positive dec Fdec Pdec) as [Sd So].
    assert (Sv : sign v = negative_hem h).
    { unfold v. destruct (negative_hem h); assumption. }
    assert (Av : Qabs (fval v) == fval dec).
    { unfold v. destruct (negative_hem h).
      - rewrite Vo, Qabs_opp. apply Qabs_pos. lra.
      - apply Qabs_pos. lra. }
    assert (En : Qround_half_even (Qabs (fval v) * 10 ^ places)
                 = Qround_half_even (fval dec * 10 ^ places)).
    { apply Qround_half_even_comp. rewrite Av. reflexivity. }
    rewrite En, Sv. unfold decimal_value.
    destruct (decimal_value_close (fval dec) places ltac:(lia) ltac:(lra) ltac:(lra))
      as (Fr & Pr & Cr).
    set (r := RN (inject_Z (Qround_half_even (fval dec * 10 ^ places))
                  * 10 ^ (- places))) in *.
    apply Qabs_Qle_condition in Cr.
    destruct (opp_finite r Fr) as [For Vor].
    pose proof (RN_is_double
                  (inject_Z (Qround_half_even (fval dec * 10 ^ places))
                   * 10 ^ (- places))) as Dr.
    fold r in Dr.
    set (y := if negative_hem h then opp r else r).
    assert (Fy : is_finite y = true).
    { unfold y. destruct (negative_hem h); assumption. }
    assert (Dy : is_double y = true).
    { unfold y. destruct (negative_hem h); [apply opp_is_double|]; exact Dr. }
    assert (Sy : Qlt_bool (fval y) 0 = negative_hem h).
    { unfold y. destruct (negative_hem h).
      - apply Qlt_bool_iff. rewrite Vor. lra.
      - apply Qlt_bool_false_iff. lra. }
    assert (Ay : Qabs (fval y) == fval r).
    { unfold y. destruct (negative_hem h).
      - rewrite Vor, Qabs_opp. apply Qabs_pos. lra.
      - apply Qabs_pos. lra. }
    apply (forward_recovers y is_lat h D M sec msec Fy Dy Hh); try lia;
      try assumption.
    fold X. rewrite Ay. apply Qabs_Qle_condition. split; lra.
Qed.

(** X18.  With 7 decimal places or more (7 is the default of
    [--decimal-places]; the format accepts up to [2^31 - 1]) a coordinate
    survives the way from DMS to decimal text and back: for a text
    [HDDD.MM.SS.mmm] with a letter of the axis, degrees up to 999, minutes
    and seconds below 60 and milliseconds below 1000, the reverse
    conversion of a field returns a decimal text, without surrounding
    whitespace, whose forward conversion is the text one started from.  The
    text of zero with S or W comes back with N or E. *)
Theorem dms_decimal_dms
    (is_lat : bool) (h : ascii) (D M sec msec places : Z) :
  hem_of_axis is_lat h = true ->
  (0 <= D <= 999)%Z -> (0 <= M < 60)%Z -> (0 <= sec < 60)%Z ->
  (0 <= msec < 1000)%Z -> (7 <= places <= 2147483647)%Z ->
  exists dtext,
    Convert.convert_field true places is_lat
      (dms_text (String h EmptyString) D M sec msec) = Ok dtext /\
    strip dtext = dtext /\
    Convert.convert_field false places is_lat dtext =
      Ok (dms_text
            (String (if zero_fields D M sec msec then positive_hem is_lat else h)
               EmptyString)
            D M sec msec).
Proof. apply field_round_trip. Qed.

(** The latitude N050.54.03.056 with the default 7 places. *)
Lemma dms_decimal_dms_witness :
  exists dtext,
    Convert.convert_field true 7 true
      (dms_text (String "N" EmptyString) 50 54 3 56) = Ok dtext /\
    strip dtext = dtext /\
    Convert.convert_field false 7 true dtext =
      Ok (dms_text (String "N" EmptyString) 50 54 3 56).
Proof.
  apply (dms_decimal_dms true "N" 50 54 3 56 7); first [reflexivity | lia].
Defined.

End DmsDecimalDms.

Section RecordRoundTrip.

(** ** A record from DMS to decimal and back *)

(** A canonical field goes to a decimal text and comes back. *)
Lemma canonical_field_round_trip (is_lat : bool) (c : string) (places : Z) :
  canonical_dms is_lat c -> 7 <= places <= 2147483647 ->
  exists d,
    Convert.convert_field true places is_lat (strip c) = Ok d /\
    Convert.convert_field false places is_lat (strip d) = Ok c.
Proof.
  intros (h & D & M & sec & msec & -> & Hh & HD & HM & HS & HK & Hz) Hp.
  destruct (field_round_trip is_lat h D M sec msec places Hh HD HM HS HK Hp)
    as (d & E1 & Es & E2).
  exists d. rewrite (dms_text_no_space is_lat h D M sec msec Hh) by lia.
  split; [exact E1|]. rewrite Es, E2.
  destruct (zero_fields D M sec msec) eqn:Z0; [|reflexivity].
  specialize (Hz eq_refl).
  destruct (hem_of_axis_cases _ _ Hh) as [-> | [-> | [-> | ->]]];
    destruct is_lat; try discriminate Hh; try discriminate Hz; reflexivity.
Qed.

(** X19.  A record of 11 or 12 fields whose 8 coordinate fields are DMS
    texts as [decimal_to_dms_hem] writes them (degrees up to 999, latitude
    and longitude letters in turn, and not the text of zero with S or W) is
    converted in reverse, with 7 decimal places or more (up to the
    [2^31 - 1] that the format accepts), to a record that the forward
    conversion turns into the trimmed input line again: nothing of the
    record is lost on the way through the decimal form. *)
Theorem record_round_trip (line : string) (places places' : Z) :
  is_empty (strip line) = false ->
  (List.length (split ":" (strip line)) = 11%nat \/
   List.length (split ":" (strip line)) = 12%nat) ->
  (forall j, (j < 8)%nat ->
     canonical_dms (Nat.even j) (nth (2 + j) (split ":" (strip line)) EmptyString)) ->
  7 <= places <= 2147483647 ->
  exists out,
    Convert.convert_record_line line true places = Ok out /\
    Convert.convert_record_line out false places' = Ok (strip line).
Proof.
  intros Hne Hn Hcan Hp.
  assert (Hlen : negb ((List.length (split ":" (strip line)) =? 11)
                       || (List.length (split ":" (strip line)) =? 12))%nat = false).
  { destruct Hn as [-> | ->]; reflexivity. }
  destruct (eleven_or_twelve _ Hlen)
    as (p0 & p1 & c2 & c3 & c4 & c5 & c6 & c7 & c8 & c9 & p10 & rest & Ep & Hr).
  rewrite Ep in Hcan.
  destruct (canonical_field_round_trip true c2 places (Hcan 0%nat ltac:(lia)) Hp)
    as (d2 & A2 & R2).
  destruct (canonical_field_round_trip false c3 places (Hcan 1%nat ltac:(lia)) Hp)
    as (d3 & A3 & R3).
  destruct (canonical_field_round_trip true c4 places (Hcan 2%nat ltac:(lia)) Hp)
    as (d4 & A4 & R4).
  destruct (canonical_field_round_trip false c5 places (Hcan 3%nat ltac:(lia)) Hp)
    as (d5 & A5 & R5).
  destruct (canonical_field_round_trip true c6 places (Hcan 4%nat ltac:(lia)) Hp)
    as (d6 & A6 & R6).
  destruct (canonical_field_round_trip false c7 places (Hcan 5%nat ltac:(lia)) Hp)
    as (d7 & A7 & R7).
  destruct (canonical_field_round_trip true c8 places (Hcan 6%nat ltac:(lia)) Hp)
    as (d8 & A8 & R8).
  destruct (canonical_field_round_trip false c9 places (Hcan 7%nat ltac:(lia)) Hp)
    as (d9 & A9 & R9).
  set (out := join ":" (p0 :: p1 :: d2 :: d3 :: d4 :: d5 :: d6 :: d7 :: d8 :: d9
                           :: p10 :: rest)).
  assert (E1 : Convert.convert_record_line line true places = Ok out).
  { unfold Convert.convert_record_line. cbv zeta. rewrite Hne, Hlen, Ep.
    rewrite convert_fields_eight, A2, A3, A4, A5, A6, A7, A8, A9. reflexivity. }
  exists out. split; [exact E1|].
  pose proof (record_output_trimmed line true places out Hne E1) as Ht.
  destruct (convert_record_line_split line true places out Hne E1)
    as (q0 & q1 & e2 & e3 & e4 & e5 & e6 & e7 & e8 & e9 & q10 & rest'
        & v2 & v3 & v4 & v5 & v6 & v7 & v8 & v9
        & Ep' & _ & B2 & B3 & B4 & B5 & B6 & B7 & B8 & B9 & _ & Es).
  rewrite Ep in Ep'.
  injection Ep' as <- <- <- <- <- <- <- <- <- <- <- <-.
  assert (Es' : split ":" out
                = p0 :: p1 :: d2 :: d3 :: d4 :: d5 :: d6 :: d7 :: d8 :: d9 :: p10 :: rest).
  { rewrite Es. congruence. }
  unfold Convert.convert_record_line. cbv zeta. rewrite Ht, Es'.
  assert (Hout : is_empty out = false).
  { unfold out. rewrite join_cons2. destruct p0; reflexivity. }
  rewrite Hout.
  assert (Hlen' : negb ((List.length (p0 :: p1 :: d2 :: d3 :: d4 :: d5 :: d6 :: d7 :: d8
                                        :: d9 :: p10 :: rest) =? 11)
                        || (List.length (p0 :: p1 :: d2 :: d3 :: d4 :: d5 :: d6 :: d7
                                           :: d8 :: d9 :: p10 :: rest) =? 12))%nat
                  = false).
  { destruct rest as [|r0 [|r1 rest]]; [reflexivity | reflexivity |].
    cbn [List.length] in Hr. lia. }
  rewrite Hlen', convert_fields_eight.
  unfold Convert.convert_field in R2, R3, R4, R5, R6, R7, R8, R9 |- *.
  rewrite R2, R3, R4, R5, R6, R7, R8, R9. cbn [bind].
  rewrite <- Ep, join_split. reflexivity.
Qed.

(** The DMS form of the sample record. *)
Lemma record_round_trip_witness :
  exists out,
    Convert.convert_record_line sample_dms_record true 7 = Ok out /\
    Convert.convert_record_line out false 7 = Ok (strip sample_dms_record).
Proof.
  apply (record_round_trip sample_dms_record 7 7).
  - reflexivity.
  - right. vm_compute. reflexivity.
  - intros j Hj.
    destruct j as [|j]; [exists "N"%char, 50, 54, 3, 56; repeat split;
                         first [reflexivity | lia | discriminate]|].
    destruct j as [|j]; [exists "E"%char, 4, 28, 32, 468; repeat split;
                         first [reflexivity | lia | discriminate]|].
    destruct j as [|j]; [exists "N"%char, 50, 54, 0, 0; repeat split;
                         first [reflexivity | lia | discriminate]|].
    destruct j as [|j]; [exists "E"%char, 4, 24, 0, 0; repeat split;
                         first [reflexivity | lia | discriminate]|].
    destruct j as [|j]; [exists "N"%char, 50, 48, 0, 0; repeat split;
                         first [reflexivity | lia | discriminate]|].
    destruct j as [|j]; [exists "E"%char, 4, 30, 0, 0; repeat split;
                         first [reflexivity | lia | discriminate]|].
    destruct j as [|j]; [exists "N"%char, 50, 42, 0, 0; repeat split;
                         first [reflexivity | lia | discriminate]|].
    destruct j as [|j]; [exists "E"%char, 4, 36, 0, 0; repeat split;
                         first [reflexivity | lia | discriminate]|].
    lia.
  - lia.
Defined.

End RecordRoundTrip.
